(** * pcdDecode: the Photo CD decoder core, embedded in Rocq

    This development follows [pcdDecode.cpp] and [pcdDecode.h] function by
    function.  Machine integers are [Z] with the wrap-around of their C type
    written out, C buffers are memories [Z -> Z] addressed by element index,
    an open [FILE *] is the bytes of the file with a read position, and a
    [throw] is the [Throw] constructor of a result type.  The build that is modelled is
    the default one: GPL code only ([mUseNonGPLCode] undefined), no
    [__debug], [UseFourPixels] defined, an LP64 target. *)

From Stdlib Require Import ZArith List String Ascii Bool Lia DecimalString.
Import ListNotations.
Local Open Scope string_scope.
Local Open Scope list_scope.
Local Open Scope Z_scope.

(** ** Machine integers *)

Module Int.

(** A value that its type can hold is left alone, any other wraps around.
    (The test makes the common case cheap to evaluate; the wrap-around
    formula alone gives the same function.) *)
Definition wrap (lo width x : Z) : Z :=
  if (lo <=? x) && (x <? lo + width) then x else (x - lo) mod width + lo.

(** [uint32_t] and [unsigned int]. *)
Definition u32 (x : Z) : Z := wrap 0 0x100000000 x.

(** [unsigned long] and [size_t] on an LP64 target. *)
Definition u64 (x : Z) : Z := wrap 0 0x10000000000000000 x.

(** [int32_t] and [int]. *)
Definition s32 (x : Z) : Z := wrap (-0x80000000) 0x100000000 x.

(** [ptrdiff_t] on an LP64 target. *)
Definition s64 (x : Z) : Z := wrap (-0x8000000000000000) 0x10000000000000000 x.

(** [uint16_t]. *)
Definition u16 (x : Z) : Z := wrap 0 0x10000 x.

(** [uint8_t]. *)
Definition u8 (x : Z) : Z := wrap 0 0x100 x.

(** [int8_t]: how a delta byte is read through an [int8_t *]. *)
Definition s8 (x : Z) : Z := wrap (-0x80) 0x100 x.

End Int.

(** ** Results of code that can throw *)

(** [Ok] is a normal return and [Throw] a C++ [throw] of a string literal.
    [Fault] is undefined behaviour that the code can reach (a read or a
    write through [NULL], a read outside a static array); no handler
    catches it.  [OutOfFuel] belongs to the model only:
    a [while] loop is a recursion on a bound, and the bound is shown never
    to be reached. *)
Inductive result (A : Type) : Type :=
| Ok (a : A)
| Throw (msg : string)
| Fault
| OutOfFuel.
Arguments Ok {A} a.
Arguments Throw {A} msg.
Arguments Fault {A}.
Arguments OutOfFuel {A}.

Definition bind {A B : Type} (r : result A) (k : A -> result B) : result B :=
  match r with
  | Ok a => k a
  | Throw msg => Throw msg
  | Fault => Fault
  | OutOfFuel => OutOfFuel
  end.

Notation "x <- r ;; k" := (bind r (fun x => k))
  (at level 61, r at next level, right associativity).

(** ** Loops

    The body of a [while] loop either goes round again with a new state or
    leaves the loop with a result. *)
Inductive loopStep (S R : Type) : Type :=
| Again (s : S)
| Leave (r : R).
Arguments Again {S R} s.
Arguments Leave {S R} r.

(** At most [2 ^ fuel] turns of a loop. *)
Fixpoint while {S R : Type} (fuel : nat) (body : S -> loopStep S R) (s : S)
  : loopStep S R :=
  match fuel with
  | O => body s
  | S fuel' =>
      match while fuel' body s with
      | Again s' => while fuel' body s'
      | Leave r => Leave r
      end
  end.

(** A statement of the body that can throw: the loop goes on when it
    returns and is left when it does not. *)
Definition turn {S : Type} (r : result S) : loopStep S (result S) :=
  match r with
  | Ok s => Again s
  | Throw msg => Leave (Throw msg)
  | Fault => Leave Fault
  | OutOfFuel => Leave OutOfFuel
  end.

Definition runLoop {S : Type} (fuel : nat) (body : S -> loopStep S (result S)) (s : S)
  : result S :=
  match while fuel body s with
  | Leave r => r
  | Again _ => OutOfFuel
  end.

(** ** Memories

    A C buffer is a memory from element index to element; a store is a
    pointwise update.  A [NULL] pointer is [None]. *)

Definition mem : Type := Z -> Z.

Definition store (m : mem) (i v : Z) : mem :=
  fun j => if j =? i then v else m j.

(** ** Definition tables *)

Definition KSectorSize : Z := 0x800.
Definition kSceneSectorSize : Z := KSectorSize.
Definition kNumThreads : Z := 8.

(** [enum PCDResolutions]. *)
Definition kBase16 : Z := 0.
Definition kBase4 : Z := 1.
Definition kBase : Z := 2.
Definition k4Base : Z := 3.
Definition k16Base : Z := 4.
Definition k64Base : Z := 5.
Definition kMaxScenes : Z := 6.

(** [enum PCDUpResMethodTags]. *)
Definition kUpResNearest : Z := 0.
Definition kUpResIterpolate : Z := 1.
Definition kUpResLumaIterpolate : Z := 2.

(** [enum PCDStringLength]. *)
Definition kPCDMaxStringLength : Z := 120.

(** [enum PCDColorSpaces]. *)
Definition kPCDRawColorSpace : Z := 0.
Definition kPCDLinearCCIR709ColorSpace : Z := 1.
Definition kPCDsRGBColorSpace : Z := 2.
Definition kPCDYCCColorSpace : Z := 3.

(** [enum PCDWhiteBalance]. *)
Definition kPCDD65White : Z := 0.
Definition kPCDD50White : Z := 1.

(** [enum PCDOutputDataSize]. *)
Definition pcdByteSize : Z := 0.
Definition pcdInt16Size : Z := 1.
Definition pcdFloatSize : Z := 2.

(** [enum PCDMetaDataDictionary]: only its bound is named here, the
    selectors are the positions 0..19 of [PCDMetadataDescriptions]. *)
Definition kMaxPCDMetadata : Z := 20.

(** A read of a static array at an index inside it.  A read at an index
    outside the array is undefined behaviour in C: a function whose index
    is not known to be inside ([populateBuffers], which reads
    [PCDChromaResFactor[sceneNumber]] on a decoder that may never have set
    [sceneNumber]) tests the index with [inScenes] before it reads and ends
    in [Fault]; the 0 given here for such an index is not read by it. *)
Definition table (l : list Z) (i : Z) : Z :=
  if i <? 0 then 0 else nth (Z.to_nat i) l 0.

(** The indices of the arrays of [kMaxScenes] entries. *)
Definition inScenes (i : Z) : bool := (0 <=? i) && (i <? kMaxScenes).

Definition PCDLumaWidth : Z -> Z :=
  table [192; Z.shiftl 192 1; Z.shiftl 192 2; Z.shiftl 192 3; Z.shiftl 192 4; Z.shiftl 192 5].
Definition PCDLumaHeight : Z -> Z :=
  table [128; Z.shiftl 128 1; Z.shiftl 128 2; Z.shiftl 128 3; Z.shiftl 128 4; Z.shiftl 128 5].
Definition PCDChromaWidth : Z -> Z :=
  table [96; Z.shiftl 96 1; Z.shiftl 96 2; Z.shiftl 96 2; Z.shiftl 96 4; Z.shiftl 96 5].
Definition PCDChromaHeight : Z -> Z :=
  table [64; Z.shiftl 64 1; Z.shiftl 64 2; Z.shiftl 64 2; Z.shiftl 64 4; Z.shiftl 64 5].
Definition PCDChromaResFactor : Z -> Z := table [1; 1; 1; 1; 1; 1].
Definition RowShift : Z -> Z := table [0; 0; 0; 9; 9; 6].
Definition RowMask : Z -> Z := table [0; 0; 0; 0x1fff; 0x1fff; 0x3fff].
Definition RowSubSample : Z -> Z := table [1; 1; 1; 1; 1; 2].
Definition SequenceShift : Z -> Z := table [0; 0; 0; 0; 0; 1].
Definition SequenceMask : Z -> Z := table [0; 0; 0; 0; 0x0; 0xf].
Definition PlaneShift : Z -> Z := table [0; 0; 0; 22; 22; 19].
Definition PlaneMask : Z -> Z := table [0; 0; 0; 0x3; 0x3; 0x6].
Definition HuffmanHeaderSize : Z -> Z := table [0; 0; 0; 3; 3; 4].

(** [pcdMin], [pcdMax] and [pcdPin], the three macros. *)
Definition pcdMin (x y : Z) : Z := if x <? y then x else y.
Definition pcdMax (x y : Z) : Z := if x <? y then y else x.
Definition pcdPin (low x high : Z) : Z :=
  if x <? low then low else if x >? high then high else x.

(** ** Look-up tables of the colour conversion *)

Definition numLUTItems : Z := 1389.

(** static const uint16_t toLinearLight[numLUTItems]: photo CD code value to CCIR709 linear light. *)
Definition toLinearLight_data : list Z :=
  [0; 0; 0; 0; 0; 0; 0; 1; 1; 1; 1; 1; 1; 2; 2; 2;
   2; 2; 2; 3; 3; 3; 3; 3; 3; 4; 4; 4; 4; 4; 4; 5;
   5; 5; 5; 5; 5; 5; 6; 6; 6; 6; 6; 6; 7; 7; 7; 7;
   7; 7; 8; 8; 8; 8; 8; 8; 9; 9; 9; 9; 9; 9; 10; 10;
   10; 10; 10; 10; 10; 11; 11; 11; 11; 11; 11; 12; 12; 12; 12; 12;
   12; 13; 13; 13; 13; 13; 13; 14; 14; 14; 14; 14; 14; 15; 15; 15;
   15; 15; 15; 16; 16; 16; 16; 16; 16; 17; 17; 17; 17; 17; 18; 18;
   18; 18; 18; 19; 19; 19; 19; 19; 20; 20; 20; 20; 20; 21; 21; 21;
   21; 21; 22; 22; 22; 22; 23; 23; 23; 23; 23; 24; 24; 24; 24; 25;
   25; 25; 25; 25; 26; 26; 26; 26; 27; 27; 27; 27; 28; 28; 28; 28;
   29; 29; 29; 29; 30; 30; 30; 30; 31; 31; 31; 31; 32; 32; 32; 32;
   33; 33; 33; 33; 34; 34; 34; 35; 35; 35; 35; 36; 36; 36; 36; 37;
   37; 37; 38; 38; 38; 38; 39; 39; 39; 40; 40; 40; 41; 41; 41; 41;
   42; 42; 42; 43; 43; 43; 44; 44; 44; 45; 45; 45; 45; 46; 46; 46;
   47; 47; 47; 48; 48; 48; 49; 49; 49; 50; 50; 50; 51; 51; 51; 52;
   52; 52; 53; 53; 53; 54; 54; 54; 55; 55; 56; 56; 56; 57; 57; 57;
   58; 58; 58; 59; 59; 60; 60; 60; 61; 61; 61; 62; 62; 63; 63; 63;
   64; 64; 64; 65; 65; 66; 66; 66; 67; 67; 68; 68; 68; 69; 69; 70;
   70; 70; 71; 71; 72; 72; 72; 73; 73; 74; 74; 74; 75; 75; 76; 76;
   77; 77; 77; 78; 78; 79; 79; 79; 80; 80; 81; 81; 82; 82; 83; 83;
   83; 84; 84; 85; 85; 86; 86; 87; 87; 87; 88; 88; 89; 89; 90; 90;
   91; 91; 92; 92; 93; 93; 93; 94; 94; 95; 95; 96; 96; 97; 97; 98;
   98; 99; 99; 100; 100; 101; 101; 102; 102; 103; 103; 104; 104; 105; 105; 106;
   106; 107; 107; 108; 108; 109; 109; 110; 110; 111; 111; 112; 112; 113; 113; 114;
   114; 115; 115; 116; 117; 117; 118; 118; 119; 119; 120; 120; 121; 121; 122; 122;
   123; 124; 124; 125; 125; 126; 126; 127; 127; 128; 129; 129; 130; 130; 131; 131;
   132; 132; 133; 134; 134; 135; 135; 136; 137; 137; 138; 138; 139; 139; 140; 141;
   141; 142; 142; 143; 144; 144; 145; 145; 146; 147; 147; 148; 148; 149; 150; 150;
   151; 151; 152; 153; 153; 154; 155; 155; 156; 156; 157; 158; 158; 159; 160; 160;
   161; 161; 162; 163; 163; 164; 165; 165; 166; 167; 167; 168; 168; 169; 170; 170;
   171; 172; 172; 173; 174; 174; 175; 176; 176; 177; 178; 178; 179; 180; 180; 181;
   182; 182; 183; 184; 184; 185; 186; 187; 187; 188; 189; 189; 190; 191; 191; 192;
   193; 193; 194; 195; 196; 196; 197; 198; 198; 199; 200; 201; 201; 202; 203; 203;
   204; 205; 206; 206; 207; 208; 209; 209; 210; 211; 211; 212; 213; 214; 214; 215;
   216; 217; 217; 218; 219; 220; 220; 221; 222; 223; 223; 224; 225; 226; 226; 227;
   228; 229; 230; 230; 231; 232; 233; 233; 234; 235; 236; 237; 237; 238; 239; 240;
   240; 241; 242; 243; 244; 244; 245; 246; 247; 248; 248; 249; 250; 251; 252; 253;
   253; 254; 255; 256; 257; 257; 258; 259; 260; 261; 262; 262; 263; 264; 265; 266;
   267; 267; 268; 269; 270; 271; 272; 272; 273; 274; 275; 276; 277; 278; 278; 279;
   280; 281; 282; 283; 284; 284; 285; 286; 287; 288; 289; 290; 291; 291; 292; 293;
   294; 295; 296; 297; 298; 298; 299; 300; 301; 302; 303; 304; 305; 306; 307; 307;
   308; 309; 310; 311; 312; 313; 314; 315; 316; 317; 317; 318; 319; 320; 321; 322;
   323; 324; 325; 326; 327; 328; 329; 330; 331; 331; 332; 333; 334; 335; 336; 337;
   338; 339; 340; 341; 342; 343; 344; 345; 346; 347; 348; 349; 350; 351; 352; 353;
   354; 355; 355; 356; 357; 358; 359; 360; 361; 362; 363; 364; 365; 366; 367; 368;
   369; 370; 371; 372; 373; 374; 375; 376; 377; 378; 379; 380; 381; 382; 384; 385;
   386; 387; 388; 389; 390; 391; 392; 393; 394; 395; 396; 397; 398; 399; 400; 401;
   402; 403; 404; 405; 406; 407; 408; 410; 411; 412; 413; 414; 415; 416; 417; 418;
   419; 420; 421; 422; 423; 424; 426; 427; 428; 429; 430; 431; 432; 433; 434; 435;
   436; 438; 439; 440; 441; 442; 443; 444; 445; 446; 447; 449; 450; 451; 452; 453;
   454; 455; 456; 458; 459; 460; 461; 462; 463; 464; 465; 467; 468; 469; 470; 471;
   472; 473; 475; 476; 477; 478; 479; 480; 482; 483; 484; 485; 486; 487; 489; 490;
   491; 492; 493; 494; 496; 497; 498; 499; 500; 501; 503; 504; 505; 506; 507; 509;
   510; 511; 512; 513; 515; 516; 517; 518; 519; 521; 522; 523; 524; 525; 527; 528;
   529; 530; 532; 533; 534; 535; 536; 538; 539; 540; 541; 543; 544; 545; 546; 548;
   549; 550; 551; 553; 554; 555; 556; 558; 559; 560; 561; 563; 564; 565; 566; 568;
   569; 570; 571; 573; 574; 575; 577; 578; 579; 580; 582; 583; 584; 585; 587; 588;
   589; 591; 592; 593; 595; 596; 597; 598; 600; 601; 602; 604; 605; 606; 608; 609;
   610; 612; 613; 614; 616; 617; 618; 620; 621; 622; 624; 625; 626; 628; 629; 630;
   632; 633; 634; 636; 637; 638; 640; 641; 642; 644; 645; 646; 648; 649; 651; 652;
   653; 655; 656; 657; 659; 660; 661; 663; 664; 666; 667; 668; 670; 671; 673; 674;
   675; 677; 678; 680; 681; 682; 684; 685; 687; 688; 689; 691; 692; 694; 695; 696;
   698; 699; 701; 702; 704; 705; 706; 708; 709; 711; 712; 714; 715; 716; 718; 719;
   721; 722; 724; 725; 727; 728; 729; 731; 732; 734; 735; 737; 738; 740; 741; 743;
   744; 746; 747; 749; 750; 751; 753; 754; 756; 757; 759; 760; 762; 763; 765; 766;
   768; 769; 771; 772; 774; 775; 777; 778; 780; 781; 783; 784; 786; 787; 789; 790;
   792; 793; 795; 797; 798; 800; 801; 803; 804; 806; 807; 809; 810; 812; 813; 815;
   817; 818; 820; 821; 823; 824; 826; 827; 829; 831; 832; 834; 835; 837; 838; 840;
   841; 843; 845; 846; 848; 849; 851; 853; 854; 856; 857; 859; 860; 862; 864; 865;
   867; 868; 870; 872; 873; 875; 876; 878; 880; 881; 883; 885; 886; 888; 889; 891;
   893; 894; 896; 898; 899; 901; 902; 904; 906; 907; 909; 911; 912; 914; 916; 917;
   919; 921; 922; 924; 925; 927; 929; 930; 932; 934; 935; 937; 939; 940; 942; 944;
   945; 947; 949; 951; 952; 954; 956; 957; 959; 961; 962; 964; 966; 967; 969; 971;
   973; 974; 976; 978; 979; 981; 983; 985; 986; 988; 990; 991; 993; 995; 997; 998;
   1000; 1002; 1003; 1005; 1007; 1009; 1010; 1012; 1014; 1016; 1017; 1019; 1021; 1023; 1024; 1026;
   1028; 1030; 1031; 1033; 1035; 1037; 1038; 1040; 1042; 1044; 1046; 1047; 1049; 1051; 1053; 1054;
   1056; 1058; 1060; 1062; 1063; 1065; 1067; 1069; 1071; 1072; 1074; 1076; 1078; 1080; 1081; 1083;
   1085; 1087; 1089; 1090; 1092; 1094; 1096; 1098; 1099; 1101; 1103; 1105; 1107; 1109; 1110; 1112;
   1114; 1116; 1118; 1120; 1121; 1123; 1125; 1127; 1129; 1131; 1133; 1134; 1136; 1138; 1140; 1142;
   1144; 1146; 1147; 1149; 1151; 1153; 1155; 1157; 1159; 1160; 1162; 1164; 1166; 1168; 1170; 1172;
   1174; 1176; 1177; 1179; 1181; 1183; 1185; 1187; 1189; 1191; 1193; 1195; 1196; 1198; 1200; 1202;
   1204; 1206; 1208; 1210; 1212; 1214; 1216; 1218; 1219; 1221; 1223; 1225; 1227; 1229; 1231; 1233;
   1235; 1237; 1239; 1241; 1243; 1245; 1247; 1249; 1251; 1253; 1254; 1256; 1258; 1260; 1262; 1264;
   1266; 1268; 1270; 1272; 1274; 1276; 1278; 1280; 1282; 1284; 1286; 1288; 1290; 1292; 1294; 1296;
   1298; 1300; 1302; 1304; 1306; 1308; 1310; 1312; 1314; 1316; 1318; 1320; 1322; 1324; 1326; 1328;
   1330; 1332; 1334; 1336; 1338; 1340; 1342; 1344; 1346; 1348; 1350; 1353; 1355; 1357; 1359; 1361;
   1363; 1365; 1367; 1369; 1371; 1373; 1375; 1377; 1379; 1381; 1383; 1385; 1387].

(** static const uint16_t CCIR709tosRGB[numLUTItems]: linear light back to the sRGB tone curve. *)
Definition CCIR709tosRGB_data : list Z :=
  [0; 12; 25; 38; 51; 64; 75; 85; 94; 103; 111; 118; 125; 132; 139; 145;
   151; 157; 163; 168; 173; 179; 184; 188; 193; 198; 202; 207; 211; 215; 219; 224;
   228; 231; 235; 239; 243; 247; 250; 254; 257; 261; 264; 267; 271; 274; 277; 280;
   284; 287; 290; 293; 296; 299; 302; 305; 308; 310; 313; 316; 319; 321; 324; 327;
   329; 332; 335; 337; 340; 342; 345; 347; 350; 352; 355; 357; 360; 362; 364; 367;
   369; 371; 374; 376; 378; 380; 383; 385; 387; 389; 392; 394; 396; 398; 400; 402;
   404; 406; 408; 410; 413; 415; 417; 419; 421; 423; 425; 427; 428; 430; 432; 434;
   436; 438; 440; 442; 444; 446; 447; 449; 451; 453; 455; 457; 458; 460; 462; 464;
   466; 467; 469; 471; 473; 474; 476; 478; 479; 481; 483; 485; 486; 488; 490; 491;
   493; 494; 496; 498; 499; 501; 503; 504; 506; 507; 509; 511; 512; 514; 515; 517;
   518; 520; 521; 523; 525; 526; 528; 529; 531; 532; 534; 535; 537; 538; 540; 541;
   543; 544; 545; 547; 548; 550; 551; 553; 554; 556; 557; 558; 560; 561; 563; 564;
   565; 567; 568; 570; 571; 572; 574; 575; 576; 578; 579; 580; 582; 583; 584; 586;
   587; 588; 590; 591; 592; 594; 595; 596; 598; 599; 600; 602; 603; 604; 605; 607;
   608; 609; 611; 612; 613; 614; 616; 617; 618; 619; 621; 622; 623; 624; 626; 627;
   628; 629; 630; 632; 633; 634; 635; 636; 638; 639; 640; 641; 642; 644; 645; 646;
   647; 648; 650; 651; 652; 653; 654; 655; 657; 658; 659; 660; 661; 662; 663; 665;
   666; 667; 668; 669; 670; 671; 672; 674; 675; 676; 677; 678; 679; 680; 681; 682;
   684; 685; 686; 687; 688; 689; 690; 691; 692; 693; 694; 696; 697; 698; 699; 700;
   701; 702; 703; 704; 705; 706; 707; 708; 709; 710; 711; 713; 714; 715; 716; 717;
   718; 719; 720; 721; 722; 723; 724; 725; 726; 727; 728; 729; 730; 731; 732; 733;
   734; 735; 736; 737; 738; 739; 740; 741; 742; 743; 744; 745; 746; 747; 748; 749;
   750; 751; 752; 753; 754; 755; 756; 757; 758; 759; 760; 761; 762; 762; 763; 764;
   765; 766; 767; 768; 769; 770; 771; 772; 773; 774; 775; 776; 777; 778; 779; 779;
   780; 781; 782; 783; 784; 785; 786; 787; 788; 789; 790; 791; 791; 792; 793; 794;
   795; 796; 797; 798; 799; 800; 801; 801; 802; 803; 804; 805; 806; 807; 808; 809;
   810; 810; 811; 812; 813; 814; 815; 816; 817; 817; 818; 819; 820; 821; 822; 823;
   824; 824; 825; 826; 827; 828; 829; 830; 830; 831; 832; 833; 834; 835; 836; 836;
   837; 838; 839; 840; 841; 842; 842; 843; 844; 845; 846; 847; 847; 848; 849; 850;
   851; 852; 852; 853; 854; 855; 856; 857; 857; 858; 859; 860; 861; 862; 862; 863;
   864; 865; 866; 866; 867; 868; 869; 870; 870; 871; 872; 873; 874; 874; 875; 876;
   877; 878; 879; 879; 880; 881; 882; 882; 883; 884; 885; 886; 886; 887; 888; 889;
   890; 890; 891; 892; 893; 894; 894; 895; 896; 897; 897; 898; 899; 900; 901; 901;
   902; 903; 904; 904; 905; 906; 907; 907; 908; 909; 910; 911; 911; 912; 913; 914;
   914; 915; 916; 917; 917; 918; 919; 920; 920; 921; 922; 923; 923; 924; 925; 926;
   926; 927; 928; 929; 929; 930; 931; 932; 932; 933; 934; 935; 935; 936; 937; 937;
   938; 939; 940; 940; 941; 942; 943; 943; 944; 945; 946; 946; 947; 948; 948; 949;
   950; 951; 951; 952; 953; 953; 954; 955; 956; 956; 957; 958; 958; 959; 960; 961;
   961; 962; 963; 963; 964; 965; 966; 966; 967; 968; 968; 969; 970; 971; 971; 972;
   973; 973; 974; 975; 975; 976; 977; 978; 978; 979; 980; 980; 981; 982; 982; 983;
   984; 984; 985; 986; 987; 987; 988; 989; 989; 990; 991; 991; 992; 993; 993; 994;
   995; 995; 996; 997; 997; 998; 999; 999; 1000; 1001; 1002; 1002; 1003; 1004; 1004; 1005;
   1006; 1006; 1007; 1008; 1008; 1009; 1010; 1010; 1011; 1012; 1012; 1013; 1014; 1014; 1015; 1016;
   1016; 1017; 1018; 1018; 1019; 1020; 1020; 1021; 1021; 1022; 1023; 1023; 1024; 1025; 1025; 1026;
   1027; 1027; 1028; 1029; 1029; 1030; 1031; 1031; 1032; 1033; 1033; 1034; 1035; 1035; 1036; 1036;
   1037; 1038; 1038; 1039; 1040; 1040; 1041; 1042; 1042; 1043; 1044; 1044; 1045; 1045; 1046; 1047;
   1047; 1048; 1049; 1049; 1050; 1051; 1051; 1052; 1052; 1053; 1054; 1054; 1055; 1056; 1056; 1057;
   1057; 1058; 1059; 1059; 1060; 1061; 1061; 1062; 1062; 1063; 1064; 1064; 1065; 1066; 1066; 1067;
   1067; 1068; 1069; 1069; 1070; 1071; 1071; 1072; 1072; 1073; 1074; 1074; 1075; 1076; 1076; 1077;
   1077; 1078; 1079; 1079; 1080; 1080; 1081; 1082; 1082; 1083; 1083; 1084; 1085; 1085; 1086; 1087;
   1087; 1088; 1088; 1089; 1090; 1090; 1091; 1091; 1092; 1093; 1093; 1094; 1094; 1095; 1096; 1096;
   1097; 1097; 1098; 1099; 1099; 1100; 1100; 1101; 1102; 1102; 1103; 1103; 1104; 1105; 1105; 1106;
   1106; 1107; 1107; 1108; 1109; 1109; 1110; 1110; 1111; 1112; 1112; 1113; 1113; 1114; 1115; 1115;
   1116; 1116; 1117; 1117; 1118; 1119; 1119; 1120; 1120; 1121; 1122; 1122; 1123; 1123; 1124; 1124;
   1125; 1126; 1126; 1127; 1127; 1128; 1129; 1129; 1130; 1130; 1131; 1131; 1132; 1133; 1133; 1134;
   1134; 1135; 1135; 1136; 1137; 1137; 1138; 1138; 1139; 1139; 1140; 1141; 1141; 1142; 1142; 1143;
   1143; 1144; 1145; 1145; 1146; 1146; 1147; 1147; 1148; 1148; 1149; 1150; 1150; 1151; 1151; 1152;
   1152; 1153; 1154; 1154; 1155; 1155; 1156; 1156; 1157; 1157; 1158; 1159; 1159; 1160; 1160; 1161;
   1161; 1162; 1162; 1163; 1164; 1164; 1165; 1165; 1166; 1166; 1167; 1167; 1168; 1169; 1169; 1170;
   1170; 1171; 1171; 1172; 1172; 1173; 1174; 1174; 1175; 1175; 1176; 1176; 1177; 1177; 1178; 1178;
   1179; 1180; 1180; 1181; 1181; 1182; 1182; 1183; 1183; 1184; 1184; 1185; 1185; 1186; 1187; 1187;
   1188; 1188; 1189; 1189; 1190; 1190; 1191; 1191; 1192; 1193; 1193; 1194; 1194; 1195; 1195; 1196;
   1196; 1197; 1197; 1198; 1198; 1199; 1199; 1200; 1201; 1201; 1202; 1202; 1203; 1203; 1204; 1204;
   1205; 1205; 1206; 1206; 1207; 1207; 1208; 1208; 1209; 1210; 1210; 1211; 1211; 1212; 1212; 1213;
   1213; 1214; 1214; 1215; 1215; 1216; 1216; 1217; 1217; 1218; 1218; 1219; 1219; 1220; 1221; 1221;
   1222; 1222; 1223; 1223; 1224; 1224; 1225; 1225; 1226; 1226; 1227; 1227; 1228; 1228; 1229; 1229;
   1230; 1230; 1231; 1231; 1232; 1232; 1233; 1233; 1234; 1234; 1235; 1236; 1236; 1237; 1237; 1238;
   1238; 1239; 1239; 1240; 1240; 1241; 1241; 1242; 1242; 1243; 1243; 1244; 1244; 1245; 1245; 1246;
   1246; 1247; 1247; 1248; 1248; 1249; 1249; 1250; 1250; 1251; 1251; 1252; 1252; 1253; 1253; 1254;
   1254; 1255; 1255; 1256; 1256; 1257; 1257; 1258; 1258; 1259; 1259; 1260; 1260; 1261; 1261; 1262;
   1262; 1263; 1263; 1264; 1264; 1265; 1265; 1266; 1266; 1267; 1267; 1268; 1268; 1269; 1269; 1270;
   1270; 1271; 1271; 1272; 1272; 1273; 1273; 1274; 1274; 1275; 1275; 1276; 1276; 1277; 1277; 1278;
   1278; 1279; 1279; 1280; 1280; 1281; 1281; 1282; 1282; 1282; 1283; 1283; 1284; 1284; 1285; 1285;
   1286; 1286; 1287; 1287; 1288; 1288; 1289; 1289; 1290; 1290; 1291; 1291; 1292; 1292; 1293; 1293;
   1294; 1294; 1295; 1295; 1296; 1296; 1297; 1297; 1298; 1298; 1298; 1299; 1299; 1300; 1300; 1301;
   1301; 1302; 1302; 1303; 1303; 1304; 1304; 1305; 1305; 1306; 1306; 1307; 1307; 1308; 1308; 1308;
   1309; 1309; 1310; 1310; 1311; 1311; 1312; 1312; 1313; 1313; 1314; 1314; 1315; 1315; 1316; 1316;
   1317; 1317; 1317; 1318; 1318; 1319; 1319; 1320; 1320; 1321; 1321; 1322; 1322; 1323; 1323; 1324;
   1324; 1325; 1325; 1325; 1326; 1326; 1327; 1327; 1328; 1328; 1329; 1329; 1330; 1330; 1331; 1331;
   1332; 1332; 1332; 1333; 1333; 1334; 1334; 1335; 1335; 1336; 1336; 1337; 1337; 1338; 1338; 1338;
   1339; 1339; 1340; 1340; 1341; 1341; 1342; 1342; 1343; 1343; 1343; 1344; 1344; 1345; 1345; 1346;
   1346; 1347; 1347; 1348; 1348; 1349; 1349; 1349; 1350; 1350; 1351; 1351; 1352; 1352; 1353; 1353;
   1354; 1354; 1354; 1355; 1355; 1356; 1356; 1357; 1357; 1358; 1358; 1359; 1359; 1359; 1360; 1360;
   1361; 1361; 1362; 1362; 1363; 1363; 1363; 1364; 1364; 1365; 1365; 1366; 1366; 1367; 1367; 1368;
   1368; 1368; 1369; 1369; 1370; 1370; 1371; 1371; 1372; 1372; 1372; 1373; 1373; 1374; 1374; 1375;
   1375; 1376; 1376; 1376; 1377; 1377; 1378; 1378; 1379; 1379; 1380; 1380; 1380; 1381; 1381; 1382;
   1382; 1383; 1383; 1384; 1384; 1384; 1385; 1385; 1386; 1386; 1387; 1387; 1387].

(** static const uint8_t uint8Output[numLUTItems]: index 0..1388 to an 8-bit sample. *)
Definition uint8Output_data : list Z :=
  [0; 0; 0; 0; 0; 0; 1; 1; 1; 1; 1; 2; 2; 2; 2; 2;
   2; 3; 3; 3; 3; 3; 4; 4; 4; 4; 4; 4; 5; 5; 5; 5;
   5; 6; 6; 6; 6; 6; 6; 7; 7; 7; 7; 7; 8; 8; 8; 8;
   8; 9; 9; 9; 9; 9; 9; 10; 10; 10; 10; 10; 11; 11; 11; 11;
   11; 11; 12; 12; 12; 12; 12; 13; 13; 13; 13; 13; 13; 14; 14; 14;
   14; 14; 15; 15; 15; 15; 15; 15; 16; 16; 16; 16; 16; 17; 17; 17;
   17; 17; 18; 18; 18; 18; 18; 18; 19; 19; 19; 19; 19; 20; 20; 20;
   20; 20; 20; 21; 21; 21; 21; 21; 22; 22; 22; 22; 22; 22; 23; 23;
   23; 23; 23; 24; 24; 24; 24; 24; 24; 25; 25; 25; 25; 25; 26; 26;
   26; 26; 26; 27; 27; 27; 27; 27; 27; 28; 28; 28; 28; 28; 29; 29;
   29; 29; 29; 29; 30; 30; 30; 30; 30; 31; 31; 31; 31; 31; 31; 32;
   32; 32; 32; 32; 33; 33; 33; 33; 33; 33; 34; 34; 34; 34; 34; 35;
   35; 35; 35; 35; 36; 36; 36; 36; 36; 36; 37; 37; 37; 37; 37; 38;
   38; 38; 38; 38; 38; 39; 39; 39; 39; 39; 40; 40; 40; 40; 40; 40;
   41; 41; 41; 41; 41; 42; 42; 42; 42; 42; 42; 43; 43; 43; 43; 43;
   44; 44; 44; 44; 44; 45; 45; 45; 45; 45; 45; 46; 46; 46; 46; 46;
   47; 47; 47; 47; 47; 47; 48; 48; 48; 48; 48; 49; 49; 49; 49; 49;
   49; 50; 50; 50; 50; 50; 51; 51; 51; 51; 51; 51; 52; 52; 52; 52;
   52; 53; 53; 53; 53; 53; 54; 54; 54; 54; 54; 54; 55; 55; 55; 55;
   55; 56; 56; 56; 56; 56; 56; 57; 57; 57; 57; 57; 58; 58; 58; 58;
   58; 58; 59; 59; 59; 59; 59; 60; 60; 60; 60; 60; 60; 61; 61; 61;
   61; 61; 62; 62; 62; 62; 62; 63; 63; 63; 63; 63; 63; 64; 64; 64;
   64; 64; 65; 65; 65; 65; 65; 65; 66; 66; 66; 66; 66; 67; 67; 67;
   67; 67; 67; 68; 68; 68; 68; 68; 69; 69; 69; 69; 69; 69; 70; 70;
   70; 70; 70; 71; 71; 71; 71; 71; 72; 72; 72; 72; 72; 72; 73; 73;
   73; 73; 73; 74; 74; 74; 74; 74; 74; 75; 75; 75; 75; 75; 76; 76;
   76; 76; 76; 76; 77; 77; 77; 77; 77; 78; 78; 78; 78; 78; 78; 79;
   79; 79; 79; 79; 80; 80; 80; 80; 80; 81; 81; 81; 81; 81; 81; 82;
   82; 82; 82; 82; 83; 83; 83; 83; 83; 83; 84; 84; 84; 84; 84; 85;
   85; 85; 85; 85; 85; 86; 86; 86; 86; 86; 87; 87; 87; 87; 87; 88;
   88; 88; 88; 88; 88; 89; 89; 89; 89; 89; 90; 90; 90; 90; 90; 90;
   91; 91; 91; 91; 91; 92; 92; 92; 92; 92; 92; 93; 93; 93; 93; 93;
   94; 94; 94; 94; 94; 94; 95; 95; 95; 95; 95; 96; 96; 96; 96; 96;
   97; 97; 97; 97; 97; 97; 98; 98; 98; 98; 98; 99; 99; 99; 99; 99;
   99; 100; 100; 100; 100; 100; 101; 101; 101; 101; 101; 101; 102; 102; 102; 102;
   102; 103; 103; 103; 103; 103; 103; 104; 104; 104; 104; 104; 105; 105; 105; 105;
   105; 106; 106; 106; 106; 106; 106; 107; 107; 107; 107; 107; 108; 108; 108; 108;
   108; 108; 109; 109; 109; 109; 109; 110; 110; 110; 110; 110; 110; 111; 111; 111;
   111; 111; 112; 112; 112; 112; 112; 112; 113; 113; 113; 113; 113; 114; 114; 114;
   114; 114; 115; 115; 115; 115; 115; 115; 116; 116; 116; 116; 116; 117; 117; 117;
   117; 117; 117; 118; 118; 118; 118; 118; 119; 119; 119; 119; 119; 119; 120; 120;
   120; 120; 120; 121; 121; 121; 121; 121; 121; 122; 122; 122; 122; 122; 123; 123;
   123; 123; 123; 124; 124; 124; 124; 124; 124; 125; 125; 125; 125; 125; 126; 126;
   126; 126; 126; 126; 127; 127; 127; 127; 127; 128; 128; 128; 128; 128; 128; 129;
   129; 129; 129; 129; 130; 130; 130; 130; 130; 130; 131; 131; 131; 131; 131; 132;
   132; 132; 132; 132; 133; 133; 133; 133; 133; 133; 134; 134; 134; 134; 134; 135;
   135; 135; 135; 135; 135; 136; 136; 136; 136; 136; 137; 137; 137; 137; 137; 137;
   138; 138; 138; 138; 138; 139; 139; 139; 139; 139; 139; 140; 140; 140; 140; 140;
   141; 141; 141; 141; 141; 142; 142; 142; 142; 142; 142; 143; 143; 143; 143; 143;
   144; 144; 144; 144; 144; 144; 145; 145; 145; 145; 145; 146; 146; 146; 146; 146;
   146; 147; 147; 147; 147; 147; 148; 148; 148; 148; 148; 148; 149; 149; 149; 149;
   149; 150; 150; 150; 150; 150; 151; 151; 151; 151; 151; 151; 152; 152; 152; 152;
   152; 153; 153; 153; 153; 153; 153; 154; 154; 154; 154; 154; 155; 155; 155; 155;
   155; 155; 156; 156; 156; 156; 156; 157; 157; 157; 157; 157; 157; 158; 158; 158;
   158; 158; 159; 159; 159; 159; 159; 160; 160; 160; 160; 160; 160; 161; 161; 161;
   161; 161; 162; 162; 162; 162; 162; 162; 163; 163; 163; 163; 163; 164; 164; 164;
   164; 164; 164; 165; 165; 165; 165; 165; 166; 166; 166; 166; 166; 166; 167; 167;
   167; 167; 167; 168; 168; 168; 168; 168; 169; 169; 169; 169; 169; 169; 170; 170;
   170; 170; 170; 171; 171; 171; 171; 171; 171; 172; 172; 172; 172; 172; 173; 173;
   173; 173; 173; 173; 174; 174; 174; 174; 174; 175; 175; 175; 175; 175; 176; 176;
   176; 176; 176; 176; 177; 177; 177; 177; 177; 178; 178; 178; 178; 178; 178; 179;
   179; 179; 179; 179; 180; 180; 180; 180; 180; 180; 181; 181; 181; 181; 181; 182;
   182; 182; 182; 182; 182; 183; 183; 183; 183; 183; 184; 184; 184; 184; 184; 185;
   185; 185; 185; 185; 185; 186; 186; 186; 186; 186; 187; 187; 187; 187; 187; 187;
   188; 188; 188; 188; 188; 189; 189; 189; 189; 189; 189; 190; 190; 190; 190; 190;
   191; 191; 191; 191; 191; 191; 192; 192; 192; 192; 192; 193; 193; 193; 193; 193;
   194; 194; 194; 194; 194; 194; 195; 195; 195; 195; 195; 196; 196; 196; 196; 196;
   196; 197; 197; 197; 197; 197; 198; 198; 198; 198; 198; 198; 199; 199; 199; 199;
   199; 200; 200; 200; 200; 200; 200; 201; 201; 201; 201; 201; 202; 202; 202; 202;
   202; 203; 203; 203; 203; 203; 203; 204; 204; 204; 204; 204; 205; 205; 205; 205;
   205; 205; 206; 206; 206; 206; 206; 207; 207; 207; 207; 207; 207; 208; 208; 208;
   208; 208; 209; 209; 209; 209; 209; 209; 210; 210; 210; 210; 210; 211; 211; 211;
   211; 211; 212; 212; 212; 212; 212; 212; 213; 213; 213; 213; 213; 214; 214; 214;
   214; 214; 214; 215; 215; 215; 215; 215; 216; 216; 216; 216; 216; 216; 217; 217;
   217; 217; 217; 218; 218; 218; 218; 218; 218; 219; 219; 219; 219; 219; 220; 220;
   220; 220; 220; 221; 221; 221; 221; 221; 221; 222; 222; 222; 222; 222; 223; 223;
   223; 223; 223; 223; 224; 224; 224; 224; 224; 225; 225; 225; 225; 225; 225; 226;
   226; 226; 226; 226; 227; 227; 227; 227; 227; 227; 228; 228; 228; 228; 228; 229;
   229; 229; 229; 229; 230; 230; 230; 230; 230; 230; 231; 231; 231; 231; 231; 232;
   232; 232; 232; 232; 232; 233; 233; 233; 233; 233; 234; 234; 234; 234; 234; 234;
   235; 235; 235; 235; 235; 236; 236; 236; 236; 236; 236; 237; 237; 237; 237; 237;
   238; 238; 238; 238; 238; 239; 239; 239; 239; 239; 239; 240; 240; 240; 240; 240;
   241; 241; 241; 241; 241; 241; 242; 242; 242; 242; 242; 243; 243; 243; 243; 243;
   243; 244; 244; 244; 244; 244; 245; 245; 245; 245; 245; 245; 246; 246; 246; 246;
   246; 247; 247; 247; 247; 247; 248; 248; 248; 248; 248; 248; 249; 249; 249; 249;
   249; 250; 250; 250; 250; 250; 250; 251; 251; 251; 251; 251; 252; 252; 252; 252;
   252; 252; 253; 253; 253; 253; 253; 254; 254; 254; 254; 254; 255].

(** static const uint16_t uint16Output[numLUTItems]: index 0..1388 to a 16-bit sample. *)
Definition uint16Output_data : list Z :=
  [0; 47; 94; 141; 188; 236; 283; 330; 377; 424; 472; 519; 566; 613; 661; 708;
   755; 802; 849; 897; 944; 991; 1038; 1085; 1133; 1180; 1227; 1274; 1322; 1369; 1416; 1463;
   1510; 1558; 1605; 1652; 1699; 1746; 1794; 1841; 1888; 1935; 1983; 2030; 2077; 2124; 2171; 2219;
   2266; 2313; 2360; 2407; 2455; 2502; 2549; 2596; 2644; 2691; 2738; 2785; 2832; 2880; 2927; 2974;
   3021; 3069; 3116; 3163; 3210; 3257; 3305; 3352; 3399; 3446; 3493; 3541; 3588; 3635; 3682; 3730;
   3777; 3824; 3871; 3918; 3966; 4013; 4060; 4107; 4154; 4202; 4249; 4296; 4343; 4391; 4438; 4485;
   4532; 4579; 4627; 4674; 4721; 4768; 4815; 4863; 4910; 4957; 5004; 5052; 5099; 5146; 5193; 5240;
   5288; 5335; 5382; 5429; 5476; 5524; 5571; 5618; 5665; 5713; 5760; 5807; 5854; 5901; 5949; 5996;
   6043; 6090; 6138; 6185; 6232; 6279; 6326; 6374; 6421; 6468; 6515; 6562; 6610; 6657; 6704; 6751;
   6799; 6846; 6893; 6940; 6987; 7035; 7082; 7129; 7176; 7223; 7271; 7318; 7365; 7412; 7460; 7507;
   7554; 7601; 7648; 7696; 7743; 7790; 7837; 7884; 7932; 7979; 8026; 8073; 8121; 8168; 8215; 8262;
   8309; 8357; 8404; 8451; 8498; 8545; 8593; 8640; 8687; 8734; 8782; 8829; 8876; 8923; 8970; 9018;
   9065; 9112; 9159; 9207; 9254; 9301; 9348; 9395; 9443; 9490; 9537; 9584; 9631; 9679; 9726; 9773;
   9820; 9868; 9915; 9962; 10009; 10056; 10104; 10151; 10198; 10245; 10292; 10340; 10387; 10434; 10481; 10529;
   10576; 10623; 10670; 10717; 10765; 10812; 10859; 10906; 10953; 11001; 11048; 11095; 11142; 11190; 11237; 11284;
   11331; 11378; 11426; 11473; 11520; 11567; 11614; 11662; 11709; 11756; 11803; 11851; 11898; 11945; 11992; 12039;
   12087; 12134; 12181; 12228; 12276; 12323; 12370; 12417; 12464; 12512; 12559; 12606; 12653; 12700; 12748; 12795;
   12842; 12889; 12937; 12984; 13031; 13078; 13125; 13173; 13220; 13267; 13314; 13361; 13409; 13456; 13503; 13550;
   13598; 13645; 13692; 13739; 13786; 13834; 13881; 13928; 13975; 14022; 14070; 14117; 14164; 14211; 14259; 14306;
   14353; 14400; 14447; 14495; 14542; 14589; 14636; 14683; 14731; 14778; 14825; 14872; 14920; 14967; 15014; 15061;
   15108; 15156; 15203; 15250; 15297; 15345; 15392; 15439; 15486; 15533; 15581; 15628; 15675; 15722; 15769; 15817;
   15864; 15911; 15958; 16006; 16053; 16100; 16147; 16194; 16242; 16289; 16336; 16383; 16430; 16478; 16525; 16572;
   16619; 16667; 16714; 16761; 16808; 16855; 16903; 16950; 16997; 17044; 17091; 17139; 17186; 17233; 17280; 17328;
   17375; 17422; 17469; 17516; 17564; 17611; 17658; 17705; 17752; 17800; 17847; 17894; 17941; 17989; 18036; 18083;
   18130; 18177; 18225; 18272; 18319; 18366; 18414; 18461; 18508; 18555; 18602; 18650; 18697; 18744; 18791; 18838;
   18886; 18933; 18980; 19027; 19075; 19122; 19169; 19216; 19263; 19311; 19358; 19405; 19452; 19499; 19547; 19594;
   19641; 19688; 19736; 19783; 19830; 19877; 19924; 19972; 20019; 20066; 20113; 20160; 20208; 20255; 20302; 20349;
   20397; 20444; 20491; 20538; 20585; 20633; 20680; 20727; 20774; 20821; 20869; 20916; 20963; 21010; 21058; 21105;
   21152; 21199; 21246; 21294; 21341; 21388; 21435; 21483; 21530; 21577; 21624; 21671; 21719; 21766; 21813; 21860;
   21907; 21955; 22002; 22049; 22096; 22144; 22191; 22238; 22285; 22332; 22380; 22427; 22474; 22521; 22568; 22616;
   22663; 22710; 22757; 22805; 22852; 22899; 22946; 22993; 23041; 23088; 23135; 23182; 23229; 23277; 23324; 23371;
   23418; 23466; 23513; 23560; 23607; 23654; 23702; 23749; 23796; 23843; 23891; 23938; 23985; 24032; 24079; 24127;
   24174; 24221; 24268; 24315; 24363; 24410; 24457; 24504; 24552; 24599; 24646; 24693; 24740; 24788; 24835; 24882;
   24929; 24976; 25024; 25071; 25118; 25165; 25213; 25260; 25307; 25354; 25401; 25449; 25496; 25543; 25590; 25637;
   25685; 25732; 25779; 25826; 25874; 25921; 25968; 26015; 26062; 26110; 26157; 26204; 26251; 26298; 26346; 26393;
   26440; 26487; 26535; 26582; 26629; 26676; 26723; 26771; 26818; 26865; 26912; 26960; 27007; 27054; 27101; 27148;
   27196; 27243; 27290; 27337; 27384; 27432; 27479; 27526; 27573; 27621; 27668; 27715; 27762; 27809; 27857; 27904;
   27951; 27998; 28045; 28093; 28140; 28187; 28234; 28282; 28329; 28376; 28423; 28470; 28518; 28565; 28612; 28659;
   28706; 28754; 28801; 28848; 28895; 28943; 28990; 29037; 29084; 29131; 29179; 29226; 29273; 29320; 29367; 29415;
   29462; 29509; 29556; 29604; 29651; 29698; 29745; 29792; 29840; 29887; 29934; 29981; 30029; 30076; 30123; 30170;
   30217; 30265; 30312; 30359; 30406; 30453; 30501; 30548; 30595; 30642; 30690; 30737; 30784; 30831; 30878; 30926;
   30973; 31020; 31067; 31114; 31162; 31209; 31256; 31303; 31351; 31398; 31445; 31492; 31539; 31587; 31634; 31681;
   31728; 31775; 31823; 31870; 31917; 31964; 32012; 32059; 32106; 32153; 32200; 32248; 32295; 32342; 32389; 32436;
   32484; 32531; 32578; 32625; 32673; 32720; 32767; 32814; 32861; 32909; 32956; 33003; 33050; 33098; 33145; 33192;
   33239; 33286; 33334; 33381; 33428; 33475; 33522; 33570; 33617; 33664; 33711; 33759; 33806; 33853; 33900; 33947;
   33995; 34042; 34089; 34136; 34183; 34231; 34278; 34325; 34372; 34420; 34467; 34514; 34561; 34608; 34656; 34703;
   34750; 34797; 34844; 34892; 34939; 34986; 35033; 35081; 35128; 35175; 35222; 35269; 35317; 35364; 35411; 35458;
   35505; 35553; 35600; 35647; 35694; 35742; 35789; 35836; 35883; 35930; 35978; 36025; 36072; 36119; 36167; 36214;
   36261; 36308; 36355; 36403; 36450; 36497; 36544; 36591; 36639; 36686; 36733; 36780; 36828; 36875; 36922; 36969;
   37016; 37064; 37111; 37158; 37205; 37252; 37300; 37347; 37394; 37441; 37489; 37536; 37583; 37630; 37677; 37725;
   37772; 37819; 37866; 37913; 37961; 38008; 38055; 38102; 38150; 38197; 38244; 38291; 38338; 38386; 38433; 38480;
   38527; 38574; 38622; 38669; 38716; 38763; 38811; 38858; 38905; 38952; 38999; 39047; 39094; 39141; 39188; 39236;
   39283; 39330; 39377; 39424; 39472; 39519; 39566; 39613; 39660; 39708; 39755; 39802; 39849; 39897; 39944; 39991;
   40038; 40085; 40133; 40180; 40227; 40274; 40321; 40369; 40416; 40463; 40510; 40558; 40605; 40652; 40699; 40746;
   40794; 40841; 40888; 40935; 40982; 41030; 41077; 41124; 41171; 41219; 41266; 41313; 41360; 41407; 41455; 41502;
   41549; 41596; 41643; 41691; 41738; 41785; 41832; 41880; 41927; 41974; 42021; 42068; 42116; 42163; 42210; 42257;
   42305; 42352; 42399; 42446; 42493; 42541; 42588; 42635; 42682; 42729; 42777; 42824; 42871; 42918; 42966; 43013;
   43060; 43107; 43154; 43202; 43249; 43296; 43343; 43390; 43438; 43485; 43532; 43579; 43627; 43674; 43721; 43768;
   43815; 43863; 43910; 43957; 44004; 44051; 44099; 44146; 44193; 44240; 44288; 44335; 44382; 44429; 44476; 44524;
   44571; 44618; 44665; 44713; 44760; 44807; 44854; 44901; 44949; 44996; 45043; 45090; 45137; 45185; 45232; 45279;
   45326; 45374; 45421; 45468; 45515; 45562; 45610; 45657; 45704; 45751; 45798; 45846; 45893; 45940; 45987; 46035;
   46082; 46129; 46176; 46223; 46271; 46318; 46365; 46412; 46459; 46507; 46554; 46601; 46648; 46696; 46743; 46790;
   46837; 46884; 46932; 46979; 47026; 47073; 47120; 47168; 47215; 47262; 47309; 47357; 47404; 47451; 47498; 47545;
   47593; 47640; 47687; 47734; 47782; 47829; 47876; 47923; 47970; 48018; 48065; 48112; 48159; 48206; 48254; 48301;
   48348; 48395; 48443; 48490; 48537; 48584; 48631; 48679; 48726; 48773; 48820; 48867; 48915; 48962; 49009; 49056;
   49104; 49151; 49198; 49245; 49292; 49340; 49387; 49434; 49481; 49528; 49576; 49623; 49670; 49717; 49765; 49812;
   49859; 49906; 49953; 50001; 50048; 50095; 50142; 50189; 50237; 50284; 50331; 50378; 50426; 50473; 50520; 50567;
   50614; 50662; 50709; 50756; 50803; 50851; 50898; 50945; 50992; 51039; 51087; 51134; 51181; 51228; 51275; 51323;
   51370; 51417; 51464; 51512; 51559; 51606; 51653; 51700; 51748; 51795; 51842; 51889; 51936; 51984; 52031; 52078;
   52125; 52173; 52220; 52267; 52314; 52361; 52409; 52456; 52503; 52550; 52597; 52645; 52692; 52739; 52786; 52834;
   52881; 52928; 52975; 53022; 53070; 53117; 53164; 53211; 53258; 53306; 53353; 53400; 53447; 53495; 53542; 53589;
   53636; 53683; 53731; 53778; 53825; 53872; 53920; 53967; 54014; 54061; 54108; 54156; 54203; 54250; 54297; 54344;
   54392; 54439; 54486; 54533; 54581; 54628; 54675; 54722; 54769; 54817; 54864; 54911; 54958; 55005; 55053; 55100;
   55147; 55194; 55242; 55289; 55336; 55383; 55430; 55478; 55525; 55572; 55619; 55666; 55714; 55761; 55808; 55855;
   55903; 55950; 55997; 56044; 56091; 56139; 56186; 56233; 56280; 56327; 56375; 56422; 56469; 56516; 56564; 56611;
   56658; 56705; 56752; 56800; 56847; 56894; 56941; 56989; 57036; 57083; 57130; 57177; 57225; 57272; 57319; 57366;
   57413; 57461; 57508; 57555; 57602; 57650; 57697; 57744; 57791; 57838; 57886; 57933; 57980; 58027; 58074; 58122;
   58169; 58216; 58263; 58311; 58358; 58405; 58452; 58499; 58547; 58594; 58641; 58688; 58735; 58783; 58830; 58877;
   58924; 58972; 59019; 59066; 59113; 59160; 59208; 59255; 59302; 59349; 59396; 59444; 59491; 59538; 59585; 59633;
   59680; 59727; 59774; 59821; 59869; 59916; 59963; 60010; 60058; 60105; 60152; 60199; 60246; 60294; 60341; 60388;
   60435; 60482; 60530; 60577; 60624; 60671; 60719; 60766; 60813; 60860; 60907; 60955; 61002; 61049; 61096; 61143;
   61191; 61238; 61285; 61332; 61380; 61427; 61474; 61521; 61568; 61616; 61663; 61710; 61757; 61804; 61852; 61899;
   61946; 61993; 62041; 62088; 62135; 62182; 62229; 62277; 62324; 62371; 62418; 62465; 62513; 62560; 62607; 62654;
   62702; 62749; 62796; 62843; 62890; 62938; 62985; 63032; 63079; 63127; 63174; 63221; 63268; 63315; 63363; 63410;
   63457; 63504; 63551; 63599; 63646; 63693; 63740; 63788; 63835; 63882; 63929; 63976; 64024; 64071; 64118; 64165;
   64212; 64260; 64307; 64354; 64401; 64449; 64496; 64543; 64590; 64637; 64685; 64732; 64779; 64826; 64873; 64921;
   64968; 65015; 65062; 65110; 65157; 65204; 65251; 65298; 65346; 65393; 65440; 65487; 65535].

(** static const float floatOutput[numLUTItems]: the float samples, each literal kept as its six decimals in millionths (0.000720f is 720, 1.000000f is 1000000). *)
Definition floatOutput_data : list Z :=
  [0; 720; 1441; 2161; 2882; 3602; 4323; 5043; 5764; 6484; 7205; 7925; 8646; 9366; 10086; 10807;
   11527; 12248; 12968; 13689; 14409; 15130; 15850; 16571; 17291; 18012; 18732; 19452; 20173; 20893; 21614; 22334;
   23055; 23775; 24496; 25216; 25937; 26657; 27378; 28098; 28818; 29539; 30259; 30980; 31700; 32421; 33141; 33862;
   34582; 35303; 36023; 36744; 37464; 38184; 38905; 39625; 40346; 41066; 41787; 42507; 43228; 43948; 44669; 45389;
   46110; 46830; 47550; 48271; 48991; 49712; 50432; 51153; 51873; 52594; 53314; 54035; 54755; 55476; 56196; 56916;
   57637; 58357; 59078; 59798; 60519; 61239; 61960; 62680; 63401; 64121; 64842; 65562; 66282; 67003; 67723; 68444;
   69164; 69885; 70605; 71326; 72046; 72767; 73487; 74207; 74928; 75648; 76369; 77089; 77810; 78530; 79251; 79971;
   80692; 81412; 82133; 82853; 83573; 84294; 85014; 85735; 86455; 87176; 87896; 88617; 89337; 90058; 90778; 91499;
   92219; 92939; 93660; 94380; 95101; 95821; 96542; 97262; 97983; 98703; 99424; 100144; 100865; 101585; 102305; 103026;
   103746; 104467; 105187; 105908; 106628; 107349; 108069; 108790; 109510; 110231; 110951; 111671; 112392; 113112; 113833; 114553;
   115274; 115994; 116715; 117435; 118156; 118876; 119597; 120317; 121037; 121758; 122478; 123199; 123919; 124640; 125360; 126081;
   126801; 127522; 128242; 128963; 129683; 130403; 131124; 131844; 132565; 133285; 134006; 134726; 135447; 136167; 136888; 137608;
   138329; 139049; 139769; 140490; 141210; 141931; 142651; 143372; 144092; 144813; 145533; 146254; 146974; 147695; 148415; 149135;
   149856; 150576; 151297; 152017; 152738; 153458; 154179; 154899; 155620; 156340; 157061; 157781; 158501; 159222; 159942; 160663;
   161383; 162104; 162824; 163545; 164265; 164986; 165706; 166427; 167147; 167867; 168588; 169308; 170029; 170749; 171470; 172190;
   172911; 173631; 174352; 175072; 175793; 176513; 177233; 177954; 178674; 179395; 180115; 180836; 181556; 182277; 182997; 183718;
   184438; 185159; 185879; 186599; 187320; 188040; 188761; 189481; 190202; 190922; 191643; 192363; 193084; 193804; 194524; 195245;
   195965; 196686; 197406; 198127; 198847; 199568; 200288; 201009; 201729; 202450; 203170; 203890; 204611; 205331; 206052; 206772;
   207493; 208213; 208934; 209654; 210375; 211095; 211816; 212536; 213256; 213977; 214697; 215418; 216138; 216859; 217579; 218300;
   219020; 219741; 220461; 221182; 221902; 222622; 223343; 224063; 224784; 225504; 226225; 226945; 227666; 228386; 229107; 229827;
   230548; 231268; 231988; 232709; 233429; 234150; 234870; 235591; 236311; 237032; 237752; 238473; 239193; 239914; 240634; 241354;
   242075; 242795; 243516; 244236; 244957; 245677; 246398; 247118; 247839; 248559; 249280; 250000; 250720; 251441; 252161; 252882;
   253602; 254323; 255043; 255764; 256484; 257205; 257925; 258646; 259366; 260086; 260807; 261527; 262248; 262968; 263689; 264409;
   265130; 265850; 266571; 267291; 268012; 268732; 269452; 270173; 270893; 271614; 272334; 273055; 273775; 274496; 275216; 275937;
   276657; 277378; 278098; 278818; 279539; 280259; 280980; 281700; 282421; 283141; 283862; 284582; 285303; 286023; 286744; 287464;
   288184; 288905; 289625; 290346; 291066; 291787; 292507; 293228; 293948; 294669; 295389; 296109; 296830; 297550; 298271; 298991;
   299712; 300432; 301153; 301873; 302594; 303314; 304035; 304755; 305476; 306196; 306916; 307637; 308357; 309078; 309798; 310519;
   311239; 311960; 312680; 313401; 314121; 314842; 315562; 316282; 317003; 317723; 318444; 319164; 319885; 320605; 321326; 322046;
   322767; 323487; 324207; 324928; 325648; 326369; 327089; 327810; 328530; 329251; 329971; 330692; 331412; 332133; 332853; 333573;
   334294; 335014; 335735; 336455; 337176; 337896; 338617; 339337; 340058; 340778; 341499; 342219; 342939; 343660; 344380; 345101;
   345821; 346542; 347262; 347983; 348703; 349424; 350144; 350865; 351585; 352305; 353026; 353746; 354467; 355187; 355908; 356628;
   357349; 358069; 358790; 359510; 360231; 360951; 361671; 362392; 363112; 363833; 364553; 365274; 365994; 366715; 367435; 368156;
   368876; 369597; 370317; 371037; 371758; 372478; 373199; 373919; 374640; 375360; 376081; 376801; 377522; 378242; 378963; 379683;
   380403; 381124; 381844; 382565; 383285; 384006; 384726; 385447; 386167; 386888; 387608; 388329; 389049; 389769; 390490; 391210;
   391931; 392651; 393372; 394092; 394813; 395533; 396254; 396974; 397695; 398415; 399135; 399856; 400576; 401297; 402017; 402738;
   403458; 404179; 404899; 405620; 406340; 407061; 407781; 408501; 409222; 409942; 410663; 411383; 412104; 412824; 413545; 414265;
   414986; 415706; 416427; 417147; 417867; 418588; 419308; 420029; 420749; 421470; 422190; 422911; 423631; 424352; 425072; 425793;
   426513; 427233; 427954; 428674; 429395; 430115; 430836; 431556; 432277; 432997; 433718; 434438; 435158; 435879; 436599; 437320;
   438040; 438761; 439481; 440202; 440922; 441643; 442363; 443084; 443804; 444524; 445245; 445965; 446686; 447406; 448127; 448847;
   449568; 450288; 451009; 451729; 452450; 453170; 453891; 454611; 455331; 456052; 456772; 457493; 458213; 458934; 459654; 460375;
   461095; 461816; 462536; 463256; 463977; 464697; 465418; 466138; 466859; 467579; 468300; 469020; 469741; 470461; 471182; 471902;
   472622; 473343; 474063; 474784; 475504; 476225; 476945; 477666; 478386; 479107; 479827; 480548; 481268; 481988; 482709; 483429;
   484150; 484870; 485591; 486311; 487032; 487752; 488473; 489193; 489914; 490634; 491354; 492075; 492795; 493516; 494236; 494957;
   495677; 496398; 497118; 497839; 498559; 499280; 500000; 500720; 501441; 502161; 502882; 503602; 504323; 505043; 505764; 506484;
   507205; 507925; 508646; 509366; 510086; 510807; 511527; 512248; 512968; 513689; 514409; 515130; 515850; 516571; 517291; 518012;
   518732; 519452; 520173; 520893; 521614; 522334; 523055; 523775; 524496; 525216; 525937; 526657; 527378; 528098; 528818; 529539;
   530259; 530980; 531700; 532421; 533141; 533862; 534582; 535303; 536023; 536744; 537464; 538184; 538905; 539625; 540346; 541066;
   541787; 542507; 543228; 543948; 544669; 545389; 546109; 546830; 547550; 548271; 548991; 549712; 550432; 551153; 551873; 552594;
   553314; 554035; 554755; 555476; 556196; 556916; 557637; 558357; 559078; 559798; 560519; 561239; 561960; 562680; 563401; 564121;
   564842; 565562; 566282; 567003; 567723; 568444; 569164; 569885; 570605; 571326; 572046; 572767; 573487; 574207; 574928; 575648;
   576369; 577089; 577810; 578530; 579251; 579971; 580692; 581412; 582133; 582853; 583573; 584294; 585014; 585735; 586455; 587176;
   587896; 588617; 589337; 590058; 590778; 591499; 592219; 592939; 593660; 594380; 595101; 595821; 596542; 597262; 597983; 598703;
   599424; 600144; 600865; 601585; 602305; 603026; 603746; 604467; 605187; 605908; 606628; 607349; 608069; 608790; 609510; 610231;
   610951; 611671; 612392; 613112; 613833; 614553; 615274; 615994; 616715; 617435; 618156; 618876; 619597; 620317; 621037; 621758;
   622478; 623199; 623919; 624640; 625360; 626081; 626801; 627522; 628242; 628963; 629683; 630403; 631124; 631844; 632565; 633285;
   634006; 634726; 635447; 636167; 636888; 637608; 638329; 639049; 639769; 640490; 641210; 641931; 642651; 643372; 644092; 644813;
   645533; 646254; 646974; 647695; 648415; 649135; 649856; 650576; 651297; 652017; 652738; 653458; 654179; 654899; 655620; 656340;
   657061; 657781; 658501; 659222; 659942; 660663; 661383; 662104; 662824; 663545; 664265; 664986; 665706; 666427; 667147; 667867;
   668588; 669308; 670029; 670749; 671470; 672190; 672911; 673631; 674352; 675072; 675793; 676513; 677233; 677954; 678674; 679395;
   680115; 680836; 681556; 682277; 682997; 683718; 684438; 685158; 685879; 686599; 687320; 688040; 688761; 689481; 690202; 690922;
   691643; 692363; 693084; 693804; 694524; 695245; 695965; 696686; 697406; 698127; 698847; 699568; 700288; 701009; 701729; 702450;
   703170; 703891; 704611; 705331; 706052; 706772; 707493; 708213; 708934; 709654; 710375; 711095; 711816; 712536; 713256; 713977;
   714697; 715418; 716138; 716859; 717579; 718300; 719020; 719741; 720461; 721182; 721902; 722622; 723343; 724063; 724784; 725504;
   726225; 726945; 727666; 728386; 729107; 729827; 730548; 731268; 731988; 732709; 733429; 734150; 734870; 735591; 736311; 737032;
   737752; 738473; 739193; 739914; 740634; 741354; 742075; 742795; 743516; 744236; 744957; 745677; 746398; 747118; 747839; 748559;
   749280; 750000; 750720; 751441; 752161; 752882; 753602; 754323; 755043; 755764; 756484; 757205; 757925; 758646; 759366; 760086;
   760807; 761527; 762248; 762968; 763689; 764409; 765130; 765850; 766571; 767291; 768012; 768732; 769452; 770173; 770893; 771614;
   772334; 773055; 773775; 774496; 775216; 775937; 776657; 777378; 778098; 778818; 779539; 780259; 780980; 781700; 782421; 783141;
   783862; 784582; 785303; 786023; 786744; 787464; 788184; 788905; 789625; 790346; 791066; 791787; 792507; 793228; 793948; 794669;
   795389; 796109; 796830; 797550; 798271; 798991; 799712; 800432; 801153; 801873; 802594; 803314; 804035; 804755; 805476; 806196;
   806916; 807637; 808357; 809078; 809798; 810519; 811239; 811960; 812680; 813401; 814121; 814842; 815562; 816282; 817003; 817723;
   818444; 819164; 819885; 820605; 821326; 822046; 822767; 823487; 824207; 824928; 825648; 826369; 827089; 827810; 828530; 829251;
   829971; 830692; 831412; 832133; 832853; 833573; 834294; 835014; 835735; 836455; 837176; 837896; 838617; 839337; 840058; 840778;
   841499; 842219; 842939; 843660; 844380; 845101; 845821; 846542; 847262; 847983; 848703; 849424; 850144; 850865; 851585; 852305;
   853026; 853746; 854467; 855187; 855908; 856628; 857349; 858069; 858790; 859510; 860231; 860951; 861671; 862392; 863112; 863833;
   864553; 865274; 865994; 866715; 867435; 868156; 868876; 869597; 870317; 871037; 871758; 872478; 873199; 873919; 874640; 875360;
   876081; 876801; 877522; 878242; 878963; 879683; 880403; 881124; 881844; 882565; 883285; 884006; 884726; 885447; 886167; 886888;
   887608; 888329; 889049; 889769; 890490; 891210; 891931; 892651; 893372; 894092; 894813; 895533; 896254; 896974; 897695; 898415;
   899135; 899856; 900576; 901297; 902017; 902738; 903458; 904179; 904899; 905620; 906340; 907061; 907781; 908501; 909222; 909942;
   910663; 911383; 912104; 912824; 913545; 914265; 914986; 915706; 916427; 917147; 917867; 918588; 919308; 920029; 920749; 921470;
   922190; 922911; 923631; 924352; 925072; 925793; 926513; 927233; 927954; 928674; 929395; 930115; 930836; 931556; 932277; 932997;
   933718; 934438; 935158; 935879; 936599; 937320; 938040; 938761; 939481; 940202; 940922; 941643; 942363; 943084; 943804; 944524;
   945245; 945965; 946686; 947406; 948127; 948847; 949568; 950288; 951009; 951729; 952450; 953170; 953891; 954611; 955331; 956052;
   956772; 957493; 958213; 958934; 959654; 960375; 961095; 961816; 962536; 963256; 963977; 964697; 965418; 966138; 966859; 967579;
   968300; 969020; 969741; 970461; 971182; 971902; 972622; 973343; 974063; 974784; 975504; 976225; 976945; 977666; 978386; 979107;
   979827; 980548; 981268; 981988; 982709; 983429; 984150; 984870; 985591; 986311; 987032; 987752; 988473; 989193; 989914; 990634;
   991354; 992075; 992795; 993516; 994236; 994957; 995677; 996398; 997118; 997839; 998559; 999280; 1000000].
Definition toLinearLight : Z -> Z := table toLinearLight_data.
Definition CCIR709tosRGB : Z -> Z := table CCIR709tosRGB_data.
Definition uint8Output : Z -> Z := table uint8Output_data.
Definition uint16Output : Z -> Z := table uint16Output_data.
Definition floatOutput : Z -> Z := table floatOutput_data.

(** ** RGB conversion: the micro CMM *)

(** [struct ConvertToRGBData], the tile description handed to each thread.
    The four destination pointers are addresses in one output memory, so
    that interleaved buffers (green = red + 1, ...) alias as they do in C;
    [rd_alpha] is [None] for a [NULL] alpha pointer and the plane pointers
    are [None] when [NULL]. *)
Record ConvertToRGBData : Type := {
  rd_outputSize : Z;
  rd_red : Z;
  rd_green : Z;
  rd_blue : Z;
  rd_alpha : option Z;
  rd_d : Z;
  rd_startRow : Z;
  rd_endRow : Z;
  rd_columns : Z;
  rd_rows : Z;
  rd_lp : option mem;
  rd_c1p : option mem;
  rd_c2p : option mem;
  rd_resFactor : Z;
  rd_imageRotate : Z;
  rd_colorSpace : Z;
  rd_whiteBalance : Z
}.

(** The [switch (rd->imageRotate)] that computes [destIndex]. *)
Definition destIndex (rd : ConvertToRGBData) (row col : Z) : Z :=
  Int.s64
    (match rd_imageRotate rd with
     | 0 => (col + row * rd_columns rd) * rd_d rd
     | 1 => (row + (rd_columns rd - 1 - col) * rd_rows rd) * rd_d rd
     | 2 => (rd_columns rd - 1 - col + (rd_rows rd - 1 - row) * rd_columns rd) * rd_d rd
     | 3 => (rd_rows rd - 1 - row + col * rd_rows rd) * rd_d rd
     | _ => (col + row * rd_columns rd) * rd_d rd
     end).

Definition lumaIndex (rd : ConvertToRGBData) (row col : Z) : Z :=
  Int.s64 (col + row * rd_columns rd).

Definition chromaIndex (rd : ConvertToRGBData) (row col : Z) : Z :=
  Int.s64 (Z.shiftr col (rd_resFactor rd)
           + Z.shiftr row (rd_resFactor rd) * Z.shiftr (rd_columns rd) (rd_resFactor rd)).

Definition isNull (p : option mem) : bool :=
  match p with
  | Some _ => false
  | None => true
  end.

(** A read through a plane pointer that is not null.  A read through
    [NULL] is undefined behaviour in C.  The loops read through the same
    pointers in every turn, so the functions that run them on the planes of
    a decoder ([convertToRGB], [interpolateBuffers]) test the pointers that
    the first turn reads through, and end in [Fault] when one is null; the
    0 given here for [None] is not read by them.  [upResBuffer] on its own
    is the function for a base plane that is not null. *)
Definition deref (p : option mem) (i : Z) : Z :=
  match p with
  | Some m => m i
  | None => 0
  end.

(** The three [int32_t] locals [Li], [C1i], [C2i] of [convertToRGB].  They
    are declared outside the loops and initialised to 0, and [C1i], [C2i]
    are assigned only under [c1p != NULL], [c2p != NULL]: they carry over
    from one pixel to the next. *)
Record Locals : Type := { Li : Z; C1i : Z; C2i : Z }.

Definition locals0 : Locals := {| Li := 0; C1i := 0; C2i := 0 |}.

(** Lines [Li = ...], [C1i = ...], [C2i = ...] of the RGB branch. *)
Definition loadYCC (rd : ConvertToRGBData) (row col : Z) (l : Locals) : Locals :=
  {| Li := Int.s32 (deref (rd_lp rd) (lumaIndex rd row col) * 5573);
     C1i := match rd_c1p rd with
            | Some c1 => Int.s32 (Int.s32 (c1 (chromaIndex rd row col) - 156) * 9085)
            | None => C1i l
            end;
     C2i := match rd_c2p rd with
            | Some c2 => Int.s32 (Int.s32 (c2 (chromaIndex rd row col) - 137) * 7461)
            | None => C2i l
            end |}.

(** The three [pcdPin] lines that give RGB in the photo CD colour space:
    [>>] on [int32_t] is the arithmetic shift, [/] truncates. *)
Definition photoCDRGB (l : Locals) : Z * Z * Z :=
  (pcdPin 0 (Z.shiftr (Int.s32 (Li l + C2i l)) 10) 1388,
   pcdPin 0 (Int.s32 (Int.s32 (Z.shiftr (Li l) 10 - Z.quot (C1i l) 5278)
                      - Z.quot (C2i l) 2012)) 1388,
   pcdPin 0 (Z.shiftr (Int.s32 (Li l + C1i l)) 10) 1388).

(** The D65 to D50 adaptation, [>> 13] on [int32_t]. *)
Definition toD50 (rgb : Z * Z * Z) : Z * Z * Z :=
  let '(rt, gt, bt) := rgb in
  (Z.shiftr (Int.s32 (5930 * rt - 143 * gt + 393 * bt)) 13,
   Z.shiftr (Int.s32 (-176 * rt + 6268 * gt + 131 * bt)) 13,
   Z.shiftr (Int.s32 (76 * rt - 128 * gt + 8256 * bt)) 13).

(** The part of the RGB branch after the photo CD RGB values are known. *)
Definition toColorSpace (rd : ConvertToRGBData) (rgb : Z * Z * Z) : Z * Z * Z :=
  let rgb1 :=
    if (rd_colorSpace rd =? kPCDLinearCCIR709ColorSpace)
       || (rd_colorSpace rd =? kPCDsRGBColorSpace)
    then
      let '(r, g, b) := rgb in
      let lin := (toLinearLight r, toLinearLight g, toLinearLight b) in
      if rd_whiteBalance rd =? kPCDD50White then toD50 lin else lin
    else rgb in
  let '(r, g, b) := rgb1 in
  if rd_colorSpace rd =? kPCDsRGBColorSpace
  then (CCIR709tosRGB (pcdPin 0 r 1388),
        CCIR709tosRGB (pcdPin 0 g 1388),
        CCIR709tosRGB (pcdPin 0 b 1388))
  else (pcdPin 0 r 1388, pcdPin 0 g 1388, pcdPin 0 b 1388).

(** The YCC branch: the planes themselves, scaled to the index range. *)
Definition yccIndices (rd : ConvertToRGBData) (row col : Z) : Z * Z * Z :=
  (pcdPin 0 (Z.quot (Int.s32 (Z.shiftl (deref (rd_lp rd) (lumaIndex rd row col)) 10)) 188) 1388,
   pcdPin 0 (Z.quot (Int.s32 (Z.shiftl (deref (rd_c1p rd) (chromaIndex rd row col)) 10)) 188) 1388,
   pcdPin 0 (Z.quot (Int.s32 (Z.shiftl (deref (rd_c2p rd) (chromaIndex rd row col)) 10)) 188) 1388).

(** The indices [ri], [gi], [bi] of one pixel and the locals left behind. *)
Definition pixelIndices (rd : ConvertToRGBData) (row col : Z) (l : Locals)
  : (Z * Z * Z) * Locals :=
  if rd_colorSpace rd =? kPCDYCCColorSpace
  then (yccIndices rd row col, l)
  else
    let l' := loadYCC rd row col l in
    (toColorSpace rd (photoCDRGB l'), l').

(** "Deliver back in the right format": the stores of one pixel.  A float
    sample is kept in millionths, so the opaque alpha [1.0f] is 1000000. *)
Definition deliver (rd : ConvertToRGBData) (di : Z) (rgb : Z * Z * Z) (out : mem) : mem :=
  let '(r, g, b) := rgb in
  let lut := if rd_outputSize rd =? pcdFloatSize then floatOutput
             else if rd_outputSize rd =? pcdInt16Size then uint16Output
             else uint8Output in
  let opaque := if rd_outputSize rd =? pcdFloatSize then 1000000
                else if rd_outputSize rd =? pcdInt16Size then 0xffff
                else 0xff in
  let out := store out (rd_red rd + di) (lut r) in
  let out := store out (rd_green rd + di) (lut g) in
  let out := store out (rd_blue rd + di) (lut b) in
  match rd_alpha rd with
  | Some a => store out (a + di) opaque
  | None => out
  end.

(** The body of the inner loop. *)
Definition convertPixel (rd : ConvertToRGBData) (row col : Z) (st : Locals * mem)
  : Locals * mem :=
  let '(rgb, l') := pixelIndices rd row col (fst st) in
  (l', deliver rd (destIndex rd row col) rgb (snd st)).

(** The number of iterations of [for (i = from; i != to; i++)] on a
    [size_t] counter. *)
Definition loopCount (from to : Z) : nat := Z.to_nat (Int.u64 (to - from)).

(** [for (col = 0; col != rd->columns; col++)], [n] iterations left. *)
Fixpoint convertCols (rd : ConvertToRGBData) (row : Z) (n : nat) (col : Z)
  (st : Locals * mem) : Locals * mem :=
  match n with
  | O => st
  | S n' => convertCols rd row n' (Int.u64 (col + 1)) (convertPixel rd row col st)
  end.

(** [for (row = rd->startRow; row != rd->endRow; row++)]. *)
Fixpoint convertRows (rd : ConvertToRGBData) (n : nat) (row : Z)
  (st : Locals * mem) : Locals * mem :=
  match n with
  | O => st
  | S n' =>
      convertRows rd n' (Int.u64 (row + 1))
        (convertCols rd row (loopCount 0 (rd_columns rd)) 0 st)
  end.

(** The plane pointers that the loop body reads through without a test:
    [rd->lp] in both branches, [rd->c1p] and [rd->c2p] in the YCC branch
    only, as the RGB branch tests them before each read. *)
Definition nullRead (rd : ConvertToRGBData) : bool :=
  isNull (rd_lp rd)
  || ((rd_colorSpace rd =? kPCDYCCColorSpace)
      && (isNull (rd_c1p rd) || isNull (rd_c2p rd))).

(** [convertToRGB (rd)]: the band of rows of [rd].  When the band has a
    pixel and one of the pointers of [nullRead] is null, the first pixel
    reads through [NULL]: [Fault]. *)
Definition convertToRGB (rd : ConvertToRGBData) (out : mem) : result mem :=
  if nullRead rd
     && negb (Int.u64 (rd_endRow rd - rd_startRow rd) =? 0)
     && negb (Int.u64 (rd_columns rd - 0) =? 0)
  then Fault
  else
    Ok (snd (convertRows rd (loopCount (rd_startRow rd) (rd_endRow rd)) (rd_startRow rd)
               (locals0, out))).

(** ** Endian neutral reads *)

(** A byte of a buffer held as a list; past the end the model reads 0. *)
Definition byteAt (buffer : list Z) (i : Z) : Z :=
  if i <? 0 then 0 else nth (Z.to_nat i) buffer 0.

Definition getPCD16 (buffer : list Z) (off : Z) : Z :=
  Int.u16 (Z.lor (Z.shiftl (byteAt buffer off) 8) (byteAt buffer (off + 1))).

Definition getPCD32 (buffer : list Z) (off : Z) : Z :=
  Int.u32 (Z.lor (Z.lor (Z.lor (Z.shiftl (byteAt buffer off) 24)
                               (Z.shiftl (byteAt buffer (off + 1)) 16))
                        (Z.shiftl (byteAt buffer (off + 2)) 8))
                 (byteAt buffer (off + 3))).

(** ** Files

    The contents of a regular file: the byte at every offset and the
    number of bytes. *)
Record FileBytes : Type := { fb_byte : Z -> Z; fb_size : Z }.

Definition fileOfList (bytes : list Z) : FileBytes :=
  {| fb_byte := byteAt bytes; fb_size := Z.of_nat (List.length bytes) |}.

(** An open [FILE *]: the file, the read position and the end-of-file
    indicator. *)
Record FILE : Type := { f_data : FileBytes; f_pos : Z; f_eof : bool }.

Definition fopen (data : FileBytes) : FILE :=
  {| f_data := data; f_pos := 0; f_eof := false |}.

(** [fseek (fp, offset, SEEK_SET)]; a negative offset fails and leaves the
    stream where it was. *)
Definition fseek (fp : FILE) (offset : Z) : FILE :=
  if offset <? 0 then fp
  else {| f_data := f_data fp; f_pos := offset; f_eof := false |}.

(** The number of bytes of [fp] that have not been read yet. *)
Definition remaining (fp : FILE) : Z := Z.max 0 (fb_size (f_data fp) - f_pos fp).

(** [fread (ptr, 1, n, fp)]: the bytes obtained and the stream afterwards.
    The indicator is set when fewer than [n] bytes were left. *)
Definition fread (n : Z) (fp : FILE) : list Z * FILE :=
  let k := Z.min n (remaining fp) in
  let got := map (fun i => fb_byte (f_data fp) (f_pos fp + Z.of_nat i))
                 (seq 0 (Z.to_nat k)) in
  (got,
   {| f_data := f_data fp;
      f_pos := f_pos fp + Z.of_nat (List.length got);
      f_eof := f_eof fp || (Z.of_nat (List.length got) <? n) |}).

(** [memcpy] of [bytes] into a buffer held as a list, at offset [at_]. *)
Definition blit (buffer : list Z) (at_ : Z) (bytes : list Z) : list Z :=
  firstn (Z.to_nat at_) buffer ++ bytes
  ++ skipn (Z.to_nat at_ + List.length bytes) buffer.

(** ** Huffman decoder structures *)

Record ReadBuffer : Type := {
  rb_sbuffer : list Z;
  rb_fp : FILE;
  rb_sum : Z;
  rb_bits : Z;
  rb_p : Z
}.

(** [struct huffTable]: the two arrays of 0x10000 bytes, as functions of
    the 16-bit code. *)
Record huffTable : Type := { ht_key : Z -> Z; ht_len : Z -> Z }.

(** [struct huffTables]: [ht[0]], [ht[1]], [ht[2]]. *)
Record huffTables : Type := { ht0 : huffTable; ht1 : huffTable; ht2 : huffTable }.

Definition kHuffmanErrorLen : Z := 0x1f.

(** ** Huffman decoder implementation *)

(** The loop of [readHuffTable] that spreads one entry over every code it
    prefixes: [n] iterations left, [index] the loop counter. *)
Fixpoint spreadEntry (n : nat) (index codeWord key len : Z) (t : huffTable) : huffTable :=
  match n with
  | O => t
  | S n' =>
      let loc := Int.u16 (Z.lor codeWord index) in
      spreadEntry n' (index + 1) codeWord key len
        {| ht_key := store (ht_key t) loc key; ht_len := store (ht_len t) loc len |}
  end.

(** The loop over the entries of one table; [source] is the offset of the
    [struct hctTable] in [buffer]. *)
Fixpoint readEntries (n : nat) (i : Z) (buffer : list Z) (source : Z) (t : huffTable)
  : result huffTable :=
  match n with
  | O => Ok t
  | S n' =>
      let sub := source + 1 + i * 4 in
      let len := byteAt buffer sub + 1 in
      if len >? 16 then Throw "Huffman code error!!"
      else
        readEntries n' (i + 1) buffer source
          (spreadEntry (Z.to_nat (Z.shiftl 1 (16 - len))) 0
             (getPCD16 buffer (sub + 1)) (byteAt buffer (sub + 3)) len t)
  end.

(** [readHuffTable]: the table and [*number]. *)
Definition readHuffTable (buffer : list Z) (source : Z) : result (huffTable * Z) :=
  let number := byteAt buffer source + 1 in
  t <- readEntries (Z.to_nat number) 0 buffer source
         {| ht_key := fun _ => 0x7f; ht_len := fun _ => kHuffmanErrorLen |} ;;
  Ok (t, number).

(** [readNextSector]: the loop around [fread]; [fuel] bounds the number of
    partial reads, each of which delivers at least one byte. *)
Fixpoint readNextSectorLoop (fuel : nat) (ptr n : Z) (sbuffer : list Z) (fp : FILE)
  : bool * list Z * FILE :=
  match fuel with
  | O => (true, sbuffer, fp)
  | S fuel' =>
      let '(got, fp') := fread n fp in
      let d := Z.of_nat (List.length got) in
      if d <? 1 then (false, sbuffer, fp')
      else
        let sbuffer' := blit sbuffer ptr got in
        let n' := n - d in
        if (n' =? 0) || f_eof fp' then (true, sbuffer', fp')
        else readNextSectorLoop fuel' (ptr + d) n' sbuffer' fp'
  end.

Definition readNextSector (buffer : ReadBuffer) : bool * ReadBuffer :=
  let '(ok, sbuffer, fp) :=
    readNextSectorLoop (Z.to_nat KSectorSize) 0 KSectorSize
      (rb_sbuffer buffer) (rb_fp buffer) in
  (ok, {| rb_sbuffer := sbuffer; rb_fp := fp; rb_sum := rb_sum buffer;
          rb_bits := rb_bits buffer; rb_p := rb_p buffer |}).

(** The [while (b->bits <= 24)] loop of [PCDGetBits].  Each turn adds 8 to
    [bits], so four turns always reach the exit ([fillBits_spec]). *)
Fixpoint fillBits (fuel : nat) (b : ReadBuffer) : result ReadBuffer :=
  match fuel with
  | O => Ok b
  | S fuel' =>
      if rb_bits b <=? 24 then
        b1 <- (if rb_p b >=? KSectorSize then
                 let '(ok, b') := readNextSector b in
                 if ok
                 then Ok {| rb_sbuffer := rb_sbuffer b'; rb_fp := rb_fp b';
                            rb_sum := rb_sum b'; rb_bits := rb_bits b'; rb_p := 0 |}
                 else Throw "Unexpected end of file in Huffman sequence"
               else Ok b) ;;
        fillBits fuel'
          {| rb_sbuffer := rb_sbuffer b1;
             rb_fp := rb_fp b1;
             rb_sum := Z.lor (rb_sum b1)
                         (Int.u32 (Z.shiftl (byteAt (rb_sbuffer b1) (rb_p b1))
                                            (24 - rb_bits b1)));
             rb_bits := Int.u64 (rb_bits b1 + 8);
             rb_p := rb_p b1 + 1 |}
      else Ok b
  end.

Definition PCDGetBits (b : ReadBuffer) (n : Z) : result ReadBuffer :=
  fillBits 4
    {| rb_sbuffer := rb_sbuffer b;
       rb_fp := rb_fp b;
       rb_sum := Z.land (Int.u64 (Z.shiftl (rb_sum b) n)) 0xffffffff;
       rb_bits := Int.u64 (rb_bits b - n);
       rb_p := rb_p b |}.

(** [initReadBuffer]: [buffer] is the caller's struct, whose [sbuffer] holds
    whatever the stack held. *)
Definition initReadBuffer (buffer : ReadBuffer) (file : FILE) : result ReadBuffer :=
  PCDGetBits
    {| rb_sbuffer := rb_sbuffer buffer; rb_fp := file; rb_sum := 0; rb_bits := 0;
       rb_p := KSectorSize |} 0.

(** The two loop conditions of [syncHuffman]. *)
Definition atMarkerByte (b : ReadBuffer) : bool :=
  Z.land (rb_sum b) 0x00fff000 =? 0x00fff000.

Definition atMarker (b : ReadBuffer) : bool :=
  Z.land (rb_sum b) 0xffffff00 =? 0xfffffe00.

(** The body of a loop [while (!cond) PCDGetBits (b, n);]. *)
Definition scanStep (cond : ReadBuffer -> bool) (n : Z) (b : ReadBuffer)
  : loopStep ReadBuffer (result ReadBuffer) :=
  if cond b then Leave (Ok b) else turn (PCDGetBits b n).

(** The body of [while (!((b->sum & 0x00fff000) == 0x00fff000))
    PCDGetBits(b, 8);] *)
Definition skipStep : ReadBuffer -> loopStep ReadBuffer (result ReadBuffer) :=
  scanStep atMarkerByte 8.

(** The body of [while (!((b->sum & 0xffffff00) == 0xfffffe00))
    PCDGetBits(b, 1);] *)
Definition slideStep : ReadBuffer -> loopStep ReadBuffer (result ReadBuffer) :=
  scanStep atMarker 1.

(** The bits that the stream can still deliver: those in the shift
    register, those of the sector buffer, and a whole sector for every
    byte left in the file (a short last sector is followed by what the
    buffer held before). *)
Definition availBits (b : ReadBuffer) : Z :=
  rb_bits b + 8 * (KSectorSize - rb_p b) + 8 * KSectorSize * remaining (rb_fp b).

(** Every turn of the two loops takes at least one bit, so
    [2 ^ syncFuel b] turns are more than either can make. *)
Definition syncFuel (b : ReadBuffer) : nat := Z.to_nat (Z.log2_up (availBits b + 1)).

(** The first loop of [syncHuffman], a byte at a time. *)
Definition skipToMarkerByte (b : ReadBuffer) : result ReadBuffer :=
  runLoop (syncFuel b) skipStep b.

(** The second loop of [syncHuffman], a bit at a time. *)
Definition slideToMarker (b : ReadBuffer) : result ReadBuffer :=
  runLoop (syncFuel b) slideStep b.

Definition syncHuffman (b : ReadBuffer) : result ReadBuffer :=
  b1 <- skipToMarkerByte b ;;
  slideToMarker b1.

(** [code = (b->sum >> 16) & 0xffff]. *)
Definition currentCode (b : ReadBuffer) : Z := Z.land (Z.shiftr (rb_sum b) 16) 0xffff.

(** The recovery loop [for (i = 0; i < length; i++) *dest++ = 0x0;]. *)
Fixpoint zeroSequence (n : nat) (dest : Z) (m : mem) : mem :=
  match n with
  | O => m
  | S n' => zeroSequence n' (dest + 1) (store m dest 0)
  end.

(** The [for] loop of [PCDDecodeHuffman]: [n] symbols left, [i] the loop
    counter, [m] the memory that holds the destination plane and [dest] the
    address of the sequence in it. *)
Fixpoint decodeSymbols (n : nat) (i : Z) (b : ReadBuffer) (huf : huffTable)
  (dest length : Z) (m : mem) : result (ReadBuffer * mem) :=
  match n with
  | O => Ok (b, m)
  | S n' =>
      let code := currentCode b in
      if ht_len huf code =? kHuffmanErrorLen then
        let m' := zeroSequence (Z.to_nat length) dest m in
        b' <- syncHuffman b ;;
        Ok (b', m')
      else
        let m' := store m (dest + i) (ht_key huf code) in
        b' <- PCDGetBits b (ht_len huf code) ;;
        decodeSymbols n' (i + 1) b' huf dest length m'
  end.

Definition PCDDecodeHuffman (b : ReadBuffer) (huf : huffTable) (dest length : Z) (m : mem)
  : result (ReadBuffer * mem) :=
  decodeSymbols (Z.to_nat length) 0 b huf dest length m.

(** The first [n] bytes of a block. *)
Definition blockBytes (m : mem) (n : Z) : list Z :=
  map (fun i => m (Z.of_nat i)) (seq 0 (Z.to_nat n)).

(** [tables->ht[i]], read and written. *)
Definition getTable (tables : huffTables) (i : Z) : huffTable :=
  if i =? 0 then ht0 tables else if i =? 1 then ht1 tables else ht2 tables.

Definition setTable (tables : huffTables) (i : Z) (t : huffTable) : huffTables :=
  if i =? 0 then {| ht0 := t; ht1 := ht1 tables; ht2 := ht2 tables |}
  else if i =? 1 then {| ht0 := ht0 tables; ht1 := t; ht2 := ht2 tables |}
  else {| ht0 := ht0 tables; ht1 := ht1 tables; ht2 := t |}.

(** The loop of [readAllHuffmanTables] over the tables; [ptr] is the offset
    in [buffer] of the next table. *)
Fixpoint readTables (n : nat) (i ptr : Z) (buffer : list Z) (tables : huffTables)
  : result huffTables :=
  match n with
  | O => Ok tables
  | S n' =>
      tn <- readHuffTable buffer ptr ;;
      let '(t, num) := tn in
      let tables1 := setTable tables i t in
      let tables2 :=
        if (num <? 4) && (i >? 0)
        then setTable tables1 i (getTable tables1 (i - 1))
        else tables1 in
      readTables n' (i + 1) (ptr + (num * 4 + 1)) buffer tables2
  end.

(** [readAllHuffmanTables].  [fresh] is what [malloc (numBytes)] returned:
    [None] for [NULL], else the block with what it held.  The result of
    [fread] is not looked at, so where the file ends early the tables are
    read from those bytes. *)
Definition readAllHuffmanTables (fp : FILE) (offset : Z) (tables : huffTables)
  (numTables : Z) (fresh : option mem) : result huffTables :=
  let numBytes := kSceneSectorSize * (if numTables =? 1 then 1 else 2) in
  match fresh with
  | None => Throw "memory allocation error"
  | Some block =>
      let '(got, _) := fread numBytes (fseek fp offset) in
      readTables (Z.to_nat numTables) 0 0
        (blit (blockBytes block numBytes) 0 got) tables
  end.

(** ** Reader for the delta tables *)

(** [uint8_t *data[3]]: the three delta planes of one resolution. *)
Record DeltaPlanes : Type := {
  data0 : option mem;
  data1 : option mem;
  data2 : option mem
}.

(** The four lines of [readPCDDeltas] that take [row], [sequence] and
    [plane] out of the shift register. *)
Definition sequenceHeader (sceneSelect sum : Z) : Z * Z * Z :=
  let row := Z.land (Z.shiftr sum (RowShift sceneSelect)) (RowMask sceneSelect) in
  let sequence :=
    Z.land (Z.shiftr sum (SequenceShift sceneSelect)) (SequenceMask sceneSelect) in
  let plane := Z.land (Z.shiftr sum (PlaneShift sceneSelect)) (PlaneMask sceneSelect) in
  (Int.u64 (row * (if plane =? 0 then 1 else RowSubSample sceneSelect)), sequence, plane).

(** [for (count = 0; count < HuffmanHeaderSize[sceneSelect]; count++)
    PCDGetBits (buf, 8);] *)
Fixpoint skipHeader (n : nat) (buf : ReadBuffer) : result ReadBuffer :=
  match n with
  | O => Ok buf
  | S n' => b <- PCDGetBits buf 8 ;; skipHeader n' b
  end.

(** The [switch (plane)] of [readPCDDeltas]: the buffer, the planes and
    [planeTrack] after one sequence. *)
Definition dispatchPlane (buf : ReadBuffer) (huf : huffTables)
  (sceneSelect sequenceSize colOffset row sequence plane planeTrack : Z)
  (data : DeltaPlanes) : result (ReadBuffer * DeltaPlanes * Z) :=
  let chromaDest :=
    Int.u64 (Z.shiftr row 1 * PCDChromaWidth sceneSelect)
    + Int.u32 (sequence * sequenceSize) + Z.shiftr colOffset 1 in
  let chromaLength :=
    if sequenceSize =? 0 then PCDChromaWidth sceneSelect else sequenceSize in
  if plane =? 0 then
    match data0 data with
    | None => Fault
    | Some m =>
        bm <- PCDDecodeHuffman buf (ht0 huf)
                (Int.u64 (row * PCDLumaWidth sceneSelect)
                 + Int.u32 (sequence * sequenceSize) + colOffset)
                (if sequenceSize =? 0 then PCDLumaWidth sceneSelect else sequenceSize)
                m ;;
        Ok (fst bm,
            {| data0 := Some (snd bm); data1 := data1 data; data2 := data2 data |},
            Z.land planeTrack 0x6)
    end
  else if plane =? 2 then
    match data1 data with
    | None => Ok (buf, data, Z.land planeTrack 0x5)
    | Some m =>
        bm <- PCDDecodeHuffman buf (ht1 huf) chromaDest chromaLength m ;;
        Ok (fst bm,
            {| data0 := data0 data; data1 := Some (snd bm); data2 := data2 data |},
            Z.land planeTrack 0x5)
    end
  else if (plane =? 3) || (plane =? 4) then
    match data2 data with
    | None => Ok (buf, data, Z.land planeTrack 0x3)
    | Some m =>
        bm <- PCDDecodeHuffman buf (ht2 huf) chromaDest chromaLength m ;;
        Ok (fst bm,
            {| data0 := data0 data; data1 := data1 data; data2 := Some (snd bm) |},
            Z.land planeTrack 0x3)
    end
  else Throw "Corrupt Image".

(** The [while] loop of [readPCDDeltas].  [sequencesToProcess] goes down by
    one at every turn and the loop stops when it reaches 0, so it is the
    recursion argument [n]. *)
Fixpoint deltaLoop (n : nat) (huf : huffTables)
  (sceneSelect sequenceSize colOffset planeTrack row : Z)
  (buf : ReadBuffer) (data : DeltaPlanes) : result (ReadBuffer * DeltaPlanes) :=
  match n with
  | O => Ok (buf, data)
  | S n' =>
      if negb (planeTrack =? 0) || (row <? PCDLumaHeight sceneSelect) then
        b1 <- syncHuffman buf ;;
        b2 <- PCDGetBits b1 16 ;;
        let '(row', sequence, plane) := sequenceHeader sceneSelect (rb_sum b2) in
        b3 <- skipHeader (Z.to_nat (HuffmanHeaderSize sceneSelect)) b2 ;;
        r <- (if row' <? PCDLumaHeight sceneSelect
              then dispatchPlane b3 huf sceneSelect sequenceSize colOffset
                     row' sequence plane planeTrack data
              else Ok (b3, data, planeTrack)) ;;
        let '(b4, data', planeTrack') := r in
        deltaLoop n' huf sceneSelect sequenceSize colOffset planeTrack' row' b4 data'
      else Ok (buf, data)
  end.

Definition readPCDDeltas (buf : ReadBuffer) (huf : huffTables)
  (sceneSelect sequenceSize sequencesToProcess : Z) (data : DeltaPlanes) (colOffset : Z)
  : result (ReadBuffer * DeltaPlanes) :=
  let planeTrack :=
    Z.lor (Z.lor (if isNull (data0 data) then 0 else 0x1)
                 (if isNull (data1 data) then 0 else 0x2))
          (if isNull (data2 data) then 0 else 0x4) in
  let sequencesToProcess :=
    if sequencesToProcess =? 0
    then (if sceneSelect =? k64Base then 1
          else PCDLumaHeight sceneSelect + 2 * PCDChromaHeight sceneSelect)
    else sequencesToProcess in
  deltaLoop (Z.to_nat sequencesToProcess) huf sceneSelect sequenceSize colOffset
    planeTrack 0 buf data.

(** ** Lookups for metadata, film code definitions, etc *)

Definition kMaxPCDFilms : Z := 219.
Definition kMaxPCDmediums : Z := 10.
Definition kMaxSBATypes : Z := 4.
Definition kMaxHuffmanClasses : Z := 4.

(** A read of a static array of string literals; outside the array the
    model reads the empty string. *)
Definition stringTable (l : list string) (i : Z) : string :=
  if i <? 0 then "" else nth (Z.to_nat i) l "".

Definition PCDMediumTypes : Z -> string :=
  stringTable
    ["color negative"; "color reversal"; "color hard copy"; "thermal hard copy";
     "black and white negative"; "black and white reversal";
     "black and white hard copy"; "internegative"; "synthetic image"; "chromogenic"].

Definition PCDSBATypes : Z -> string :=
  stringTable
    ["neutral SBA on, color SBA on"; "neutral SBA off, color SBA off";
     "neutral SBA on, color SBA off"; "neutral SBA off, color SBA on"].

Definition PCDHuffmanClasses : Z -> string :=
  stringTable
    ["class 1 - 35mm film; pictoral hard copy"; "class 2 - large format film";
     "class 3 - text and graphics, high resolution";
     "class 4 - text and graphics, high dynamic range"].

(** static const short PCDFTN_PC_GC_Medium[kMaxPCDFilms][4]: film term number, PC, GC (-1 for not specified) and medium, one row per film. *)
Definition PCDFTN_PC_GC_Medium : list (Z * Z * Z * Z) :=
  [(1, 18, 7, 0); (2, 18, 9, 0); (3, 18, 8, 0); (7, 18, 3, 0);
   (9, 18, 5, 0); (16, 113, -1, 0); (17, 17, 7, 0); (18, 17, 4, 0);
   (19, 17, 10, 0); (20, 49, 7, 0); (21, 17, 1, 0); (26, 10, 6, 0);
   (27, 10, 12, 0); (28, 10, 14, 0); (29, 10, 2, 0); (30, 10, 5, 0);
   (31, 10, 8, 0); (32, 10, 11, 0); (33, 10, 10, 0); (34, 10, 13, 0);
   (35, 8, 4, 0); (36, 10, 4, 0); (37, 8, -1, 0); (38, 8, 3, 0);
   (39, 10, 3, 0); (40, 8, 2, 0); (43, 8, 6, 0); (45, 82, 2, 0);
   (47, 82, 3, 0); (55, 81, 9, 0); (56, 81, 3, 0); (57, 81, 2, 0);
   (58, 81, 1, 0); (60, 80, 9, 0); (61, 80, 12, 0); (62, 81, 7, 0);
   (65, 80, 4, 0); (66, 80, 5, 0); (67, 80, 14, 0); (68, 80, 3, 0);
   (69, 80, 2, 0); (70, 82, 1, 0); (71, 80, 6, 0); (72, 80, 11, 0);
   (73, 80, 8, 0); (74, 80, 7, 0); (87, 112, 4, 0); (88, 81, 6, 0);
   (89, 81, 4, 0); (90, 81, 10, 0); (92, 81, 8, 0); (97, 67, 1, 4);
   (98, 67, 3, 4); (99, 67, 2, 4); (101, 112, 3, 0); (102, 112, 1, 0);
   (121, 2, 11, 0); (122, 40, -1, 0); (123, 40, 6, 0); (138, 80, -1, 0);
   (139, -1, -1, 0); (143, 81, 11, 0); (147, 129, 1, 0); (148, 129, 2, 0);
   (149, 82, 7, 0); (150, 130, 1, 7); (151, 17, 3, 0); (152, 10, 9, 0);
   (153, 17, 2, 0); (154, 82, 6, 0); (155, 40, 13, 0); (156, 40, 4, 0);
   (157, 17, 2, 0); (158, 17, 2, 0); (162, 80, 7, 0); (163, 80, 8, 0);
   (164, 80, 11, 0); (174, 130, 2, 7); (175, 130, 3, 7); (176, 130, 4, 7);
   (184, 67, 20, 4); (185, 67, 21, 4); (186, 67, 22, 4); (187, 67, 23, 4);
   (188, 67, 24, 4); (189, 67, 25, 4); (190, 67, 26, 4); (191, 67, 27, 4);
   (192, 67, 28, 4); (193, 67, 29, 4); (195, 67, 31, 4); (196, 67, 32, 4);
   (197, 67, 33, 4); (198, 67, 34, 4); (214, 67, 35, 4); (215, 67, 36, 4);
   (216, 67, 37, 4); (217, 67, 38, 4); (218, 67, 39, 4); (219, 67, 40, 4);
   (224, 66, 10, 0); (266, 17, 5, 0); (267, 40, 3, 0); (268, 18, 9, 0);
   (269, 40, 11, 0); (270, 110, 3, 9); (271, 40, -1, 0); (272, 40, 6, 0);
   (273, 40, 11, 0); (282, 66, 5, 0); (284, 40, 7, 0); (307, 67, 99, 1);
   (308, 20, 64, 1); (312, 52, 55, 1); (324, 82, 10, 0); (328, 12, 12, 0);
   (329, 12, 3, 0); (330, 12, 10, 0); (333, 116, 22, 1); (334, 12, 2, 0);
   (366, 150, 1, 0); (367, 150, 2, 0); (368, 150, 3, 0); (369, 150, 4, 0);
   (418, 82, 10, 0); (430, 83, 2, 0); (431, 82, 13, 0); (432, 83, 4, 0);
   (443, 83, 8, 0); (444, 83, 10, 0); (445, 52, 70, 1); (446, 52, 71, 1);
   (447, 116, 70, 1); (448, 116, 71, 1); (449, 83, 8, 0); (456, 81, 1, 0);
   (457, 83, 8, 0); (458, 83, 8, 0); (459, 83, 8, 0); (460, 83, 8, 0);
   (461, 83, 8, 0); (462, 83, 8, 0); (463, 83, 2, 0); (464, 83, 2, 0);
   (465, 83, 2, 0); (466, 83, 2, 0); (467, 83, 4, 0); (468, 83, 4, 0);
   (469, 83, 4, 0); (470, 83, 4, 0); (471, 83, 9, 0); (472, 82, 13, 0);
   (473, 82, 13, 0); (474, 83, 5, 0); (475, 83, 5, 0); (476, 83, 5, 0);
   (477, 83, 5, 0); (478, 83, 5, 0); (479, 83, 6, 0); (480, 83, 6, 0);
   (481, 83, 6, 0); (482, 83, 6, 0); (483, 83, 6, 0); (484, 83, 6, 0);
   (485, 83, 6, 0); (486, 83, 6, 0); (487, 83, 6, 0); (488, 83, 6, 0);
   (489, 83, 3, 0); (490, 112, 11, 0); (491, 112, 11, 0); (492, 112, 11, 0);
   (493, 83, -1, 0); (505, 112, 12, 0); (508, 83, 11, 0); (517, 52, 72, 1);
   (519, 83, 12, 0); (520, 83, 14, 0); (521, 83, 13, 0); (522, 91, 10, 0);
   (523, 52, 73, 1); (524, 52, 74, 1); (525, 116, 72, 1); (526, 116, 73, 1);
   (527, 116, 74, 1); (528, 67, 72, 1); (532, 91, 2, 0); (533, 91, 3, 0);
   (534, 91, 1, 0); (535, 78, 8, 0); (536, 79, 2, 0); (537, 79, 2, 0);
   (538, 79, 2, 0); (539, 132, 1, 0); (540, 78, 1, 0); (545, 79, 4, 0);
   (546, 78, 1, 0); (547, 78, 2, 0); (548, 78, 3, 0); (549, 78, 4, 0);
   (550, 78, 5, 0); (551, 78, 6, 0); (552, 78, 7, 0); (554, 52, 75, 1);
   (555, 52, 76, 1); (556, 52, 77, 1); (557, 52, 78, 1); (558, 78, -1, 9);
   (563, 78, 4, 0); (564, 78, 6, 0); (565, 78, 7, 0); (567, 79, 11, 0);
   (568, 79, 11, 0); (569, 79, 13, 0); (570, 79, 13, 0); (575, 91, 5, 0);
   (576, 91, 6, 0); (577, 94, 1, 9); (578, 78, 15, 0)].

(** static const char *PCDMediumNames[kMaxPCDFilms]. *)
Definition PCDMediumNames : list string :=
  ["3M ScotchColor AT 100"; "3M ScotchColor AT 200";
   "3M ScotchColor HR2 400"; "3M Scotch HR 200 Gen 2";
   "3M Scotch HR 400 Gen 2"; "AGFA AGFACOLOR XRS 400 Gen 1";
   "AGFA AGFACOLOR XRG/XRS 400"; "AGFA AGFACOLOR XRG/XRS 200";
   "AGFA AGFACOLOR XRS 1000 Gen 2"; "AGFA AGFACOLOR XRS 400 Gen 2";
   "AGFA AGFACOLOR XRS/XRC 100"; "FUJI Reala 100 (JAPAN)";
   "FUJI Reala 100 Gen 1"; "FUJI Reala 100 Gen 2";
   "FUJI SHR 400 Gen 2"; "FUJI Super HG 100";
   "FUJI Super HG 1600 Gen 1"; "FUJI Super HG 200";
   "FUJI Super HG 400"; "FUJI Super HG 100 Gen 2";
   "FUJI Super HR 100 Gen 1"; "FUJI Super HR 100 Gen 2";
   "FUJI Super HR 1600 Gen 2"; "FUJI Super HR 200 Gen 1";
   "FUJI Super HR 200 Gen 2"; "FUJI Super HR 400 Gen 1";
   "FUJI NSP 160S (PRO)"; "KODAK KODACOLOR VR 100 Gen 2";
   "KODAK GOLD 400 Gen 3"; "KODAK EKTAR 100 Gen 1";
   "KODAK EKTAR 1000 Gen 1"; "KODAK EKTAR 125 Gen 1";
   "KODAK ROYAL GOLD 25 RZ"; "KODAK GOLD 1600 Gen 1";
   "KODAK GOLD 200 Gen 2"; "KODAK GOLD 400 Gen 2";
   "KODAK KODACOLOR VR 100 Gen 1"; "KODAK KODACOLOR VR 1000 Gen 2";
   "KODAK KODACOLOR VR 1000 Gen 1"; "KODAK KODACOLOR VR 200 Gen 1";
   "KODAK KODACOLOR VR 400 Gen 1"; "KODAK KODACOLOR VR 200 Gen 2";
   "KODAK KODACOLOR VRG 100 Gen 1"; "KODAK GOLD 100 Gen 2";
   "KODAK KODACOLOR VRG 200 Gen 1"; "KODAK GOLD 400 Gen 1";
   "KODAK EKTACOLOR GOLD 160"; "KODAK EKTAPRESS 1600 Gen 1 PPC";
   "KODAK EKTAPRESS GOLD 100 Gen 1 PPA"; "KODAK EKTAPRESS GOLD 400 PPB-3";
   "KODAK EKTAR 25 Professional PHR"; "KODAK T-MAX 100 Professional";
   "KODAK T-MAX 3200 Professional"; "KODAK T-MAX 400 Professional";
   "KODAK VERICOLOR 400 Prof VPH"; "KODAK VERICOLOR III Pro";
   "KONICA KONICA COLOR SR-G 3200"; "KONICA KONICA COLOR SUPER SR100";
   "KONICA KONICA COLOR SUPER SR 400"; "KODAK GOLD UNKNOWN";
   "KODAK UNKNOWN NEG A-"; "KODAK EKTAR 100 Gen 2";
   "KODAK KODACOLOR CII"; "KODAK KODACOLOR II";
   "KODAK GOLD Plus 200 Gen 3"; "KODAK Internegative +10% Contrast";
   "AGFA AGFACOLOR Ultra 50"; "FUJI NHG 400";
   "AGFA AGFACOLOR XRG 100"; "KODAK GOLD Plus 100 Gen 3";
   "KONICA KONICA COLOR SUPER SR200 GEN 1"; "KONICA KONICA COLOR SR-G 160";
   "AGFA AGFACOLOR OPTIMA 125"; "AGFA AGFACOLOR PORTRAIT 160";
   "KODAK KODACOLOR VRG 400 Gen 1"; "KODAK GOLD 200 Gen 1";
   "KODAK KODACOLOR VRG 100 Gen 2"; "KODAK Internegative +20% Contrast";
   "KODAK Internegative +30% Contrast"; "KODAK Internegative +40% Contrast";
   "KODAK TMAX-100 D-76 CI = .40"; "KODAK TMAX-100 D-76 CI = .50";
   "KODAK TMAX-100 D-76 CI = .55"; "KODAK TMAX-100 D-76 CI = .70";
   "KODAK TMAX-100 D-76 CI = .80"; "KODAK TMAX-100 TMAX CI = .40";
   "KODAK TMAX-100 TMAX CI = .50"; "KODAK TMAX-100 TMAX CI = .55";
   "KODAK TMAX-100 TMAX CI = .70"; "KODAK TMAX-100 TMAX CI = .80";
   "KODAK TMAX-400 D-76 CI = .40"; "KODAK TMAX-400 D-76 CI = .50";
   "KODAK TMAX-400 D-76 CI = .55"; "KODAK TMAX-400 D-76 CI = .70";
   "KODAK TMAX-400 D-76 CI = .80"; "KODAK TMAX-400 TMAX CI = .40";
   "KODAK TMAX-400 TMAX CI = .50"; "KODAK TMAX-400 TMAX CI = .55";
   "KODAK TMAX-400 TMAX CI = .70"; "KODAK TMAX-400 TMAX CI = .80";
   "3M ScotchColor ATG 400/EXL 400"; "AGFA AGFACOLOR OPTIMA 200";
   "KONICA IMPRESSA 50"; "POLAROID POLAROID CP 200";
   "KONICA KONICA COLOR SUPER SR200 GEN 2"; "ILFORD XP2 400";
   "POLAROID POLAROID COLOR HD2 100"; "POLAROID POLAROID COLOR HD2 400";
   "POLAROID POLAROID COLOR HD2 200"; "3M ScotchColor ATG-1 200";
   "KONICA XG 400"; "KODAK UNIVERSAL REVERSAL B / W";
   "KODAK RPC COPY FILM Gen 1"; "KODAK UNIVERSAL E6";
   "KODAK GOLD Ultra 400 Gen 4"; "FUJI Super G 100";
   "FUJI Super G 200"; "FUJI Super G 400 Gen 2";
   "KODAK UNIVERSAL K14"; "FUJI Super G 400 Gen 1";
   "KODAK VERICOLOR HC 6329 VHC"; "KODAK VERICOLOR HC 4329 VHC";
   "KODAK VERICOLOR L 6013 VPL"; "KODAK VERICOLOR L 4013 VPL";
   "KODAK EKTACOLOR Gold II 400 Prof"; "KODAK ROYAL GOLD 1000";
   "KODAK KODACOLOR VR 200 / 5093"; "KODAK GOLD Plus 100 Gen 4";
   "KODAK ROYAL GOLD 100"; "KODAK ROYAL GOLD 400";
   "KODAK UNIVERSAL E6 auto-balance"; "KODAK UNIVERSAL E6 illum. corr.";
   "KODAK UNIVERSAL K14 auto-balance"; "KODAK UNIVERSAL K14 illum. corr.";
   "KODAK EKTAR 100 Gen 3 SY"; "KODAK EKTAR 25";
   "KODAK EKTAR 100 Gen 3 CX"; "KODAK EKTAPRESS PLUS 100 Prof PJA-1";
   "KODAK EKTAPRESS GOLD II 100 Prof"; "KODAK Pro 100 PRN";
   "KODAK VERICOLOR HC 100 Prof VHC-2"; "KODAK Prof Color Neg 100";
   "KODAK EKTAR 1000 Gen 2"; "KODAK EKTAPRESS PLUS 1600 Pro PJC-1";
   "KODAK EKTAPRESS GOLD II 1600 Prof"; "KODAK SUPER GOLD 1600 GF Gen 2";
   "KODAK KODACOLOR 100 Print Gen 4"; "KODAK SUPER GOLD 100 Gen 4";
   "KODAK GOLD 100 Gen 4"; "KODAK GOLD III 100 Gen 4";
   "KODAK FUNTIME 100 FA"; "KODAK FUNTIME 200 FB";
   "KODAK KODACOLOR VR 200 Gen 4"; "KODAK GOLD Super 200 Gen 4";
   "KODAK KODACOLOR 200 Print Gen 4"; "KODAK SUPER GOLD 200 Gen 4";
   "KODAK GOLD 200 Gen 4"; "KODAK GOLD III 200 Gen 4";
   "KODAK GOLD Ultra 400 Gen 5"; "KODAK SUPER GOLD 400 Gen 5";
   "KODAK GOLD 400 Gen 5"; "KODAK GOLD III 400 Gen 5";
   "KODAK KODACOLOR 400 Print Gen 5"; "KODAK EKTAPRESS PLUS 400 Prof PJB-2";
   "KODAK EKTAPRESS GOLD II 400 Prof G5"; "KODAK Pro 400 PPF-2";
   "KODAK EKTACOLOR GOLD II 400 EGP-4"; "KODAK EKTACOLOR GOLD 400 Prof EGP-4";
   "KODAK EKTAPRESS GOLD II Multspd PJM"; "KODAK Pro 400 MC PMC";
   "KODAK VERICOLOR 400 Prof VPH-2"; "KODAK VERICOLOR 400 PLUS Prof VPH-2";
   "KODAK UNKNOWN NEG Product Code 83"; "KODAK EKTACOLOR PRO GOLD 160 GPX";
   "KODAK ROYAL GOLD 200"; "KODAK 4050000000";
   "KODAK GOLD Plus 100 Gen 5"; "KODAK GOLD 800 Gen 1";
   "KODAK GOLD Super 200 Gen 5"; "KODAK EKTAPRESS PLUS 200 Prof";
   "KODAK 4050 E6 auto-balance"; "KODAK 4050 E6 ilum. corr.";
   "KODAK 4050 K14"; "KODAK 4050 K14 auto-balance";
   "KODAK 4050 K14 ilum. corr."; "KODAK 4050 REVERSAL B&W";
   "KODAK ADVANTIX 200"; "KODAK ADVANTIX 400";
   "KODAK ADVANTIX 100"; "KODAK EKTAPRESS Multspd Prof PJM-2";
   "KODAK KODACOLOR VR 200 Gen 5"; "KODAK FUNTIME 200 FB Gen 2";
   "KODAK Commercial 200"; "KODAK Royal Gold 25 Copystand";
   "KODAK KODACOLOR DA 100 Gen 5"; "KODAK KODACOLOR VR 400 Gen 2";
   "KODAK GOLD 100 Gen 6"; "KODAK GOLD 200 Gen 6";
   "KODAK GOLD 400 Gen 6"; "KODAK ROYAL GOLD 100 Gen 2";
   "KODAK ROYAL GOLD 200 Gen 2"; "KODAK ROYAL GOLD 400 Gen 2";
   "KODAK GOLD MAX 800 GEN 2"; "KODAK 4050 E6 high contrast";
   "KODAK 4050 E6 low saturation high contrast"; "KODAK 4050 E6 low saturation";
   "KODAK Universal E-6 Low Saturation"; "KODAK T-MAX T400 CN";
   "KODAK EKTAPRESS PJ100"; "KODAK EKTAPRESS PJ400";
   "KODAK EKTAPRESS PJ800"; "KODAK PORTRA 160NC";
   "KODAK PORTRA 160VC"; "KODAK PORTRA 400NC";
   "KODAK PORTRA 400VC"; "KODAK ADVANTIX 100-2";
   "KODAK ADVANTIX 200-2"; "KODAK ADVANTIX Black & White + 400";
   "KODAK EKTAPRESS PJ800-2"].
Definition PCDMetadataDescriptions : Z -> string :=
  stringTable
    ["PCD specification version"; "Authoring software Release number";
     "Scanning time"; "Last modification time"; "Image medium"; "Product type";
     "Scanner vendor identity"; "Scanner product identity";
     "Scanner firmware revision"; "Scanner firmware date"; "Scanner serial number";
     "Scanner pixel size (microns)"; "Image workstation equipment manufacturer";
     "Photo finisher name"; "Scene balance algorithm revision";
     "Scene balance algorithm command";
     "Scene balance algorithm film identification"; "Copyright status";
     "Copyright file name"; "Compression"].

(** ** The file header structures

    [struct PCDFile] is 6144 bytes without padding: the 2048 bytes of
    [PCDFileHeader], the 1536 bytes of [IPIHeader] and five
    [ImageComponentAttributes] of 512 bytes.  A field is its offset in the
    bytes read from the file. *)
Definition sizeofPCDFile : Z := 6144.

Definition off_signature : Z := 0.
Definition off_ipiHeader : Z := 2048.
Definition off_ipiSignature : Z := off_ipiHeader + 0.
Definition off_specificationVersion : Z := off_ipiHeader + 7.
Definition off_authoringSoftwareRelease : Z := off_ipiHeader + 9.
Definition off_imageScanningTime : Z := off_ipiHeader + 13.
Definition off_imageModificationTime : Z := off_ipiHeader + 17.
Definition off_imageMedium : Z := off_ipiHeader + 21.
Definition off_productType : Z := off_ipiHeader + 22.
Definition off_scannerVendorIdentity : Z := off_ipiHeader + 42.
Definition off_scannerProductIdentity : Z := off_ipiHeader + 62.
Definition off_scannerFirmwareRevision : Z := off_ipiHeader + 78.
Definition off_scannerFirmwareDate : Z := off_ipiHeader + 82.
Definition off_scannerSerialNumber : Z := off_ipiHeader + 90.
Definition off_scannerPixelSize : Z := off_ipiHeader + 110.
Definition off_piwEquipmentManufacturer : Z := off_ipiHeader + 112.
Definition off_photoFinisherCharSet : Z := off_ipiHeader + 132.
Definition off_photoFinisherName : Z := off_ipiHeader + 165.
Definition off_sbaSignature : Z := off_ipiHeader + 225.
Definition off_sbaCommand : Z := off_ipiHeader + 230.
Definition off_sbaFTN : Z := off_ipiHeader + 325.
Definition off_copyrightStatus : Z := off_ipiHeader + 331.
Definition off_copyrightFile : Z := off_ipiHeader + 332.
Definition off_iciBase16 : Z := 2048 + 1536.
Definition off_attributes : Z := off_iciBase16 + 2.
Definition off_sectorStop4Base : Z := off_iciBase16 + 3.
Definition off_interleaveRatio : Z := off_iciBase16 + 9.

(** ** Utility string functions *)

Definition bytesOfString (s : string) : list Z :=
  map (fun c => Z.of_nat (nat_of_ascii c)) (list_ascii_of_string s).

(** The C string that starts a byte buffer: the characters before the
    first NUL. *)
Fixpoint cString (bytes : list Z) : string :=
  match bytes with
  | [] => ""
  | c :: rest =>
      if c =? 0 then ""
      else String (ascii_of_nat (Z.to_nat c)) (cString rest)
  end.

Definition bytesFrom (buffer : list Z) (off len : Z) : list Z :=
  firstn (Z.to_nat len) (skipn (Z.to_nat off) buffer).

(** [strncmp] on unsigned characters, [n] the list of characters of the
    literal: 0 when the buffer starts with it. *)
Fixpoint strncmpLit (buffer lit : list Z) : Z :=
  match lit with
  | [] => 0
  | c :: lit' =>
      match buffer with
      | [] => 0 - c
      | b :: buffer' => if b =? c then strncmpLit buffer' lit' else b - c
      end
  end.

Definition compareBytes (buffer : list Z) (off : Z) (str : string) : Z :=
  strncmpLit (skipn (Z.to_nat off) buffer) (bytesOfString str).

(** The loop of [copyWithoutPadding], which runs from the last character of
    the field to the first: [src] is the field reversed, the result the
    destination reversed. *)
Fixpoint unpad (src : list Z) (inPadding : bool) : list Z :=
  match src with
  | [] => []
  | c :: rest =>
      if (c =? 32) && inPadding then 0 :: unpad rest inPadding
      else c :: unpad rest false
  end.

(** [copyWithoutPadding (dest, src, length)]: the C string left in [dest]. *)
Definition copyWithoutPadding (buffer : list Z) (off length : Z) : string :=
  cString (rev (unpad (rev (bytesFrom buffer off length)) true) ++ [0]).

(** [%d] of [sprintf]. *)
Definition decimal (n : Z) : string :=
  DecimalString.NilZero.string_of_int (Z.to_int n).

(** ** Interpolation routines *)

(** [struct upResInterpolateData].  [ur_dest] is the address of the plane
    being produced; the plane itself is the memory that the loops update. *)
Record upResInterpolateData : Type := {
  ur_base : option mem;
  ur_width : Z;
  ur_height : Z;
  ur_hasDeltas : bool;
  ur_startRow : Z;
  ur_endRow : Z
}.

(** [sum = sum < 0 ? 0 : (sum > 255 ? 255 : sum)]. *)
Definition saturate (sum : Z) : Z :=
  if sum <? 0 then 0 else if sum >? 255 then 255 else sum.

(** One of the four pixels written for a base pixel: [sum] the
    interpolated value, the delta read through [int8_t *] when there is
    one, the store through [uint8_t *]. *)
Definition putPixel (rd : upResInterpolateData) (indexDelta sum : Z) (dest : mem) : mem :=
  let sum1 := if ur_hasDeltas rd then Int.s32 (sum + Int.s8 (dest indexDelta)) else sum in
  store dest indexDelta (Int.u8 (saturate sum1)).

(** The body of the two loops of [upResInterpolate], with [UseFourPixels]. *)
Definition upResPixel (rd : upResInterpolateData) (row column : Z) (dest : mem) : mem :=
  let w2 := Z.shiftr (ur_width rd) 1 in
  let columnPlus := pcdMin (Int.u32 (column + 1)) (Int.u32 (w2 - 1)) in
  let rowPlus := pcdMin (Int.u32 (row + 1)) (Int.u32 (Z.shiftr (ur_height rd) 1 - 1)) in
  let basePix := deref (ur_base rd) (Int.u32 (column + row * w2)) in
  let basePix01 := deref (ur_base rd) (Int.u32 (columnPlus + row * w2)) in
  let basePix10 := deref (ur_base rd) (Int.u32 (column + rowPlus * w2)) in
  let basePix11 := deref (ur_base rd) (Int.u32 (columnPlus + rowPlus * w2)) in
  let dest :=
    putPixel rd (Int.u32 (Z.shiftl column 1 + Z.shiftl row 1 * ur_width rd))
      basePix dest in
  let dest :=
    putPixel rd (Int.u32 (Z.shiftl column 1 + 1 + Z.shiftl row 1 * ur_width rd))
      (Z.shiftr (basePix + basePix01 + 1) 1) dest in
  let dest :=
    putPixel rd (Int.u32 (Z.shiftl column 1 + (Z.shiftl row 1 + 1) * ur_width rd))
      (Z.shiftr (basePix + basePix10 + 1) 1) dest in
  putPixel rd (Int.u32 (Z.shiftl column 1 + 1 + (Z.shiftl row 1 + 1) * ur_width rd))
    (Z.shiftr (basePix + basePix01 + basePix10 + basePix11 + 2) 2) dest.

(** [for (column = 0; column < rd->width>>1; column++)]. *)
Fixpoint upResColumns (rd : upResInterpolateData) (row : Z) (n : nat) (column : Z)
  (dest : mem) : mem :=
  match n with
  | O => dest
  | S n' => upResColumns rd row n' (column + 1) (upResPixel rd row column dest)
  end.

(** [for (row = rd->startRow>>1; row < rd->endRow>>1; row++)]. *)
Fixpoint upResRows (rd : upResInterpolateData) (n : nat) (row : Z) (dest : mem) : mem :=
  match n with
  | O => dest
  | S n' =>
      upResRows rd n' (row + 1)
        (upResColumns rd row (Z.to_nat (Z.shiftr (ur_width rd) 1)) 0 dest)
  end.

Definition upResInterpolate (rd : upResInterpolateData) (dest : mem) : mem :=
  upResRows rd
    (Z.to_nat (Z.shiftr (ur_endRow rd) 1 - Z.shiftr (ur_startRow rd) 1))
    (Z.shiftr (ur_startRow rd) 1) dest.

(** The loop of [upResBuffer] over the threads.  Every thread works on its
    own band of rows and the bands do not overlap, so the model runs the
    [kNumThreads] calls one after the other. *)
Fixpoint upResThreads (n : nat) (thread previousRow : Z) (base : option mem)
  (width height : Z) (hasDeltas : bool) (dest : mem) : mem :=
  match n with
  | O => dest
  | S n' =>
      let endRow := Int.u32 (Int.u32 (Z.quot height kNumThreads) * (thread + 1)) in
      upResThreads n' (thread + 1) endRow base width height hasDeltas
        (upResInterpolate
           {| ur_base := base; ur_width := width; ur_height := height;
              ur_hasDeltas := hasDeltas; ur_startRow := previousRow;
              ur_endRow := endRow |} dest)
  end.

(** The nearest neighbour loops of [upResBuffer]. *)
Definition nearestPixel (base : option mem) (width : Z) (hasDeltas : bool)
  (row column : Z) (dest : mem) : mem :=
  let indexBase := Int.u32 (Z.shiftr column 1 + Z.shiftr row 1 * Z.shiftr width 1) in
  let indexDelta := Int.u32 (column + row * width) in
  let sum := deref base indexBase in
  let sum1 := if hasDeltas then saturate (Int.s32 (sum + Int.s8 (dest indexDelta)))
              else sum in
  store dest indexDelta (Int.u8 sum1).

Fixpoint nearestColumns (base : option mem) (width : Z) (hasDeltas : bool) (row : Z)
  (n : nat) (column : Z) (dest : mem) : mem :=
  match n with
  | O => dest
  | S n' =>
      nearestColumns base width hasDeltas row n' (column + 1)
        (nearestPixel base width hasDeltas row column dest)
  end.

Fixpoint nearestRows (base : option mem) (width : Z) (hasDeltas : bool)
  (n : nat) (row : Z) (dest : mem) : mem :=
  match n with
  | O => dest
  | S n' =>
      nearestRows base width hasDeltas n' (row + 1)
        (nearestColumns base width hasDeltas row (Z.to_nat width) 0 dest)
  end.

(** [upResBuffer]; the [luma] argument is used by the non-GPL code only.
    [dest] is [None] for a [NULL] destination, which is left alone. *)
Definition upResBuffer (base : option mem) (dest : option mem) (width height : Z)
  (upResMethod : Z) (hasDeltas : bool) : option mem :=
  match dest with
  | None => None
  | Some m =>
      if upResMethod >=? kUpResIterpolate
      then Some (upResThreads (Z.to_nat kNumThreads) 0 0 base width height hasDeltas m)
      else Some (nearestRows base width hasDeltas (Z.to_nat height) 0 m)
  end.

(** Whether the loops of [upResBuffer] run at all, that is whether a call
    with a destination reads through [base]: a band of the interpolator
    has a row and a column, or the plane has one for the nearest neighbour
    loops. *)
Definition upResReads (width height upResMethod : Z) : bool :=
  if upResMethod >=? kUpResIterpolate
  then (0 <? Z.shiftr (Int.u32 (Int.u32 (Z.quot height kNumThreads) * kNumThreads)) 1)
       && (0 <? Z.shiftr width 1)
  else (0 <? height) && (0 <? width).

(** A call of [upResBuffer] without deltas on a base plane that may be
    null: with a destination and a pixel to produce, the first turn of the
    loops reads through [base], which is a [Fault] when [base] is null. *)
Definition upResPlane (base dest : option mem) (width height upResMethod : Z)
  : result (option mem) :=
  if isNull base && negb (isNull dest) && upResReads width height upResMethod
  then Fault
  else Ok (upResBuffer base dest width height upResMethod false).

(** ** The decoder object *)

(** The members of [class pcdDecode].  [deltas i] is the row
    [deltas[i]] of the array of delta planes, [pcdFileHeader] holds the
    bytes of [struct PCDFile] when it is not [NULL], and [errorString] is
    the C string in the array of that name. *)
Record pcdDecode : Type := {
  upResMethod : Z;
  monochrome : bool;
  luma : option mem;
  chroma1 : option mem;
  chroma2 : option mem;
  deltas : Z -> DeltaPlanes;
  imageRotate : Z;
  imageResolution : Z;
  colorSpace : Z;
  whiteBalance : Z;
  imageIPEAvailable : Z;
  imageHuffmanClass : Z;
  baseScene : Z;
  sceneNumber : Z;
  ipeLayers : Z;
  ipeFiles : Z;
  pcdFileHeader : option (list Z);
  errorString : string
}.

Definition noDeltas : DeltaPlanes := {| data0 := None; data1 := None; data2 := None |}.

(** Assignments to single members. *)
Definition set_upResMethod (v : Z) (this : pcdDecode) : pcdDecode :=
  {| upResMethod := v; monochrome := monochrome this; luma := luma this;
     chroma1 := chroma1 this; chroma2 := chroma2 this; deltas := deltas this;
     imageRotate := imageRotate this; imageResolution := imageResolution this;
     colorSpace := colorSpace this; whiteBalance := whiteBalance this;
     imageIPEAvailable := imageIPEAvailable this;
     imageHuffmanClass := imageHuffmanClass this; baseScene := baseScene this;
     sceneNumber := sceneNumber this; ipeLayers := ipeLayers this;
     ipeFiles := ipeFiles this; pcdFileHeader := pcdFileHeader this;
     errorString := errorString this |}.

Definition set_monochrome (v : bool) (this : pcdDecode) : pcdDecode :=
  {| upResMethod := upResMethod this; monochrome := v; luma := luma this;
     chroma1 := chroma1 this; chroma2 := chroma2 this; deltas := deltas this;
     imageRotate := imageRotate this; imageResolution := imageResolution this;
     colorSpace := colorSpace this; whiteBalance := whiteBalance this;
     imageIPEAvailable := imageIPEAvailable this;
     imageHuffmanClass := imageHuffmanClass this; baseScene := baseScene this;
     sceneNumber := sceneNumber this; ipeLayers := ipeLayers this;
     ipeFiles := ipeFiles this; pcdFileHeader := pcdFileHeader this;
     errorString := errorString this |}.

Definition set_planes (l c1 c2 : option mem) (this : pcdDecode) : pcdDecode :=
  {| upResMethod := upResMethod this; monochrome := monochrome this; luma := l;
     chroma1 := c1; chroma2 := c2; deltas := deltas this;
     imageRotate := imageRotate this; imageResolution := imageResolution this;
     colorSpace := colorSpace this; whiteBalance := whiteBalance this;
     imageIPEAvailable := imageIPEAvailable this;
     imageHuffmanClass := imageHuffmanClass this; baseScene := baseScene this;
     sceneNumber := sceneNumber this; ipeLayers := ipeLayers this;
     ipeFiles := ipeFiles this; pcdFileHeader := pcdFileHeader this;
     errorString := errorString this |}.

Definition set_deltas (i : Z) (v : DeltaPlanes) (this : pcdDecode) : pcdDecode :=
  {| upResMethod := upResMethod this; monochrome := monochrome this; luma := luma this;
     chroma1 := chroma1 this; chroma2 := chroma2 this;
     deltas := fun j => if j =? i then v else deltas this j;
     imageRotate := imageRotate this; imageResolution := imageResolution this;
     colorSpace := colorSpace this; whiteBalance := whiteBalance this;
     imageIPEAvailable := imageIPEAvailable this;
     imageHuffmanClass := imageHuffmanClass this; baseScene := baseScene this;
     sceneNumber := sceneNumber this; ipeLayers := ipeLayers this;
     ipeFiles := ipeFiles this; pcdFileHeader := pcdFileHeader this;
     errorString := errorString this |}.

Definition set_attributes (rotate resolution ipe class : Z) (this : pcdDecode) : pcdDecode :=
  {| upResMethod := upResMethod this; monochrome := monochrome this; luma := luma this;
     chroma1 := chroma1 this; chroma2 := chroma2 this; deltas := deltas this;
     imageRotate := rotate; imageResolution := resolution;
     colorSpace := colorSpace this; whiteBalance := whiteBalance this;
     imageIPEAvailable := ipe; imageHuffmanClass := class; baseScene := baseScene this;
     sceneNumber := sceneNumber this; ipeLayers := ipeLayers this;
     ipeFiles := ipeFiles this; pcdFileHeader := pcdFileHeader this;
     errorString := errorString this |}.

Definition set_colorSpace (v : Z) (this : pcdDecode) : pcdDecode :=
  {| upResMethod := upResMethod this; monochrome := monochrome this; luma := luma this;
     chroma1 := chroma1 this; chroma2 := chroma2 this; deltas := deltas this;
     imageRotate := imageRotate this; imageResolution := imageResolution this;
     colorSpace := v; whiteBalance := whiteBalance this;
     imageIPEAvailable := imageIPEAvailable this;
     imageHuffmanClass := imageHuffmanClass this; baseScene := baseScene this;
     sceneNumber := sceneNumber this; ipeLayers := ipeLayers this;
     ipeFiles := ipeFiles this; pcdFileHeader := pcdFileHeader this;
     errorString := errorString this |}.

Definition set_whiteBalance (v : Z) (this : pcdDecode) : pcdDecode :=
  {| upResMethod := upResMethod this; monochrome := monochrome this; luma := luma this;
     chroma1 := chroma1 this; chroma2 := chroma2 this; deltas := deltas this;
     imageRotate := imageRotate this; imageResolution := imageResolution this;
     colorSpace := colorSpace this; whiteBalance := v;
     imageIPEAvailable := imageIPEAvailable this;
     imageHuffmanClass := imageHuffmanClass this; baseScene := baseScene this;
     sceneNumber := sceneNumber this; ipeLayers := ipeLayers this;
     ipeFiles := ipeFiles this; pcdFileHeader := pcdFileHeader this;
     errorString := errorString this |}.

Definition set_baseScene (v : Z) (this : pcdDecode) : pcdDecode :=
  {| upResMethod := upResMethod this; monochrome := monochrome this; luma := luma this;
     chroma1 := chroma1 this; chroma2 := chroma2 this; deltas := deltas this;
     imageRotate := imageRotate this; imageResolution := imageResolution this;
     colorSpace := colorSpace this; whiteBalance := whiteBalance this;
     imageIPEAvailable := imageIPEAvailable this;
     imageHuffmanClass := imageHuffmanClass this; baseScene := v;
     sceneNumber := sceneNumber this; ipeLayers := ipeLayers this;
     ipeFiles := ipeFiles this; pcdFileHeader := pcdFileHeader this;
     errorString := errorString this |}.

Definition set_sceneNumber (v : Z) (this : pcdDecode) : pcdDecode :=
  {| upResMethod := upResMethod this; monochrome := monochrome this; luma := luma this;
     chroma1 := chroma1 this; chroma2 := chroma2 this; deltas := deltas this;
     imageRotate := imageRotate this; imageResolution := imageResolution this;
     colorSpace := colorSpace this; whiteBalance := whiteBalance this;
     imageIPEAvailable := imageIPEAvailable this;
     imageHuffmanClass := imageHuffmanClass this; baseScene := baseScene this;
     sceneNumber := v; ipeLayers := ipeLayers this;
     ipeFiles := ipeFiles this; pcdFileHeader := pcdFileHeader this;
     errorString := errorString this |}.

Definition set_ipeLayers (v : Z) (this : pcdDecode) : pcdDecode :=
  {| upResMethod := upResMethod this; monochrome := monochrome this; luma := luma this;
     chroma1 := chroma1 this; chroma2 := chroma2 this; deltas := deltas this;
     imageRotate := imageRotate this; imageResolution := imageResolution this;
     colorSpace := colorSpace this; whiteBalance := whiteBalance this;
     imageIPEAvailable := imageIPEAvailable this;
     imageHuffmanClass := imageHuffmanClass this; baseScene := baseScene this;
     sceneNumber := sceneNumber this; ipeLayers := v;
     ipeFiles := ipeFiles this; pcdFileHeader := pcdFileHeader this;
     errorString := errorString this |}.

Definition set_ipeFiles (v : Z) (this : pcdDecode) : pcdDecode :=
  {| upResMethod := upResMethod this; monochrome := monochrome this; luma := luma this;
     chroma1 := chroma1 this; chroma2 := chroma2 this; deltas := deltas this;
     imageRotate := imageRotate this; imageResolution := imageResolution this;
     colorSpace := colorSpace this; whiteBalance := whiteBalance this;
     imageIPEAvailable := imageIPEAvailable this;
     imageHuffmanClass := imageHuffmanClass this; baseScene := baseScene this;
     sceneNumber := sceneNumber this; ipeLayers := ipeLayers this;
     ipeFiles := v; pcdFileHeader := pcdFileHeader this;
     errorString := errorString this |}.

Definition set_pcdFileHeader (v : option (list Z)) (this : pcdDecode) : pcdDecode :=
  {| upResMethod := upResMethod this; monochrome := monochrome this; luma := luma this;
     chroma1 := chroma1 this; chroma2 := chroma2 this; deltas := deltas this;
     imageRotate := imageRotate this; imageResolution := imageResolution this;
     colorSpace := colorSpace this; whiteBalance := whiteBalance this;
     imageIPEAvailable := imageIPEAvailable this;
     imageHuffmanClass := imageHuffmanClass this; baseScene := baseScene this;
     sceneNumber := sceneNumber this; ipeLayers := ipeLayers this;
     ipeFiles := ipeFiles this; pcdFileHeader := v;
     errorString := errorString this |}.

Definition set_errorString (v : string) (this : pcdDecode) : pcdDecode :=
  {| upResMethod := upResMethod this; monochrome := monochrome this; luma := luma this;
     chroma1 := chroma1 this; chroma2 := chroma2 this; deltas := deltas this;
     imageRotate := imageRotate this; imageResolution := imageResolution this;
     colorSpace := colorSpace this; whiteBalance := whiteBalance this;
     imageIPEAvailable := imageIPEAvailable this;
     imageHuffmanClass := imageHuffmanClass this; baseScene := baseScene this;
     sceneNumber := sceneNumber this; ipeLayers := ipeLayers this;
     ipeFiles := ipeFiles this; pcdFileHeader := pcdFileHeader this;
     errorString := v |}.

(** The constructor.  It assigns eight members; [raw] is the object before
    construction and gives the members that the constructor leaves
    uninitialised ([sceneNumber] and [imageRotate] among them). *)
Definition newDecoder (raw : pcdDecode) : pcdDecode :=
  {| upResMethod := kUpResLumaIterpolate; monochrome := false; luma := None;
     chroma1 := None; chroma2 := None; deltas := fun _ => noDeltas;
     imageRotate := imageRotate raw; imageResolution := imageResolution raw;
     colorSpace := kPCDRawColorSpace; whiteBalance := kPCDD65White;
     imageIPEAvailable := imageIPEAvailable raw;
     imageHuffmanClass := imageHuffmanClass raw; baseScene := baseScene raw;
     sceneNumber := sceneNumber raw; ipeLayers := ipeLayers raw;
     ipeFiles := ipeFiles raw; pcdFileHeader := None;
     errorString := errorString raw |}.

Definition pcdFreeAll (this : pcdDecode) : pcdDecode :=
  {| upResMethod := upResMethod this; monochrome := monochrome this; luma := None;
     chroma1 := None; chroma2 := None; deltas := fun _ => noDeltas;
     imageRotate := imageRotate this; imageResolution := imageResolution this;
     colorSpace := colorSpace this; whiteBalance := whiteBalance this;
     imageIPEAvailable := imageIPEAvailable this;
     imageHuffmanClass := imageHuffmanClass this; baseScene := baseScene this;
     sceneNumber := sceneNumber this; ipeLayers := ipeLayers this;
     ipeFiles := ipeFiles this; pcdFileHeader := None;
     errorString := errorString this |}.

(** [pcdFileHeader != NULL], and the bytes that it points to. *)
Definition hasHeader (this : pcdDecode) : bool :=
  match pcdFileHeader this with
  | Some _ => true
  | None => false
  end.

Definition headerBytes (this : pcdDecode) : list Z :=
  match pcdFileHeader this with
  | Some pcdFile => pcdFile
  | None => []
  end.

(** ** Class accessors *)

Definition getWidth (this : pcdDecode) : Z :=
  match imageRotate this with
  | 0 => PCDLumaWidth (sceneNumber this)
  | 1 => PCDLumaHeight (sceneNumber this)
  | 2 => PCDLumaWidth (sceneNumber this)
  | 3 => PCDLumaHeight (sceneNumber this)
  | _ => PCDLumaWidth (sceneNumber this)
  end.

Definition getHeight (this : pcdDecode) : Z :=
  match imageRotate this with
  | 0 => PCDLumaHeight (sceneNumber this)
  | 1 => PCDLumaWidth (sceneNumber this)
  | 2 => PCDLumaHeight (sceneNumber this)
  | 3 => PCDLumaWidth (sceneNumber this)
  | _ => PCDLumaHeight (sceneNumber this)
  end.

Definition setInterpolation (value : Z) (this : pcdDecode) : pcdDecode :=
  set_upResMethod value this.

Definition setColorSpace (value : Z) (this : pcdDecode) : pcdDecode :=
  set_colorSpace value this.

Definition getColorSpace (this : pcdDecode) : Z := colorSpace this.

Definition setWhiteBalance (value : Z) (this : pcdDecode) : pcdDecode :=
  set_whiteBalance value this.

Definition getErrorString (this : pcdDecode) : string := errorString this.

Definition isMonochrome (this : pcdDecode) : bool := monochrome this.

(** [monochrome = monochrome | val;] *)
Definition setIsMonoChrome (val : bool) (this : pcdDecode) : pcdDecode :=
  set_monochrome (monochrome this || val) this.

Definition getOrientation (this : pcdDecode) : Z := imageRotate this.

Definition digitisationTime (this : pcdDecode) : Z :=
  match pcdFileHeader this with
  | None => 0
  | Some pcdFile => getPCD32 pcdFile off_imageScanningTime
  end.

(** The [while] loop that looks a film term number up: the index of the
    first row whose first column is [ftn], [kMaxPCDFilms] if there is none. *)
Fixpoint findFilm (rows : list (Z * Z * Z * Z)) (index ftn : Z) : Z :=
  match rows with
  | [] => index
  | (f, _, _, _) :: rest => if ftn =? f then index else findFilm rest (index + 1) ftn
  end.

Definition filmRow (index : Z) : Z * Z * Z * Z :=
  nth (Z.to_nat index) PCDFTN_PC_GC_Medium (0, 0, 0, 0).

(** [getFilmTermData]: the values left in [*FTN], [*PC] and [*GC]. *)
Definition getFilmTermData (this : pcdDecode) : Z * Z * Z :=
  match pcdFileHeader this with
  | None => (0, 0, 0)
  | Some pcdFile =>
      if negb (compareBytes pcdFile off_sbaSignature "SBA" =? 0) then (0, 0, 0)
      else
        let index := findFilm PCDFTN_PC_GC_Medium 0 (getPCD16 pcdFile off_sbaFTN) in
        if index >=? kMaxPCDFilms then (0, 0, 0)
        else let '(f, pc, gc, _) := filmRow index in (f, pc, gc)
  end.

(** [temp[strlen(temp)-1] = 0x0]: the string without its last character. *)
Fixpoint dropLast (s : string) : string :=
  match s with
  | EmptyString => EmptyString
  | String c EmptyString => EmptyString
  | String c rest => String c (dropLast rest)
  end.

(** The [switch (select)] of [getMetadata]: the string left in [value] for
    a file with the "PCD_IPI" signature.  [asctimeLocal t] is
    [asctime (localtime (&t))] of the C library. *)
Definition metadataValue (asctimeLocal : Z -> string) (this : pcdDecode)
  (pcdFile : list Z) (select : Z) : string :=
  let version (off : Z) :=
    if getPCD32 pcdFile off =? 0xffff then "-"
    else (decimal (byteAt pcdFile off) ++ "." ++ decimal (byteAt pcdFile (off + 1)))%string in
  let time (off : Z) :=
    if getPCD32 pcdFile off =? 0xffff then "-"
    else dropLast (asctimeLocal (getPCD32 pcdFile off)) in
  match select with
  | 0 => version off_specificationVersion
  | 1 => version off_authoringSoftwareRelease
  | 2 => time off_imageScanningTime
  | 3 => time off_imageModificationTime
  | 4 => if byteAt pcdFile off_imageMedium <? kMaxPCDmediums
         then PCDMediumTypes (byteAt pcdFile off_imageMedium) else "-"
  | 5 => copyWithoutPadding pcdFile off_productType 20
  | 6 => copyWithoutPadding pcdFile off_scannerVendorIdentity 20
  | 7 => copyWithoutPadding pcdFile off_scannerProductIdentity 16
  | 8 => copyWithoutPadding pcdFile off_scannerFirmwareRevision 4
  | 9 => copyWithoutPadding pcdFile off_scannerFirmwareDate 8
  | 10 => copyWithoutPadding pcdFile off_scannerSerialNumber 20
  | 11 =>
      let b0 := byteAt pcdFile off_scannerPixelSize in
      let b1 := byteAt pcdFile (off_scannerPixelSize + 1) in
      (decimal (Z.land (Z.shiftr b0 4) 0xf) ++ decimal (Z.land b0 0xf) ++ "."
       ++ decimal (Z.land (Z.shiftr b1 4) 0xf) ++ decimal (Z.land b1 0xf))%string
  | 12 => copyWithoutPadding pcdFile off_piwEquipmentManufacturer 20
  | 13 => if byteAt pcdFile off_photoFinisherCharSet <? 5
          then copyWithoutPadding pcdFile off_photoFinisherName 20 else "-"
  | 14 => if negb (compareBytes pcdFile off_sbaSignature "SBA" =? 0)
             || (getPCD32 pcdFile off_specificationVersion =? 0xffff)
          then "-"
          else (decimal (byteAt pcdFile off_specificationVersion) ++ "."
                ++ decimal (byteAt pcdFile (off_specificationVersion + 1)))%string
  | 15 => if negb (compareBytes pcdFile off_sbaSignature "SBA" =? 0)
             || (byteAt pcdFile off_sbaCommand >=? kMaxSBATypes)
          then "-" else PCDSBATypes (byteAt pcdFile off_sbaCommand)
  | 16 => if negb (compareBytes pcdFile off_sbaSignature "SBA" =? 0) then "-"
          else
            let index := findFilm PCDFTN_PC_GC_Medium 0 (getPCD16 pcdFile off_sbaFTN) in
            if index >=? kMaxPCDFilms then "Unknown film"
            else stringTable PCDMediumNames index
  | 17 => if byteAt pcdFile off_copyrightStatus =? 0x1
          then "Copyright restrictions apply - see copyright file on original CD-ROM for details"
          else "Copyright restrictions not specified"
  | 18 => if byteAt pcdFile off_copyrightStatus =? 0x1
          then copyWithoutPadding pcdFile off_copyrightFile 12 else "-"
  | 19 => PCDHuffmanClasses (imageHuffmanClass this)
  | _ => "-"
  end.

(** [getMetadata (select, description, value)].  The two buffers are given
    by their contents before the call, [description] being [None] for a
    [NULL] pointer; the result is their contents after it. *)
Definition getMetadata (asctimeLocal : Z -> string) (this : pcdDecode) (select : Z)
  (description : option string) (value : string) : option string * string :=
  if (select >=? kMaxPCDMetadata) || negb (hasHeader this)
  then (option_map (fun _ => "Error") description, "Error")
  else
    (option_map (fun _ => PCDMetadataDescriptions select) description,
     if compareBytes (headerBytes this) off_ipiSignature "PCD_IPI" =? 0
     then metadataValue asctimeLocal this (headerBytes this) select
     else "-").

(** ** Filling the caller's buffers *)

(** What the three [malloc] calls of [interpolateBuffers] return: [None]
    for [NULL], else the block with what it held. *)
Record PopulateHeap : Type := {
  fresh_c1UpRes : option mem;
  fresh_c2UpRes : option mem;
  fresh_intermediate : option mem
}.

(** [interpolateBuffers (&c1UpRes, &c2UpRes, &resFactor)]: the three
    values after the call.  The test after the two allocations looks at
    [*c1UpRes] twice.  The chroma planes of the decoder are handed to
    [upResBuffer] as they are, null or not: [upResPlane]. *)
Definition interpolateBuffers (heap : PopulateHeap) (this : pcdDecode) (resFactor : Z)
  : result (option mem * option mem * Z) :=
  let W := PCDLumaWidth (sceneNumber this) in
  let H := PCDLumaHeight (sceneNumber this) in
  if upResMethod this >=? kUpResIterpolate then
    if isNull (fresh_c1UpRes heap) || isNull (fresh_c1UpRes heap)
    then Throw "Memory Error!"
    else
      pre1 <- (if resFactor =? 2 then
                 if isNull (fresh_intermediate heap) then Throw "Memory Error!"
                 else
                   i1 <- upResPlane (chroma1 this) (fresh_intermediate heap)
                           (Z.shiftr W 1) (Z.shiftr H 1) (upResMethod this) ;;
                   Ok (i1, i1)
               else Ok (None, chroma1 this)) ;;
      let '(intermediate1, c1p) := pre1 in
      c1UpRes <- upResPlane c1p (fresh_c1UpRes heap) W H (upResMethod this) ;;
      c2p <- (if resFactor =? 2
              then upResPlane (chroma2 this) intermediate1
                     (Z.shiftr W 1) (Z.shiftr H 1) (upResMethod this)
              else Ok (chroma2 this)) ;;
      c2UpRes <- upResPlane c2p (fresh_c2UpRes heap) W H (upResMethod this) ;;
      Ok (c1UpRes, c2UpRes, 0)
  else Ok (None, None, resFactor).

(** The assignments to [rd[thread]] in [populateBuffers]: the tile
    description of the band of rows from [previousRow] to [endRow]. *)
Definition bandData (this : pcdDecode) (lp c1p c2p : option mem) (resFactor : Z)
  (red green blue : Z) (alpha : option Z) (d dataSize previousRow endRow : Z)
  : ConvertToRGBData :=
  {| rd_outputSize := dataSize;
     rd_red := red; rd_green := green; rd_blue := blue; rd_alpha := alpha;
     rd_d := d;
     rd_startRow := previousRow;
     rd_endRow := endRow;
     rd_columns := PCDLumaWidth (sceneNumber this);
     rd_rows := PCDLumaHeight (sceneNumber this);
     rd_lp := lp;
     rd_c1p := if monochrome this then None else c1p;
     rd_c2p := if monochrome this then None else c2p;
     rd_resFactor := Int.u32 resFactor;
     rd_imageRotate := imageRotate this;
     rd_colorSpace := Int.u64 (colorSpace this);
     rd_whiteBalance := whiteBalance this |}.

(** The loop of [populateBuffers] over the threads: the bands of rows are
    converted one after the other, and a band that reads through [NULL]
    ends the call. *)
Fixpoint convertThreads (n : nat) (thread previousRow : Z) (this : pcdDecode)
  (lp c1p c2p : option mem) (resFactor : Z)
  (red green blue : Z) (alpha : option Z) (d dataSize : Z) (out : mem) : result mem :=
  match n with
  | O => Ok out
  | S n' =>
      let endRow :=
        Int.u32 (Int.u32 (Z.quot (PCDLumaHeight (sceneNumber this)) kNumThreads)
                 * (thread + 1)) in
      out' <- convertToRGB
                (bandData this lp c1p c2p resFactor red green blue alpha d dataSize
                   previousRow endRow) out ;;
      convertThreads n' (thread + 1) endRow this lp c1p c2p resFactor
        red green blue alpha d dataSize out'
  end.

(** [populateBuffers (red, green, blue, alpha, d, dataSize)]: [out] is the
    memory that holds the caller's buffers, the four pointers are addresses
    in it.  The decoder is returned with the memory, as the method could
    assign to its members.  The initialiser of [resFactor] reads
    [PCDChromaResFactor[sceneNumber]] before the file header is looked at,
    and the constructor does not set [sceneNumber]: a [sceneNumber] that is
    no index of the array is a [Fault] there. *)
Definition populateBuffers (heap : PopulateHeap) (this : pcdDecode) (out : mem)
  (red green blue : Z) (alpha : option Z) (d dataSize : Z) : result (pcdDecode * mem) :=
  let lp := luma this in
  let c1p := chroma1 this in
  let c2p := chroma2 this in
  if negb (inScenes (sceneNumber this)) then Fault
  else
    let resFactor := PCDChromaResFactor (sceneNumber this) in
    if negb (hasHeader this) then Ok (this, out)
    else
      r <- interpolateBuffers heap this resFactor ;;
      let '(c1UpRes, c2UpRes, resFactor) := r in
      let c1p := if isNull c1UpRes then c1p else c1UpRes in
      let c2p := if isNull c2UpRes then c2p else c2UpRes in
      out' <- convertThreads (Z.to_nat kNumThreads) 0 0 this lp c1p c2p resFactor
                red green blue alpha d dataSize out ;;
      Ok (this, out').

Definition populateFloatBuffers (heap : PopulateHeap) (this : pcdDecode) (out : mem)
  (red green blue : Z) (alpha : option Z) (d : Z) : result (pcdDecode * mem) :=
  populateBuffers heap this out red green blue alpha d pcdFloatSize.

Definition populateUInt16Buffers (heap : PopulateHeap) (this : pcdDecode) (out : mem)
  (red green blue : Z) (alpha : option Z) (d : Z) : result (pcdDecode * mem) :=
  populateBuffers heap this out red green blue alpha d pcdInt16Size.

Definition populateUInt8Buffers (heap : PopulateHeap) (this : pcdDecode) (out : mem)
  (red green blue : Z) (alpha : option Z) (d : Z) : result (pcdDecode * mem) :=
  populateBuffers heap this out red green blue alpha d pcdByteSize.

(** ** The environment of a parse

    What the decoder obtains from outside while it parses: the files that
    [fopen] finds, the blocks that [malloc] returns, and the contents of
    the automatic variables that the code does not initialise. *)

(** The places where the parser allocates. *)
Inductive Site : Type :=
| SiteFileHeader
| SiteBaseLuma (scene : Z)
| SiteBaseChroma1 (scene : Z)
| SiteBaseChroma2 (scene : Z)
| SiteTables
| SiteTableBuffer (scene : Z)
| SiteDelta (scene plane : Z)
| SiteICTables
| SiteICBuffer.

Record World : Type := {
  (** [fopen (name, "rb")]: the file, [None] when it cannot be opened. *)
  w_fs : string -> option FileBytes;
  (** [malloc] at a site: [None] for [NULL], else the block with what it
      holds. *)
  w_malloc : Site -> option mem;
  (** What a [struct huffTables] holds when it has just been allocated. *)
  w_tables : huffTables;
  (** What the [sbuffer] of a [ReadBuffer] on the stack holds. *)
  w_stack : list Z
}.

(** [memcpy] of [bytes] into a plane, at address [off]. *)
Definition blitMem (m : mem) (off : Z) (bytes : list Z) : mem :=
  fun j =>
    if (off <=? j) && (j <? off + Z.of_nat (List.length bytes))
    then nth (Z.to_nat (j - off)) bytes 0
    else m j.

Definition stackBuffer (w : World) : ReadBuffer :=
  {| rb_sbuffer := w_stack w; rb_fp := fopen (fileOfList []); rb_sum := 0; rb_bits := 0; rb_p := 0 |}.

(** ** Utility file functions *)

(** [getc]: [None] is [EOF]. *)
Definition getc (fp : FILE) : option Z * FILE :=
  let '(got, fp') := fread 1 fp in
  match got with
  | c :: _ => (Some c, fp')
  | [] => (None, fp')
  end.

(** [readBytes (fp, length, data)]: the count returned, the bytes stored
    from [data] on, and the file afterwards.  The cases 1 and 2 of the
    [switch] have no [break] at their end and fall through. *)
Definition readBytes (fp : FILE) (length : Z) : Z * list Z * FILE :=
  if length =? 0 then (0, [], fp)
  else if length =? 1 then
    match getc fp with
    | (None, fp1) => (0, [], fp1)
    | (Some c1, fp1) =>
        match getc fp1 with
        | (None, fp2) => (1, [c1], fp2)
        | (Some c2, fp2) =>
            let '(got, fp3) := fread length fp2 in
            (Z.of_nat (List.length got), c1 :: c2 :: got, fp3)
        end
    end
  else if length =? 2 then
    match getc fp with
    | (None, fp1) => (0, [], fp1)
    | (Some c1, fp1) =>
        let '(got, fp2) := fread length fp1 in
        (Z.of_nat (List.length got), c1 :: got, fp2)
    end
  else
    let '(got, fp1) := fread length fp in
    (Z.of_nat (List.length got), got, fp1).

(** ** Base (and lower) image reader *)

(** The state of the loop over [y] in [readBaseImage]. *)
Record BaseRead : Type := {
  br_fp : FILE;
  br_count : Z;
  br_luma : mem;
  br_chroma1 : mem;
  br_chroma2 : mem
}.

(** One turn of the loop: two luma rows and a row of each chroma. *)
Definition readBaseRow (sceneNumber y : Z) (st : BaseRead) : BaseRead :=
  let W := PCDLumaWidth sceneNumber in
  let Wc := PCDChromaWidth sceneNumber in
  let '(n1, row1, fp1) := readBytes (br_fp st) W in
  let '(n2, row2, fp2) := readBytes fp1 W in
  let '(n3, row3, fp3) := readBytes fp2 Wc in
  let '(n4, row4, fp4) := readBytes fp3 Wc in
  {| br_fp := fp4;
     br_count := Int.u64 (br_count st + n1 + n2 + n3 + n4);
     br_luma := blitMem (blitMem (br_luma st) (y * 2 * W) row1) ((y * 2 + 1) * W) row2;
     br_chroma1 := blitMem (br_chroma1 st) (y * Wc) row3;
     br_chroma2 := blitMem (br_chroma2 st) (y * Wc) row4 |}.

Fixpoint readBaseRows (n : nat) (sceneNumber y : Z) (st : BaseRead) : BaseRead :=
  match n with
  | O => st
  | S n' => readBaseRows n' sceneNumber (y + 1) (readBaseRow sceneNumber y st)
  end.

(** The [while] loop of [readBaseImage].  A turn that fails lowers
    [sceneNumber] by one and the loop stops below [kBase16], so
    [sceneNumber + 1] turns are all there can be. *)
Fixpoint readBaseLoop (n : nat) (w : World) (fp : FILE) (sceneNumber : Z)
  (ICDOffset : Z -> Z) : Z * option mem * option mem * option mem :=
  match n with
  | O => (sceneNumber, None, None, None)
  | S n' =>
      if sceneNumber >=? kBase16 then
        match w_malloc w (SiteBaseLuma sceneNumber),
              w_malloc w (SiteBaseChroma1 sceneNumber),
              w_malloc w (SiteBaseChroma2 sceneNumber) with
        | Some l, Some c1, Some c2 =>
            let st :=
              readBaseRows (Z.to_nat (PCDChromaHeight sceneNumber)) sceneNumber 0
                {| br_fp := fseek fp (kSceneSectorSize * ICDOffset sceneNumber);
                   br_count := 0; br_luma := l; br_chroma1 := c1; br_chroma2 := c2 |} in
            if negb (br_count st
                     =? (PCDLumaWidth sceneNumber * 2 + PCDChromaWidth sceneNumber * 2)
                        * PCDChromaHeight sceneNumber)
            then readBaseLoop n' w fp (sceneNumber - 1) ICDOffset
            else (sceneNumber, Some (br_luma st), Some (br_chroma1 st), Some (br_chroma2 st))
        | _, _, _ => readBaseLoop n' w fp (sceneNumber - 1) ICDOffset
        end
      else (sceneNumber, None, None, None)
  end.

(** [readBaseImage]: the scene read, -1 when there is none, and the three
    planes.  [sceneNumber] is an [int] parameter. *)
Definition readBaseImage (w : World) (fp : FILE) (sceneNumber : Z) (ICDOffset : Z -> Z)
  : Z * option mem * option mem * option mem :=
  let sceneNumber := Int.s32 sceneNumber in
  let sceneNumber := if sceneNumber >? kBase then kBase else sceneNumber in
  readBaseLoop (Z.to_nat (sceneNumber + 1)) w fp sceneNumber ICDOffset.

(** ** Methods as state transformers

    A method that can throw: the object after the call and the outcome.
    What the method assigned before a [throw] stays assigned. *)
Definition M (A : Type) : Type := pcdDecode -> pcdDecode * result A.

Definition ret {A : Type} (a : A) : M A := fun this => (this, Ok a).

Definition bindM {A B : Type} (m : M A) (k : A -> M B) : M B :=
  fun this =>
    let '(this1, r) := m this in
    match r with
    | Ok a => k a this1
    | Throw msg => (this1, Throw msg)
    | Fault => (this1, Fault)
    | OutOfFuel => (this1, OutOfFuel)
    end.

Definition getThis : M pcdDecode := fun this => (this, Ok this).

Definition modify (f : pcdDecode -> pcdDecode) : M unit := fun this => (f this, Ok tt).

Definition lift {A : Type} (r : result A) : M A := fun this => (this, r).

Notation "x <~ m ;; k" := (bindM m (fun x => k))
  (at level 61, m at next level, right associativity).
Notation "m ;;; k" := (bindM m (fun _ => k))
  (at level 61, right associativity).

(** [try { body } catch (char *err) { ... } catch (...) { ... }].  Every
    [throw] of this code throws a string literal, an object of type
    [const char *]; the handler for [char *] does not match it, since that
    would drop the [const], and the exception goes to the [catch (...)]
    that follows. *)
Definition tryCatch {A : Type} (body : M A) (catchCharPtr : string -> M A)
  (catchAll : M A) : M A :=
  fun this =>
    let '(this1, r) := body this in
    match r with
    | Throw _ => catchAll this1
    | _ => (this1, r)
    end.

(** [errorString == NULL].  [errorString] is an array member of the
    object: the comparison is on its address, which is not null. *)
Definition errorStringIsNull (this : pcdDecode) : bool := false.

(** [strncpy (errorString, msg, kPCDMaxStringLength*3-1)] for a message
    shorter than the bound, as all of them are. *)
Definition setError (msg : string) : M unit := modify (set_errorString msg).

(** [if (errorString == NULL) strncpy (errorString, msg, ...)]. *)
Definition setErrorIfNull (msg : string) : M unit :=
  fun this =>
    if errorStringIsNull this then setError msg this else (this, Ok tt).

(** ** The 64Base files *)

(** [struct ic_header], [struct ic_description], [struct ic_fname] and
    [struct ic_entry], as offsets. *)
Definition ich_off_descr : Z := 0x28 + 4.
Definition ich_off_fnames : Z := 0x28 + 8.
Definition ich_off_pointers : Z := 0x28 + 12.
Definition ich_off_huffman : Z := 0x28 + 16.
Definition icd_len : Z := 0.
Definition icd_width : Z := 4.
Definition icd_height : Z := 6.
Definition icd_offset : Z := 8.
Definition icd_length : Z := 10.
Definition icd_off_pointers : Z := 14.
Definition sizeof_ic_fname : Z := 16.
Definition ice_fno : Z := 0.
Definition ice_offset : Z := 2.
Definition sizeof_ic_entry : Z := 6.

(** [tolower] on an ASCII code. *)
Definition tolower (c : Z) : Z :=
  if (65 <=? c) && (c <=? 90) then c + 32 else c.

(** One entry of [processedFNames]: the twelve characters of the name, a
    terminating 0, and the lower-casing of the C string when asked for. *)
Definition processedFName (icBuffer : list Z) (off_fnames i : Z) (usingLowerCase : bool)
  : string :=
  let fname := bytesFrom icBuffer (off_fnames + sizeof_ic_fname * i + 2) 12 ++ [0] in
  if usingLowerCase
  then cString (map tolower (bytesOfString (cString fname)) ++ [0])
  else cString fname.

Definition processedFNames (icBuffer : list Z) (off_fnames ipeFiles : Z)
  (usingLowerCase : bool) : list string :=
  map (fun i => processedFName icBuffer off_fnames (Z.of_nat i) usingLowerCase)
      (seq 0 (Z.to_nat ipeFiles)).

(** [thisFilePath]: the IPE path cut seven characters before its end,
    with the name of the extension file appended. *)
Definition extensionPath (ipe_file : string) (names : list string) (currentFile : Z)
  : string :=
  (substring 0 (String.length ipe_file - 7) ipe_file
   ++ stringTable names currentFile)%string.

(** [while (numSequences-- > 0)]: [n] turns left, [numSequences] the value
    of the counter after the decrement of the current turn. *)
Fixpoint sequenceLoop (n : nat) (w : World) (ipe_file : string) (names : list string)
  (icBuffer : list Z) (hTables : huffTables) (sequenceSize colOffset : Z)
  (sequence entry currentFile startPoint : Z) (data : DeltaPlanes) : result DeltaPlanes :=
  match n with
  | O => Ok data
  | S n' =>
      let sequence := sequence + 1 in
      if negb (currentFile =? getPCD16 icBuffer (entry + ice_fno)) || (Z.of_nat n' =? 0)
      then
        match w_fs w (extensionPath ipe_file names currentFile) with
        | None => Throw "Could not open 64Base extension image"
        | Some bytes =>
            hufBuffer <- initReadBuffer (stackBuffer w) (fseek (fopen bytes) startPoint) ;;
            r <- readPCDDeltas hufBuffer hTables k64Base sequenceSize (sequence - 1)
                   data colOffset ;;
            sequenceLoop n' w ipe_file names icBuffer hTables sequenceSize colOffset
              0 (entry + sizeof_ic_entry)
              (getPCD16 icBuffer (entry + ice_fno))
              (getPCD32 icBuffer (entry + ice_offset)) (snd r)
        end
      else
        sequenceLoop n' w ipe_file names icBuffer hTables sequenceSize colOffset
          sequence (entry + sizeof_ic_entry) currentFile startPoint data
  end.

(** The body of the loop over the layers.  A [sequenceSize] of 0 makes the
    division that computes [numSequences] undefined. *)
Definition readLayer (w : World) (ipe_file : string) (names : list string)
  (icBuffer : list Z) (hTables : huffTables) (description : Z) (data : DeltaPlanes)
  : result DeltaPlanes :=
  let sequenceSize := Int.s32 (getPCD32 icBuffer (description + icd_length)) in
  if sequenceSize =? 0 then Fault
  else
    let numSequences :=
      Z.quot (Int.s32 (getPCD16 icBuffer (description + icd_width)
                       * getPCD16 icBuffer (description + icd_height)))
             sequenceSize in
    let entry := getPCD32 icBuffer (description + icd_off_pointers) in
    sequenceLoop (Z.to_nat numSequences) w ipe_file names icBuffer hTables sequenceSize
      (getPCD16 icBuffer (description + icd_offset))
      0 entry
      (getPCD16 icBuffer (entry + ice_fno))
      (getPCD32 icBuffer (entry + ice_offset)) data.

Fixpoint readLayers (n : nat) (layer : Z) (w : World) (ipe_file : string)
  (names : list string) (icBuffer : list Z) (hTables : huffTables)
  (description : Z -> Z) (data : DeltaPlanes) : result DeltaPlanes :=
  match n with
  | O => Ok data
  | S n' =>
      data' <- readLayer w ipe_file names icBuffer hTables (description layer) data ;;
      readLayers n' (layer + 1) w ipe_file names icBuffer hTables description data'
  end.

(** A 64Base delta plane: the block from [malloc], set to 0 by [memset].
    [memset] through [NULL] is undefined. *)
Definition zeroedPlane (w : World) (plane : Z) : result (option mem) :=
  match w_malloc w (SiteDelta k64Base plane) with
  | None => Fault
  | Some _ => Ok (Some (fun _ => 0))
  end.

(** The [try] block of [parseICFile]. *)
Definition parseICBody (w : World) (ipe_file : string) (ic : FileBytes)
  (fileSize : Z) (usingLowerCase : bool) : M unit :=
  match w_malloc w SiteICBuffer with
  | None => lift (Throw "Memory allocation error")
  | Some block =>
      let '(got, _) := fread (KSectorSize * fileSize) (fseek (fopen ic) 0) in
      if Z.quot (Z.of_nat (List.length got)) KSectorSize <? fileSize - 1
      then lift (Throw "IC File too small")
      else
        let buffer := blit (blockBytes block (fileSize * KSectorSize)) 0 got in
        let off_descr := getPCD32 buffer ich_off_descr in
        modify (set_ipeLayers (getPCD16 buffer off_descr)) ;;;
        this <~ getThis ;;
        if negb ((ipeLayers this =? 1) || (ipeLayers this =? 3))
        then lift (Throw "Invalid number of layers")
        else
          (if monochrome this then modify (set_ipeLayers 1) else ret tt) ;;;
          let description0 := off_descr + 2 in
          let description1 := description0 + getPCD16 buffer (description0 + icd_len) in
          let description2 := description1 + getPCD16 buffer (description1 + icd_len) in
          let description (layer : Z) :=
            if layer =? 0 then description0
            else if layer =? 1 then description1 else description2 in
          let off_fnames := getPCD32 buffer ich_off_fnames in
          modify (set_ipeFiles (getPCD16 buffer off_fnames)) ;;;
          this <~ getThis ;;
          if (ipeFiles this <? 1) || (ipeFiles this >? 10)
             || (ipeFiles this <? ipeLayers this)
          then lift (Throw "Invalid number of IPE files")
          else
            let names := processedFNames buffer off_fnames (ipeFiles this) usingLowerCase in
            hTables <~ lift (readAllHuffmanTables (fopen ic)
                               (getPCD32 buffer ich_off_huffman) (w_tables w)
                               (ipeLayers this)
                               (w_malloc w (SiteTableBuffer k64Base))) ;;
            d0 <~ lift (zeroedPlane w 0) ;;
            modify (fun t => set_deltas (k64Base - k4Base)
                      {| data0 := d0;
                         data1 := data1 (deltas t (k64Base - k4Base));
                         data2 := data2 (deltas t (k64Base - k4Base)) |} t) ;;;
            (if ipeLayers this =? 3 then
               d1 <~ lift (zeroedPlane w 1) ;;
               d2 <~ lift (zeroedPlane w 2) ;;
               modify (fun t => set_deltas (k64Base - k4Base)
                         {| data0 := data0 (deltas t (k64Base - k4Base));
                            data1 := d1; data2 := d2 |} t)
             else ret tt) ;;;
            this <~ getThis ;;
            data <~ lift (readLayers (Z.to_nat (ipeLayers this)) 0 w ipe_file names buffer
                            hTables description (deltas this (k64Base - k4Base))) ;;
            modify (set_deltas (k64Base - k4Base) data)
  end.

(** [parseICFile (ipe_file)].  [ipe_file] is [None] for a [NULL] pointer,
    on which [strlen] is undefined. *)
Definition parseICFile (w : World) (ipe_file : option string) : M bool :=
  match ipe_file with
  | None => lift Fault
  | Some ipe =>
      if Z.of_nat (String.length ipe) <? 10 then
        setError "IPE filename too short to be valid" ;;; ret false
      else
        let usingLowerCase :=
          match String.get (String.length ipe - 9) ipe with
          | Some c => Z.of_nat (nat_of_ascii c) =? 101
          | None => false
          end in
        match w_fs w ipe with
        | None => setError "Could not open 64Base IPE file" ;;; ret false
        | Some ic =>
            let fileSize := Z.quot (fb_size ic) KSectorSize + 1 in
            if fileSize <? 1 then
              setError "Could not read 64Base IPE file" ;;; ret false
            else
              match w_malloc w SiteICTables with
              | None => setError "Could not allocate huffman tables" ;;; ret false
              | Some _ =>
                  retVal <~ tryCatch
                    (parseICBody w ipe ic fileSize usingLowerCase ;;; ret true)
                    (fun err =>
                       setErrorIfNull (err ++ " while processing 64Base image")%string ;;;
                       ret false)
                    (setErrorIfNull "Error while processing 64Base image" ;;; ret false) ;;
                  (if negb retVal
                   then modify (set_deltas (k64Base - k4Base) noDeltas)
                   else ret tt) ;;;
                  ret retVal
              end
        end
  end.

(** ** The file parser *)

(** The [try] block for the 16Base image, with the call to [parseICFile]
    for the 64Base image in it. *)
Definition parse16Base (w : World) (fp : FILE) (ipe_file : option string)
  (HCTOffset ICDOffset : Z -> Z) (hTables : huffTables) : M unit :=
  this <~ getThis ;;
  hTables16 <~ lift (readAllHuffmanTables fp (kSceneSectorSize * HCTOffset k16Base)
                       hTables (if monochrome this then 1 else 3)
                       (w_malloc w (SiteTableBuffer k16Base))) ;;
  let fp1 := fseek fp (kSceneSectorSize * ICDOffset k16Base) in
  modify (fun t => set_deltas (k16Base - k4Base)
            {| data0 := w_malloc w (SiteDelta k16Base 0);
               data1 := data1 (deltas t (k16Base - k4Base));
               data2 := data2 (deltas t (k16Base - k4Base)) |} t) ;;;
  (if negb (monochrome this) then
     modify (fun t => set_deltas (k16Base - k4Base)
               {| data0 := data0 (deltas t (k16Base - k4Base));
                  data1 := w_malloc w (SiteDelta k16Base 1);
                  data2 := w_malloc w (SiteDelta k16Base 2) |} t)
   else ret tt) ;;;
  hufBuffer <~ lift (initReadBuffer (stackBuffer w) fp1) ;;
  this <~ getThis ;;
  r <~ lift (readPCDDeltas hufBuffer hTables16 k16Base 0 0
               (deltas this (k16Base - k4Base)) 0) ;;
  modify (set_deltas (k16Base - k4Base) (snd r)) ;;;
  this <~ getThis ;;
  if sceneNumber this >=? k64Base then
    ok <~ parseICFile w ipe_file ;;
    if negb ok then
      modify (set_sceneNumber k16Base) ;;;
      setErrorIfNull "Error while processing 64Base image"
    else ret tt
  else ret tt.

(** The [try] block for the 4Base image, with the 16Base image in it. *)
Definition parse4Base (w : World) (fp : FILE) (ipe_file : option string)
  (HCTOffset ICDOffset : Z -> Z) : M unit :=
  match w_malloc w SiteTables with
  | None => setError "Could not allocate huffman tables"
  | Some _ =>
      hTables <~ lift (readAllHuffmanTables fp (kSceneSectorSize * HCTOffset k4Base)
                         (w_tables w) 1
                         (w_malloc w (SiteTableBuffer k4Base))) ;;
      let fp1 := fseek fp (kSceneSectorSize * ICDOffset k4Base) in
      modify (fun t => set_deltas (k4Base - k4Base)
                {| data0 := w_malloc w (SiteDelta k4Base 0);
                   data1 := data1 (deltas t (k4Base - k4Base));
                   data2 := data2 (deltas t (k4Base - k4Base)) |} t) ;;;
      hufBuffer <~ lift (initReadBuffer (stackBuffer w) fp1) ;;
      this <~ getThis ;;
      r <~ lift (readPCDDeltas hufBuffer hTables k4Base 0 0
                   (deltas this (k4Base - k4Base)) 0) ;;
      modify (set_deltas (k4Base - k4Base) (snd r)) ;;;
      this <~ getThis ;;
      if sceneNumber this >=? k16Base then
        tryCatch
          (parse16Base w fp ipe_file HCTOffset ICDOffset hTables)
          (fun err =>
             modify (set_sceneNumber k4Base) ;;;
             setErrorIfNull (err ++ " while processing 16Base image")%string)
          (modify (set_sceneNumber k4Base) ;;;
           setErrorIfNull "Could not find a valid 16Base image; falling back to 4Base") ;;;
        this <~ getThis ;;
        if sceneNumber this =? k4Base
        then modify (set_deltas (k16Base - k4Base) noDeltas)
        else ret tt
      else ret tt
  end.

(** The part of [parseFile] that follows the checks of the header: the
    attributes, the base image and the deltas.  [pcdFile] holds the bytes
    of the header and [fp] is the file, open. *)
Definition parseScenes (w : World) (fp : FILE) (ipe_file : option string)
  (pcdFile : list Z) (sNum : Z) : M bool :=
  let attributes := byteAt pcdFile off_attributes in
  modify (set_attributes
            (Z.land attributes 0x03)
            (Z.land (Z.shiftr attributes 2) 0x03 + kBase)
            (Z.land (Z.shiftr attributes 4) 0x01)
            (Z.land (Z.shiftr attributes 5) 0x02)) ;;;
  let base4Stop := getPCD16 pcdFile off_sectorStop4Base in
  let ICDOffset := table [4; 23; 96; 389; base4Stop + 14; 0] in
  let HCTOffset := table [0; 0; 0; 388; base4Stop + 12; 0] in
  modify (set_sceneNumber (Int.u32 sNum)) ;;;
  this <~ getThis ;;
  (if imageResolution this <? k16Base
   then modify (set_sceneNumber (pcdMin (sceneNumber this) (imageResolution this)))
   else ret tt) ;;;
  this <~ getThis ;;
  let '(scene, l, c1, c2) := readBaseImage w fp (sceneNumber this) ICDOffset in
  modify (set_planes l c1 c2) ;;;
  modify (set_baseScene (Int.u32 scene)) ;;;
  this <~ getThis ;;
  if baseScene this <? kBase16 then
    setError "No valid base image could be found" ;;;
    ret false
  else
    (if baseScene this <? kBase
     then modify (set_sceneNumber (baseScene this))
     else ret tt) ;;;
    this <~ getThis ;;
    (if sceneNumber this >=? k4Base then
       tryCatch
         (parse4Base w fp ipe_file HCTOffset ICDOffset)
         (fun err =>
            modify (set_sceneNumber kBase) ;;;
            setErrorIfNull (err ++ " while processing 4Base image")%string)
         (modify (set_sceneNumber kBase) ;;;
          setErrorIfNull "Could not find a valid 4Base image; falling back to Base") ;;;
       this <~ getThis ;;
       if sceneNumber this =? kBase
       then modify (set_deltas (k4Base - k4Base) noDeltas)
       else ret tt
     else ret tt) ;;;
    ret true.

(** [parseFile (in_file, ipe_file, sNum)]. *)
Definition parseFile (w : World) (in_file : string) (ipe_file : option string) (sNum : Z)
  : M bool :=
  modify pcdFreeAll ;;;
  modify (set_errorString "") ;;;
  match w_fs w in_file with
  | None =>
      setError "Could not open PCD file - may be a file permissions problem" ;;;
      ret false
  | Some bytes =>
      match w_malloc w SiteFileHeader with
      | None => ret false
      | Some block =>
          let '(count, got, fp) := readBytes (fopen bytes) sizeofPCDFile in
          let pcdFile := blit (blockBytes block sizeofPCDFile) 0 got in
          modify (set_pcdFileHeader (Some pcdFile)) ;;;
          if negb (count =? sizeofPCDFile) then
            modify (set_pcdFileHeader None) ;;;
            setError "PCD file is too small to be valid" ;;;
            ret false
          else
            let overview := compareBytes pcdFile off_signature "PCD_OPA" =? 0 in
            if negb (compareBytes pcdFile off_ipiSignature "PCD_IPI" =? 0) && negb overview
            then
              modify (set_pcdFileHeader None) ;;;
              setError "That is not a valid PCD file" ;;;
              ret false
            else if negb (byteAt pcdFile off_interleaveRatio =? 1) then
              modify (set_pcdFileHeader None) ;;;
              setError "The file contains interleaved audio" ;;;
              ret false
            else parseScenes w fp ipe_file pcdFile sNum
      end
  end.

(** ** Applying the deltas *)

(** What the two [malloc] calls of [postParse] return for a scene: the
    block for plane 1 or 2, [None] for [NULL]. *)
Definition PostParseHeap : Type := Z -> Z -> option mem.

(** The part of the loop body of [postParse] for one chroma plane:
    [chroma] is the member [chroma1] or [chroma2], [delta] the pointer in
    [deltas[sceneNumber-k4Base]], [fresh] what [malloc] returns when it is
    called.  The result is the member and the pointer after it. *)
Definition postParseChroma (fresh chroma delta : option mem) (width height method : Z)
  : option mem * option mem :=
  let haveDeltas := negb (isNull delta) in
  let delta1 := if negb haveDeltas then fresh else delta in
  let delta2 :=
    upResBuffer chroma delta1 (Z.shiftr width 1) (Z.shiftr height 1) method haveDeltas in
  if negb (isNull delta2) then (delta2, None) else (chroma, delta2).

(** The body of the loop of [postParse] for the scene [s], the local
    variable [sceneNumber] of the method. *)
Definition postParseScene (heap : PostParseHeap) (s : Z) (this : pcdDecode) : pcdDecode :=
  let d := deltas this (s - k4Base) in
  if negb (isNull (data0 d)) then
    let method := pcdMin kUpResIterpolate (upResMethod this) in
    let delta0 :=
      upResBuffer (luma this) (data0 d) (PCDLumaWidth s) (PCDLumaHeight s) method true in
    let '(luma1, delta0') :=
      if negb (isNull delta0) then (delta0, None) else (luma this, delta0) in
    let '(chroma1', delta1') :=
      postParseChroma (heap s 1) (chroma1 this) (data1 d)
        (PCDLumaWidth s) (PCDLumaHeight s) method in
    let '(chroma2', delta2') :=
      postParseChroma (heap s 2) (chroma2 this) (data2 d)
        (PCDLumaWidth s) (PCDLumaHeight s) method in
    set_deltas (s - k4Base) {| data0 := delta0'; data1 := delta1'; data2 := delta2' |}
      (set_planes luma1 chroma1' chroma2' this)
  else this.

(** [for (sceneNumber = k4Base; sceneNumber <= k64Base; sceneNumber++)]. *)
Fixpoint postParseLoop (n : nat) (s : Z) (heap : PostParseHeap) (this : pcdDecode)
  : pcdDecode :=
  match n with
  | O => this
  | S n' => postParseLoop n' (s + 1) heap (postParseScene heap s this)
  end.

(** [postParse ()]. *)
Definition postParse (heap : PostParseHeap) (this : pcdDecode) : pcdDecode :=
  if negb (hasHeader this) then this
  else postParseLoop (Z.to_nat (k64Base - k4Base + 1)) k4Base heap this.

(** * Notions of the specification *)

(** [clamp (x, lo, hi)]. *)
Definition clamp (x lo hi : Z) : Z := Z.max lo (Z.min x hi).

(** The index of the sample at column [x] of row [y] in a raster of
    [width] samples per row. *)
Definition rasterIndex (width x y : Z) : Z := x + y * width.

(** The first [k] symbols of a sequence decode: the buffer after them,
    [None] when one of them meets the error length or the stream ends. *)
Fixpoint decodePrefix (huf : huffTable) (k : nat) (b : ReadBuffer) : option ReadBuffer :=
  match k with
  | O => Some b
  | S k' =>
      if ht_len huf (currentCode b) =? kHuffmanErrorLen then None
      else
        match PCDGetBits b (ht_len huf (currentCode b)) with
        | Ok b' => decodePrefix huf k' b'
        | _ => None
        end
  end.

(** The read buffers that [initReadBuffer] and [PCDGetBits] produce: more
    than 24 and at most 32 bits in a shift register of 32 bits, the read
    pointer inside the sector buffer or just behind it. *)
Definition wfBuffer (b : ReadBuffer) : Prop :=
  24 < rb_bits b <= 32 /\ 0 <= rb_p b <= KSectorSize /\ 0 <= rb_sum b < 2 ^ 32.

(** The buffers on which the refill loop of [PCDGetBits] runs. *)
Definition reading (b : ReadBuffer) : Prop :=
  0 <= rb_bits b <= 32 /\ 0 <= rb_p b <= KSectorSize /\ 0 <= rb_sum b < 2 ^ 32.

(** The message of the one [throw] of the bit reader. *)
Definition endOfFile : string := "Unexpected end of file in Huffman sequence".

(** What a scan can end with: a buffer that meets the condition, or the
    end of the file. *)
Definition scanResult (cond : ReadBuffer -> bool) (r : result ReadBuffer) : Prop :=
  match r with
  | Ok b' => wfBuffer b' /\ cond b' = true
  | Throw msg => msg = endOfFile
  | _ => False
  end.

(** Whether [s] contains [sub]. *)
Fixpoint mentions (sub s : string) : bool :=
  match s with
  | EmptyString => String.eqb sub EmptyString
  | String _ rest => String.prefix sub s || mentions sub rest
  end.

(** The object after a method has run on it, and how the method ended. *)
Definition after {A : Type} (m : M A) (this : pcdDecode) : pcdDecode := fst (m this).
Definition outcome {A : Type} (m : M A) (this : pcdDecode) : result A := snd (m this).

(** A method keeps a member, given as the function [f] that reads it, when
    the member is the same after every call. *)
Definition keeps {A X : Type} (f : pcdDecode -> X) (m : M A) : Prop :=
  forall this, f (after m this) = f this.

(** * Concrete inputs *)

(** A decoder object before construction: every member zero. *)
Definition rawObject : pcdDecode :=
  {| upResMethod := 0; monochrome := false; luma := None; chroma1 := None;
     chroma2 := None; deltas := fun _ => noDeltas; imageRotate := 0;
     imageResolution := 0; colorSpace := 0; whiteBalance := 0;
     imageIPEAvailable := 0; imageHuffmanClass := 0; baseScene := 0;
     sceneNumber := 0; ipeLayers := 0; ipeFiles := 0; pcdFileHeader := None;
     errorString := "" |}.

(** A tile of a Base/16 image in the raw colour space, with luma 100
    everywhere and chroma 200 and 50. *)
Definition flatTile : ConvertToRGBData :=
  {| rd_outputSize := pcdByteSize; rd_red := 0; rd_green := 1; rd_blue := 2;
     rd_alpha := None; rd_d := 3; rd_startRow := 0; rd_endRow := 16;
     rd_columns := 192; rd_rows := 128;
     rd_lp := Some (fun _ => 100); rd_c1p := Some (fun _ => 200);
     rd_c2p := Some (fun _ => 50); rd_resFactor := 1; rd_imageRotate := 0;
     rd_colorSpace := kPCDRawColorSpace; rd_whiteBalance := kPCDD65White |}.

(** A constructed decoder. *)
Definition freshDecoder : pcdDecode := newDecoder rawObject.

(** A decoder that holds a Base/16 image stored a quarter turn away from
    its natural orientation: [imageRotate] is 3. *)
Definition rotatedDecoder : pcdDecode :=
  set_pcdFileHeader (Some [])
    (set_planes (Some (fun _ => 100)) (Some (fun _ => 200)) (Some (fun _ => 200))
       (set_attributes 3 kBase 0 0 (set_sceneNumber kBase16 freshDecoder))).

(** A decoder that holds a Base/16 image in colour, upright, with nearest
    neighbour chroma: a dark red, luma 1, first chroma plane at its neutral
    value 156, second chroma plane 140. *)
Definition colourDecoder : pcdDecode :=
  setInterpolation kUpResNearest
    (set_pcdFileHeader (Some [])
       (set_planes (Some (fun _ => 1)) (Some (fun _ => 156)) (Some (fun _ => 140))
          (set_attributes 0 kBase 0 0 (set_sceneNumber kBase16 freshDecoder)))).

(** No block to be had from [malloc]. *)
Definition emptyHeap : PopulateHeap :=
  {| fresh_c1UpRes := None; fresh_c2UpRes := None; fresh_intermediate := None |}.

(** The red sample at [index] of an interleaved 8-bit RGB buffer that
    [populateUInt8Buffers] has filled, -1 if the call did not return. *)
Definition redSample (this : pcdDecode) (index : Z) : Z :=
  match populateUInt8Buffers emptyHeap this (fun _ => 0) 0 1 2 None 3 with
  | Ok (_, out) => out (3 * index)
  | _ => -1
  end.

(** The read buffer that [initReadBuffer] sets up on a file with the given
    bytes, the sector buffer holding zeros before. *)
Definition zeroBuffer : ReadBuffer :=
  {| rb_sbuffer := repeat 0 2048; rb_fp := fopen (fileOfList []); rb_sum := 0;
     rb_bits := 0; rb_p := 0 |}.

Definition bufferOn (bytes : list Z) : ReadBuffer :=
  match initReadBuffer zeroBuffer (fopen (fileOfList bytes)) with
  | Ok b => b
  | _ => zeroBuffer
  end.

(** A stream whose first 20 bits are 0xFFFFE, with the marker 0xFFFFFE in
    its bytes 4 to 6. *)
Definition strayStream : list Z := [0xff; 0xff; 0xe0; 0x00; 0xff; 0xff; 0xfe; 0x00].

(** A Huffman code table with the one entry of length 1, code word 0x8000
    and key 0x2A, as [readHuffTable] builds it. *)
Definition oneCodeTable : huffTable :=
  match readHuffTable [0; 0; 0x80; 0x00; 0x2a] 0 with
  | Ok (t, _) => t
  | _ => {| ht_key := fun _ => 0; ht_len := fun _ => 0 |}
  end.

(** A stream with one code of [oneCodeTable], then a bit that is no code,
    then the marker. *)
Definition brokenStream : list Z := [0x80; 0x00; 0xff; 0xff; 0xfe; 0x00; 0x00; 0x00].

(** A stream of sequences of a 4Base image: the marker, then a header for
    row 0x1FFF of plane 0, which no 4Base image has. *)
Definition staleStream : list Z :=
  [0xff; 0xff; 0xfe; 0x3f; 0xfe; 0xff; 0xff; 0xfe; 0x3f; 0xfe; 0xff; 0xff; 0xfe; 0x3f; 0xfe].

(** The three tables of a level, all [oneCodeTable]. *)
Definition oneCodeTables : huffTables :=
  {| ht0 := oneCodeTable; ht1 := oneCodeTable; ht2 := oneCodeTable |}.

(** The delta planes of a 4Base image: luma only. *)
Definition lumaOnly : DeltaPlanes :=
  {| data0 := Some (fun _ => 7); data1 := None; data2 := None |}.

(** An image pack of 16Base resolution.  The header carries the signature,
    the attributes byte 8 (upright, 16Base, no extension, class 1), the
    last sector of the 4Base image, 393, and the interleave ratio 1.  The
    base images are black; sector 388 holds the one-code table of the
    4Base image and sector 405 those of the 16Base image; the sectors
    after them hold sequences of one code each. *)
Definition headerByte (attributes base4Stop i : Z) : Z :=
  if (off_ipiSignature <=? i) && (i <? off_ipiSignature + 7)
  then byteAt (bytesOfString "PCD_IPI") (i - off_ipiSignature)
  else if i =? off_attributes then attributes
  else if i =? off_sectorStop4Base then Z.shiftr base4Stop 8
  else if i =? off_sectorStop4Base + 1 then Z.land base4Stop 255
  else if i =? off_interleaveRatio then 1
  else 0.

Definition sequenceByte (i : Z) : Z :=
  nth (Z.to_nat (i mod 5)) [0xff; 0xff; 0xfe; 0x3f; 0xfe] 0.

Definition packByte (i : Z) : Z :=
  if i <? sizeofPCDFile then headerByte 8 393 i
  else if i <? 388 * 2048 then 0
  else if i <? 389 * 2048 then byteAt [0; 0; 0x80; 0x00; 0x2a] (i - 388 * 2048)
  else if i <? 405 * 2048
       then (if i - 389 * 2048 <? 5 * 1536 then sequenceByte (i - 389 * 2048) else 0)
  else if i <? 407 * 2048
       then byteAt [0; 0; 0x80; 0; 0x2a; 0; 0; 0x80; 0; 0x2a; 0; 0; 0x80; 0; 0x2a]
                   (i - 405 * 2048)
  else (if i - 407 * 2048 <? 5 * 4096 then sequenceByte (i - 407 * 2048) else 0).

Definition packImage : FileBytes := {| fb_byte := packByte; fb_size := 419 * 2048 |}.

(** Its companion file for the 64Base image: one sector of zeros, so that
    the file opens and is read, and announces no layer at all. *)
Definition emptyCompanion : FileBytes := fileOfList (repeat 0 2048).

(** The disc: the two files, and a heap that never runs out. *)
Definition disc : World :=
  {| w_fs := fun name =>
       if String.eqb name "img0001.pcd" then Some packImage
       else if String.eqb name "cd/ipe/64base/info.ic" then Some emptyCompanion
       else None;
     w_malloc := fun _ => Some (fun _ => 0);
     w_tables := let t := {| ht_key := fun _ => 0; ht_len := fun _ => 0 |} in
                 {| ht0 := t; ht1 := t; ht2 := t |};
     w_stack := repeat 0 2048 |}.

(** The call that asks for the 64Base image of the pack. *)
Definition parse64Base : pcdDecode * result bool :=
  parseFile disc "img0001.pcd" (Some "cd/ipe/64base/info.ic") k64Base freshDecoder.

(** * Further notions and inputs *)

(** Locals of [convertToRGB] whose two chroma terms are 0. *)
Definition achromatic (l : Locals) : Prop := C1i l = 0 /\ C2i l = 0.

(** The tile [flatTile] as [populateBuffers] hands it over for a
    monochrome decoder: both chroma pointers null. *)
Definition greyTile : ConvertToRGBData :=
  {| rd_outputSize := pcdByteSize; rd_red := 0; rd_green := 1; rd_blue := 2;
     rd_alpha := None; rd_d := 3; rd_startRow := 0; rd_endRow := 16;
     rd_columns := 192; rd_rows := 128;
     rd_lp := Some (fun _ => 100); rd_c1p := None; rd_c2p := None;
     rd_resFactor := 1; rd_imageRotate := 0;
     rd_colorSpace := kPCDsRGBColorSpace; rd_whiteBalance := kPCDD65White |}.

(** A method that lets no exception out. *)
Definition quiet {A : Type} (m : M A) : Prop :=
  forall this msg, outcome m this <> Throw msg.

(** A disc without the image asked for. *)
Definition emptyDisc : World :=
  {| w_fs := fun _ => None;
     w_malloc := fun _ => Some (fun _ => 0);
     w_tables := w_tables disc;
     w_stack := repeat 0 2048 |}.

(** The bytes of the interleaved image of scene [s]: for each of the
    chroma rows, two luma rows and a row of each chroma plane. *)
Definition baseImageBytes (s : Z) : Z :=
  (PCDLumaWidth s * 2 + PCDChromaWidth s * 2) * PCDChromaHeight s.

(** The scene [s] can be read: the three planes can be allocated and the
    file reaches to the end of the image. *)
Definition baseReadable (w : World) (fp : FILE) (ICDOffset : Z -> Z) (s : Z) : Prop :=
  w_malloc w (SiteBaseLuma s) <> None
  /\ w_malloc w (SiteBaseChroma1 s) <> None
  /\ w_malloc w (SiteBaseChroma2 s) <> None
  /\ kSceneSectorSize * ICDOffset s + baseImageBytes s <= fb_size (f_data fp).

(** The three planes [lm], [c1m], [c2m] of scene [s] hold the bytes that
    [file] has from offset [start] on, taken out of their interleaving:
    chroma row [yy] comes with the luma rows [2 yy] and [2 yy + 1], which
    precede it. *)
Definition deinterleaved (file : Z -> Z) (start s : Z) (lm c1m c2m : mem) : Prop :=
  let W := PCDLumaWidth s in
  let Wc := PCDChromaWidth s in
  let R := W * 2 + Wc * 2 in
  (forall yy half c, 0 <= yy < PCDChromaHeight s -> 0 <= half <= 1 -> 0 <= c < W ->
     lm (c + (yy * 2 + half) * W) = file (start + yy * R + half * W + c))
  /\ (forall yy c, 0 <= yy < PCDChromaHeight s -> 0 <= c < Wc ->
        c1m (c + yy * Wc) = file (start + yy * R + W * 2 + c)
        /\ c2m (c + yy * Wc) = file (start + yy * R + W * 2 + Wc + c)).

(** A stream that starts with codes of [oneCodeTable] only. *)
Definition codeStream : list Z := [0xff; 0xff; 0xff; 0xff; 0x00; 0x00; 0x00; 0x00].

(** The entry [i] of the [struct hctTable] at [source] in [buffer]: the
    length of its code in bits, the code word, left justified in 16 bits,
    and the key. *)
Definition entryLength (buffer : list Z) (source i : Z) : Z :=
  byteAt buffer (source + 1 + i * 4) + 1.
Definition entryCode (buffer : list Z) (source i : Z) : Z :=
  getPCD16 buffer (source + 1 + i * 4 + 1).
Definition entryKey (buffer : list Z) (source i : Z) : Z :=
  byteAt buffer (source + 1 + i * 4 + 3).

(** The cells of the look-up table that the inner loop of [readHuffTable]
    writes for entry [i]: the code word or-ed with every index below
    2^(16 - length), as the loop computes them. *)
Definition covers (buffer : list Z) (source i code : Z) : Prop :=
  exists index, 0 <= index < 2 ^ (16 - entryLength buffer source i)
                /\ code = Int.u16 (Z.lor (entryCode buffer source i) index).

(** The code word of entry [i] is left justified: no bit is set below its
    first [length] bits. *)
Definition leftJustified (buffer : list Z) (source i : Z) : Prop :=
  Z.land (entryCode buffer source i) (2 ^ (16 - entryLength buffer source i) - 1) = 0.

(** The 16-bit [code] starts with the code word of entry [i]: its first
    [length] bits are those of the code word. *)
Definition startsWith (buffer : list Z) (source i code : Z) : Prop :=
  0 <= code < 2 ^ 16
  /\ Z.shiftr code (16 - entryLength buffer source i)
     = Z.shiftr (entryCode buffer source i) (16 - entryLength buffer source i).

(** A header with the two signatures and the film term number 7. *)
Definition filmByte (i : Z) : Z :=
  if (off_ipiSignature <=? i) && (i <? off_ipiSignature + 7)
  then byteAt (bytesOfString "PCD_IPI") (i - off_ipiSignature)
  else if (off_sbaSignature <=? i) && (i <? off_sbaSignature + 3)
  then byteAt (bytesOfString "SBA") (i - off_sbaSignature)
  else if i =? off_sbaFTN + 1 then 7
  else 0.

Definition filmHeader : list Z :=
  map (fun i => filmByte (Z.of_nat i)) (seq 0 (Z.to_nat sizeofPCDFile)).

Definition filmDecoder : pcdDecode := set_pcdFileHeader (Some filmHeader) freshDecoder.

(** What [upResInterpolate] leaves in a cell of the plane it produces:
    the interpolated value [sum], with the delta that the cell held added
    when there are deltas, cut to a byte. *)
Definition deltaPixel (hasDeltas : bool) (sum old : Z) : Z :=
  Int.u8 (saturate (if hasDeltas then Int.s32 (sum + Int.s8 old) else sum)).

(** The bilinear interpolation of [upResInterpolate] for the pixel at
    column [2 c + dx] and row [2 r + dy] of the plane produced, from a
    base plane of [w2] columns and [h2] rows: the base pixel, the mean of
    it and its right or lower neighbour, or the mean of the four, with the
    neighbours taken inside the plane. *)
Definition bilinear (base : mem) (w2 h2 r c dy dx : Z) : Z :=
  let cp := Z.min (c + 1) (w2 - 1) in
  let rp := Z.min (r + 1) (h2 - 1) in
  let p := base (c + r * w2) in
  let p01 := base (cp + r * w2) in
  let p10 := base (c + rp * w2) in
  let p11 := base (cp + rp * w2) in
  if (dy =? 0) && (dx =? 0) then p
  else if dy =? 0 then Z.shiftr (p + p01 + 1) 1
  else if dx =? 0 then Z.shiftr (p + p10 + 1) 1
  else Z.shiftr (p + p01 + p10 + p11 + 2) 2.

(** The index of that pixel in a plane of [W] columns. *)
Definition upResIndex (W r c dy dx : Z) : Z := (2 * c + dx) + (2 * r + dy) * W.

(** [out] is [dest] after the interpolation of the base pixels in the
    region [R] (rows and columns of the base plane): the four cells of each
    are as [deltaPixel] and [bilinear] say, every other cell is as it was. *)
Definition interpolated (bm : mem) (W H : Z) (hd : bool) (R : Z -> Z -> Prop)
  (dest out : mem) : Prop :=
  (forall r c dy dx, R r c -> 0 <= dy <= 1 -> 0 <= dx <= 1 ->
     out (upResIndex W r c dy dx)
     = deltaPixel hd (bilinear bm (Z.shiftr W 1) (Z.shiftr H 1) r c dy dx)
         (dest (upResIndex W r c dy dx)))
  /\ (forall j, (forall r c dy dx, R r c -> 0 <= dy <= 1 -> 0 <= dx <= 1 ->
                   j <> upResIndex W r c dy dx) ->
        out j = dest j).

(** A small base plane and an empty destination for the interpolator. *)
Definition rampPlane : mem := fun i => 16 * i.

Definition clearPlane : mem := fun _ => 0.

(** What the nearest neighbour loops of [upResBuffer] leave in the cell at
    [row] and [column]: the base pixel at the halved position, with the
    delta that the cell held added and the sum clamped when there are
    deltas. *)
Definition nearestValue (base : mem) (W : Z) (hasDeltas : bool) (row column old : Z) : Z :=
  let sum := base (Z.shiftr column 1 + Z.shiftr row 1 * Z.shiftr W 1) in
  Int.u8 (if hasDeltas then saturate (Int.s32 (sum + Int.s8 old)) else sum).

(** ** The colour conversion, as the specification words it *)

(** The three indices of the specification for a luma byte [L] and chroma
    bytes [c1], [c2]: exact integers, [>>] the shift that rounds down, [/]
    the division that truncates. *)
Definition claimedIndices (L c1 c2 : Z) : Z * Z * Z :=
  let Li := L * 5573 in
  let C1i := (c1 - 156) * 9085 in
  let C2i := (c2 - 137) * 7461 in
  (clamp (Z.shiftr (Li + C2i) 10) 0 1388,
   clamp (Z.shiftr Li 10 - Z.quot C1i 5278 - Z.quot C2i 2012) 0 1388,
   clamp (Z.shiftr (Li + C1i) 10) 0 1388).

(** The chroma byte that stands for a chroma pointer at an index: the byte
    read through it, or, for a null pointer, the neutral value ([156] for
    the first plane, [137] for the second) at which the term of the plane
    is 0. *)
Definition chromaByte (p : option mem) (neutral i : Z) : Z :=
  match p with
  | Some m => m i
  | None => neutral
  end.

(** The locals as they are carried into a pixel: [C1i] and [C2i] are 0,
    their initial value, when the pointer that would assign them is null. *)
Definition carried (rd : ConvertToRGBData) (l : Locals) : Prop :=
  (rd_c1p rd = None -> C1i l = 0) /\ (rd_c2p rd = None -> C2i l = 0).

(** The pixels of the band of [rd]. *)
Definition inBand (rd : ConvertToRGBData) (row col : Z) : Prop :=
  rd_startRow rd <= row < rd_endRow rd /\ 0 <= col < rd_columns rd.

(** The three bytes of a pixel are bytes. *)
Definition pixelBytes (rd : ConvertToRGBData) (lm : mem) (row col : Z) : Prop :=
  0 <= lm (lumaIndex rd row col) <= 255
  /\ 0 <= chromaByte (rd_c1p rd) 156 (chromaIndex rd row col) <= 255
  /\ 0 <= chromaByte (rd_c2p rd) 137 (chromaIndex rd row col) <= 255.

(** The indices of the specification for the pixel at [row], [col]. *)
Definition claimedPixel (rd : ConvertToRGBData) (lm : mem) (row col : Z) : Z * Z * Z :=
  claimedIndices (lm (lumaIndex rd row col))
    (chromaByte (rd_c1p rd) 156 (chromaIndex rd row col))
    (chromaByte (rd_c2p rd) 137 (chromaIndex rd row col)).

(** The output table of the sample format of [rd]. *)
Definition outputLUT (rd : ConvertToRGBData) : Z -> Z :=
  if rd_outputSize rd =? pcdFloatSize then floatOutput
  else if rd_outputSize rd =? pcdInt16Size then uint16Output
  else uint8Output.

(** The base addresses of the channels that [rd] delivers. *)
Definition channels (rd : ConvertToRGBData) : list Z :=
  rd_red rd :: rd_green rd :: rd_blue rd
  :: match rd_alpha rd with
     | Some a => [a]
     | None => []
     end.

(** The caller's buffers keep the samples of the band apart: the channels
    are different buffers, and no two samples of the band share a cell. *)
Definition separate (rd : ConvertToRGBData) : Prop :=
  NoDup (channels rd)
  /\ forall ch ch' row col row' col',
       In ch (channels rd) -> In ch' (channels rd) ->
       inBand rd row col -> inBand rd row' col' ->
       ch + destIndex rd row col = ch' + destIndex rd row' col' ->
       ch = ch' /\ row = row' /\ col = col'.

(** The red, green and blue samples of the pixel at [row], [col] in the
    memory [o] are the entries of the output table at the indices [rgb]. *)
Definition samplesAt (rd : ConvertToRGBData) (o : mem) (row col : Z) (rgb : Z * Z * Z)
  : Prop :=
  let '(r, g, b) := rgb in
  o (rd_red rd + destIndex rd row col) = outputLUT rd r
  /\ o (rd_green rd + destIndex rd row col) = outputLUT rd g
  /\ o (rd_blue rd + destIndex rd row col) = outputLUT rd b.

(** A decoder straight from the constructor, built on memory in which the
    word of [sceneNumber] holds 6. *)
Definition strayDecoder : pcdDecode := newDecoder (set_sceneNumber 6 rawObject).

(** A heap that gives the first block that [interpolateBuffers] asks for
    and no other. *)
Definition firstBlockHeap : PopulateHeap :=
  {| fresh_c1UpRes := Some (fun _ => 0); fresh_c2UpRes := None;
     fresh_intermediate := None |}.

(** The image pack of [disc] cut off after [sectors] sectors, on a disc of
    its own without a companion file. *)
Definition cutPack (sectors : Z) : FileBytes :=
  {| fb_byte := packByte; fb_size := sectors * 2048 |}.

Definition cutDisc (sectors : Z) : World :=
  {| w_fs := fun name =>
       if String.eqb name "img0001.pcd" then Some (cutPack sectors) else None;
     w_malloc := w_malloc disc;
     w_tables := w_tables disc;
     w_stack := w_stack disc |}.


(** [colourDecoder] after [setIsMonoChrome (true)] and
    [setColorSpace (kPCDYCCColorSpace)]. *)
Definition greyYCCDecoder : pcdDecode :=
  setColorSpace kPCDYCCColorSpace (setIsMonoChrome true colourDecoder).

(** * Facts about the machine integers and the memories *)

Lemma wrap_small lo width x : lo <= x < lo + width -> Int.wrap lo width x = x.
Proof.
  intros H. unfold Int.wrap.
  destruct (Z.leb_spec lo x); [| lia]. destruct (Z.ltb_spec x (lo + width)); [| lia].
  reflexivity.
Qed.

Lemma wrap_range lo width x : 0 < width -> lo <= Int.wrap lo width x < lo + width.
Proof.
  intros H. unfold Int.wrap.
  destruct (Z.leb_spec lo x); destruct (Z.ltb_spec x (lo + width)); cbn; try lia;
    pose proof (Z.mod_pos_bound (x - lo) width H); lia.
Qed.

(** [wrap] is the wrap-around of the type: it differs from its argument by
    a multiple of the width. *)
Lemma wrap_mod lo width x : 0 < width -> Int.wrap lo width x = (x - lo) mod width + lo.
Proof.
  intros H. unfold Int.wrap.
  destruct (Z.leb_spec lo x); destruct (Z.ltb_spec x (lo + width)); cbn; try reflexivity.
  rewrite Z.mod_small; lia.
Qed.

Lemma s32_small x : - 2 ^ 31 <= x < 2 ^ 31 -> Int.s32 x = x.
Proof. intros H. apply wrap_small. lia. Qed.

Lemma s64_small x : - 2 ^ 63 <= x < 2 ^ 63 -> Int.s64 x = x.
Proof. intros H. apply wrap_small. lia. Qed.

Lemma u32_small x : 0 <= x < 2 ^ 32 -> Int.u32 x = x.
Proof. intros H. apply wrap_small. lia. Qed.

Lemma u64_small x : 0 <= x < 2 ^ 64 -> Int.u64 x = x.
Proof. intros H. apply wrap_small. lia. Qed.

Lemma u16_small x : 0 <= x < 2 ^ 16 -> Int.u16 x = x.
Proof. intros H. apply wrap_small. lia. Qed.

Lemma u32_range x : 0 <= Int.u32 x < 2 ^ 32.
Proof. pose proof (wrap_range 0 0x100000000 x ltac:(lia)). unfold Int.u32. lia. Qed.

Lemma u64_range x : 0 <= Int.u64 x < 2 ^ 64.
Proof. pose proof (wrap_range 0 0x10000000000000000 x ltac:(lia)). unfold Int.u64. lia. Qed.

Lemma store_eq m i v : store m i v i = v.
Proof. unfold store. now rewrite Z.eqb_refl. Qed.

Lemma store_neq m i v j : j <> i -> store m i v j = m j.
Proof. unfold store. intros H. destruct (Z.eqb_spec j i); congruence. Qed.

(** A mask that is not negative bounds what it lets through. *)
Lemma land_mask_range x m : 0 <= m -> 0 <= Z.land x m <= m.
Proof.
  intros Hm. split.
  - apply Z.land_nonneg. now right.
  - assert (Hdisj : Z.land (Z.ldiff m x) (Z.land m x) = 0).
    { apply Z.bits_inj'. intros n Hn.
      rewrite !Z.land_spec, Z.ldiff_spec, Z.bits_0.
      destruct (Z.testbit m n), (Z.testbit x n); reflexivity. }
    assert (E : Z.ldiff m x + Z.land m x = m).
    { rewrite Z.add_nocarry_lxor by exact Hdisj.
      rewrite Z.lxor_lor by exact Hdisj.
      apply Z.lor_ldiff_and. }
    assert (0 <= Z.ldiff m x) by (apply Z.ldiff_nonneg; now left).
    rewrite (Z.land_comm x m). lia.
Qed.

(** The bitwise or of two [n]-bit values is an [n]-bit value. *)
Lemma lor_range a b n : 0 <= n -> 0 <= a < 2 ^ n -> 0 <= b < 2 ^ n -> 0 <= Z.lor a b < 2 ^ n.
Proof.
  intros Hn Ha Hb. split.
  - apply Z.lor_nonneg. lia.
  - destruct (Z.eq_dec (Z.lor a b) 0) as [E | E].
    + rewrite E. lia.
    + assert (0 < Z.lor a b) by (assert (0 <= Z.lor a b) by (apply Z.lor_nonneg; lia); lia).
      assert (Hn0 : 0 < n).
      { destruct (Z.eq_dec n 0) as [-> | ?]; [| lia].
        assert (a = 0) by lia. assert (b = 0) by lia. subst. now rewrite Z.lor_0_l in E. }
      apply Z.log2_lt_pow2; [assumption |].
      rewrite Z.log2_lor by lia.
      apply Z.max_lub_lt.
      * destruct (Z.eq_dec a 0) as [-> | Ha0]; [simpl; lia |]. apply Z.log2_lt_pow2; lia.
      * destruct (Z.eq_dec b 0) as [-> | Hb0]; [simpl; lia |]. apply Z.log2_lt_pow2; lia.
Qed.

(** * The colour conversion *)

Lemma pcdPin_clamp x : pcdPin 0 x 1388 = clamp x 0 1388.
Proof.
  unfold pcdPin, clamp.
  destruct (Z.ltb_spec x 0); [lia |].
  destruct (x >? 1388) eqn:E.
  - apply Z.gtb_lt in E. lia.
  - assert (x <= 1388) by (destruct (Z.gtb_spec x 1388); [discriminate | lia]). lia.
Qed.

Lemma shiftr10 x : Z.shiftr x 10 = x / 1024.
Proof. now rewrite Z.shiftr_div_pow2 by lia. Qed.

(** The three products fit an [int32_t], whatever the three bytes; a null
    chroma pointer leaves the 0 that was carried in. *)
Lemma loadYCC_exact (rd : ConvertToRGBData) (lm : mem) (row col : Z) (l : Locals) :
  rd_lp rd = Some lm -> carried rd l -> pixelBytes rd lm row col ->
  loadYCC rd row col l =
    {| Li := lm (lumaIndex rd row col) * 5573;
       C1i := (chromaByte (rd_c1p rd) 156 (chromaIndex rd row col) - 156) * 9085;
       C2i := (chromaByte (rd_c2p rd) 137 (chromaIndex rd row col) - 137) * 7461 |}.
Proof.
  intros Hlp [H1 H2] (HL & Hc1 & Hc2). unfold loadYCC. rewrite Hlp. cbn [deref].
  rewrite (s32_small (lm _ * 5573)) by lia. f_equal.
  - destruct (rd_c1p rd) as [c1 |]; cbn [chromaByte] in *.
    + rewrite (s32_small (_ - 156)) by lia. apply s32_small. lia.
    + rewrite (H1 eq_refl). reflexivity.
  - destruct (rd_c2p rd) as [c2 |]; cbn [chromaByte] in *.
    + rewrite (s32_small (_ - 137)) by lia. apply s32_small. lia.
    + rewrite (H2 eq_refl). reflexivity.
Qed.

(** In the photo CD colour space no intermediate value leaves the range
    of [int32_t]: the three indices are the clamped exact values. *)
Lemma photoCDRGB_exact (L c1 c2 : Z) :
  0 <= L <= 255 -> 0 <= c1 <= 255 -> 0 <= c2 <= 255 ->
  photoCDRGB {| Li := L * 5573; C1i := (c1 - 156) * 9085; C2i := (c2 - 137) * 7461 |}
  = claimedIndices L c1 c2.
Proof.
  intros HL Hc1 Hc2. unfold photoCDRGB, claimedIndices. cbn [Li C1i C2i]. cbv zeta.
  rewrite !pcdPin_clamp.
  assert (Hq1 : -269 <= Z.quot ((c1 - 156) * 9085) 5278 <= 171)
    by (Z.to_euclidean_division_equations; lia).
  assert (Hq2 : -509 <= Z.quot ((c2 - 137) * 7461) 2012 <= 438)
    by (Z.to_euclidean_division_equations; lia).
  assert (Hs : 0 <= Z.shiftr (L * 5573) 10 <= 1388)
    by (rewrite shiftr10; Z.to_euclidean_division_equations; lia).
  rewrite (s32_small (L * 5573 + (c2 - 137) * 7461)) by lia.
  rewrite (s32_small (L * 5573 + (c1 - 156) * 9085)) by lia.
  rewrite (s32_small (Z.shiftr (L * 5573) 10 - Z.quot ((c1 - 156) * 9085) 5278)) by lia.
  rewrite s32_small by lia.
  reflexivity.
Qed.

(** The raw colour space hands the indices on as they are. *)
Lemma toColorSpace_raw (rd : ConvertToRGBData) (L c1 c2 : Z) :
  rd_colorSpace rd = kPCDRawColorSpace ->
  toColorSpace rd (claimedIndices L c1 c2) = claimedIndices L c1 c2.
Proof.
  intros Hraw. unfold toColorSpace, claimedIndices. rewrite Hraw. cbn.
  rewrite !pcdPin_clamp. unfold clamp. f_equal; [f_equal |]; lia.
Qed.

Section Band.

Variables (rd : ConvertToRGBData) (lm : mem).
Hypothesis lp_set : rd_lp rd = Some lm.
Hypothesis rgb_mode : rd_colorSpace rd <> kPCDYCCColorSpace.

(** One turn of the inner loop in an RGB mode. *)
Lemma convertPixel_rgb (row col : Z) (l : Locals) (o : mem) :
  carried rd l -> pixelBytes rd lm row col ->
  convertPixel rd row col (l, o)
  = (loadYCC rd row col l,
     deliver rd (destIndex rd row col) (toColorSpace rd (claimedPixel rd lm row col)) o)
  /\ carried rd (loadYCC rd row col l).
Proof.
  intros Hc Hb. pose proof (loadYCC_exact rd lm row col l lp_set Hc Hb) as Hload.
  destruct Hb as (HL & Hc1 & Hc2).
  split.
  - unfold convertPixel, pixelIndices. cbn [fst snd].
    destruct (Z.eqb_spec (rd_colorSpace rd) kPCDYCCColorSpace); [contradiction |].
    rewrite Hload, (photoCDRGB_exact _ _ _ HL Hc1 Hc2). reflexivity.
  - rewrite Hload. unfold carried. cbn [C1i C2i]. split; intros E; rewrite E; reflexivity.
Qed.

(** The stores of one pixel, when the channels are different buffers. *)
Lemma deliver_cells (di : Z) (rgb : Z * Z * Z) (o : mem) :
  NoDup (channels rd) ->
  (let '(r, g, b) := rgb in
   deliver rd di rgb o (rd_red rd + di) = outputLUT rd r
   /\ deliver rd di rgb o (rd_green rd + di) = outputLUT rd g
   /\ deliver rd di rgb o (rd_blue rd + di) = outputLUT rd b)
  /\ (forall j, (forall ch, In ch (channels rd) -> j <> ch + di) ->
        deliver rd di rgb o j = o j).
Proof.
  intros Hnd. destruct rgb as [[r g] b]. unfold deliver, outputLUT, channels in *.
  set (lut := if rd_outputSize rd =? pcdFloatSize then floatOutput
              else if rd_outputSize rd =? pcdInt16Size then uint16Output
              else uint8Output).
  destruct (rd_alpha rd) as [a |].
  - assert (D : rd_red rd <> rd_green rd /\ rd_red rd <> rd_blue rd /\ rd_red rd <> a
                /\ rd_green rd <> rd_blue rd /\ rd_green rd <> a /\ rd_blue rd <> a).
    { inversion Hnd as [| x xs N1 Hnd1]; subst. inversion Hnd1 as [| y ys N2 Hnd2]; subst.
      inversion Hnd2 as [| z zs N3 Hnd3]; subst. cbn in N1, N2, N3.
      intuition congruence. }
    destruct D as (D1 & D2 & D3 & D4 & D5 & D6).
    split; [split; [| split] |].
    + rewrite !store_neq by lia. apply store_eq.
    + rewrite !store_neq by lia. apply store_eq.
    + rewrite store_neq by lia. apply store_eq.
    + intros j Hj.
      rewrite !store_neq; [reflexivity | | | |]; apply Hj; cbn; auto.
  - assert (D : rd_red rd <> rd_green rd /\ rd_red rd <> rd_blue rd
                /\ rd_green rd <> rd_blue rd).
    { inversion Hnd as [| x xs N1 Hnd1]; subst. inversion Hnd1 as [| y ys N2 Hnd2]; subst.
      cbn in N1, N2.
      intuition congruence. }
    destruct D as (D1 & D2 & D4).
    split; [split; [| split] |].
    + rewrite !store_neq by lia. apply store_eq.
    + rewrite !store_neq by lia. apply store_eq.
    + apply store_eq.
    + intros j Hj.
      rewrite !store_neq; [reflexivity | | |]; apply Hj; cbn; auto.
Qed.

Hypothesis rows_range : 0 <= rd_startRow rd <= rd_endRow rd /\ rd_endRow rd < 2 ^ 64.
Hypothesis columns_range : 0 <= rd_columns rd < 2 ^ 64.
Hypothesis bytes : forall row col, inBand rd row col -> pixelBytes rd lm row col.
Hypothesis apart : separate rd.

Lemma sample_kept (o o' : mem) (row col : Z) :
  (forall ch, In ch (channels rd) ->
     o' (ch + destIndex rd row col) = o (ch + destIndex rd row col)) ->
  samplesAt rd o row col (toColorSpace rd (claimedPixel rd lm row col)) ->
  samplesAt rd o' row col (toColorSpace rd (claimedPixel rd lm row col)).
Proof.
  intros Hk. unfold samplesAt.
  destruct (toColorSpace rd (claimedPixel rd lm row col)) as [[r g] b].
  intros (Hr & Hg & Hb).
  rewrite !Hk by (unfold channels; cbn; auto). auto.
Qed.

(** The columns from [col0] on of one row of the band. *)
Lemma convertCols_samples (row : Z) (n : nat) : forall col0 st,
  rd_startRow rd <= row < rd_endRow rd ->
  0 <= col0 -> col0 + Z.of_nat n <= rd_columns rd ->
  carried rd (fst st) ->
  let st' := convertCols rd row n col0 st in
  carried rd (fst st')
  /\ (forall col, col0 <= col < col0 + Z.of_nat n ->
        samplesAt rd (snd st') row col (toColorSpace rd (claimedPixel rd lm row col)))
  /\ (forall j, (forall col ch, col0 <= col < col0 + Z.of_nat n ->
                   In ch (channels rd) -> j <> ch + destIndex rd row col) ->
        snd st' j = snd st j).
Proof.
  destruct apart as [Hnd Hinj].
  induction n as [| n IH]; intros col0 [l o] Hrow Hc0 Hn Hcar; cbv zeta.
  - cbn [convertCols fst snd]. split; [exact Hcar |].
    split; [intros col Hc; lia | reflexivity].
  - cbn [convertCols]. cbn [fst] in Hcar.
    assert (Hin : inBand rd row col0) by (unfold inBand; lia).
    destruct (convertPixel_rgb row col0 l o Hcar (bytes row col0 Hin)) as [Epix Hcar1].
    rewrite Epix. rewrite u64_small by lia.
    set (o1 := deliver rd (destIndex rd row col0)
                 (toColorSpace rd (claimedPixel rd lm row col0)) o).
    specialize (IH (col0 + 1) (loadYCC rd row col0 l, o1) Hrow ltac:(lia) ltac:(lia) Hcar1).
    cbv zeta in IH. destruct IH as (Hcar' & Hval & Hframe).
    cbn [snd] in Hframe.
    destruct (deliver_cells (destIndex rd row col0)
                (toColorSpace rd (claimedPixel rd lm row col0)) o Hnd) as [Dval Dframe].
    fold o1 in Dval, Dframe.
    split; [exact Hcar' |]. split.
    + intros col Hc. destruct (Z.eq_dec col col0) as [-> | Hne].
      * apply (sample_kept o1).
        -- intros ch Hch. apply Hframe. intros col' ch' Hc' Hch' E.
           apply Hinj in E; try assumption; [lia | unfold inBand; lia].
        -- unfold samplesAt.
           destruct (toColorSpace rd (claimedPixel rd lm row col0)) as [[r g] b].
           exact Dval.
      * apply Hval. lia.
    + intros j Hj. rewrite Hframe by (intros col' ch' Hc' Hch'; apply Hj; [lia | exact Hch']).
      cbn [snd]. apply Dframe. intros ch Hch. apply Hj; [lia | exact Hch].
Qed.

(** The rows from [row0] on of the band. *)
Lemma convertRows_samples (n : nat) : forall row0 st,
  rd_startRow rd <= row0 -> row0 + Z.of_nat n <= rd_endRow rd ->
  carried rd (fst st) ->
  let st' := convertRows rd n row0 st in
  carried rd (fst st')
  /\ (forall row col, row0 <= row < row0 + Z.of_nat n -> 0 <= col < rd_columns rd ->
        samplesAt rd (snd st') row col (toColorSpace rd (claimedPixel rd lm row col)))
  /\ (forall j, (forall row col ch, row0 <= row < row0 + Z.of_nat n ->
                   0 <= col < rd_columns rd ->
                   In ch (channels rd) -> j <> ch + destIndex rd row col) ->
        snd st' j = snd st j).
Proof.
  destruct apart as [Hnd Hinj].
  assert (Ecols : Z.of_nat (loopCount 0 (rd_columns rd)) = rd_columns rd).
  { unfold loopCount. rewrite Z.sub_0_r, u64_small by lia. lia. }
  induction n as [| n IH]; intros row0 st Hr0 Hn Hcar; cbv zeta.
  - cbn [convertRows]. split; [exact Hcar |].
    split; [intros row col Hr; lia | reflexivity].
  - cbn [convertRows]. rewrite u64_small by lia.
    pose proof (convertCols_samples row0 (loopCount 0 (rd_columns rd)) 0 st
                  ltac:(lia) ltac:(lia) ltac:(lia) Hcar) as C.
    cbv zeta in C. rewrite Ecols in C. destruct C as (Hcar1 & Cval & Cframe).
    set (st1 := convertCols rd row0 (loopCount 0 (rd_columns rd)) 0 st) in *.
    specialize (IH (row0 + 1) st1 ltac:(lia) ltac:(lia) Hcar1).
    cbv zeta in IH. destruct IH as (Hcar' & Hval & Hframe).
    split; [exact Hcar' |]. split.
    + intros row col Hr Hc. destruct (Z.eq_dec row row0) as [-> | Hne].
      * apply (sample_kept (snd st1)).
        -- intros ch Hch. apply Hframe. intros row' col' ch' Hr' Hc' Hch' E.
           apply Hinj in E; try assumption; [lia | unfold inBand; lia | unfold inBand; lia].
        -- apply Cval. lia.
      * apply Hval; lia.
    + intros j Hj.
      rewrite Hframe by (intros row' col' ch' Hr' Hc' Hch'; apply Hj; [lia | lia | exact Hch']).
      apply Cframe. intros col ch Hc Hch. apply Hj; [lia | lia | exact Hch].
Qed.

Lemma convertToRGB_samples (out : mem) :
  exists out',
    convertToRGB rd out = Ok out'
    /\ (forall row col, inBand rd row col ->
          samplesAt rd out' row col (toColorSpace rd (claimedPixel rd lm row col)))
    /\ (forall j, (forall row col ch, inBand rd row col -> In ch (channels rd) ->
                     j <> ch + destIndex rd row col) ->
          out' j = out j).
Proof.
  unfold convertToRGB.
  assert (En : nullRead rd = false).
  { unfold nullRead. rewrite lp_set. cbn [isNull orb].
    destruct (Z.eqb_spec (rd_colorSpace rd) kPCDYCCColorSpace); [contradiction | reflexivity]. }
  rewrite En. cbn [andb]. eexists. split; [reflexivity |].
  assert (Erows : rd_startRow rd + Z.of_nat (loopCount (rd_startRow rd) (rd_endRow rd))
                  = rd_endRow rd).
  { unfold loopCount. rewrite u64_small by lia. lia. }
  pose proof (convertRows_samples (loopCount (rd_startRow rd) (rd_endRow rd))
                (rd_startRow rd) (locals0, out) ltac:(lia) ltac:(lia)) as R.
  cbv zeta in R. rewrite Erows in R.
  destruct R as (_ & Rval & Rframe).
  { unfold carried. cbn. split; reflexivity. }
  split.
  - intros row col [Hr Hc]. apply Rval; assumption.
  - intros j Hj. rewrite Rframe; [reflexivity |].
    intros row col ch Hr Hc Hch. apply Hj; [split; assumption | exact Hch].
Qed.

End Band.

(** C7, as the claim has it, fails: the converter reads the chroma planes
    through the pointers it is handed, and [populateBuffers] hands it null
    pointers for a monochrome decoder.  On [colourDecoder] with the
    monochrome flag set the chroma bytes of the first pixel are 156 and
    140 and its luma byte is 1, yet [C2i] is 0 and not (140 - 137) * 7461,
    and the indices are not those of the claim: the red index is 5, not
    27. *)
Lemma convertToRGB_monochrome_drops_chroma :
  let this := setIsMonoChrome true colourDecoder in
  let rd := bandData this (luma this) (chroma1 this) (chroma2 this) 1 0 1 2 None 3
              pcdByteSize 0 16 in
  rd_colorSpace rd <> kPCDYCCColorSpace
  /\ deref (luma this) (lumaIndex rd 0 0) = 1
  /\ deref (chroma1 this) (chromaIndex rd 0 0) = 156
  /\ deref (chroma2 this) (chromaIndex rd 0 0) = 140
  /\ C2i (loadYCC rd 0 0 locals0) <> (140 - 137) * 7461
  /\ fst (pixelIndices rd 0 0 locals0) <> claimedIndices 1 156 140
  /\ fst (fst (fst (pixelIndices rd 0 0 locals0))) = 5
  /\ fst (fst (claimedIndices 1 156 140)) = 27.
Proof.
  cbv zeta. split; [vm_compute; discriminate |].
  repeat split; try reflexivity; vm_compute; discriminate.
Qed.

(** C7, as the code has it.  In an RGB colour space mode, for every pixel
    that [convertToRGB] converts, with L the luma byte and c1, c2 the
    chroma bytes at the subsampled index that it reads through the chroma
    pointers it is handed (for a null pointer, which is what a monochrome
    decoder hands over, the term stays 0, as for the neutral bytes 156 and
    137), the converter computes Li = L * 5573, C1i = (c1 - 156) * 9085,
    C2i = (c2 - 137) * 7461 and the indices
    R = clamp ((Li + C2i) >> 10, 0, 1388),
    G = clamp ((Li >> 10) - C1i / 5278 - C2i / 2012, 0, 1388),
    B = clamp ((Li + C1i) >> 10, 0, 1388), in exact integer arithmetic with
    truncating division: the 32-bit arithmetic of the code never wraps.
    The loop body hands these indices to the rest of the colour pipeline
    and stores the result; in the raw colour space they are delivered as
    they are.  On a band whose samples the caller keeps apart, the call
    returns and every pixel of the band holds the samples of its indices. *)
Theorem convertToRGB_rgb_indices (rd : ConvertToRGBData) (lm : mem) :
  rd_lp rd = Some lm ->
  rd_colorSpace rd <> kPCDYCCColorSpace ->
  (forall row col l o, carried rd l -> pixelBytes rd lm row col ->
     let L := lm (lumaIndex rd row col) in
     let c1 := chromaByte (rd_c1p rd) 156 (chromaIndex rd row col) in
     let c2 := chromaByte (rd_c2p rd) 137 (chromaIndex rd row col) in
     loadYCC rd row col l
     = {| Li := L * 5573; C1i := (c1 - 156) * 9085; C2i := (c2 - 137) * 7461 |}
     /\ photoCDRGB (loadYCC rd row col l) = claimedIndices L c1 c2
     /\ convertPixel rd row col (l, o)
        = (loadYCC rd row col l,
           deliver rd (destIndex rd row col) (toColorSpace rd (claimedIndices L c1 c2)) o))
  /\ (rd_colorSpace rd = kPCDRawColorSpace ->
      forall L c1 c2, toColorSpace rd (claimedIndices L c1 c2) = claimedIndices L c1 c2)
  /\ (0 <= rd_startRow rd <= rd_endRow rd /\ rd_endRow rd < 2 ^ 64 ->
      0 <= rd_columns rd < 2 ^ 64 ->
      (forall row col, inBand rd row col -> pixelBytes rd lm row col) ->
      separate rd ->
      forall out,
      exists out',
        convertToRGB rd out = Ok out'
        /\ (forall row col, inBand rd row col ->
              samplesAt rd out' row col (toColorSpace rd (claimedPixel rd lm row col)))
        /\ (forall j, (forall row col ch, inBand rd row col -> In ch (channels rd) ->
                         j <> ch + destIndex rd row col) ->
              out' j = out j)).
Proof.
  intros Hlp Hcs. split; [| split].
  - intros row col l o Hcar Hb. cbv zeta.
    pose proof (loadYCC_exact rd lm row col l Hlp Hcar Hb) as Hload.
    destruct (convertPixel_rgb rd lm Hlp Hcs row col l o Hcar Hb) as [Epix _].
    split; [exact Hload |]. split; [| exact Epix].
    rewrite Hload. destruct Hb as (HL & Hc1 & Hc2). apply photoCDRGB_exact; assumption.
  - intros Hraw L c1 c2. apply toColorSpace_raw. exact Hraw.
  - intros Hrows Hcols Hbytes Hsep out.
    apply (convertToRGB_samples rd lm Hlp Hcs Hrows Hcols Hbytes Hsep).
Qed.

(** The theorem at [flatTile], a band of 16 rows of 192 pixels with
    L = 100, c1 = 200, c2 = 50 and interleaved 8-bit samples: the pixel at
    row 3, column 5 holds the samples of the indices 0, 791 and 934. *)
Lemma convertToRGB_rgb_indices_witness :
  rd_colorSpace flatTile <> kPCDYCCColorSpace
  /\ claimedIndices 100 200 50 = (0, 791, 934)
  /\ exists out',
       convertToRGB flatTile (fun _ => 0) = Ok out'
       /\ samplesAt flatTile out' 3 5 (0, 791, 934).
Proof.
  assert (Hcs : rd_colorSpace flatTile <> kPCDYCCColorSpace) by (vm_compute; discriminate).
  split; [exact Hcs |]. split; [reflexivity |].
  destruct (convertToRGB_rgb_indices flatTile (fun _ => 100) eq_refl Hcs)
    as (_ & Hraw & Hband).
  assert (Hdi : forall row col, inBand flatTile row col ->
                  destIndex flatTile row col = (col + row * 192) * 3).
  { intros row col [Hr Hc]. unfold destIndex. cbn [rd_imageRotate flatTile].
    cbn [rd_columns rd_d flatTile] in *. cbn [rd_startRow rd_endRow flatTile] in Hr.
    apply s64_small. change (2 ^ 63) with 9223372036854775808. lia. }
  destruct (Hband) with (out := fun _ : Z => 0) as (out' & Hrun & Hval & _).
  - cbn [rd_startRow rd_endRow flatTile]. change (2 ^ 64) with 18446744073709551616. lia.
  - cbn [rd_columns flatTile]. change (2 ^ 64) with 18446744073709551616. lia.
  - intros row col _. unfold pixelBytes. cbn. lia.
  - split.
    + unfold channels. cbn [rd_red rd_green rd_blue rd_alpha flatTile].
      repeat constructor; cbn; intuition discriminate.
    + intros ch ch' row col row' col' Hch Hch' Hin Hin' E.
      rewrite (Hdi _ _ Hin), (Hdi _ _ Hin') in E.
      destruct Hin as [Hr Hc], Hin' as [Hr' Hc'].
      cbn [rd_startRow rd_endRow rd_columns flatTile] in Hr, Hc, Hr', Hc'.
      unfold channels in Hch, Hch'. cbn [rd_red rd_green rd_blue rd_alpha flatTile] in Hch, Hch'.
      cbn [In] in Hch, Hch'.
      assert (0 <= ch <= 2) by lia. assert (0 <= ch' <= 2) by lia. lia.
  - exists out'. split; [exact Hrun |].
    assert (Hin : inBand flatTile 3 5)
      by (unfold inBand; cbn [rd_startRow rd_endRow rd_columns flatTile]; lia).
    specialize (Hval 3 5 Hin). unfold claimedPixel in Hval.
    rewrite (Hraw eq_refl) in Hval. exact Hval.
Defined.

(** * Rotation *)

(** C6, as the code has it: for a 192 x 128 image decoded with rotation 3
    the output raster is 128 x 192 ([getWidth] is 128, [getHeight] is 192),
    and the pixel at source row 0, column 0 is delivered at column Hs - 1 of
    row 0 of that raster, that is at sample index (Hs - 1) * d, where
    Hs = 128 is the height before rotation, which is the width after it. *)
Theorem rotation3_base16 (this : pcdDecode) (lp c1p c2p : option mem)
  (resFactor red green blue : Z) (alpha : option Z) (d dataSize previousRow endRow : Z)
  (l : Locals) (out : mem) :
  sceneNumber this = kBase16 -> imageRotate this = 3 -> - 2 ^ 31 <= d < 2 ^ 31 ->
  let rd := bandData this lp c1p c2p resFactor red green blue alpha d dataSize
              previousRow endRow in
  rd_columns rd = 192 /\ rd_rows rd = 128
  /\ getWidth this = 128 /\ getHeight this = 192
  /\ destIndex rd 0 0 = rasterIndex (getWidth this) (rd_rows rd - 1) 0 * d
  /\ snd (convertPixel rd 0 0 (l, out))
     = deliver rd (127 * d) (fst (pixelIndices rd 0 0 l)) out.
Proof.
  intros Hs Hr Hd rd.
  assert (Hcols : rd_columns rd = 192) by (unfold rd, bandData; cbn; now rewrite Hs).
  assert (Hrows : rd_rows rd = 128) by (unfold rd, bandData; cbn; now rewrite Hs).
  assert (Hw : getWidth this = 128) by (unfold getWidth; now rewrite Hr, Hs).
  assert (Hh : getHeight this = 192) by (unfold getHeight; now rewrite Hr, Hs).
  assert (Hdi : destIndex rd 0 0 = 127 * d).
  { unfold destIndex. rewrite Hrows.
    replace (rd_imageRotate rd) with 3 by (unfold rd, bandData; cbn; now rewrite Hr).
    replace (rd_d rd) with d by reflexivity.
    rewrite s64_small by lia. lia. }
  split; [exact Hcols |]. split; [exact Hrows |].
  split; [exact Hw |]. split; [exact Hh |]. split.
  - rewrite Hdi, Hw, Hrows. unfold rasterIndex. lia.
  - unfold convertPixel. cbn [fst snd].
    destruct (pixelIndices rd 0 0 l) as [rgb l'] eqn:E. cbn [fst snd].
    rewrite Hdi. reflexivity.
Qed.

(** The theorem at [rotatedDecoder], with separate planes of stride 1. *)
Lemma rotation3_base16_witness :
  sceneNumber rotatedDecoder = kBase16 /\ imageRotate rotatedDecoder = 3
  /\ getWidth rotatedDecoder = 128 /\ getHeight rotatedDecoder = 192
  /\ destIndex
       (bandData rotatedDecoder (luma rotatedDecoder) (chroma1 rotatedDecoder)
          (chroma2 rotatedDecoder) 1 0 24576 49152 None 1 pcdByteSize 0 16) 0 0 = 127.
Proof.
  split; [reflexivity | split; [reflexivity |]].
  destruct (rotation3_base16 rotatedDecoder (luma rotatedDecoder)
              (chroma1 rotatedDecoder) (chroma2 rotatedDecoder)
              1 0 24576 49152 None 1 pcdByteSize 0 16 locals0 (fun _ => 0)
              eq_refl eq_refl ltac:(lia))
    as (_ & _ & Hw & Hh & Hdi & _).
  split; [exact Hw | split; [exact Hh |]].
  rewrite Hdi. reflexivity.
Defined.

(** C6, as the claim has it, fails: with H the height after rotation, 192,
    neither column H - 1 of row 0 nor row H - 1 of column 0 of the 128 x 192
    raster is where the pixel at source (0, 0) goes. *)
Lemma rotation3_not_at_rotated_height :
  let rd := bandData rotatedDecoder (luma rotatedDecoder) (chroma1 rotatedDecoder)
              (chroma2 rotatedDecoder) 1 0 24576 49152 None 1 pcdByteSize 0 16 in
  getHeight rotatedDecoder = 192
  /\ destIndex rd 0 0
     <> rasterIndex (getWidth rotatedDecoder) (getHeight rotatedDecoder - 1) 0
  /\ destIndex rd 0 0
     <> rasterIndex (getWidth rotatedDecoder) 0 (getHeight rotatedDecoder - 1).
Proof.
  cbv zeta. split; [reflexivity |]. split; vm_compute; discriminate.
Qed.

(** * Calls on a decoder without a file *)

(** C9 (the code departs from the claim).  [populateBuffers] reads
    [PCDChromaResFactor[sceneNumber]] before it looks at the file header,
    and the constructor leaves [sceneNumber] as it finds it.  On a decoder
    whose file header is null each of [populateFloatBuffers],
    [populateUInt16Buffers] and [populateUInt8Buffers] returns with the
    memory of the caller's buffers and the decoder as they were when
    [sceneNumber] is an index of the array, 0 to 5; when it is not, the
    read is outside the array and none of the calls returns. *)
Theorem populate_without_file (heap : PopulateHeap) (this : pcdDecode) (out : mem)
  (red green blue : Z) (alpha : option Z) (d : Z) :
  pcdFileHeader this = None ->
  (0 <= sceneNumber this < kMaxScenes ->
   populateFloatBuffers heap this out red green blue alpha d = Ok (this, out)
   /\ populateUInt16Buffers heap this out red green blue alpha d = Ok (this, out)
   /\ populateUInt8Buffers heap this out red green blue alpha d = Ok (this, out))
  /\ (~ 0 <= sceneNumber this < kMaxScenes ->
      populateFloatBuffers heap this out red green blue alpha d = Fault
      /\ populateUInt16Buffers heap this out red green blue alpha d = Fault
      /\ populateUInt8Buffers heap this out red green blue alpha d = Fault).
Proof.
  intros H.
  unfold populateFloatBuffers, populateUInt16Buffers, populateUInt8Buffers,
    populateBuffers, hasHeader, inScenes.
  rewrite H. cbn [negb].
  split; intros Hs.
  - destruct (Z.leb_spec 0 (sceneNumber this)); [| lia].
    destruct (Z.ltb_spec (sceneNumber this) kMaxScenes); [| lia].
    cbn. auto.
  - destruct (Z.leb_spec 0 (sceneNumber this));
      destruct (Z.ltb_spec (sceneNumber this) kMaxScenes); cbn; auto; lia.
Qed.

(** The theorem at [strayDecoder], whose [sceneNumber] the constructor left
    at 6, and at [freshDecoder], where it left 0. *)
Lemma populate_without_file_witness :
  pcdFileHeader strayDecoder = None /\ sceneNumber strayDecoder = 6
  /\ populateUInt8Buffers emptyHeap strayDecoder (fun _ => 7) 0 1 2 (Some 3) 4 = Fault
  /\ populateUInt8Buffers emptyHeap freshDecoder (fun _ => 7) 0 1 2 (Some 3) 4
     = Ok (freshDecoder, fun _ => 7).
Proof.
  split; [reflexivity |]. split; [reflexivity |]. split.
  - destruct (populate_without_file emptyHeap strayDecoder (fun _ => 7) 0 1 2 (Some 3) 4
                eq_refl) as [_ B].
    apply B. change (~ 0 <= 6 < 6). lia.
  - destruct (populate_without_file emptyHeap freshDecoder (fun _ => 7) 0 1 2 (Some 3) 4
                eq_refl) as [A _].
    apply A. change (0 <= 0 < 6). lia.
Defined.

(** C10: for every [select] at or above [kMaxPCDMetadata], and on every
    decoder without a parsed file, [getMetadata] leaves "Error" in the
    value buffer, leaves "Error" in the description buffer when there is
    one, and nothing else: a null description stays null. *)
Theorem getMetadata_error (asctimeLocal : Z -> string) (this : pcdDecode) (select : Z)
  (description : option string) (value : string) :
  kMaxPCDMetadata <= select \/ pcdFileHeader this = None ->
  snd (getMetadata asctimeLocal this select description value) = "Error"
  /\ fst (getMetadata asctimeLocal this select description value)
     = match description with
       | Some _ => Some "Error"
       | None => None
       end.
Proof.
  intros H. unfold getMetadata.
  assert (E : (select >=? kMaxPCDMetadata) || negb (hasHeader this) = true).
  { destruct H as [H | H].
    - apply orb_true_iff. left. apply Z.geb_le. exact H.
    - apply orb_true_iff. right. unfold hasHeader. now rewrite H. }
  rewrite E. destruct description; split; reflexivity.
Qed.

Lemma getMetadata_error_witness :
  kMaxPCDMetadata <= 20
  /\ getMetadata (fun _ => "") colourDecoder 20 (Some "old") "old" = (Some "Error", "Error")
  /\ getMetadata (fun _ => "") freshDecoder 0 None "old" = (None, "Error").
Proof.
  assert (H20 : kMaxPCDMetadata <= 20) by (unfold kMaxPCDMetadata; lia).
  split; [exact H20 |]. split.
  - destruct (getMetadata_error (fun _ => "") colourDecoder 20 (Some "old") "old"
                (or_introl H20)) as [Hv Hd].
    rewrite (surjective_pairing (getMetadata _ _ _ _ _)), Hv, Hd. reflexivity.
  - reflexivity.
Defined.

(** * The monochrome flag *)

(** C1, as the claim has it, fails: on [colourDecoder] the first red
    sample after [setIsMonoChrome (true)], [setIsMonoChrome (false)] differs
    from the one a decoder that never had the flag set delivers. *)
Lemma monochrome_is_not_undone :
  redSample (setIsMonoChrome false (setIsMonoChrome true colourDecoder)) 0
  <> redSample colourDecoder 0.
Proof. vm_compute. discriminate. Qed.

(** C1, as the code has it: the setter ors its argument into the flag.
    After [setIsMonoChrome (true)] a call [setIsMonoChrome (false)] changes
    nothing, the flag stays set, both chroma pointers handed to the
    converter are null, and every [populate] call gives what it gives after
    [setIsMonoChrome (true)] alone; on a decoder whose flag was never set,
    [setIsMonoChrome (false)] changes nothing either. *)
Theorem setIsMonoChrome_latches (heap : PopulateHeap) (this : pcdDecode) (out : mem)
  (red green blue : Z) (alpha : option Z) (d dataSize : Z) :
  setIsMonoChrome false (setIsMonoChrome true this) = setIsMonoChrome true this
  /\ isMonochrome (setIsMonoChrome false (setIsMonoChrome true this)) = true
  /\ populateBuffers heap (setIsMonoChrome false (setIsMonoChrome true this)) out
       red green blue alpha d dataSize
     = populateBuffers heap (setIsMonoChrome true this) out red green blue alpha d dataSize
  /\ (forall lp c1p c2p resFactor previousRow endRow,
        let rd := bandData (setIsMonoChrome false (setIsMonoChrome true this))
                    lp c1p c2p resFactor red green blue alpha d dataSize
                    previousRow endRow in
        rd_c1p rd = None /\ rd_c2p rd = None)
  /\ (isMonochrome this = false -> setIsMonoChrome false this = this).
Proof.
  assert (E : setIsMonoChrome false (setIsMonoChrome true this) = setIsMonoChrome true this).
  { unfold setIsMonoChrome, set_monochrome. cbn. now rewrite !orb_true_r. }
  split; [exact E |]. split.
  { rewrite E. unfold isMonochrome, setIsMonoChrome, set_monochrome. cbn.
    apply orb_true_r. }
  split; [now rewrite E |]. split.
  { intros. subst rd. rewrite E. unfold bandData, setIsMonoChrome, set_monochrome. cbn.
    rewrite orb_true_r. split; reflexivity. }
  intros Hm. unfold isMonochrome in Hm. destruct this. cbn in Hm. subst.
  reflexivity.
Qed.

Lemma setIsMonoChrome_latches_witness :
  isMonochrome colourDecoder = false
  /\ setIsMonoChrome false colourDecoder = colourDecoder
  /\ redSample (setIsMonoChrome false (setIsMonoChrome true colourDecoder)) 0
     = redSample (setIsMonoChrome true colourDecoder) 0.
Proof.
  destruct (setIsMonoChrome_latches emptyHeap colourDecoder (fun _ => 0) 0 1 2 None 3
              pcdByteSize) as (E & _ & _ & _ & Hfresh).
  split; [reflexivity |]. split; [exact (Hfresh eq_refl) |].
  rewrite E. reflexivity.
Defined.

(** * Loops with a bound *)

Section Loops.

Context {S R : Type} (body : S -> loopStep S R).

(** [leaves s r]: from [s] the loop goes round some number of times and is
    then left with [r]. *)
Inductive leaves : S -> R -> Prop :=
| leaves_now s r : body s = Leave r -> leaves s r
| leaves_later s s' r : body s = Again s' -> leaves s' r -> leaves s r.

(** [runs s s']: from [s] the loop goes round at least once and reaches
    [s']. *)
Inductive runs : S -> S -> Prop :=
| runs_once s s' : body s = Again s' -> runs s s'
| runs_more s s' s'' : body s = Again s' -> runs s' s'' -> runs s s''.

Lemma runs_trans s s' s'' : runs s s' -> runs s' s'' -> runs s s''.
Proof.
  induction 1 as [s s' H | s s1 s' H _ IH]; intros H2.
  - eapply runs_more; eassumption.
  - eapply runs_more; [eassumption | now apply IH].
Qed.

Lemma runs_leaves s s' r : runs s s' -> leaves s' r -> leaves s r.
Proof.
  induction 1 as [s s' H | s s1 s' H _ IH]; intros H2.
  - eapply leaves_later; eassumption.
  - eapply leaves_later; [eassumption | now apply IH].
Qed.

Lemma leaves_fun s r r' : leaves s r -> leaves s r' -> r = r'.
Proof.
  induction 1 as [s r H | s s' r H _ IH]; intros H2; inversion H2; subst; try congruence.
  apply IH. congruence.
Qed.

(** What [while] computes is what the loop does. *)
Lemma while_sound fuel s :
  match while fuel body s with
  | Leave r => leaves s r
  | Again s' => runs s s'
  end.
Proof.
  revert s. induction fuel as [| fuel IH]; intros s; cbn.
  - destruct (body s) eqn:E; [now apply runs_once | now apply leaves_now].
  - pose proof (IH s) as H1. destruct (while fuel body s) as [s1 | r]; [| exact H1].
    pose proof (IH s1) as H2. destruct (while fuel body s1) as [s2 | r].
    + eapply runs_trans; eassumption.
    + eapply runs_leaves; eassumption.
Qed.

Section Measure.

Variables (inv : S -> Prop) (mu : S -> Z).
Hypothesis step_decreases :
  forall s s', inv s -> body s = Again s' -> inv s' /\ mu s' < mu s.
Hypothesis mu_nonneg : forall s, inv s -> 0 <= mu s.

Lemma runs_inv s s' : inv s -> runs s s' -> inv s'.
Proof.
  intros Hs H. induction H as [s s' H | s s1 s' H _ IH].
  - now apply (step_decreases s s').
  - apply IH. now apply (step_decreases s s1).
Qed.

(** As long as [while fuel] has not left the loop, it has gone round
    [2 ^ fuel] times. *)
Lemma while_progress fuel s :
  inv s ->
  match while fuel body s with
  | Again s' => inv s' /\ mu s' + 2 ^ Z.of_nat fuel <= mu s
  | Leave _ => True
  end.
Proof.
  revert s. induction fuel as [| fuel IH]; intros s Hs.
  - cbn. destruct (body s) eqn:E; [| exact I].
    destruct (step_decreases s s0 Hs E). split; [assumption | lia].
  - cbn [while]. pose proof (IH s Hs) as H1.
    destruct (while fuel body s) as [s1 | r]; [| exact I].
    destruct H1 as [Hs1 Hm1]. pose proof (IH s1 Hs1) as H2.
    destruct (while fuel body s1) as [s2 | r]; [| exact I].
    destruct H2 as [Hs2 Hm2]. split; [assumption |].
    rewrite Nat2Z.inj_succ, Z.pow_succ_r by lia. lia.
Qed.

(** A loop whose measure is below [2 ^ fuel] is left within the bound. *)
Lemma while_terminates fuel s :
  inv s -> mu s < 2 ^ Z.of_nat fuel -> exists r, while fuel body s = Leave r /\ leaves s r.
Proof.
  intros Hs Hm. pose proof (while_progress fuel s Hs) as H.
  pose proof (while_sound fuel s) as Hsound.
  destruct (while fuel body s) as [s' | r].
  - destruct H as [Hs' H]. pose proof (mu_nonneg s' Hs'). lia.
  - now exists r.
Qed.

(** What holds of every result with which the body leaves the loop holds
    of the result of the loop. *)
Lemma leaves_result (Q : R -> Prop) :
  (forall s r, inv s -> body s = Leave r -> Q r) ->
  forall s r, inv s -> leaves s r -> Q r.
Proof.
  intros HQ s r Hs H. induction H as [s r H | s s' r H _ IH].
  - eapply HQ; eassumption.
  - apply IH. now apply (step_decreases s s').
Qed.

End Measure.

End Loops.

Lemma pow2_log2_up (a : Z) : a <= 2 ^ Z.of_nat (Z.to_nat (Z.log2_up a)).
Proof.
  rewrite Z2Nat.id by apply Z.log2_up_nonneg.
  destruct (Z.le_gt_cases a 1) as [H | H].
  - pose proof (Z.pow_pos_nonneg 2 (Z.log2_up a) ltac:(lia) (Z.log2_up_nonneg a)). lia.
  - apply Z.log2_up_spec. exact H.
Qed.

(** * The bit reader *)

Lemma remaining_nonneg fp : 0 <= remaining fp.
Proof. unfold remaining. lia. Qed.

Lemma fread_length n fp :
  0 <= n -> Z.of_nat (List.length (fst (fread n fp))) = Z.min n (remaining fp).
Proof.
  intros Hn. unfold fread. cbn [fst].
  rewrite length_map, length_seq. apply Z2Nat.id.
  pose proof (remaining_nonneg fp). lia.
Qed.

Lemma fread_remaining n fp :
  0 <= n -> remaining (snd (fread n fp)) = remaining fp - Z.min n (remaining fp).
Proof.
  intros Hn. pose proof (fread_length n fp Hn) as Hl.
  unfold fread in *. cbn [fst snd] in *. unfold remaining in *. cbn [f_data f_pos].
  rewrite Hl. lia.
Qed.

Lemma fread_eof n fp :
  0 <= n -> remaining fp < n -> f_eof (snd (fread n fp)) = true.
Proof.
  intros Hn Hr. pose proof (fread_length n fp Hn) as Hl.
  unfold fread in *. cbn [fst snd f_eof] in *. rewrite Hl.
  apply orb_true_iff. right. apply Z.ltb_lt. lia.
Qed.

(** On a regular file one [fread] settles [readNextSector]: it fills the
    request or meets the end of the file. *)
Lemma readNextSectorLoop_first fuel ptr n sbuffer fp :
  0 < n ->
  readNextSectorLoop (S fuel) ptr n sbuffer fp =
    if remaining fp <? 1 then (false, sbuffer, snd (fread n fp))
    else (true, blit sbuffer ptr (fst (fread n fp)), snd (fread n fp)).
Proof.
  intros Hn. cbn [readNextSectorLoop].
  pose proof (fread_length n fp ltac:(lia)) as Hl.
  pose proof (fread_eof n fp ltac:(lia)) as He.
  pose proof (remaining_nonneg fp) as Hr.
  destruct (fread n fp) as [got fp'] eqn:E. cbn [fst snd] in *.
  rewrite Hl.
  destruct (Z.ltb_spec (remaining fp) 1) as [H1 | H1].
  - destruct (Z.ltb_spec (Z.min n (remaining fp)) 1); [reflexivity | lia].
  - destruct (Z.ltb_spec (Z.min n (remaining fp)) 1); [lia |].
    destruct (Z.eqb_spec (n - Z.min n (remaining fp)) 0) as [H0 | H0]; [reflexivity |].
    rewrite He by lia. reflexivity.
Qed.

Lemma readNextSector_spec b :
  (remaining (rb_fp b) < 1 -> fst (readNextSector b) = false)
  /\ (1 <= remaining (rb_fp b) ->
      fst (readNextSector b) = true
      /\ remaining (rb_fp (snd (readNextSector b))) + 1 <= remaining (rb_fp b)
      /\ rb_sum (snd (readNextSector b)) = rb_sum b
      /\ rb_bits (snd (readNextSector b)) = rb_bits b).
Proof.
  unfold readNextSector.
  change (Z.to_nat KSectorSize) with (S (Z.to_nat 2047)).
  rewrite readNextSectorLoop_first by (unfold KSectorSize; lia).
  pose proof (fread_remaining KSectorSize (rb_fp b) ltac:(unfold KSectorSize; lia)) as Hr.
  split; intros H.
  - destruct (Z.ltb_spec (remaining (rb_fp b)) 1); [reflexivity | lia].
  - destruct (Z.ltb_spec (remaining (rb_fp b)) 1); [lia |]. cbn [fst snd rb_fp rb_sum rb_bits].
    repeat split. rewrite Hr. unfold KSectorSize. lia.
Qed.

Lemma availBits_nonneg b : reading b -> 0 <= availBits b.
Proof.
  intros (Hb & Hp & _). unfold availBits. pose proof (remaining_nonneg (rb_fp b)).
  unfold KSectorSize in *. lia.
Qed.

(** The refill loop either runs out of file or ends with more than 24
    bits, without the stream gaining anything. *)
Lemma fillBits_spec fuel b :
  reading b -> 24 < rb_bits b + 8 * Z.of_nat fuel ->
  match fillBits fuel b with
  | Ok b' => wfBuffer b' /\ availBits b' <= availBits b
  | Throw msg => msg = "Unexpected end of file in Huffman sequence"
  | _ => False
  end.
Proof.
  revert b. induction fuel as [| fuel IH]; intros b Hb Hf.
  - cbn. destruct Hb as (Hbits & Hp & Hs). unfold wfBuffer. repeat split; lia.
  - cbn [fillBits]. destruct (Z.leb_spec (rb_bits b) 24) as [H24 | H24].
    2:{ cbn. destruct Hb as (Hbits & Hp & Hs). unfold wfBuffer. repeat split; lia. }
    destruct Hb as (Hbits & Hp & Hs).
    assert (Hnext : forall b1,
               0 <= rb_p b1 < KSectorSize -> rb_bits b1 = rb_bits b -> rb_sum b1 = rb_sum b ->
               availBits b1 <= availBits b ->
               match
                 fillBits fuel
                   {| rb_sbuffer := rb_sbuffer b1; rb_fp := rb_fp b1;
                      rb_sum := Z.lor (rb_sum b1)
                                  (Int.u32 (Z.shiftl (byteAt (rb_sbuffer b1) (rb_p b1))
                                                     (24 - rb_bits b1)));
                      rb_bits := Int.u64 (rb_bits b1 + 8);
                      rb_p := rb_p b1 + 1 |}
               with
               | Ok b' => wfBuffer b' /\ availBits b' <= availBits b
               | Throw msg => msg = "Unexpected end of file in Huffman sequence"
               | _ => False
               end).
    { intros b1 Hp1 Hb1 Hs1 Ha1.
      set (b2 := {| rb_sbuffer := rb_sbuffer b1; rb_fp := rb_fp b1; rb_sum := _;
                    rb_bits := _; rb_p := _ |}).
      assert (Hbits2 : rb_bits b2 = rb_bits b + 8).
      { unfold b2. cbn [rb_bits]. rewrite Hb1. apply u64_small. lia. }
      assert (Hr2 : reading b2).
      { unfold reading. rewrite Hbits2. unfold b2 at 1 2 3 4. cbn [rb_p rb_sum].
        split; [lia |]. split; [lia |].
        apply lor_range; [lia | rewrite Hs1; lia | apply u32_range]. }
      assert (Ha2 : availBits b2 = availBits b1).
      { unfold availBits. rewrite Hbits2. unfold b2. cbn [rb_p rb_fp]. rewrite Hb1. lia. }
      pose proof (IH b2 Hr2) as H. rewrite Hbits2 in H.
      specialize (H ltac:(lia)).
      destruct (fillBits fuel b2); try exact H.
      destruct H as [Hw Ha]. split; [exact Hw | lia]. }
    destruct (rb_p b >=? KSectorSize) eqn:Ep.
    + apply Z.geb_le in Ep. assert (Hpe : rb_p b = KSectorSize) by lia.
      pose proof (readNextSector_spec b) as [Hfail Hok].
      destruct (readNextSector b) as [ok b'] eqn:Er. cbn [fst snd] in *.
      destruct ok.
      * destruct (Z.lt_ge_cases (remaining (rb_fp b)) 1) as [Hlt | Hge];
          [specialize (Hfail Hlt); discriminate |].
        destruct (Hok Hge) as (_ & Hrem & Hsum & Hbits').
        cbn [bind]. apply Hnext; cbn [rb_p rb_bits rb_sum rb_fp rb_sbuffer].
        -- unfold KSectorSize. lia.
        -- exact Hbits'.
        -- exact Hsum.
        -- unfold availBits. cbn [rb_p rb_bits rb_fp]. rewrite Hbits', Hpe.
           unfold KSectorSize in *. lia.
      * cbn. reflexivity.
    + cbn [bind]. apply Hnext; try reflexivity.
      destruct (Z.geb_spec (rb_p b) KSectorSize); [discriminate | lia].
Qed.

(** [PCDGetBits (b, n)] takes [n] bits out of the stream, or throws at the
    end of the file; it does nothing else. *)
Lemma PCDGetBits_spec b n :
  wfBuffer b -> 0 <= n <= 24 ->
  match PCDGetBits b n with
  | Ok b' => wfBuffer b' /\ availBits b' + n <= availBits b
  | Throw msg => msg = "Unexpected end of file in Huffman sequence"
  | _ => False
  end.
Proof.
  intros (Hbits & Hp & Hs) Hn. unfold PCDGetBits.
  set (b0 := {| rb_sbuffer := rb_sbuffer b; rb_fp := rb_fp b; rb_sum := _;
                rb_bits := _; rb_p := rb_p b |}).
  assert (Hbits0 : rb_bits b0 = rb_bits b - n).
  { unfold b0. cbn [rb_bits]. apply u64_small. lia. }
  assert (Hr0 : reading b0).
  { unfold reading. rewrite Hbits0. unfold b0. cbn [rb_p rb_sum].
    split; [lia |]. split; [exact Hp |].
    pose proof (land_mask_range (Int.u64 (Z.shiftl (rb_sum b) n)) 0xffffffff ltac:(lia)).
    lia. }
  assert (Ha0 : availBits b0 = availBits b - n).
  { unfold availBits. rewrite Hbits0. unfold b0. cbn [rb_p rb_fp]. lia. }
  pose proof (fillBits_spec 4 b0 Hr0) as H. rewrite Hbits0 in H.
  specialize (H ltac:(cbn; lia)).
  destruct (fillBits 4 b0); try exact H.
  destruct H as [Hw Ha]. split; [exact Hw | lia].
Qed.

(** * Resynchronisation *)

Lemma syncFuel_enough b : availBits b < 2 ^ Z.of_nat (syncFuel b).
Proof. unfold syncFuel. pose proof (pow2_log2_up (availBits b + 1)). lia. Qed.

Lemma bind_assoc {A B C : Type} (r : result A) (f : A -> result B) (g : B -> result C) :
  bind (bind r f) g = bind r (fun a => bind (f a) g).
Proof. destruct r; reflexivity. Qed.

Section Scan.

Variables (cond : ReadBuffer -> bool) (n : Z).
Hypothesis n_bits : 0 < n <= 24.

Lemma scanStep_again b b' :
  wfBuffer b -> scanStep cond n b = Again b' ->
  wfBuffer b' /\ availBits b' < availBits b.
Proof.
  intros Hb H. unfold scanStep in H. destruct (cond b); [discriminate |].
  pose proof (PCDGetBits_spec b n Hb ltac:(lia)) as Hs.
  destruct (PCDGetBits b n); cbn in H; try discriminate.
  injection H as <-. destruct Hs. split; [assumption | lia].
Qed.

Lemma scanStep_leave b r :
  wfBuffer b -> scanStep cond n b = Leave r -> scanResult cond r.
Proof.
  intros Hb H. unfold scanStep in H. destruct (cond b) eqn:Ec.
  - injection H as <-. cbn. auto.
  - pose proof (PCDGetBits_spec b n Hb ltac:(lia)) as Hs.
    destruct (PCDGetBits b n); cbn in H; try discriminate; try contradiction.
    injection H as <-. exact Hs.
Qed.

Lemma wfBuffer_avail b : wfBuffer b -> 0 <= availBits b.
Proof.
  intros (Hb & Hp & Hs). apply availBits_nonneg. unfold reading. repeat split; lia.
Qed.

(** The scan is left within its bound, with a result of the right kind. *)
Lemma scan_total b :
  wfBuffer b ->
  exists r, while (syncFuel b) (scanStep cond n) b = Leave r
            /\ leaves (scanStep cond n) b r /\ scanResult cond r.
Proof.
  intros Hb.
  destruct (while_terminates (scanStep cond n) wfBuffer availBits
              scanStep_again wfBuffer_avail (syncFuel b) b Hb (syncFuel_enough b))
    as (r & Hw & Hl).
  exists r. split; [exact Hw |]. split; [exact Hl |].
  eapply (leaves_result (scanStep cond n) wfBuffer availBits scanStep_again
            (scanResult cond)); [| exact Hb | exact Hl].
  intros s r0 Hs H0. eapply scanStep_leave; eassumption.
Qed.

Lemma scan_result b :
  wfBuffer b -> scanResult cond (runLoop (syncFuel b) (scanStep cond n) b).
Proof.
  intros Hb. destruct (scan_total b Hb) as (r & Hw & _ & Hr).
  unfold runLoop. rewrite Hw. exact Hr.
Qed.

(** The scan, one turn at a time. *)
Lemma scan_unfold b :
  wfBuffer b ->
  runLoop (syncFuel b) (scanStep cond n) b =
    if cond b then Ok b
    else b' <- PCDGetBits b n ;; runLoop (syncFuel b') (scanStep cond n) b'.
Proof.
  intros Hb. destruct (scan_total b Hb) as (r & Hw & Hl & _).
  unfold runLoop at 1. rewrite Hw.
  destruct (cond b) eqn:Ec.
  - eapply leaves_fun; [exact Hl |]. apply leaves_now. unfold scanStep. now rewrite Ec.
  - pose proof (PCDGetBits_spec b n Hb ltac:(lia)) as Hs.
    destruct (PCDGetBits b n) as [b' | msg | |] eqn:Eg; try contradiction.
    + cbn [bind]. destruct Hs as [Hb' _].
      destruct (scan_total b' Hb') as (r' & Hw' & Hl' & _).
      unfold runLoop. rewrite Hw'.
      eapply leaves_fun; [exact Hl |].
      eapply leaves_later; [| exact Hl']. unfold scanStep. now rewrite Ec, Eg.
    + cbn [bind]. eapply leaves_fun; [exact Hl |].
      apply leaves_now. unfold scanStep. now rewrite Ec, Eg.
Qed.

End Scan.

Lemma land_shifted x m k :
  0 <= k -> Z.land x (Z.shiftl m k) = Z.shiftl (Z.land (Z.shiftr x k) m) k.
Proof.
  intros Hk. apply Z.bits_inj'. intros i Hi. rewrite Z.land_spec.
  destruct (Z.lt_ge_cases i k) as [H | H].
  - rewrite !Z.shiftl_spec_low by lia. apply andb_false_r.
  - rewrite !Z.shiftl_spec by lia. rewrite Z.land_spec, Z.shiftr_spec by lia.
    f_equal. f_equal. lia.
Qed.

(** The condition of the second loop says that the top 24 bits of the
    32-bit shift register are 0xFFFFFE. *)
Lemma atMarker_top24 b :
  0 <= rb_sum b < 2 ^ 32 ->
  atMarker b = true <-> Z.shiftr (rb_sum b) 8 = 0xFFFFFE.
Proof.
  intros Hs. unfold atMarker.
  change 0xffffff00 with (Z.shiftl 0xffffff 8).
  change 0xfffffe00 with (Z.shiftl 0xfffffe 8).
  rewrite land_shifted by lia.
  assert (Hhi : 0 <= Z.shiftr (rb_sum b) 8 < 2 ^ 24).
  { rewrite Z.shiftr_div_pow2 by lia. split.
    - apply Z.div_pos; lia.
    - apply Z.div_lt_upper_bound; lia. }
  change 0xffffff with (Z.ones 24).
  rewrite Z.land_ones by lia. rewrite Z.mod_small by exact Hhi.
  rewrite Z.eqb_eq. split.
  - intros H. rewrite !Z.shiftl_mul_pow2 in H by lia. lia.
  - intros ->. reflexivity.
Qed.

Lemma skipToMarkerByte_unfold b :
  wfBuffer b ->
  skipToMarkerByte b =
    if atMarkerByte b then Ok b else b' <- PCDGetBits b 8 ;; skipToMarkerByte b'.
Proof. intros Hb. apply (scan_unfold atMarkerByte 8 ltac:(lia) b Hb). Qed.

Lemma slideToMarker_unfold b :
  wfBuffer b ->
  slideToMarker b = if atMarker b then Ok b else b' <- PCDGetBits b 1 ;; slideToMarker b'.
Proof. intros Hb. apply (scan_unfold atMarker 1 ltac:(lia) b Hb). Qed.

Lemma syncHuffman_result b :
  wfBuffer b ->
  match syncHuffman b with
  | Ok b' => wfBuffer b' /\ atMarker b' = true
  | Throw msg => msg = endOfFile
  | _ => False
  end.
Proof.
  intros Hb. unfold syncHuffman, skipToMarkerByte.
  pose proof (scan_result atMarkerByte 8 ltac:(lia) b Hb) as H1.
  unfold scanResult in H1. fold skipStep in H1.
  destruct (runLoop (syncFuel b) skipStep b) as [b1 | msg | |]; cbn [bind]; try exact H1.
  destruct H1 as [Hb1 _].
  apply (scan_result atMarker 1 ltac:(lia) b1 Hb1).
Qed.

(** C8, as the code has it: a call of [syncHuffman] on a read buffer first
    takes eight bits at a time until bits 12 to 23 of the shift register
    are all ones, then one bit at a time, and it returns exactly when the
    top 24 bits of the 32-bit shift register are 0xFFFFFE; when the file
    ends first it throws the end-of-file error.  It always does one or the
    other. *)
Theorem syncHuffman_marker (b : ReadBuffer) :
  wfBuffer b ->
  match syncHuffman b with
  | Ok b' => wfBuffer b' /\ Z.shiftr (rb_sum b') 8 = 0xFFFFFE
  | Throw msg => msg = "Unexpected end of file in Huffman sequence"
  | _ => False
  end
  /\ (atMarkerByte b = false ->
      syncHuffman b = (b' <- PCDGetBits b 8 ;; syncHuffman b'))
  /\ (atMarkerByte b = true -> syncHuffman b = slideToMarker b)
  /\ slideToMarker b
     = (if atMarker b then Ok b else b' <- PCDGetBits b 1 ;; slideToMarker b')
  /\ (atMarker b = true <-> Z.shiftr (rb_sum b) 8 = 0xFFFFFE).
Proof.
  intros Hb. split; [| split; [| split; [| split]]].
  - pose proof (syncHuffman_result b Hb) as H.
    destruct (syncHuffman b) as [b' | msg | |]; try exact H.
    destruct H as [Hb' Hm]. split; [exact Hb' |].
    apply atMarker_top24; [apply Hb' | exact Hm].
  - intros Hc. unfold syncHuffman. rewrite (skipToMarkerByte_unfold b Hb), Hc.
    apply bind_assoc.
  - intros Hc. unfold syncHuffman. rewrite (skipToMarkerByte_unfold b Hb), Hc.
    reflexivity.
  - apply slideToMarker_unfold. exact Hb.
  - apply atMarker_top24. apply Hb.
Qed.

(** A read buffer given by its bytes is well formed: the three fields are
    numbers that can be compared. *)
Ltac wf_by_computation :=
  unfold wfBuffer;
  repeat match goal with
    | |- _ /\ _ => split
    | |- _ < _ => apply Z.ltb_lt; vm_compute; reflexivity
    | |- _ <= _ => apply Z.leb_le; vm_compute; reflexivity
    end.

(** The theorem on [strayStream], where the marker is 32 bits ahead. *)
Lemma syncHuffman_marker_witness :
  wfBuffer (bufferOn strayStream)
  /\ match syncHuffman (bufferOn strayStream) with
     | Ok b' => Z.shiftr (rb_sum b') 8 = 0xFFFFFE
                /\ availBits (bufferOn strayStream) - availBits b' = 32
     | _ => False
     end.
Proof.
  assert (Hwf : wfBuffer (bufferOn strayStream)) by wf_by_computation.
  split; [exact Hwf |].
  destruct (syncHuffman_marker (bufferOn strayStream) Hwf) as (H & _).
  destruct (syncHuffman (bufferOn strayStream)) as [b' | | |] eqn:E;
    try (vm_compute in E; discriminate E).
  split; [apply H |].
  vm_compute in E. injection E as <-. reflexivity.
Defined.

(** C8, as the claim has it, fails.  On [strayStream] the top 20 bits of
    the shift register are 0xFFFFE when [syncHuffman] is called, yet it
    does not return there: it goes on, first by a whole byte, and where it
    returns the top 20 bits are 0xFFFFF. *)
Lemma syncHuffman_not_at_20_bits :
  Z.shiftr (rb_sum (bufferOn strayStream)) 12 = 0xFFFFE
  /\ match syncHuffman (bufferOn strayStream) with
     | Ok b' => rb_sum b' <> rb_sum (bufferOn strayStream)
                /\ Z.shiftr (rb_sum b') 12 = 0xFFFFF
     | _ => False
     end
  /\ syncHuffman (bufferOn strayStream)
     = (b1 <- PCDGetBits (bufferOn strayStream) 8 ;; syncHuffman b1).
Proof.
  split; [vm_compute; reflexivity |]. split.
  - vm_compute. split; [discriminate | reflexivity].
  - vm_compute. reflexivity.
Qed.

(** * Decoding a sequence *)

Lemma zeroSequence_spec n dest m j :
  zeroSequence n dest m j
  = if (dest <=? j) && (j <? dest + Z.of_nat n) then 0 else m j.
Proof.
  revert dest m. induction n as [| n IH]; intros dest m.
  - cbn. destruct (Z.leb_spec dest j), (Z.ltb_spec j (dest + 0)); cbn; try reflexivity; lia.
  - cbn [zeroSequence]. rewrite IH. rewrite Nat2Z.inj_succ. unfold store.
    destruct (Z.leb_spec (dest + 1) j), (Z.ltb_spec j (dest + 1 + Z.of_nat n)),
      (Z.leb_spec dest j), (Z.ltb_spec j (dest + Z.succ (Z.of_nat n))),
      (Z.eqb_spec j dest); cbn; try reflexivity; lia.
Qed.

(** When the symbol after [k] good ones meets the error length, the loop
    zeroes the whole sequence, from its first position. *)
Lemma decodeSymbols_error huf dest length bk :
  ht_len huf (currentCode bk) = kHuffmanErrorLen ->
  forall k n i b m,
    decodePrefix huf k b = Some bk ->
    exists mk,
      decodeSymbols (k + S n) i b huf dest length m
      = (b' <- syncHuffman bk ;; Ok (b', zeroSequence (Z.to_nat length) dest mk))
      /\ (forall j, j < dest + i \/ dest + i + Z.of_nat k <= j -> mk j = m j).
Proof.
  intros Herr. induction k as [| k IH]; intros n i b m Hpre.
  - cbn in Hpre. injection Hpre as ->. exists m. split; [| reflexivity].
    cbn [Nat.add decodeSymbols]. rewrite Herr, Z.eqb_refl. reflexivity.
  - cbn [decodePrefix] in Hpre.
    destruct (ht_len huf (currentCode b) =? kHuffmanErrorLen) eqn:El; [discriminate |].
    destruct (PCDGetBits b (ht_len huf (currentCode b))) as [b1 | | |] eqn:Eg;
      try discriminate.
    destruct (IH n (i + 1) b1 (store m (dest + i) (ht_key huf (currentCode b))) Hpre)
      as (mk & Hrun & Hout).
    exists mk. split.
    + cbn [Nat.add decodeSymbols]. rewrite El, Eg. cbn [bind]. exact Hrun.
    + intros j Hj. rewrite Hout by lia. apply store_neq. lia.
Qed.

(** C4, as the code has it: when the [k]-th symbol of a sequence of
    [length] symbols (0 <= k < length) meets the error length 31, the
    decoder writes zero into all [length] positions of the sequence, the
    [k] symbols already decoded included, touches nothing else, resyncs and
    returns with the buffer at the next sequence marker. *)
Theorem PCDDecodeHuffman_error_zeroes (huf : huffTable) (b bk b' : ReadBuffer)
  (dest length k : Z) (m : mem) :
  0 <= k < length ->
  decodePrefix huf (Z.to_nat k) b = Some bk ->
  ht_len huf (currentCode bk) = kHuffmanErrorLen ->
  syncHuffman bk = Ok b' ->
  exists m',
    PCDDecodeHuffman b huf dest length m = Ok (b', m')
    /\ (forall j, dest <= j < dest + length -> m' j = 0)
    /\ (forall j, ~ (dest <= j < dest + length) -> m' j = m j)
    /\ (wfBuffer bk -> wfBuffer b' /\ Z.shiftr (rb_sum b') 8 = 0xFFFFFE).
Proof.
  intros Hk Hpre Herr Hsync.
  destruct (decodeSymbols_error huf dest length bk Herr (Z.to_nat k)
              (Z.to_nat (length - k - 1)) 0 b m Hpre) as (mk & Hrun & Hout).
  exists (zeroSequence (Z.to_nat length) dest mk).
  split; [| split; [| split]].
  - unfold PCDDecodeHuffman.
    replace (Z.to_nat length) with (Z.to_nat k + S (Z.to_nat (length - k - 1)))%nat at 1
      by lia.
    rewrite Hrun, Hsync. reflexivity.
  - intros j Hj. rewrite zeroSequence_spec, Z2Nat.id by lia.
    destruct (Z.leb_spec dest j), (Z.ltb_spec j (dest + length)); cbn; try reflexivity; lia.
  - intros j Hj. rewrite zeroSequence_spec, Z2Nat.id by lia.
    destruct (Z.leb_spec dest j), (Z.ltb_spec j (dest + length)); cbn; try lia;
      apply Hout; rewrite Z2Nat.id; lia.
  - intros Hwf. pose proof (syncHuffman_marker bk Hwf) as (H & _).
    rewrite Hsync in H. exact H.
Qed.

(** The theorem on [brokenStream]: the second of four symbols is no code. *)
Lemma PCDDecodeHuffman_error_zeroes_witness :
  decodePrefix oneCodeTable 1 (bufferOn brokenStream) <> None
  /\ match PCDDecodeHuffman (bufferOn brokenStream) oneCodeTable 10 4 (fun _ => 7) with
     | Ok (_, m') => m' 9 = 7 /\ m' 10 = 0 /\ m' 13 = 0 /\ m' 14 = 7
     | _ => False
     end.
Proof.
  destruct (decodePrefix oneCodeTable 1 (bufferOn brokenStream)) as [bk |] eqn:Epre;
    [| vm_compute in Epre; discriminate Epre].
  split; [discriminate |].
  assert (Herr : ht_len oneCodeTable (currentCode bk) = kHuffmanErrorLen).
  { vm_compute in Epre. injection Epre as <-. vm_compute. reflexivity. }
  destruct (syncHuffman bk) as [b' | | |] eqn:Esync;
    try (vm_compute in Epre; injection Epre as <-; vm_compute in Esync; discriminate Esync).
  destruct (PCDDecodeHuffman_error_zeroes oneCodeTable (bufferOn brokenStream) bk b'
              10 4 1 (fun _ => 7) ltac:(lia) Epre Herr Esync)
    as (m' & Hrun & Hin & Hout & _).
  rewrite Hrun.
  repeat split; (apply Hin; lia) || (rewrite Hout by lia; reflexivity).
Defined.

(** C4, as the claim has it, fails: on [brokenStream] the first symbol
    decodes to the key 0x2A and the second meets the error length, yet
    after the call the first position of the sequence holds 0, not 0x2A. *)
Lemma PCDDecodeHuffman_forgets_decoded :
  ht_len oneCodeTable (currentCode (bufferOn brokenStream)) = 1
  /\ ht_key oneCodeTable (currentCode (bufferOn brokenStream)) = 0x2A
  /\ match decodePrefix oneCodeTable 1 (bufferOn brokenStream) with
     | Some bk => ht_len oneCodeTable (currentCode bk) = kHuffmanErrorLen
     | None => False
     end
  /\ match PCDDecodeHuffman (bufferOn brokenStream) oneCodeTable 10 4 (fun _ => 7) with
     | Ok (_, m') => m' 10 = 0 /\ m' 10 <> 0x2A
     | _ => False
     end.
Proof.
  split; [vm_compute; reflexivity |]. split; [vm_compute; reflexivity |].
  split; [vm_compute; reflexivity |].
  vm_compute. split; [reflexivity | discriminate].
Qed.

(** * Sequence headers *)

Lemma masked_row_u64 x m c : 0 <= m < 2 ^ 32 -> 0 <= c <= 2 -> Int.u64 (Z.land x m * c) = Z.land x m * c.
Proof.
  intros Hm Hc. pose proof (land_mask_range x m ltac:(lia)). apply u64_small. nia.
Qed.

(** C5, as the code has it.  At 4Base and 16Base the plane is
    (acc >> 22) & 0x3, the row (acc >> 9) & 0x1FFF and the sequence 0; at
    64Base the plane is (acc >> 19) & 0x6, the row (acc >> 6) & 0x3FFF,
    doubled when the plane is not the luma plane 0, and the sequence
    (acc >> 1) & 0xF; at Base, which has no deltas, the three fields are 0.
    A sequence whose row is not below the luma height is skipped: the
    stream is read past its header and the planes are left alone. *)
Theorem sequenceHeader_fields :
  (forall acc, sequenceHeader k4Base acc
               = (Z.land (Z.shiftr acc 9) 0x1FFF, 0, Z.land (Z.shiftr acc 22) 0x3))
  /\ (forall acc, sequenceHeader k16Base acc
                  = (Z.land (Z.shiftr acc 9) 0x1FFF, 0, Z.land (Z.shiftr acc 22) 0x3))
  /\ (forall acc, sequenceHeader k64Base acc
                  = ((if Z.land (Z.shiftr acc 19) 0x6 =? 0
                      then Z.land (Z.shiftr acc 6) 0x3FFF
                      else 2 * Z.land (Z.shiftr acc 6) 0x3FFF),
                     Z.land (Z.shiftr acc 1) 0xF,
                     Z.land (Z.shiftr acc 19) 0x6))
  /\ (forall acc, sequenceHeader kBase acc = (0, 0, 0))
  /\ (forall n huf sceneSelect sequenceSize colOffset planeTrack row buf data b1 b2 b3,
        planeTrack <> 0 \/ row < PCDLumaHeight sceneSelect ->
        syncHuffman buf = Ok b1 ->
        PCDGetBits b1 16 = Ok b2 ->
        skipHeader (Z.to_nat (HuffmanHeaderSize sceneSelect)) b2 = Ok b3 ->
        PCDLumaHeight sceneSelect <= fst (fst (sequenceHeader sceneSelect (rb_sum b2))) ->
        deltaLoop (S n) huf sceneSelect sequenceSize colOffset planeTrack row buf data
        = deltaLoop n huf sceneSelect sequenceSize colOffset planeTrack
            (fst (fst (sequenceHeader sceneSelect (rb_sum b2)))) b3 data).
Proof.
  split; [| split; [| split; [| split]]].
  - intros acc. unfold sequenceHeader.
    change (RowShift k4Base) with 9. change (RowMask k4Base) with 0x1fff.
    change (SequenceShift k4Base) with 0. change (SequenceMask k4Base) with 0.
    change (PlaneShift k4Base) with 22. change (PlaneMask k4Base) with 0x3.
    change (RowSubSample k4Base) with 1.
    rewrite Z.land_0_r.
    replace (if Z.land (Z.shiftr acc 22) 3 =? 0 then 1 else 1) with 1
      by (destruct (_ =? 0); reflexivity).
    rewrite masked_row_u64 by lia. now rewrite Z.mul_1_r.
  - intros acc. unfold sequenceHeader.
    change (RowShift k16Base) with 9. change (RowMask k16Base) with 0x1fff.
    change (SequenceShift k16Base) with 0. change (SequenceMask k16Base) with 0.
    change (PlaneShift k16Base) with 22. change (PlaneMask k16Base) with 0x3.
    change (RowSubSample k16Base) with 1.
    rewrite Z.land_0_r.
    replace (if Z.land (Z.shiftr acc 22) 3 =? 0 then 1 else 1) with 1
      by (destruct (_ =? 0); reflexivity).
    rewrite masked_row_u64 by lia. now rewrite Z.mul_1_r.
  - intros acc. unfold sequenceHeader.
    change (RowShift k64Base) with 6. change (RowMask k64Base) with 0x3fff.
    change (SequenceShift k64Base) with 1. change (SequenceMask k64Base) with 0xf.
    change (PlaneShift k64Base) with 19. change (PlaneMask k64Base) with 0x6.
    change (RowSubSample k64Base) with 2.
    destruct (Z.land (Z.shiftr acc 19) 6 =? 0);
      rewrite masked_row_u64 by lia; f_equal; f_equal; lia.
  - intros acc. unfold sequenceHeader.
    change (RowMask kBase) with 0. change (SequenceMask kBase) with 0.
    change (PlaneMask kBase) with 0. rewrite !Z.land_0_r. reflexivity.
  - intros n huf sceneSelect sequenceSize colOffset planeTrack row buf data b1 b2 b3
      Hgo Hsync Hget Hskip Hrow.
    cbn [deltaLoop].
    assert (Hcond : negb (planeTrack =? 0) || (row <? PCDLumaHeight sceneSelect) = true).
    { apply orb_true_iff. destruct Hgo as [H | H].
      - left. apply negb_true_iff. now apply Z.eqb_neq.
      - right. now apply Z.ltb_lt. }
    rewrite Hcond, Hsync. cbn [bind]. rewrite Hget. cbn [bind].
    destruct (sequenceHeader sceneSelect (rb_sum b2)) as [[row' sequence] plane].
    cbn [fst] in *. rewrite Hskip. cbn [bind].
    destruct (Z.ltb_spec row' (PCDLumaHeight sceneSelect)); [lia |].
    reflexivity.
Qed.

(** The last part of the theorem on [staleStream], whose sequences are for
    row 0x1FFF of a 4Base image of 1024 rows. *)
Lemma sequenceHeader_fields_witness :
  fst (fst (sequenceHeader k4Base 0xFE3FFEFF)) = 0x1FFF
  /\ PCDLumaHeight k4Base <= 0x1FFF
  /\ deltaLoop 2 oneCodeTables k4Base 0 0 1 0 (bufferOn staleStream) lumaOnly
     = deltaLoop 1 oneCodeTables k4Base 0 0 1 0x1FFF
         (match skipHeader 3
                  (match PCDGetBits (bufferOn staleStream) 16 with
                   | Ok b => b
                   | _ => zeroBuffer
                   end) with
          | Ok b => b
          | _ => zeroBuffer
          end) lumaOnly.
Proof.
  destruct sequenceHeader_fields as (H4 & _ & _ & _ & Hskip).
  split; [rewrite H4; reflexivity |]. split; [vm_compute; discriminate |].
  destruct (PCDGetBits (bufferOn staleStream) 16) as [b2 | | |] eqn:E2;
    try (vm_compute in E2; discriminate E2).
  destruct (skipHeader 3 b2) as [b3 | | |] eqn:E3;
    try (vm_compute in E2; injection E2 as <-; vm_compute in E3; discriminate E3).
  assert (Hsum : rb_sum b2 = 0xFE3FFEFF).
  { vm_compute in E2. injection E2 as <-. reflexivity. }
  rewrite (Hskip 1%nat oneCodeTables k4Base 0 0 1 0 (bufferOn staleStream) lumaOnly
             (bufferOn staleStream) b2 b3).
  - rewrite Hsum, H4. reflexivity.
  - left. discriminate.
  - vm_compute. reflexivity.
  - exact E2.
  - exact E3.
  - rewrite Hsum, H4. vm_compute. discriminate.
Defined.

(** C5, as the claim has it, fails in three places: at 4Base the plane
    field takes both bits 22 and 23, not the mask 0x6; a row at or beyond
    the luma height is kept as it is, not taken modulo the height; and at
    64Base it is the chroma row that is doubled, not the luma row. *)
Lemma sequenceHeader_claim_fails :
  snd (sequenceHeader k4Base 0x00400000) = 1
  /\ snd (sequenceHeader k4Base 0x00400000) <> Z.land (Z.shiftr 0x00400000 22) 0x6
  /\ fst (fst (sequenceHeader k4Base 0x003FFE00)) = 0x1FFF
  /\ fst (fst (sequenceHeader k4Base 0x003FFE00)) <> 0x1FFF mod PCDLumaHeight k4Base
  /\ fst (fst (sequenceHeader k64Base 0x00000140)) = 5
  /\ fst (fst (sequenceHeader k64Base 0x00000140)) <> 2 * 5
  /\ fst (fst (sequenceHeader k64Base 0x00100140)) = 2 * 5.
Proof.
  repeat split; vm_compute; (reflexivity || discriminate).
Qed.

(** * Methods as state transformers: how they compose *)

Lemma after_bind {A B : Type} (m : M A) (k : A -> M B) this :
  after (bindM m k) this
  = match outcome m this with
    | Ok a => after (k a) (after m this)
    | _ => after m this
    end.
Proof.
  unfold after, outcome, bindM. destruct (m this) as [this1 r]. destruct r; reflexivity.
Qed.

Lemma outcome_bind {A B : Type} (m : M A) (k : A -> M B) this :
  outcome (bindM m k) this
  = match outcome m this with
    | Ok a => outcome (k a) (after m this)
    | Throw msg => Throw msg
    | Fault => Fault
    | OutOfFuel => OutOfFuel
    end.
Proof.
  unfold after, outcome, bindM. destruct (m this) as [this1 r]. destruct r; reflexivity.
Qed.

Lemma after_tryCatch {A : Type} (body : M A) (h1 : string -> M A) (h2 : M A) this :
  after (tryCatch body h1 h2) this
  = match outcome body this with
    | Throw _ => after h2 (after body this)
    | _ => after body this
    end.
Proof.
  unfold after, outcome, tryCatch. destruct (body this) as [this1 r].
  destruct r; reflexivity.
Qed.

Lemma outcome_tryCatch {A : Type} (body : M A) (h1 : string -> M A) (h2 : M A) this :
  outcome (tryCatch body h1 h2) this
  = match outcome body this with
    | Throw _ => outcome h2 (after body this)
    | r => r
    end.
Proof.
  unfold after, outcome, tryCatch. destruct (body this) as [this1 r].
  destruct r; reflexivity.
Qed.

Section Keeps.

Context {X : Type} (f : pcdDecode -> X).

Lemma keeps_ret {A : Type} (a : A) : keeps f (ret a).
Proof. intros this. reflexivity. Qed.

Lemma keeps_lift {A : Type} (r : result A) : keeps f (lift r).
Proof. intros this. reflexivity. Qed.

Lemma keeps_getThis : keeps f getThis.
Proof. intros this. reflexivity. Qed.

Lemma keeps_modify (g : pcdDecode -> pcdDecode) :
  (forall this, f (g this) = f this) -> keeps f (modify g).
Proof. intros H this. apply H. Qed.

Lemma keeps_bind {A B : Type} (m : M A) (k : A -> M B) :
  keeps f m -> (forall a, keeps f (k a)) -> keeps f (bindM m k).
Proof.
  intros Hm Hk this. rewrite after_bind.
  destruct (outcome m this); try apply Hm. rewrite Hk. apply Hm.
Qed.

Lemma keeps_tryCatch {A : Type} (body : M A) (h1 : string -> M A) (h2 : M A) :
  keeps f body -> keeps f h2 -> keeps f (tryCatch body h1 h2).
Proof.
  intros Hb Hh this. rewrite after_tryCatch.
  destruct (outcome body this); try apply Hb. rewrite Hh. apply Hb.
Qed.

Lemma keeps_setErrorIfNull (msg : string) : keeps f (setErrorIfNull msg).
Proof. intros this. reflexivity. Qed.

End Keeps.

(** The steps that a proof of [keeps] goes through. *)
Ltac keeps_steps :=
  repeat first
    [ apply keeps_ret
    | apply keeps_lift
    | apply keeps_getThis
    | apply keeps_setErrorIfNull
    | apply keeps_modify; intros ?; reflexivity
    | apply keeps_bind; [| intros ?]
    | apply keeps_tryCatch
    | match goal with
      | |- keeps _ (match ?x with _ => _ end) => destruct x
      | |- keeps _ (if ?x then _ else _) => destruct x
      | |- keeps _ (let '(_, _) := ?x in _) => destruct x
      end ].

(** * The 64Base files *)

Lemma parseICBody_keeps_sceneNumber w ipe ic fileSize usingLowerCase :
  keeps sceneNumber (parseICBody w ipe ic fileSize usingLowerCase).
Proof. unfold parseICBody. keeps_steps. Qed.

Lemma parseICBody_keeps_errorString w ipe ic fileSize usingLowerCase :
  keeps errorString (parseICBody w ipe ic fileSize usingLowerCase).
Proof. unfold parseICBody. keeps_steps. Qed.

Lemma parseICFile_keeps_sceneNumber w ipe_file : keeps sceneNumber (parseICFile w ipe_file).
Proof.
  unfold parseICFile, setError. keeps_steps.
  apply parseICBody_keeps_sceneNumber.
Qed.

(** Once the companion file is open and the tables are allocated, nothing
    that [parseICFile] does writes an error message: the two handlers test
    [errorString == NULL]. *)
Lemma parseICFile_keeps_errorString w ipe ic this :
  10 <= Z.of_nat (String.length ipe) ->
  w_fs w ipe = Some ic -> 0 <= fb_size ic ->
  w_malloc w SiteICTables <> None ->
  errorString (after (parseICFile w (Some ipe)) this) = errorString this.
Proof.
  intros Hlen Hic Hsize Htab. unfold parseICFile.
  destruct (Z.ltb_spec (Z.of_nat (String.length ipe)) 10); [lia |].
  rewrite Hic.
  destruct (Z.ltb_spec (Z.quot (fb_size ic) KSectorSize + 1) 1) as [Hq | _].
  { unfold KSectorSize in Hq. exfalso. revert Hq.
    Z.to_euclidean_division_equations. lia. }
  destruct (w_malloc w SiteICTables) as [block |]; [| contradiction].
  revert this. change (keeps errorString
    (bindM (tryCatch
              (bindM (parseICBody w ipe ic (Z.quot (fb_size ic) KSectorSize + 1)
                        match String.get (String.length ipe - 9) ipe with
                        | Some c => Z.of_nat (nat_of_ascii c) =? 101
                        | None => false
                        end) (fun _ => ret true))
              (fun err =>
                 bindM (setErrorIfNull (err ++ " while processing 64Base image")%string)
                       (fun _ => ret false))
              (bindM (setErrorIfNull "Error while processing 64Base image")
                     (fun _ => ret false)))
           (fun retVal =>
              bindM (if negb retVal
                     then modify (set_deltas (k64Base - k4Base) noDeltas)
                     else ret tt)
                    (fun _ => ret retVal)))).
  keeps_steps. apply parseICBody_keeps_errorString.
Qed.

Lemma after_outcome_bind_modify {B : Type} (g : pcdDecode -> pcdDecode) (k : unit -> M B) this :
  after (bindM (modify g) k) this = after (k tt) (g this)
  /\ outcome (bindM (modify g) k) this = outcome (k tt) (g this).
Proof. split; reflexivity. Qed.

(** What the final value of [sceneNumber] satisfies, one step at a time:
    through a step that keeps the member, and through any step. *)
Lemma scene_bind {A B : Type} (Q : Z -> Prop) (m : M A) (k : A -> M B) this :
  keeps sceneNumber m ->
  Q (sceneNumber this) ->
  (forall a this1, sceneNumber this1 = sceneNumber this ->
                   Q (sceneNumber (after (k a) this1))) ->
  Q (sceneNumber (after (bindM m k) this)).
Proof.
  intros Hm HQ Hk. rewrite after_bind.
  destruct (outcome m this); try (rewrite Hm; exact HQ).
  apply Hk. apply Hm.
Qed.

Lemma scene_bind_any {A B : Type} (Q1 Q : Z -> Prop) (m : M A) (k : A -> M B) this :
  Q1 (sceneNumber (after m this)) ->
  (forall n, Q1 n -> Q n) ->
  (forall a this1, Q1 (sceneNumber this1) -> Q (sceneNumber (after (k a) this1))) ->
  Q (sceneNumber (after (bindM m k) this)).
Proof.
  intros Hm HQ Hk. rewrite after_bind.
  destruct (outcome m this); try (apply HQ; exact Hm).
  apply Hk. exact Hm.
Qed.

(** * The file parser: the level that it ends on *)

(** The 16Base block leaves [sceneNumber] where it was or, from 64Base,
    takes it down to 16Base. *)
Lemma parse16Base_scene w fp ipe_file HCTOffset ICDOffset hTables this :
  k16Base <= sceneNumber this ->
  k16Base <= sceneNumber (after (parse16Base w fp ipe_file HCTOffset ICDOffset hTables) this)
          <= sceneNumber this.
Proof.
  intros Hlo. unfold parse16Base.
  pose (Q := fun n => k16Base <= n <= sceneNumber this).
  assert (HQ : Q (sceneNumber this)) by (unfold Q; lia).
  enough (G : Q (sceneNumber (after (parse16Base w fp ipe_file HCTOffset ICDOffset hTables) this)))
    by exact G.
  unfold parse16Base.
  apply scene_bind; [keeps_steps | exact HQ |]. intros this0 s1 E1.
  apply scene_bind; [keeps_steps | now rewrite E1 |]. intros hTables16 s2 E2.
  apply scene_bind; [keeps_steps | now rewrite E2, E1 |]. intros _ s3 E3.
  apply scene_bind; [keeps_steps | now rewrite E3, E2, E1 |]. intros _ s4 E4.
  apply scene_bind; [keeps_steps | now rewrite E4, E3, E2, E1 |]. intros hufBuffer s5 E5.
  apply scene_bind; [keeps_steps | now rewrite E5, E4, E3, E2, E1 |]. intros this5 s6 E6.
  apply scene_bind; [keeps_steps | now rewrite E6, E5, E4, E3, E2, E1 |]. intros r s7 E7.
  apply scene_bind; [keeps_steps | now rewrite E7, E6, E5, E4, E3, E2, E1 |].
  intros _ s8 E8.
  assert (E : sceneNumber s8 = sceneNumber this) by congruence.
  rewrite after_bind. cbn [outcome getThis snd after fst].
  destruct (Z.geb_spec (sceneNumber s8) k64Base) as [H64 | H64].
  - apply scene_bind; [apply parseICFile_keeps_sceneNumber | now rewrite E |].
    intros ok s9 E9. destruct ok; cbn [negb].
    + change (Q (sceneNumber s9)). rewrite E9, E. exact HQ.
    + unfold Q. cbn. unfold k16Base, k64Base in *. lia.
  - change (Q (sceneNumber s8)). rewrite E. exact HQ.
Qed.

(** The 4Base block, with its handlers for the 16Base block, leaves
    [sceneNumber] between 4Base and where it was. *)
Lemma parse4Base_scene w fp ipe_file HCTOffset ICDOffset this :
  k4Base <= sceneNumber this ->
  k4Base <= sceneNumber (after (parse4Base w fp ipe_file HCTOffset ICDOffset) this)
         <= sceneNumber this.
Proof.
  intros Hlo.
  pose (Q := fun n => k4Base <= n <= sceneNumber this).
  assert (HQ : Q (sceneNumber this)) by (unfold Q; lia).
  enough (G : Q (sceneNumber (after (parse4Base w fp ipe_file HCTOffset ICDOffset) this)))
    by exact G.
  unfold parse4Base. destruct (w_malloc w SiteTables) as [tables |]; [| exact HQ].
  apply scene_bind; [keeps_steps | exact HQ |]. intros hTables s1 E1.
  apply scene_bind; [keeps_steps | now rewrite E1 |]. intros _ s2 E2.
  apply scene_bind; [keeps_steps | now rewrite E2, E1 |]. intros hufBuffer s3 E3.
  apply scene_bind; [keeps_steps | now rewrite E3, E2, E1 |]. intros this3 s4 E4.
  apply scene_bind; [keeps_steps | now rewrite E4, E3, E2, E1 |]. intros r s5 E5.
  apply scene_bind; [keeps_steps | now rewrite E5, E4, E3, E2, E1 |]. intros _ s6 E6.
  assert (E : sceneNumber s6 = sceneNumber this) by congruence.
  rewrite after_bind. cbn [outcome getThis snd after fst].
  destruct (Z.geb_spec (sceneNumber s6) k16Base) as [H16 | H16].
  - apply (scene_bind_any Q Q).
    + rewrite after_tryCatch.
      pose proof (parse16Base_scene w fp ipe_file HCTOffset ICDOffset hTables s6 H16) as B.
      destruct (outcome (parse16Base w fp ipe_file HCTOffset ICDOffset hTables) s6);
        try (unfold Q; unfold k16Base, k4Base in *; lia).
      unfold Q. cbn. unfold k16Base, k4Base in *. lia.
    + trivial.
    + intros _ s7 Q7. apply scene_bind; [keeps_steps | exact Q7 |].
      intros this7 s8 E8. destruct (sceneNumber this7 =? k4Base).
      * cbn. rewrite E8. exact Q7.
      * change (Q (sceneNumber s8)). rewrite E8. exact Q7.
  - change (Q (sceneNumber s6)). rewrite E. exact HQ.
Qed.

(** The scene that [readBaseLoop] returns is at most the one it started
    from, and lower by no more than the number of turns. *)
Lemma readBaseLoop_bounds (n : nat) w fp scene ICDOffset :
  scene - Z.of_nat n <= fst (fst (fst (readBaseLoop n w fp scene ICDOffset))) <= scene.
Proof.
  revert scene. induction n as [| n IH]; intros scene.
  - cbn. lia.
  - cbn [readBaseLoop].
    assert (R : scene - Z.of_nat (S n)
                <= fst (fst (fst (readBaseLoop n w fp (scene - 1) ICDOffset))) <= scene)
      by (pose proof (IH (scene - 1)); lia).
    destruct (scene >=? kBase16); [| cbn; lia].
    destruct (w_malloc w (SiteBaseLuma scene)); [| exact R].
    destruct (w_malloc w (SiteBaseChroma1 scene)); [| exact R].
    destruct (w_malloc w (SiteBaseChroma2 scene)); [| exact R].
    match goal with |- context [if ?c then _ else _] => destruct c end;
      [exact R | cbn; lia].
Qed.

Lemma readBaseImage_scene w fp current ICDOffset :
  0 <= current < 2 ^ 32 ->
  let scene := fst (fst (fst (readBaseImage w fp current ICDOffset))) in
  Int.u32 scene < kBase -> 0 <= Int.u32 scene <= current.
Proof.
  intros Hc scene. unfold readBaseImage in scene.
  set (s32 := Int.s32 current) in *.
  set (top := if s32 >? kBase then kBase else s32) in *.
  pose proof (readBaseLoop_bounds (Z.to_nat (top + 1)) w fp top ICDOffset) as B.
  fold scene in B.
  assert (Hs32 : - 2 ^ 31 <= s32 < 2 ^ 31 /\ (0 <= s32 -> s32 = current)).
  { unfold s32, Int.s32. rewrite wrap_mod by lia.
    change (2 ^ 31) with 2147483648. change (2 ^ 32) with 4294967296 in Hc.
    Z.to_euclidean_division_equations. lia. }
  assert (Htop : - 2 ^ 31 <= top <= kBase /\ top <= s32).
  { unfold top. destruct (Z.gtb_spec s32 kBase); unfold kBase in *; lia. }
  assert (Hscene : - 2 ^ 31 <= scene <= top) by lia.
  intros Hu.
  assert (0 <= scene).
  { destruct (Z.lt_ge_cases scene 0) as [Hneg | ]; [| assumption]. exfalso.
    unfold Int.u32 in Hu. rewrite wrap_mod in Hu by lia.
    change (2 ^ 31) with 2147483648 in *. unfold kBase in *.
    Z.to_euclidean_division_equations. lia. }
  rewrite u32_small by (unfold kBase in *; lia). lia.
Qed.

Lemma after_getThis {B : Type} (k : pcdDecode -> M B) this :
  after (bindM getThis k) this = after (k this) this.
Proof. reflexivity. Qed.

Lemma outcome_getThis {B : Type} (k : pcdDecode -> M B) this :
  outcome (bindM getThis k) this = outcome (k this) this.
Proof. reflexivity. Qed.

(** The part of [parseFile] after the header ends on a level between Base/16
    and the one that was asked for, whatever each stage did. *)
Lemma parseScenes_scene w fp ipe_file pcdFile sNum this :
  0 <= sNum < 2 ^ 32 ->
  kBase16 <= sceneNumber (after (parseScenes w fp ipe_file pcdFile sNum) this) <= sNum.
Proof.
  intros HL.
  pose (Q := fun n => kBase16 <= n <= sNum).
  enough (G : Q (sceneNumber (after (parseScenes w fp ipe_file pcdFile sNum) this)))
    by exact G.
  unfold parseScenes. cbv zeta.
  rewrite !(proj1 (after_outcome_bind_modify _ _ _)).
  match goal with |- context [after _ ?s] => set (s2 := s) end.
  assert (Q2 : Q (sceneNumber s2)).
  { unfold Q, s2. cbn [sceneNumber set_sceneNumber]. rewrite u32_small by lia.
    unfold kBase16. lia. }
  assert (R2 : 0 <= imageResolution s2).
  { unfold s2. cbn [imageResolution set_sceneNumber set_attributes].
    pose proof (Z.land_nonneg (Z.shiftr (byteAt pcdFile off_attributes) 2) 3).
    unfold kBase. lia. }
  clearbody s2. rewrite after_getThis.
  apply (scene_bind_any Q Q); [| trivial |].
  { destruct (imageResolution s2 <? k16Base); [| exact Q2].
    unfold Q in *. cbn. unfold pcdMin, kBase16 in *.
    destruct (Z.ltb_spec (sceneNumber s2) (imageResolution s2)); lia. }
  intros _ s3 Q3. rewrite after_getThis.
  pose proof (readBaseImage_scene w fp (sceneNumber s3)
                (table [4; 23; 96; 389; getPCD16 pcdFile off_sectorStop4Base + 14; 0])) as RB.
  destruct (readBaseImage w fp (sceneNumber s3) _) as [[[scene l] c1] c2].
  cbn [fst] in RB.
  rewrite !(proj1 (after_outcome_bind_modify _ _ _)). rewrite after_getThis.
  match goal with |- context [after _ ?s] => set (s5 := s) end.
  assert (E5 : sceneNumber s5 = sceneNumber s3) by reflexivity.
  assert (B5 : baseScene s5 = Int.u32 scene) by reflexivity.
  clearbody s5.
  destruct (baseScene s5 <? kBase16).
  { change (Q (sceneNumber s5)). rewrite E5. exact Q3. }
  apply (scene_bind_any Q Q); [| trivial |].
  { destruct (Z.ltb_spec (baseScene s5) kBase) as [Hb | Hb].
    - change (Q (baseScene s5)). rewrite B5 in *. unfold Q, kBase16 in *.
      assert (0 <= sceneNumber s3 < 2 ^ 32) by lia. specialize (RB H Hb). lia.
    - change (Q (sceneNumber s5)). rewrite E5. exact Q3. }
  intros _ s6 Q6. rewrite after_getThis.
  apply (scene_bind_any Q Q); [| trivial | intros _ s9 Q9; exact Q9].
  destruct (Z.geb_spec (sceneNumber s6) k4Base) as [H4 | H4]; [| exact Q6].
  apply (scene_bind_any Q Q); [| trivial |].
  - rewrite after_tryCatch.
    match goal with |- context [parse4Base w fp ipe_file ?h ?i] =>
      pose proof (parse4Base_scene w fp ipe_file h i s6 H4) as B;
      destruct (outcome (parse4Base w fp ipe_file h i) s6)
    end; unfold Q in *; try (unfold kBase16, kBase, k4Base in *; lia).
    cbn. unfold kBase16, kBase, k4Base in *. lia.
  - intros _ s7 Q7. rewrite after_getThis.
    destruct (sceneNumber s7 =? kBase); exact Q7.
Qed.

(** C3.  Whenever [parseFile], asked for one of the six resolutions,
    returns true, the level on which it ends, [sceneNumber], is at least
    Base/16 and at most the level that was asked for: no path through the
    fall-backs of the base image, the 4Base, the 16Base and the 64Base
    stage takes it out of that range. *)
Theorem parseFile_level_bounds w in_file ipe_file sNum this :
  kBase16 <= sNum <= k64Base ->
  outcome (parseFile w in_file ipe_file sNum) this = Ok true ->
  kBase16 <= sceneNumber (after (parseFile w in_file ipe_file sNum) this) <= sNum.
Proof.
  intros HL. unfold parseFile.
  rewrite !(proj1 (after_outcome_bind_modify _ _ _)),
          !(proj2 (after_outcome_bind_modify _ _ _)).
  destruct (w_fs w in_file) as [bytes |]; [| discriminate].
  destruct (w_malloc w SiteFileHeader) as [block |]; [| discriminate].
  destruct (readBytes (fopen bytes) sizeofPCDFile) as [[count got] fp].
  rewrite !(proj1 (after_outcome_bind_modify _ _ _)),
          !(proj2 (after_outcome_bind_modify _ _ _)).
  destruct (negb (count =? sizeofPCDFile)); [discriminate |].
  match goal with |- context [if ?c then _ else _] => destruct c end; [discriminate |].
  match goal with |- context [if ?c then _ else _] => destruct c end; [discriminate |].
  intros _. apply parseScenes_scene. unfold kBase16, k64Base in HL. lia.
Qed.

(** Both facts about a run from one evaluation of it. *)
Lemma run_facts (r : pcdDecode * result bool) (k : Z) :
  (let r' := r in (snd r', sceneNumber (fst r'))) = (Ok true, k) ->
  snd r = Ok true /\ sceneNumber (fst r) = k.
Proof. cbv zeta. intros E. inversion E. auto. Qed.

(** The theorem on each of the fall-backs.  Asked for the 64Base image of
    [disc], whose companion file announces no layer, [parseFile] ends on
    16Base.  Asked for the 16Base image of the pack cut off in the 16Base
    sequences it ends on 4Base; cut off in the 4Base sequences, on Base;
    cut off in the Base image, on Base/4; cut off in the Base/4 image, on
    Base/16. *)
Lemma parseFile_level_bounds_witness :
  (outcome (parseFile disc "img0001.pcd"
               (Some "cd/ipe/64base/info.ic") k64Base) freshDecoder
   = Ok true
   /\ sceneNumber (after (parseFile disc "img0001.pcd"
                            (Some "cd/ipe/64base/info.ic") k64Base) freshDecoder)
      = k16Base
   /\ kBase16
      <= sceneNumber (after (parseFile disc "img0001.pcd"
                               (Some "cd/ipe/64base/info.ic") k64Base) freshDecoder)
      <= k64Base)
  /\ (outcome (parseFile (cutDisc 406) "img0001.pcd" None k16Base) freshDecoder
   = Ok true
   /\ sceneNumber (after (parseFile (cutDisc 406) "img0001.pcd"
                            None k16Base) freshDecoder)
      = k4Base
   /\ kBase16
      <= sceneNumber (after (parseFile (cutDisc 406) "img0001.pcd"
                               None k16Base) freshDecoder)
      <= k16Base)
  /\ (outcome (parseFile (cutDisc 389) "img0001.pcd" None k16Base) freshDecoder
   = Ok true
   /\ sceneNumber (after (parseFile (cutDisc 389) "img0001.pcd"
                            None k16Base) freshDecoder)
      = kBase
   /\ kBase16
      <= sceneNumber (after (parseFile (cutDisc 389) "img0001.pcd"
                               None k16Base) freshDecoder)
      <= k16Base)
  /\ (outcome (parseFile (cutDisc 100) "img0001.pcd" None k16Base) freshDecoder
   = Ok true
   /\ sceneNumber (after (parseFile (cutDisc 100) "img0001.pcd"
                            None k16Base) freshDecoder)
      = kBase4
   /\ kBase16
      <= sceneNumber (after (parseFile (cutDisc 100) "img0001.pcd"
                               None k16Base) freshDecoder)
      <= k16Base)
  /\ (outcome (parseFile (cutDisc 30) "img0001.pcd" None k16Base) freshDecoder
   = Ok true
   /\ sceneNumber (after (parseFile (cutDisc 30) "img0001.pcd"
                            None k16Base) freshDecoder)
      = kBase16
   /\ kBase16
      <= sceneNumber (after (parseFile (cutDisc 30) "img0001.pcd"
                               None k16Base) freshDecoder)
      <= k16Base).
Proof.
  assert (H64 : kBase16 <= k64Base <= k64Base) by (unfold kBase16, k64Base; lia).
  assert (H16 : kBase16 <= k16Base <= k64Base) by (unfold kBase16, k16Base, k64Base; lia).
  destruct (run_facts
              (parseFile disc "img0001.pcd" (Some "cd/ipe/64base/info.ic") k64Base
                 freshDecoder) k16Base
              ltac:(vm_compute; reflexivity)) as [E0 S0].
  destruct (run_facts
              (parseFile (cutDisc 406) "img0001.pcd" None k16Base
                 freshDecoder) k4Base
              ltac:(vm_compute; reflexivity)) as [E1 S1].
  destruct (run_facts
              (parseFile (cutDisc 389) "img0001.pcd" None k16Base
                 freshDecoder) kBase
              ltac:(vm_compute; reflexivity)) as [E2 S2].
  destruct (run_facts
              (parseFile (cutDisc 100) "img0001.pcd" None k16Base
                 freshDecoder) kBase4
              ltac:(vm_compute; reflexivity)) as [E3 S3].
  destruct (run_facts
              (parseFile (cutDisc 30) "img0001.pcd" None k16Base
                 freshDecoder) kBase16
              ltac:(vm_compute; reflexivity)) as [E4 S4].
  split; [| split; [| split; [| split]]].
  - split; [exact E0 | split; [exact S0 |]].
    exact (parseFile_level_bounds disc "img0001.pcd" (Some "cd/ipe/64base/info.ic")
             k64Base freshDecoder H64 E0).
  - split; [exact E1 | split; [exact S1 |]].
    exact (parseFile_level_bounds (cutDisc 406) "img0001.pcd" None
             k16Base freshDecoder H16 E1).
  - split; [exact E2 | split; [exact S2 |]].
    exact (parseFile_level_bounds (cutDisc 389) "img0001.pcd" None
             k16Base freshDecoder H16 E2).
  - split; [exact E3 | split; [exact S3 |]].
    exact (parseFile_level_bounds (cutDisc 100) "img0001.pcd" None
             k16Base freshDecoder H16 E3).
  - split; [exact E4 | split; [exact S4 |]].
    exact (parseFile_level_bounds (cutDisc 30) "img0001.pcd" None
             k16Base freshDecoder H16 E4).
Defined.

(** C2 (the code departs from the claim).  The image pack [disc] holds a
    valid 16Base image and a companion file that opens and is read but
    announces no layer.  Asked for the 64Base image, [parseFile] returns
    true and ends on 16Base; the string that [getErrorString] returns is
    empty, and so mentions no 64Base: the assignments of the message are
    guarded by [errorString == NULL], which is never true of an array
    ([parseICFile_keeps_errorString] has this for every companion file
    that opens). *)
Theorem parseFile_64Base_fallback_silent :
  snd parse64Base = Ok true
  /\ sceneNumber (fst parse64Base) = k16Base
  /\ getErrorString (fst parse64Base) = ""
  /\ mentions "64Base" (getErrorString (fst parse64Base)) = false.
Proof. vm_compute. repeat split. Qed.

(** * The raster that [convertToRGB] fills *)

Lemma raster_index_inj (W x y x' y' : Z) :
  0 <= x < W -> 0 <= x' < W -> x + y * W = x' + y' * W -> x = x' /\ y = y'.
Proof.
  intros Hx Hx' E.
  assert (y = y') by nia. subst y'. split; [lia | reflexivity].
Qed.

Lemma luma_dimensions (s : Z) :
  kBase16 <= s <= k64Base ->
  PCDLumaWidth s = 192 * 2 ^ s /\ PCDLumaHeight s = 128 * 2 ^ s.
Proof.
  unfold kBase16, k64Base. intros H.
  assert (C : s = 0 \/ s = 1 \/ s = 2 \/ s = 3 \/ s = 4 \/ s = 5) by lia.
  destruct C as [-> | [-> | [-> | [-> | [-> | ->]]]]]; split; reflexivity.
Qed.

(** Where a pixel goes, rotation by rotation: its column [x] and row [y] in
    the raster that the caller sees. *)
Lemma destIndex_position (this : pcdDecode) (lp c1p c2p : option mem)
  (resFactor red green blue : Z) (alpha : option Z) (d dataSize previousRow endRow : Z)
  (row col : Z) :
  kBase16 <= sceneNumber this <= k64Base -> 0 < d < 2 ^ 31 ->
  0 <= row < PCDLumaHeight (sceneNumber this) ->
  0 <= col < PCDLumaWidth (sceneNumber this) ->
  let rd := bandData this lp c1p c2p resFactor red green blue alpha d dataSize
              previousRow endRow in
  let W := PCDLumaWidth (sceneNumber this) in
  let H := PCDLumaHeight (sceneNumber this) in
  let x := match imageRotate this with
           | 1 => row | 2 => W - 1 - col | 3 => H - 1 - row | _ => col
           end in
  let y := match imageRotate this with
           | 1 => W - 1 - col | 2 => H - 1 - row | 3 => col | _ => row
           end in
  destIndex rd row col = rasterIndex (getWidth this) x y * d
  /\ 0 <= x < getWidth this /\ 0 <= y < getHeight this.
Proof.
  intros Hs Hd Hrow Hcol rd W H x y.
  destruct (luma_dimensions _ Hs) as [EW EH].
  assert (P : 1 <= 2 ^ sceneNumber this <= 32).
  { unfold kBase16, k64Base in Hs. split.
    - apply (Z.pow_le_mono_r 2 0); lia.
    - apply (Z.pow_le_mono_r 2 _ 5); lia. }
  unfold destIndex, getWidth, getHeight, rasterIndex.
  change (rd_imageRotate rd) with (imageRotate this).
  change (rd_columns rd) with W. change (rd_rows rd) with H. change (rd_d rd) with d.
  fold W H. subst x y.
  assert (HW : 0 < W <= 6144) by (unfold W; lia).
  assert (HH : 0 < H <= 4096) by (unfold H; lia).
  fold W in Hcol. fold H in Hrow.
  assert (D : 2 ^ 31 = 2147483648) by reflexivity.
  assert (S64 : forall i, 0 <= i < W * H -> Int.s64 (i * d) = i * d).
  { intros i Hi. apply s64_small. change (2 ^ 63) with 9223372036854775808.
    assert (W * H <= 25165824) by nia. nia. }
  destruct (imageRotate this) as [| [[p | p |] | [p | p |] |] | p]; cbv beta iota;
    (split; [rewrite S64 by nia; lia | lia]).
Qed.

(** The destination indices of a [populate] call are a one-to-one map of
    the pixels of the image onto the samples of the raster of [getWidth]
    by [getHeight] pixels, [d] samples apart: whatever the rotation, every
    pixel has its own place inside the raster and no place is left out. *)
Theorem destIndex_fills_raster (this : pcdDecode) (lp c1p c2p : option mem)
  (resFactor red green blue : Z) (alpha : option Z) (d dataSize previousRow endRow : Z) :
  kBase16 <= sceneNumber this <= k64Base -> 0 < d < 2 ^ 31 ->
  let rd := bandData this lp c1p c2p resFactor red green blue alpha d dataSize
              previousRow endRow in
  let inImage row col := 0 <= row < rd_rows rd /\ 0 <= col < rd_columns rd in
  let inRaster x y := 0 <= x < getWidth this /\ 0 <= y < getHeight this in
  getWidth this * getHeight this = rd_rows rd * rd_columns rd
  /\ (forall row col, inImage row col ->
        exists x y, inRaster x y
                    /\ destIndex rd row col = rasterIndex (getWidth this) x y * d)
  /\ (forall row col row' col', inImage row col -> inImage row' col' ->
        destIndex rd row col = destIndex rd row' col' -> row = row' /\ col = col')
  /\ (forall x y, inRaster x y ->
        exists row col, inImage row col
                        /\ destIndex rd row col = rasterIndex (getWidth this) x y * d).
Proof.
  intros Hs Hd rd inImage inRaster.
  pose proof (destIndex_position this lp c1p c2p resFactor red green blue alpha d dataSize
                previousRow endRow) as P.
  fold rd in P. cbv zeta in P.
  change (rd_rows rd) with (PCDLumaHeight (sceneNumber this)) in *.
  change (rd_columns rd) with (PCDLumaWidth (sceneNumber this)) in *.
  set (W := PCDLumaWidth (sceneNumber this)) in *.
  set (H := PCDLumaHeight (sceneNumber this)) in *.
  subst inImage inRaster. cbv beta.
  split; [| split; [| split]].
  - unfold getWidth, getHeight. fold W H.
    destruct (imageRotate this) as [| [[p | p |] | [p | p |] |] | p]; lia.
  - intros row col [Hrow Hcol].
    destruct (P row col Hs Hd Hrow Hcol) as (E & Hx & Hy).
    eexists; eexists. split; [split; [exact Hx | exact Hy] | exact E].
  - intros row col row' col' [Hrow Hcol] [Hrow' Hcol'] E.
    destruct (P row col Hs Hd Hrow Hcol) as (E1 & Hx & Hy).
    destruct (P row' col' Hs Hd Hrow' Hcol') as (E2 & Hx' & Hy').
    rewrite E1, E2 in E. unfold rasterIndex in E.
    apply Z.mul_reg_r in E; [| lia].
    apply raster_index_inj in E; [| assumption | assumption].
    revert E. clear.
    destruct (imageRotate this) as [| [[p | p |] | [p | p |] |] | p]; cbv beta iota; lia.
  - intros x y [Hx Hy]. unfold getWidth, getHeight in Hx, Hy. fold W H in Hx, Hy.
    destruct (imageRotate this) as [| [[p | p |] | [p | p |] |] | p] eqn:R;
      cbv beta iota in Hx, Hy;
      [ exists y, x | exists y, x | exists y, x | exists (H - 1 - x), y
      | exists y, x | exists y, x | exists (H - 1 - y), (W - 1 - x)
      | exists x, (W - 1 - y) | exists y, x ];
      (split; [lia |]);
      match goal with
      | |- destIndex rd ?r ?c = _ =>
          destruct (P r c Hs Hd ltac:(lia) ltac:(lia)) as (E & _); rewrite E
      end; f_equal; unfold rasterIndex; f_equal; lia.
Qed.

(** The theorem at [rotatedDecoder], with interleaved samples. *)
Lemma destIndex_fills_raster_witness :
  getWidth rotatedDecoder * getHeight rotatedDecoder = 128 * 192
  /\ exists row col,
       (0 <= row < 128 /\ 0 <= col < 192)
       /\ destIndex
            (bandData rotatedDecoder (luma rotatedDecoder) (chroma1 rotatedDecoder)
               (chroma2 rotatedDecoder) 1 0 1 2 None 3 pcdByteSize 0 16) row col
          = rasterIndex 128 5 7 * 3.
Proof.
  assert (Hs : kBase16 <= sceneNumber rotatedDecoder <= k64Base)
    by (change (0 <= 0 <= 5); lia).
  destruct (destIndex_fills_raster rotatedDecoder (luma rotatedDecoder)
              (chroma1 rotatedDecoder) (chroma2 rotatedDecoder) 1 0 1 2 None 3
              pcdByteSize 0 16 Hs ltac:(lia)) as (A & _ & _ & S).
  split; [exact A |].
  apply (S 5 7). change (0 <= 5 < 128 /\ 0 <= 7 < 192). lia.
Defined.

(** * The look-up tables of the colour conversion *)

Lemma table_forall (P : Z -> bool) (data : list Z) (i : Z) :
  forallb P data = true -> 0 <= i < Z.of_nat (List.length data) ->
  P (table data i) = true.
Proof.
  intros HP Hi. unfold table.
  destruct (Z.ltb_spec i 0); [lia |].
  rewrite forallb_forall in HP. apply HP. apply nth_In. lia.
Qed.

Lemma table_range (data : list Z) (hi i : Z) :
  forallb (fun v => (0 <=? v) && (v <=? hi)) data = true ->
  0 <= i < Z.of_nat (List.length data) -> 0 <= table data i <= hi.
Proof.
  intros HP Hi.
  pose proof (table_forall _ data i HP Hi) as H. cbv beta in H.
  apply andb_true_iff in H. destruct H as [H1 H2].
  apply Z.leb_le in H1. apply Z.leb_le in H2. lia.
Qed.

Lemma pcdPin_range (lo x hi : Z) : lo <= hi -> lo <= pcdPin lo x hi <= hi.
Proof.
  intros H. unfold pcdPin.
  destruct (Z.ltb_spec x lo); [lia |]. destruct (Z.gtb_spec x hi); lia.
Qed.

Lemma CCIR709tosRGB_range (i : Z) : 0 <= i <= 1388 -> 0 <= CCIR709tosRGB i <= 1388.
Proof.
  intros H. apply table_range; [vm_compute; reflexivity |].
  change (Z.of_nat (List.length CCIR709tosRGB_data)) with 1389. lia.
Qed.

Lemma uint8Output_range (i : Z) : 0 <= i <= 1388 -> 0 <= uint8Output i <= 255.
Proof.
  intros H. apply table_range; [vm_compute; reflexivity |].
  change (Z.of_nat (List.length uint8Output_data)) with 1389. lia.
Qed.

Lemma uint16Output_range (i : Z) : 0 <= i <= 1388 -> 0 <= uint16Output i <= 65535.
Proof.
  intros H. apply table_range; [vm_compute; reflexivity |].
  change (Z.of_nat (List.length uint16Output_data)) with 1389. lia.
Qed.

Lemma toColorSpace_final (rd : ConvertToRGBData) (rgb1 : Z * Z * Z) :
  let '(r, g, b) :=
    (let '(r, g, b) := rgb1 in
     if rd_colorSpace rd =? kPCDsRGBColorSpace
     then (CCIR709tosRGB (pcdPin 0 r 1388),
           CCIR709tosRGB (pcdPin 0 g 1388),
           CCIR709tosRGB (pcdPin 0 b 1388))
     else (pcdPin 0 r 1388, pcdPin 0 g 1388, pcdPin 0 b 1388)) in
  0 <= r <= 1388 /\ 0 <= g <= 1388 /\ 0 <= b <= 1388.
Proof.
  destruct rgb1 as [[r g] b].
  pose proof (pcdPin_range 0 r 1388 ltac:(lia)).
  pose proof (pcdPin_range 0 g 1388 ltac:(lia)).
  pose proof (pcdPin_range 0 b 1388 ltac:(lia)).
  destruct (rd_colorSpace rd =? kPCDsRGBColorSpace).
  - repeat split; apply CCIR709tosRGB_range; assumption.
  - repeat split; lia.
Qed.

Lemma toColorSpace_range (rd : ConvertToRGBData) (rgb : Z * Z * Z) :
  let '(r, g, b) := toColorSpace rd rgb in
  0 <= r <= 1388 /\ 0 <= g <= 1388 /\ 0 <= b <= 1388.
Proof. unfold toColorSpace. cbv zeta. apply toColorSpace_final. Qed.

(** No read of a look-up table in [convertToRGB] is out of bounds.  The
    three indices with which a pixel is looked up in the output table are
    inside the table of [numLUTItems] entries, whatever the planes hold
    and whatever the colour space and the white balance, and so are the
    photo CD RGB values that index [toLinearLight]; the 8-bit and 16-bit
    samples found in the output tables fit their type. *)
Theorem pixelIndices_in_tables (rd : ConvertToRGBData) (row col : Z) (l : Locals) :
  let '(r, g, b) := fst (pixelIndices rd row col l) in
  let '(r0, g0, b0) := photoCDRGB (loadYCC rd row col l) in
  (0 <= r < numLUTItems /\ 0 <= g < numLUTItems /\ 0 <= b < numLUTItems)
  /\ (0 <= r0 < numLUTItems /\ 0 <= g0 < numLUTItems /\ 0 <= b0 < numLUTItems)
  /\ (0 <= uint8Output r <= 255 /\ 0 <= uint8Output g <= 255
      /\ 0 <= uint8Output b <= 255)
  /\ (0 <= uint16Output r <= 65535 /\ 0 <= uint16Output g <= 65535
      /\ 0 <= uint16Output b <= 65535).
Proof.
  assert (R0 : let '(r0, g0, b0) := photoCDRGB (loadYCC rd row col l) in
               0 <= r0 <= 1388 /\ 0 <= g0 <= 1388 /\ 0 <= b0 <= 1388).
  { unfold photoCDRGB. repeat split; apply pcdPin_range; lia. }
  assert (R : let '(r, g, b) := fst (pixelIndices rd row col l) in
              0 <= r <= 1388 /\ 0 <= g <= 1388 /\ 0 <= b <= 1388).
  { unfold pixelIndices. destruct (rd_colorSpace rd =? kPCDYCCColorSpace); cbn [fst].
    - unfold yccIndices. repeat split; apply pcdPin_range; lia.
    - apply toColorSpace_range. }
  destruct (fst (pixelIndices rd row col l)) as [[r g] b].
  destruct (photoCDRGB (loadYCC rd row col l)) as [[r0 g0] b0].
  destruct R as (Hr & Hg & Hb). unfold numLUTItems.
  pose proof (uint8Output_range r Hr). pose proof (uint8Output_range g Hg).
  pose proof (uint8Output_range b Hb). pose proof (uint16Output_range r Hr).
  pose proof (uint16Output_range g Hg). pose proof (uint16Output_range b Hb).
  repeat split; lia.
Qed.

(** * Monochrome conversion *)

Lemma shiftr_s32_range x k : 0 <= k -> - 2 ^ 31 <= Z.shiftr (Int.s32 x) k < 2 ^ 31.
Proof.
  intros Hk. pose proof (wrap_range (- 0x80000000) 0x100000000 x ltac:(lia)) as R.
  fold (Int.s32 x) in R. rewrite Z.shiftr_div_pow2 by lia.
  assert (0 < 2 ^ k) by (apply Z.pow_pos_nonneg; lia).
  change (2 ^ 31) with 2147483648. split.
  - apply Z.div_le_lower_bound; [lia | nia].
  - apply Z.div_lt_upper_bound; [lia | nia].
Qed.

Lemma photoCDRGB_grey (l : Locals) :
  C1i l = 0 -> C2i l = 0 -> - 2 ^ 31 <= Li l < 2 ^ 31 ->
  photoCDRGB l
  = (pcdPin 0 (Z.shiftr (Li l) 10) 1388, pcdPin 0 (Z.shiftr (Li l) 10) 1388,
     pcdPin 0 (Z.shiftr (Li l) 10) 1388).
Proof.
  intros H1 H2 HL. unfold photoCDRGB. rewrite H1, H2.
  change (Z.quot 0 5278) with 0. change (Z.quot 0 2012) with 0.
  rewrite !Z.add_0_r, !Z.sub_0_r.
  assert (S : - 2 ^ 31 <= Z.shiftr (Li l) 10 < 2 ^ 31).
  { rewrite <- (s32_small (Li l)) by exact HL. apply shiftr_s32_range. lia. }
  rewrite (s32_small (Li l)) by exact HL.
  rewrite !(s32_small (Z.shiftr (Li l) 10)) by exact S.
  reflexivity.
Qed.

Section Monochrome.

Variable rd : ConvertToRGBData.
Hypothesis no_c1p : rd_c1p rd = None.
Hypothesis no_c2p : rd_c2p rd = None.
Hypothesis rgb_mode : rd_colorSpace rd <> kPCDYCCColorSpace.

Lemma pixel_keeps_achromatic row col st :
  achromatic (fst st) -> achromatic (fst (convertPixel rd row col st)).
Proof.
  intros [H1 H2]. unfold convertPixel, pixelIndices.
  destruct (Z.eqb_spec (rd_colorSpace rd) kPCDYCCColorSpace); [contradiction |].
  cbn [fst]. unfold loadYCC, achromatic. rewrite no_c1p, no_c2p. cbn. auto.
Qed.

Lemma columns_keep_achromatic row n col st :
  achromatic (fst st) -> achromatic (fst (convertCols rd row n col st)).
Proof.
  revert col st. induction n as [| n IH]; intros col st H; [exact H |].
  cbn [convertCols]. apply IH. apply pixel_keeps_achromatic. exact H.
Qed.

Lemma rows_keep_achromatic n row st :
  achromatic (fst st) -> achromatic (fst (convertRows rd n row st)).
Proof.
  revert row st. induction n as [| n IH]; intros row st H; [exact H |].
  cbn [convertRows]. apply IH. apply columns_keep_achromatic. exact H.
Qed.

Lemma achromatic_pixel row col l :
  achromatic l ->
  rd_whiteBalance rd <> kPCDD50White
  \/ (rd_colorSpace rd <> kPCDLinearCCIR709ColorSpace
      /\ rd_colorSpace rd <> kPCDsRGBColorSpace) ->
  exists v, fst (pixelIndices rd row col l) = (v, v, v).
Proof.
  intros [H1 H2] Hwb. unfold pixelIndices.
  destruct (Z.eqb_spec (rd_colorSpace rd) kPCDYCCColorSpace); [contradiction |].
  cbn [fst]. rewrite photoCDRGB_grey.
  - unfold toColorSpace.
    destruct (Z.eqb_spec (rd_colorSpace rd) kPCDLinearCCIR709ColorSpace) as [Elin | Nlin];
      destruct (Z.eqb_spec (rd_colorSpace rd) kPCDsRGBColorSpace) as [Esrgb | Nsrgb];
      destruct (Z.eqb_spec (rd_whiteBalance rd) kPCDD50White) as [Ewb | Nwb];
      cbn [orb]; try (exfalso; destruct Hwb as [Hwb | [Hl Hs]]; contradiction);
      eexists; reflexivity.
  - unfold loadYCC. rewrite no_c1p. exact H1.
  - unfold loadYCC. rewrite no_c2p. exact H2.
  - unfold loadYCC. cbn [Li].
    pose proof (wrap_range (- 0x80000000) 0x100000000
                  (deref (rd_lp rd) (lumaIndex rd row col) * 5573) ltac:(lia)) as R.
    unfold Int.s32. change (2 ^ 31) with 2147483648. lia.
Qed.

End Monochrome.

(** With both chroma pointers null, as [populateBuffers] passes them for a
    monochrome decoder, every pixel of a band comes out grey in the RGB
    colour spaces: the three indices are equal, unless the D50 white
    balance is applied in a processed colour space.  [C1i] and [C2i] are
    never assigned and stay 0 from the first pixel of the band to the
    last. *)
Theorem monochrome_is_grey (rd : ConvertToRGBData) :
  rd_c1p rd = None -> rd_c2p rd = None ->
  rd_colorSpace rd <> kPCDYCCColorSpace ->
  rd_whiteBalance rd <> kPCDD50White
  \/ (rd_colorSpace rd <> kPCDLinearCCIR709ColorSpace
      /\ rd_colorSpace rd <> kPCDsRGBColorSpace) ->
  forall (n : nat) (start : Z) (out : mem) (row col : Z),
    let l := fst (convertRows rd n start (locals0, out)) in
    (C1i l = 0 /\ C2i l = 0)
    /\ exists v, fst (pixelIndices rd row col l) = (v, v, v).
Proof.
  intros H1 H2 Hcs Hwb n start out row col l.
  assert (A : achromatic l).
  { apply (rows_keep_achromatic rd H1 H2 Hcs). split; reflexivity. }
  split; [exact A |].
  apply (achromatic_pixel rd H1 H2 Hcs); assumption.
Qed.

Lemma monochrome_is_grey_witness :
  exists v, fst (pixelIndices greyTile 5 7 locals0) = (v, v, v).
Proof.
  assert (Hcs : rd_colorSpace greyTile <> kPCDYCCColorSpace) by discriminate.
  assert (Hwb : rd_whiteBalance greyTile <> kPCDD50White
                \/ (rd_colorSpace greyTile <> kPCDLinearCCIR709ColorSpace
                    /\ rd_colorSpace greyTile <> kPCDsRGBColorSpace))
    by (left; discriminate).
  exact (proj2 (monochrome_is_grey greyTile eq_refl eq_refl Hcs Hwb 0%nat 0
                  (fun _ => 0) 5 7)).
Defined.

(** * Allocation failures in [populateBuffers] *)

Lemma PCDChromaResFactor_not_2 (s : Z) : (PCDChromaResFactor s =? 2) = false.
Proof.
  unfold PCDChromaResFactor, table. destruct (s <? 0); [reflexivity |].
  destruct (Z.to_nat s) as [| [| [| [| [| [| [| n]]]]]]]; reflexivity.
Qed.

Lemma inScenes_spec (s : Z) : inScenes s = true <-> 0 <= s < kMaxScenes.
Proof.
  unfold inScenes. rewrite andb_true_iff, Z.leb_le, Z.ltb_lt. reflexivity.
Qed.

Lemma upResPlane_no_throw base dest width height method msg :
  upResPlane base dest width height method <> Throw msg.
Proof. unfold upResPlane. destruct (_ && _); discriminate. Qed.

Lemma convertToRGB_no_throw rd out msg : convertToRGB rd out <> Throw msg.
Proof. unfold convertToRGB. destruct (_ && _); discriminate. Qed.

Lemma convertThreads_no_throw n : forall thread previousRow this lp c1p c2p resFactor
  red green blue alpha d dataSize out msg,
  convertThreads n thread previousRow this lp c1p c2p resFactor red green blue alpha d
    dataSize out <> Throw msg.
Proof.
  induction n as [| n IH]; intros; cbn [convertThreads]; [discriminate |].
  match goal with |- context [convertToRGB ?rd ?o] =>
    pose proof (convertToRGB_no_throw rd o msg) as C; destruct (convertToRGB rd o)
  end; cbn [bind]; try discriminate; [apply IH | exact C].
Qed.

(** On a decoder that holds a file and whose level indexes the tables,
    [populateBuffers] throws ["Memory Error!"], which nothing in the class
    catches, when chroma is to be interpolated and the first of its two
    allocations fails.  That is its only throw: the second allocation is
    never looked at (the test reads [*c1UpRes] twice), so when the first
    allocation succeeds, and whenever chroma is not interpolated, the call
    throws nothing, whatever the second allocation gave. *)
Theorem populate_allocation_failure (heap : PopulateHeap) (this : pcdDecode) (out : mem)
  (red green blue : Z) (alpha : option Z) (d dataSize : Z) :
  pcdFileHeader this <> None -> 0 <= sceneNumber this < kMaxScenes ->
  (kUpResIterpolate <= upResMethod this -> fresh_c1UpRes heap = None ->
   populateBuffers heap this out red green blue alpha d dataSize = Throw "Memory Error!")
  /\ (fresh_c1UpRes heap <> None \/ upResMethod this < kUpResIterpolate ->
      forall msg,
        populateBuffers heap this out red green blue alpha d dataSize <> Throw msg).
Proof.
  intros Hh Hs.
  assert (E : negb (hasHeader this) = false).
  { unfold hasHeader. destruct (pcdFileHeader this); [reflexivity | contradiction]. }
  apply inScenes_spec in Hs.
  unfold populateBuffers, interpolateBuffers. rewrite Hs, E, PCDChromaResFactor_not_2.
  cbn [negb].
  split.
  - intros Hm Hc1. destruct (Z.geb_spec (upResMethod this) kUpResIterpolate); [| lia].
    rewrite Hc1. reflexivity.
  - intros Hc msg.
    assert (T : forall lp c1p c2p resFactor,
              (out' <- convertThreads (Z.to_nat kNumThreads) 0 0 this lp c1p c2p resFactor
                         red green blue alpha d dataSize out ;;
               Ok (this, out')) <> Throw msg).
    { intros lp c1p c2p resFactor.
      pose proof (convertThreads_no_throw (Z.to_nat kNumThreads) 0 0 this lp c1p c2p
                    resFactor red green blue alpha d dataSize out msg) as C.
      destruct (convertThreads _ _ _ _ _ _ _ _ _ _ _ _ _ _ _); cbn [bind];
        try discriminate. intros X. apply C. congruence. }
    destruct (Z.geb_spec (upResMethod this) kUpResIterpolate) as [Hm | Hm].
    + destruct Hc as [Hc | Hc]; [| lia].
      destruct (fresh_c1UpRes heap) as [m1 |] eqn:E1; [| contradiction].
      cbn [isNull orb bind].
      pose proof (upResPlane_no_throw (chroma1 this) (Some m1)
                    (PCDLumaWidth (sceneNumber this)) (PCDLumaHeight (sceneNumber this))
                    (upResMethod this) msg) as U1.
      destruct (upResPlane (chroma1 this) (Some m1) _ _ _) as [c1UpRes | | |];
        cbn [bind]; try discriminate; [| intros X; apply U1; congruence].
      pose proof (upResPlane_no_throw (chroma2 this) (fresh_c2UpRes heap)
                    (PCDLumaWidth (sceneNumber this)) (PCDLumaHeight (sceneNumber this))
                    (upResMethod this) msg) as U2.
      destruct (upResPlane (chroma2 this) (fresh_c2UpRes heap) _ _ _) as [c2UpRes | | |];
        cbn [bind]; try discriminate; [| intros X; apply U2; congruence].
      apply T.
    + cbn [bind]. apply T.
Qed.

(** The theorem at [rotatedDecoder], on a heap that gives no block and on
    one that gives the first block only. *)
Lemma populate_allocation_failure_witness :
  populateUInt8Buffers emptyHeap rotatedDecoder (fun _ => 0) 0 1 2 None 3
  = Throw "Memory Error!"
  /\ populateUInt8Buffers firstBlockHeap rotatedDecoder (fun _ => 0) 0 1 2 None 3
     <> Throw "Memory Error!".
Proof.
  assert (Hh : pcdFileHeader rotatedDecoder <> None) by discriminate.
  assert (Hs : 0 <= sceneNumber rotatedDecoder < kMaxScenes) by (change (0 <= 0 < 6); lia).
  assert (Hm : kUpResIterpolate <= upResMethod rotatedDecoder)
    by (change (1 <= 2); lia).
  split.
  - exact (proj1 (populate_allocation_failure emptyHeap rotatedDecoder (fun _ => 0)
                    0 1 2 None 3 pcdByteSize Hh Hs) Hm eq_refl).
  - apply (proj2 (populate_allocation_failure firstBlockHeap rotatedDecoder (fun _ => 0)
                    0 1 2 None 3 pcdByteSize Hh Hs)).
    left. discriminate.
Defined.

(** * Null planes in [populateBuffers] *)

(** The first band of a [populate] call reads through [NULL] when the luma
    plane is missing, and in the YCC colour space when the decoder is
    monochrome and so hands over null chroma pointers. *)
Lemma first_band_faults (this : pcdDecode) (lp c1p c2p : option mem) (resFactor : Z)
  (red green blue : Z) (alpha : option Z) (d dataSize : Z) (out : mem) :
  0 <= sceneNumber this < kMaxScenes ->
  lp = None \/ (monochrome this = true /\ Int.u64 (colorSpace this) = kPCDYCCColorSpace) ->
  convertToRGB
    (bandData this lp c1p c2p resFactor red green blue alpha d dataSize 0
       (Int.u32 (Int.u32 (Z.quot (PCDLumaHeight (sceneNumber this)) kNumThreads) * (0 + 1))))
    out = Fault.
Proof.
  intros Hs Hnull. unfold convertToRGB.
  assert (En : nullRead
                 (bandData this lp c1p c2p resFactor red green blue alpha d dataSize 0
                    (Int.u32 (Int.u32 (Z.quot (PCDLumaHeight (sceneNumber this)) kNumThreads)
                              * (0 + 1)))) = true).
  { unfold nullRead, bandData. cbn [rd_lp rd_c1p rd_c2p rd_colorSpace].
    destruct Hnull as [-> | [Hm Hc]]; [reflexivity |].
    rewrite Hm, Hc, Z.eqb_refl. cbn [isNull orb andb]. apply orb_true_r. }
  rewrite En. cbn [andb rd_startRow rd_endRow rd_columns bandData].
  unfold kMaxScenes in Hs.
  assert (C : sceneNumber this = 0 \/ sceneNumber this = 1 \/ sceneNumber this = 2
              \/ sceneNumber this = 3 \/ sceneNumber this = 4 \/ sceneNumber this = 5) by lia.
  destruct C as [-> | [-> | [-> | [-> | [-> | ->]]]]]; reflexivity.
Qed.

(** On a decoder that holds a file but whose luma plane is null, which is
    how [parseFile] leaves it when no base image could be read, and on a
    monochrome decoder in the YCC colour space, no [populate] call
    returns: the converter reads through a null pointer in its first
    pixel, unless [interpolateBuffers] has thrown or has read through a
    null chroma plane before. *)
Theorem populate_null_plane_faults (heap : PopulateHeap) (this : pcdDecode) (out : mem)
  (red green blue : Z) (alpha : option Z) (d dataSize : Z) :
  pcdFileHeader this <> None -> 0 <= sceneNumber this < kMaxScenes ->
  luma this = None
  \/ (monochrome this = true /\ Int.u64 (colorSpace this) = kPCDYCCColorSpace) ->
  populateBuffers heap this out red green blue alpha d dataSize = Fault
  \/ (kUpResIterpolate <= upResMethod this /\ fresh_c1UpRes heap = None
      /\ populateBuffers heap this out red green blue alpha d dataSize
         = Throw "Memory Error!").
Proof.
  intros Hh Hs Hnull.
  assert (E : negb (hasHeader this) = false).
  { unfold hasHeader. destruct (pcdFileHeader this); [reflexivity | contradiction]. }
  assert (T : forall c1p c2p resFactor,
            (out' <- convertThreads (Z.to_nat kNumThreads) 0 0 this (luma this) c1p c2p
                       resFactor red green blue alpha d dataSize out ;;
             Ok (this, out')) = Fault).
  { intros c1p c2p resFactor. change (Z.to_nat kNumThreads) with 8%nat.
    cbn [convertThreads]. rewrite first_band_faults by assumption. reflexivity. }
  pose proof Hs as Hs'. apply inScenes_spec in Hs'.
  unfold populateBuffers, interpolateBuffers. rewrite Hs', E, PCDChromaResFactor_not_2.
  cbn [negb].
  destruct (Z.geb_spec (upResMethod this) kUpResIterpolate) as [Hm | Hm].
  - destruct (fresh_c1UpRes heap) as [m1 |] eqn:E1.
    + apply or_introl. cbn [isNull orb bind].
      destruct (upResPlane (chroma1 this) (Some m1) _ _ _) as [c1UpRes | msg | |] eqn:U1;
        cbn [bind]; try reflexivity;
        [| exfalso; exact (upResPlane_no_throw _ _ _ _ _ _ U1)
         | unfold upResPlane in U1; destruct (_ && _); discriminate U1].
      destruct (upResPlane (chroma2 this) (fresh_c2UpRes heap) _ _ _)
        as [c2UpRes | msg | |] eqn:U2;
        cbn [bind]; try reflexivity;
        [| exfalso; exact (upResPlane_no_throw _ _ _ _ _ _ U2)
         | unfold upResPlane in U2; destruct (_ && _); discriminate U2].
      apply T.
    + apply or_intror. split; [lia |]. split; reflexivity.
  - apply or_introl. cbn [bind]. apply T.
Qed.

(** The theorem at [greyYCCDecoder], with nearest neighbour chroma. *)
Lemma populate_null_plane_faults_witness :
  populateUInt8Buffers emptyHeap greyYCCDecoder (fun _ => 0) 0 1 2 None 3 = Fault.
Proof.
  assert (Hh : pcdFileHeader greyYCCDecoder <> None) by discriminate.
  assert (Hs : 0 <= sceneNumber greyYCCDecoder < kMaxScenes) by (change (0 <= 0 < 6); lia).
  destruct (populate_null_plane_faults emptyHeap greyYCCDecoder (fun _ => 0) 0 1 2 None 3
              pcdByteSize Hh Hs (or_intror (conj eq_refl eq_refl)))
    as [F | (Hm & _)].
  - exact F.
  - exfalso. change (1 <= 0) in Hm. lia.
Defined.

(** * What [parseFile] lets out *)

Section Quiet.

Lemma quiet_ret {A : Type} (a : A) : quiet (ret a).
Proof. intros this msg. discriminate. Qed.

Lemma quiet_getThis : quiet getThis.
Proof. intros this msg. discriminate. Qed.

Lemma quiet_modify (g : pcdDecode -> pcdDecode) : quiet (modify g).
Proof. intros this msg. discriminate. Qed.

Lemma quiet_setError (text : string) : quiet (setError text).
Proof. intros this msg. discriminate. Qed.

Lemma quiet_setErrorIfNull (text : string) : quiet (setErrorIfNull text).
Proof. intros this msg. discriminate. Qed.

Lemma quiet_bind {A B : Type} (m : M A) (k : A -> M B) :
  quiet m -> (forall a, quiet (k a)) -> quiet (bindM m k).
Proof.
  intros Hm Hk this msg. rewrite outcome_bind.
  destruct (outcome m this) eqn:E; try discriminate.
  - apply Hk.
  - exfalso. exact (Hm this msg0 E).
Qed.

Lemma quiet_tryCatch {A : Type} (body : M A) (h1 : string -> M A) (h2 : M A) :
  quiet h2 -> quiet (tryCatch body h1 h2).
Proof.
  intros H2 this msg. rewrite outcome_tryCatch.
  destruct (outcome body this); try discriminate. apply H2.
Qed.

End Quiet.

Ltac quiet_steps :=
  repeat first
    [ apply quiet_ret | apply quiet_getThis | apply quiet_modify
    | apply quiet_setError | apply quiet_setErrorIfNull
    | apply quiet_tryCatch
    | apply quiet_bind; [| intros ?]
    | match goal with
      | |- quiet (match ?x with _ => _ end) => destruct x
      | |- quiet (if ?x then _ else _) => destruct x
      | |- quiet (let '(_, _) := ?x in _) => destruct x
      end ].

Lemma parseScenes_quiet w fp ipe_file pcdFile sNum :
  quiet (parseScenes w fp ipe_file pcdFile sNum).
Proof. unfold parseScenes. quiet_steps. Qed.

(** [parseFile] never lets an exception out: whatever the files hold and
    whatever [malloc] returns, every [throw] of the delta readers, of the
    table readers and of the bit reader is caught on the way. *)
Theorem parseFile_never_throws (w : World) (in_file : string) (ipe_file : option string)
  (sNum : Z) (this : pcdDecode) (msg : string) :
  outcome (parseFile w in_file ipe_file sNum) this <> Throw msg.
Proof.
  revert this msg. change (quiet (parseFile w in_file ipe_file sNum)).
  unfold parseFile. quiet_steps.
Qed.

Lemma outcome_then_true {A : Type} (m : M A) this :
  outcome (bindM m (fun _ => ret true)) this <> Ok false.
Proof.
  rewrite outcome_bind. destruct (outcome m this); discriminate.
Qed.

(** Once the header has passed its checks there is no way back to a
    [false] return: the test [baseScene < kBase16] compares an unsigned
    member with 0. *)
Lemma parseScenes_not_false w fp ipe_file pcdFile sNum this :
  outcome (parseScenes w fp ipe_file pcdFile sNum) this <> Ok false.
Proof.
  unfold parseScenes. cbv zeta.
  rewrite !(proj2 (after_outcome_bind_modify _ _ _)).
  rewrite outcome_getThis, outcome_bind.
  match goal with |- context [outcome (if ?c then _ else _) ?s] =>
    destruct c; cbn [outcome modify ret snd after fst]
  end.
  all: rewrite outcome_getThis.
  all: match goal with |- context [readBaseImage ?a ?b ?c ?d] =>
         destruct (readBaseImage a b c d) as [[[scene l] c1] c2] end.
  all: rewrite !(proj2 (after_outcome_bind_modify _ _ _)), outcome_getThis.
  all: cbn [baseScene set_baseScene].
  all: destruct (Z.ltb_spec (Int.u32 scene) kBase16) as [Hneg | _];
    [pose proof (u32_range scene); unfold kBase16 in Hneg; lia |].
  all: rewrite outcome_bind.
  all: match goal with |- context [outcome (if ?c then _ else _) ?s] =>
         destruct c; cbn [outcome modify ret snd after fst]
       end.
  all: rewrite outcome_getThis; apply outcome_then_true.
Qed.

(** When [parseFile] returns false the decoder holds nothing: no header,
    no plane, no delta, so that [populate] calls and [getMetadata] treat it
    as a decoder without a file.  A false return comes from the checks of
    the header only, and it leaves one of four messages, or none at all
    when the header could not be allocated. *)
Theorem parseFile_false_leaves_nothing (w : World) (in_file : string)
  (ipe_file : option string) (sNum : Z) (this : pcdDecode) :
  outcome (parseFile w in_file ipe_file sNum) this = Ok false ->
  let t := after (parseFile w in_file ipe_file sNum) this in
  (pcdFileHeader t = None /\ luma t = None /\ chroma1 t = None /\ chroma2 t = None
   /\ forall i, deltas t i = noDeltas)
  /\ (getErrorString t = "Could not open PCD file - may be a file permissions problem"
      \/ getErrorString t = "PCD file is too small to be valid"
      \/ getErrorString t = "That is not a valid PCD file"
      \/ getErrorString t = "The file contains interleaved audio"
      \/ (getErrorString t = "" /\ w_malloc w SiteFileHeader = None)).
Proof.
  unfold parseFile.
  rewrite !(proj1 (after_outcome_bind_modify _ _ _)),
          !(proj2 (after_outcome_bind_modify _ _ _)).
  destruct (w_fs w in_file) as [bytes |].
  2:{ intros _. cbn. repeat split; auto. }
  destruct (w_malloc w SiteFileHeader) as [block |].
  2:{ intros _. cbn. repeat split; auto 6. }
  destruct (readBytes (fopen bytes) sizeofPCDFile) as [[count got] fp].
  rewrite !(proj1 (after_outcome_bind_modify _ _ _)),
          !(proj2 (after_outcome_bind_modify _ _ _)).
  destruct (negb (count =? sizeofPCDFile)).
  { intros _. cbn. repeat split; auto. }
  match goal with |- context [if ?c then _ else _] => destruct c end.
  { intros _. cbn. repeat split; auto. }
  match goal with |- context [if ?c then _ else _] => destruct c end.
  { intros _. cbn. repeat split; auto 6. }
  intros H. exfalso. exact (parseScenes_not_false _ _ _ _ _ _ H).
Qed.

Lemma parseFile_false_leaves_nothing_witness :
  pcdFileHeader (after (parseFile emptyDisc "img0001.pcd" None kBase) colourDecoder) = None
  /\ luma (after (parseFile emptyDisc "img0001.pcd" None kBase) colourDecoder) = None.
Proof.
  destruct (parseFile_false_leaves_nothing emptyDisc "img0001.pcd" None kBase
              colourDecoder eq_refl) as ((H1 & H2 & _) & _).
  split; [exact H1 | exact H2].
Defined.

(** * Reading bytes *)

Lemma fread_pos n fp :
  0 <= n -> f_pos (snd (fread n fp)) = f_pos fp + Z.min n (remaining fp).
Proof.
  intros Hn. pose proof (fread_length n fp Hn) as Hl.
  unfold fread in *. cbn [fst snd f_pos] in *. rewrite Hl. reflexivity.
Qed.

Lemma fread_data n fp : f_data (snd (fread n fp)) = f_data fp.
Proof. reflexivity. Qed.

Lemma fread_nth n fp (i : Z) :
  0 <= n -> 0 <= i < Z.min n (remaining fp) ->
  nth (Z.to_nat i) (fst (fread n fp)) 0 = fb_byte (f_data fp) (f_pos fp + i).
Proof.
  intros Hn Hi. unfold fread. cbn [fst].
  set (f := fun k => fb_byte (f_data fp) (f_pos fp + Z.of_nat k)).
  rewrite (nth_indep _ 0 (f O)) by (rewrite length_map, length_seq; lia).
  rewrite (map_nth f), seq_nth by lia. unfold f. f_equal. lia.
Qed.

Lemma getc_some fp :
  1 <= remaining fp ->
  exists c, getc fp = (Some c, snd (fread 1 fp))
            /\ remaining (snd (fread 1 fp)) = remaining fp - 1.
Proof.
  intros H. unfold getc.
  pose proof (fread_length 1 fp ltac:(lia)) as Hl.
  pose proof (fread_remaining 1 fp ltac:(lia)) as Hr.
  destruct (fread 1 fp) as [got fp'] eqn:E. cbn [fst snd] in *.
  destruct got as [| c rest]; [cbn in Hl; lia |].
  exists c. split; [reflexivity | lia].
Qed.

Lemma readBytes_long (fp : FILE) (length : Z) :
  3 <= length ->
  readBytes fp length
  = (Z.min length (remaining fp), fst (fread length fp), snd (fread length fp)).
Proof.
  intros H3. unfold readBytes.
  destruct (Z.eqb_spec length 0); [lia |]. destruct (Z.eqb_spec length 1); [lia |].
  destruct (Z.eqb_spec length 2); [lia |].
  pose proof (fread_length length fp ltac:(lia)) as Hl.
  destruct (fread length fp) as [got fp1]. cbn [fst snd] in *. rewrite Hl. reflexivity.
Qed.

(** [readBytes] asked for three bytes or more is one [fread]: it returns
    the number of bytes that were left, up to [length], and delivers
    those bytes from the read position on.  Asked for one byte or for two
    it falls through the cases of its [switch]: with three bytes left in
    the file it takes all three, stores all three from [data] on, past
    the end of what was asked for, and returns [length]. *)
Theorem readBytes_counts (fp : FILE) (length : Z) :
  (3 <= length ->
   let '(count, stored, fp') := readBytes fp length in
   count = Z.min length (remaining fp)
   /\ Z.of_nat (List.length stored) = count
   /\ remaining fp' = remaining fp - count
   /\ forall i, 0 <= i < count ->
                nth (Z.to_nat i) stored 0 = fb_byte (f_data fp) (f_pos fp + i))
  /\ (1 <= length <= 2 -> 3 <= remaining fp ->
      let '(count, stored, fp') := readBytes fp length in
      count = length /\ List.length stored = 3%nat /\ remaining fp' = remaining fp - 3).
Proof.
  split.
  - intros H3. unfold readBytes.
    destruct (Z.eqb_spec length 0); [lia |]. destruct (Z.eqb_spec length 1); [lia |].
    destruct (Z.eqb_spec length 2); [lia |].
    pose proof (fread_length length fp ltac:(lia)) as Hl.
    pose proof (fread_remaining length fp ltac:(lia)) as Hr.
    pose proof (fun i => fread_nth length fp i ltac:(lia)) as Hn.
    destruct (fread length fp) as [got fp1]. cbn [fst snd] in *.
    repeat split; try lia. intros i Hi. apply Hn. lia.
  - intros H12 Hrem. unfold readBytes.
    destruct (Z.eqb_spec length 0); [lia |].
    destruct (getc_some fp ltac:(lia)) as (c1 & E1 & R1). rewrite E1.
    set (fp1 := snd (fread 1 fp)) in *.
    destruct (Z.eqb_spec length 1) as [L1 | L1].
    + destruct (getc_some fp1 ltac:(lia)) as (c2 & E2 & R2). rewrite E2.
      set (fp2 := snd (fread 1 fp1)) in *.
      pose proof (fread_length length fp2 ltac:(lia)) as Hl.
      pose proof (fread_remaining length fp2 ltac:(lia)) as Hr.
      destruct (fread length fp2) as [got fp3]. cbn [fst snd] in *.
      cbn [List.length]. repeat split; lia.
    + destruct (Z.eqb_spec length 2) as [L2 | L2]; [| lia].
      pose proof (fread_length length fp1 ltac:(lia)) as Hl.
      pose proof (fread_remaining length fp1 ltac:(lia)) as Hr.
      destruct (fread length fp1) as [got fp2]. cbn [fst snd] in *.
      cbn [List.length]. repeat split; lia.
Qed.

(** * The base image reader *)

Section BaseRows.

Variable s : Z.
Hypothesis wide : 3 <= PCDLumaWidth s.
Hypothesis chroma_wide : 3 <= PCDChromaWidth s.

Lemma readBaseRow_count y st :
  br_count (readBaseRow s y st)
  = Int.u64 (br_count st + Z.min (PCDLumaWidth s * 2 + PCDChromaWidth s * 2) (remaining (br_fp st)))
  /\ remaining (br_fp (readBaseRow s y st))
     = remaining (br_fp st) - Z.min (PCDLumaWidth s * 2 + PCDChromaWidth s * 2) (remaining (br_fp st))
  /\ f_data (br_fp (readBaseRow s y st)) = f_data (br_fp st).
Proof.
  unfold readBaseRow.
  set (W := PCDLumaWidth s) in *. set (Wc := PCDChromaWidth s) in *.
  rewrite (readBytes_long (br_fp st) W wide).
  pose proof (fread_remaining W (br_fp st) ltac:(lia)) as R1.
  set (fp1 := snd (fread W (br_fp st))) in *.
  rewrite (readBytes_long fp1 W wide).
  pose proof (fread_remaining W fp1 ltac:(lia)) as R2.
  set (fp2 := snd (fread W fp1)) in *.
  rewrite (readBytes_long fp2 Wc chroma_wide).
  pose proof (fread_remaining Wc fp2 ltac:(lia)) as R3.
  set (fp3 := snd (fread Wc fp2)) in *.
  rewrite (readBytes_long fp3 Wc chroma_wide).
  pose proof (fread_remaining Wc fp3 ltac:(lia)) as R4.
  set (fp4 := snd (fread Wc fp3)) in *.
  cbn [br_count br_fp].
  pose proof (remaining_nonneg (br_fp st)).
  split; [| split].
  - f_equal. lia.
  - lia.
  - reflexivity.
Qed.

Lemma readBaseRows_count (n : nat) y st :
  0 <= br_count st -> br_count st + Z.of_nat n * (PCDLumaWidth s * 2 + PCDChromaWidth s * 2) < 2 ^ 64 ->
  br_count (readBaseRows n s y st)
  = br_count st + Z.min (Z.of_nat n * (PCDLumaWidth s * 2 + PCDChromaWidth s * 2)) (remaining (br_fp st)).
Proof.
  revert y st. induction n as [| n IH]; intros y st H0 Hmax.
  - cbn [readBaseRows]. pose proof (remaining_nonneg (br_fp st)). lia.
  - cbn [readBaseRows].
    destruct (readBaseRow_count y st) as (Ec & Er & _).
    pose proof (remaining_nonneg (br_fp st)) as Hr.
    assert (HR : 0 < (PCDLumaWidth s * 2 + PCDChromaWidth s * 2)) by lia.
    rewrite Nat2Z.inj_succ in *.
    rewrite u64_small in Ec by nia.
    rewrite IH by (rewrite Ec; nia).
    rewrite Ec, Er. nia.
Qed.

End BaseRows.

Lemma base_dimensions (s : Z) :
  kBase16 <= s <= kBase ->
  PCDLumaWidth s = 192 * 2 ^ s /\ PCDChromaWidth s = 96 * 2 ^ s
  /\ PCDChromaHeight s = 64 * 2 ^ s /\ 1 <= 2 ^ s <= 4.
Proof.
  unfold kBase16, kBase. intros H.
  assert (C : s = 0 \/ s = 1 \/ s = 2) by lia.
  destruct C as [-> | [-> | ->]]; repeat split; try reflexivity; cbn; lia.
Qed.

(** One turn of the loop of [readBaseImage] succeeds exactly when the
    scene is readable. *)
Lemma base_turn_count (w : World) (fp : FILE) (ICDOffset : Z -> Z) (s : Z) (l c1 c2 : mem) :
  kBase16 <= s <= kBase -> 0 <= ICDOffset s ->
  let st :=
    readBaseRows (Z.to_nat (PCDChromaHeight s)) s 0
      {| br_fp := fseek fp (kSceneSectorSize * ICDOffset s);
         br_count := 0; br_luma := l; br_chroma1 := c1; br_chroma2 := c2 |} in
  negb (br_count st =? (PCDLumaWidth s * 2 + PCDChromaWidth s * 2) * PCDChromaHeight s)
  = false
  <-> kSceneSectorSize * ICDOffset s + baseImageBytes s <= fb_size (f_data fp).
Proof.
  intros Hs Hoff st.
  destruct (base_dimensions s Hs) as (EW & EWc & EHc & P).
  unfold st. rewrite readBaseRows_count; cbn [br_count br_fp]; try lia.
  - rewrite Z2Nat.id by lia.
    unfold fseek. destruct (Z.ltb_spec (kSceneSectorSize * ICDOffset s) 0) as [Hn | _];
      [unfold kSceneSectorSize, KSectorSize in Hn; lia |].
    unfold remaining. cbn [f_data f_pos]. unfold baseImageBytes.
    rewrite negb_false_iff, Z.eqb_eq. nia.
  - rewrite Z2Nat.id by lia. change (2 ^ 64) with 18446744073709551616. nia.
Qed.

Lemma readBaseLoop_highest (n : nat) (w : World) (fp : FILE) (ICDOffset : Z -> Z) :
  (forall s, kBase16 <= s <= kBase -> 0 <= ICDOffset s) ->
  forall scene, scene <= kBase ->
  let '(r, l, c1, c2) := readBaseLoop n w fp scene ICDOffset in
  scene - Z.of_nat n <= r <= scene
  /\ (forall s, r < s <= scene -> ~ baseReadable w fp ICDOffset s)
  /\ ((l = None /\ c1 = None /\ c2 = None /\ (r < kBase16 \/ r = scene - Z.of_nat n))
      \/ (kBase16 <= r /\ baseReadable w fp ICDOffset r
          /\ l <> None /\ c1 <> None /\ c2 <> None)).
Proof.
  intros Hoff. induction n as [| n IH]; intros scene Hscene.
  - cbn. split; [lia |]. split; [intros s Hs; lia |]. left. repeat split; auto. right. lia.
  - cbn [readBaseLoop].
    assert (Down :
      ~ baseReadable w fp ICDOffset scene ->
      let '(r, l, c1, c2) := readBaseLoop n w fp (scene - 1) ICDOffset in
      scene - Z.of_nat (S n) <= r <= scene
      /\ (forall s, r < s <= scene -> ~ baseReadable w fp ICDOffset s)
      /\ ((l = None /\ c1 = None /\ c2 = None
           /\ (r < kBase16 \/ r = scene - Z.of_nat (S n)))
          \/ (kBase16 <= r /\ baseReadable w fp ICDOffset r
              /\ l <> None /\ c1 <> None /\ c2 <> None))).
    { intros Hno. specialize (IH (scene - 1) ltac:(lia)).
      destruct (readBaseLoop n w fp (scene - 1) ICDOffset) as [[[r l] c1] c2].
      destruct IH as (Hr & Habove & Hplanes).
      split; [lia |]. split.
      - intros s Hs. destruct (Z.eq_dec s scene) as [-> | Hne]; [exact Hno |].
        apply Habove. lia.
      - destruct Hplanes as [(A & B & C & D) | Hok]; [left | right; exact Hok].
        repeat split; auto. destruct D; [left; assumption | right; lia]. }
    destruct (Z.geb_spec scene kBase16) as [Hge | Hlt].
    2:{ cbn. split; [lia |]. split; [intros s Hs; lia |]. left. repeat split; auto. }
    destruct (w_malloc w (SiteBaseLuma scene)) as [l |] eqn:El;
      [| apply Down; intros (A & _); rewrite El in A; contradiction].
    destruct (w_malloc w (SiteBaseChroma1 scene)) as [c1 |] eqn:Ec1;
      [| apply Down; intros (_ & A & _); rewrite Ec1 in A; contradiction].
    destruct (w_malloc w (SiteBaseChroma2 scene)) as [c2 |] eqn:Ec2;
      [| apply Down; intros (_ & _ & A & _); rewrite Ec2 in A; contradiction].
    pose proof (base_turn_count w fp ICDOffset scene l c1 c2 ltac:(lia)
                  (Hoff scene ltac:(lia))) as T.
    cbv zeta in T.
    match goal with |- context [if ?c then _ else _] => destruct c end.
    + apply Down. intros (_ & _ & _ & A). apply T in A. discriminate A.
    + split; [lia |]. split; [intros s Hs; lia |]. right.
      split; [exact Hge |]. split.
      * unfold baseReadable. rewrite El, Ec1, Ec2.
        repeat split; try discriminate. apply T. reflexivity.
      * repeat split; discriminate.
Qed.

Lemma readBaseImage_result (w : World) (fp : FILE) (requested : Z)
  (ICDOffset : Z -> Z) :
  0 <= requested < 2 ^ 31 ->
  (forall s, kBase16 <= s <= kBase -> 0 <= ICDOffset s) ->
  let '(scene, l, c1, c2) := readBaseImage w fp requested ICDOffset in
  -1 <= scene <= Z.min requested kBase
  /\ (forall s, scene < s <= Z.min requested kBase -> ~ baseReadable w fp ICDOffset s)
  /\ (scene = -1 -> l = None /\ c1 = None /\ c2 = None)
  /\ (kBase16 <= scene ->
      baseReadable w fp ICDOffset scene /\ l <> None /\ c1 <> None /\ c2 <> None).
Proof.
  intros Hreq Hoff. unfold readBaseImage.
  rewrite s32_small by lia.
  set (top := if requested >? kBase then kBase else requested).
  assert (Etop : top = Z.min requested kBase).
  { unfold top. destruct (Z.gtb_spec requested kBase); lia. }
  assert (Htop : 0 <= top <= kBase) by (unfold kBase in *; lia).
  pose proof (readBaseLoop_highest (Z.to_nat (top + 1)) w fp ICDOffset Hoff top
                ltac:(lia)) as L.
  destruct (readBaseLoop (Z.to_nat (top + 1)) w fp top ICDOffset) as [[[scene l] c1] c2].
  rewrite Z2Nat.id in L by lia. rewrite <- Etop.
  destruct L as (Hr & Habove & Hplanes).
  split; [lia |]. split; [exact Habove |]. unfold kBase16 in *.
  destruct Hplanes as [(A & B & C & D) | (A & B & C)].
  - split; [auto |]. intros Hge. exfalso. lia.
  - split; [intros Hm; lia |]. intros _. exact (conj B C).
Qed.

(** [readBaseImage] returns the highest scene, not above the one asked for
    and not above Base, of which the three planes could be allocated and
    which the file holds in full, together with its planes; when there is
    none it returns -1 and no plane. *)
Theorem readBaseImage_highest (w : World) (fp : FILE) (requested : Z)
  (ICDOffset : Z -> Z) :
  0 <= requested < 2 ^ 31 ->
  (forall s, kBase16 <= s <= kBase -> 0 <= ICDOffset s) ->
  let '(scene, l, c1, c2) := readBaseImage w fp requested ICDOffset in
  -1 <= scene <= Z.min requested kBase
  /\ (forall s, scene < s <= Z.min requested kBase -> ~ baseReadable w fp ICDOffset s)
  /\ (scene = -1 -> l = None /\ c1 = None /\ c2 = None)
  /\ (kBase16 <= scene ->
      baseReadable w fp ICDOffset scene /\ l <> None /\ c1 <> None /\ c2 <> None).
Proof. exact (readBaseImage_result w fp requested ICDOffset). Qed.

Lemma readBaseImage_highest_witness :
  let '(scene, l, c1, c2) := readBaseImage disc (fopen packImage) kBase16 (table [4; 23; 96]) in
  -1 <= scene <= Z.min kBase16 kBase.
Proof.
  assert (Hreq : 0 <= kBase16 < 2 ^ 31) by (unfold kBase16; lia).
  assert (Hoff : forall s, kBase16 <= s <= kBase -> 0 <= table [4; 23; 96] s).
  { intros s _. unfold table. destruct (s <? 0); [lia |].
    destruct (Z.to_nat s) as [| [| [| [| n]]]]; cbn; lia. }
  pose proof (readBaseImage_highest disc (fopen packImage) kBase16 (table [4; 23; 96])
                Hreq Hoff) as H.
  destruct (readBaseImage disc (fopen packImage) kBase16 (table [4; 23; 96]))
    as [[[scene l] c1] c2].
  exact (proj1 H).
Defined.

(** * The planes of the base image *)

Lemma blitMem_inside m off bytes j :
  off <= j < off + Z.of_nat (List.length bytes) ->
  blitMem m off bytes j = nth (Z.to_nat (j - off)) bytes 0.
Proof.
  intros H. unfold blitMem.
  destruct (Z.leb_spec off j); [| lia].
  destruct (Z.ltb_spec j (off + Z.of_nat (List.length bytes))); [reflexivity | lia].
Qed.

Lemma blitMem_outside m off bytes j :
  ~ (off <= j < off + Z.of_nat (List.length bytes)) -> blitMem m off bytes j = m j.
Proof.
  intros H. unfold blitMem.
  destruct (Z.leb_spec off j); [| reflexivity].
  destruct (Z.ltb_spec j (off + Z.of_nat (List.length bytes))); [lia | reflexivity].
Qed.

(** A full read of [n] bytes into a plane at [off]. *)
Lemma blit_fread m off n fp :
  0 <= n <= remaining fp ->
  (forall c, 0 <= c < n ->
     blitMem m off (fst (fread n fp)) (c + off) = fb_byte (f_data fp) (f_pos fp + c))
  /\ (forall j, ~ (off <= j < off + n) -> blitMem m off (fst (fread n fp)) j = m j).
Proof.
  intros Hn. pose proof (fread_length n fp ltac:(lia)) as Hl.
  rewrite Z.min_l in Hl by lia. split.
  - intros c Hc. rewrite blitMem_inside by lia.
    replace (c + off - off) with c by lia. apply fread_nth; lia.
  - intros j Hj. apply blitMem_outside. lia.
Qed.

Section BasePlanes.

Variable s : Z.
Hypothesis wide : 3 <= PCDLumaWidth s.
Hypothesis chroma_wide : 3 <= PCDChromaWidth s.

Lemma readBaseRow_planes y st :
  PCDLumaWidth s * 2 + PCDChromaWidth s * 2 <= remaining (br_fp st) ->
  let W := PCDLumaWidth s in
  let Wc := PCDChromaWidth s in
  let p := f_pos (br_fp st) in
  let file := fb_byte (f_data (br_fp st)) in
  let st1 := readBaseRow s y st in
  (f_pos (br_fp st1) = p + (W * 2 + Wc * 2)
   /\ remaining (br_fp st1) = remaining (br_fp st) - (W * 2 + Wc * 2)
   /\ f_data (br_fp st1) = f_data (br_fp st))
  /\ ((forall c, 0 <= c < W -> br_luma st1 (c + y * 2 * W) = file (p + c))
      /\ (forall c, 0 <= c < W -> br_luma st1 (c + (y * 2 + 1) * W) = file (p + W + c))
      /\ (forall j, ~ (y * 2 * W <= j < (y * 2 + 2) * W) -> br_luma st1 j = br_luma st j))
  /\ ((forall c, 0 <= c < Wc -> br_chroma1 st1 (c + y * Wc) = file (p + W * 2 + c))
      /\ (forall j, ~ (y * Wc <= j < (y + 1) * Wc) -> br_chroma1 st1 j = br_chroma1 st j))
  /\ ((forall c, 0 <= c < Wc -> br_chroma2 st1 (c + y * Wc) = file (p + W * 2 + Wc + c))
      /\ (forall j, ~ (y * Wc <= j < (y + 1) * Wc) -> br_chroma2 st1 j = br_chroma2 st j)).
Proof.
  intros Hrem W Wc p file st1. subst st1. unfold readBaseRow.
  fold W Wc. fold W Wc in Hrem.
  rewrite (readBytes_long (br_fp st) W wide).
  pose proof (fread_remaining W (br_fp st) ltac:(lia)) as R1.
  pose proof (fread_pos W (br_fp st) ltac:(lia)) as P1.
  set (fp0 := br_fp st) in *.
  set (fp1 := snd (fread W fp0)) in *.
  rewrite (readBytes_long fp1 W wide).
  pose proof (fread_remaining W fp1 ltac:(lia)) as R2.
  pose proof (fread_pos W fp1 ltac:(lia)) as P2.
  set (fp2 := snd (fread W fp1)) in *.
  rewrite (readBytes_long fp2 Wc chroma_wide).
  pose proof (fread_remaining Wc fp2 ltac:(lia)) as R3.
  pose proof (fread_pos Wc fp2 ltac:(lia)) as P3.
  set (fp3 := snd (fread Wc fp2)) in *.
  rewrite (readBytes_long fp3 Wc chroma_wide).
  pose proof (fread_remaining Wc fp3 ltac:(lia)) as R4.
  pose proof (fread_pos Wc fp3 ltac:(lia)) as P4.
  set (fp4 := snd (fread Wc fp3)) in *.
  cbn [br_fp br_luma br_chroma1 br_chroma2].
  assert (D1 : f_data fp1 = f_data fp0) by reflexivity.
  assert (D2 : f_data fp2 = f_data fp0) by reflexivity.
  assert (D3 : f_data fp3 = f_data fp0) by reflexivity.
  fold p in P1.
  destruct (blit_fread (br_luma st) (y * 2 * W) W fp0 ltac:(lia)) as [A1 A2].
  destruct (blit_fread (blitMem (br_luma st) (y * 2 * W) (fst (fread W fp0)))
              ((y * 2 + 1) * W) W fp1 ltac:(lia)) as [B1 B2].
  destruct (blit_fread (br_chroma1 st) (y * Wc) Wc fp2 ltac:(lia)) as [C1 C2].
  destruct (blit_fread (br_chroma2 st) (y * Wc) Wc fp3 ltac:(lia)) as [E1 E2].
  split; [| split; [| split]].
  - split; [lia |]. split; [lia | reflexivity].
  - split; [| split].
    + intros c Hc. rewrite B2 by lia. rewrite A1 by lia. reflexivity.
    + intros c Hc. rewrite B1 by lia. rewrite D1. unfold file. f_equal. lia.
    + intros j Hj. rewrite B2 by lia. apply A2. lia.
  - split.
    + intros c Hc. rewrite C1 by lia. rewrite D2. unfold file. f_equal. lia.
    + intros j Hj. apply C2. lia.
  - split.
    + intros c Hc. rewrite E1 by lia. rewrite D3. unfold file. f_equal. lia.
    + intros j Hj. apply E2. lia.
Qed.

Lemma readBaseRows_planes (n : nat) y st :
  0 <= y ->
  Z.of_nat n * (PCDLumaWidth s * 2 + PCDChromaWidth s * 2) <= remaining (br_fp st) ->
  let W := PCDLumaWidth s in
  let Wc := PCDChromaWidth s in
  let p := f_pos (br_fp st) in
  let file := fb_byte (f_data (br_fp st)) in
  let st' := readBaseRows n s y st in
  (forall yy half c, y <= yy < y + Z.of_nat n -> 0 <= half <= 1 -> 0 <= c < W ->
     br_luma st' (c + (yy * 2 + half) * W)
     = file (p + (yy - y) * (W * 2 + Wc * 2) + half * W + c))
  /\ (forall yy c, y <= yy < y + Z.of_nat n -> 0 <= c < Wc ->
        br_chroma1 st' (c + yy * Wc) = file (p + (yy - y) * (W * 2 + Wc * 2) + W * 2 + c)
        /\ br_chroma2 st' (c + yy * Wc)
           = file (p + (yy - y) * (W * 2 + Wc * 2) + W * 2 + Wc + c))
  /\ (forall j, j < y * 2 * W -> br_luma st' j = br_luma st j)
  /\ (forall j, j < y * Wc ->
        br_chroma1 st' j = br_chroma1 st j /\ br_chroma2 st' j = br_chroma2 st j).
Proof.
  revert y st. induction n as [| n IH]; intros y st Hy Hrem W Wc p file st'.
  - subst st'. cbn [readBaseRows]. repeat split; intros; try lia; reflexivity.
  - subst st'. cbn [readBaseRows].
    rewrite Nat2Z.inj_succ in *. fold W Wc in Hrem.
    assert (HR : 0 < W * 2 + Wc * 2) by (unfold W, Wc; lia).
    destruct (readBaseRow_planes y st ltac:(fold W Wc; nia))
      as ((P1 & R1 & D1) & (L1 & L2 & L3) & (C1 & C2) & (E1 & E2)).
    fold W Wc p file in P1, R1, L1, L2, L3, C1, C2, E1, E2.
    set (st1 := readBaseRow s y st) in *.
    destruct (IH (y + 1) st1 ltac:(lia) ltac:(fold W Wc; rewrite R1; nia))
      as (IL & IC & FL & FC).
    fold W Wc in IL, IC, FL, FC. rewrite P1, D1 in IL, IC. fold file in IL, IC.
    split; [| split; [| split]].
    + intros yy half c Hyy Hh Hc.
      destruct (Z.eq_dec yy y) as [-> | Hne].
      * rewrite FL by nia.
        assert (half = 0 \/ half = 1) as [-> | ->] by lia.
        -- rewrite Z.add_0_r. rewrite L1 by lia. f_equal. lia.
        -- rewrite L2 by lia. f_equal. lia.
      * rewrite IL by lia. f_equal. lia.
    + intros yy c Hyy Hc.
      destruct (Z.eq_dec yy y) as [-> | Hne].
      * destruct (FC (c + y * Wc) ltac:(nia)) as [F1 F2]. rewrite F1, F2.
        rewrite C1, E1 by lia. split; f_equal; lia.
      * destruct (IC yy c ltac:(lia) Hc) as [I1 I2]. rewrite I1, I2.
        split; f_equal; lia.
    + intros j Hj. rewrite FL by nia. apply L3. nia.
    + intros j Hj. destruct (FC j ltac:(nia)) as [F1 F2]. rewrite F1, F2.
      split; [apply C2 | apply E2]; nia.
Qed.

End BasePlanes.

Lemma readBaseLoop_planes (n : nat) (w : World) (fp : FILE) (ICDOffset : Z -> Z) :
  (forall s, kBase16 <= s <= kBase -> 0 <= ICDOffset s) ->
  forall scene, scene <= kBase ->
  let '(r, l, c1, c2) := readBaseLoop n w fp scene ICDOffset in
  match l, c1, c2 with
  | Some lm, Some c1m, Some c2m =>
      deinterleaved (fb_byte (f_data fp)) (kSceneSectorSize * ICDOffset r) r lm c1m c2m
  | None, None, None => True
  | _, _, _ => False
  end.
Proof.
  intros Hoff. induction n as [| n IH]; intros scene Hscene; [exact I |].
  cbn [readBaseLoop]. specialize (IH (scene - 1) ltac:(lia)).
  destruct (Z.geb_spec scene kBase16) as [Hge | Hlt]; [| exact I].
  destruct (w_malloc w (SiteBaseLuma scene)) as [l |]; [| exact IH].
  destruct (w_malloc w (SiteBaseChroma1 scene)) as [c1 |]; [| exact IH].
  destruct (w_malloc w (SiteBaseChroma2 scene)) as [c2 |]; [| exact IH].
  pose proof (base_turn_count w fp ICDOffset scene l c1 c2 ltac:(lia)
                (Hoff scene ltac:(lia))) as T.
  cbv zeta in T.
  match goal with |- context [if ?c then _ else _] => destruct c end; [exact IH |].
  assert (Hfile : kSceneSectorSize * ICDOffset scene + baseImageBytes scene
                  <= fb_size (f_data fp)) by (apply T; reflexivity).
  destruct (base_dimensions scene ltac:(lia)) as (EW & EWc & EHc & P).
  pose proof (Hoff scene ltac:(lia)) as Ho.
  match goal with |- context [readBaseRows ?k scene 0 ?st0] =>
    pose proof (readBaseRows_planes scene ltac:(lia) ltac:(lia) k 0 st0 ltac:(lia)) as R
  end.
  cbn [br_fp br_luma br_chroma1 br_chroma2] in R.
  assert (Eseek : fseek fp (kSceneSectorSize * ICDOffset scene)
                  = {| f_data := f_data fp; f_pos := kSceneSectorSize * ICDOffset scene;
                       f_eof := false |}).
  { unfold fseek. destruct (Z.ltb_spec (kSceneSectorSize * ICDOffset scene) 0) as [Hn | _];
      [unfold kSceneSectorSize, KSectorSize in Hn; lia | reflexivity]. }
  rewrite Eseek in *. cbn [f_pos f_data] in R.
  rewrite Z2Nat.id in R by lia.
  destruct R as (RL & RC & _ & _).
  { unfold remaining. cbn [f_data f_pos]. unfold baseImageBytes in Hfile. nia. }
  unfold deinterleaved. split.
  - intros yy half c Hyy Hh Hc. rewrite RL by lia. f_equal. lia.
  - intros yy c Hyy Hc. destruct (RC yy c ltac:(lia) Hc) as [R1 R2].
    rewrite R1, R2. split; f_equal; lia.
Qed.

(** The planes that [readBaseImage] returns hold the image as the file
    has it from sector [ICDOffset[scene]] on, row by row: two rows of luma,
    then one row of each chroma plane. *)
Theorem readBaseImage_deinterleaves (w : World) (fp : FILE) (requested : Z)
  (ICDOffset : Z -> Z) :
  0 <= requested < 2 ^ 31 ->
  (forall s, kBase16 <= s <= kBase -> 0 <= ICDOffset s) ->
  let '(scene, l, c1, c2) := readBaseImage w fp requested ICDOffset in
  kBase16 <= scene ->
  exists lm c1m c2m,
    l = Some lm /\ c1 = Some c1m /\ c2 = Some c2m
    /\ deinterleaved (fb_byte (f_data fp)) (kSceneSectorSize * ICDOffset scene) scene
         lm c1m c2m.
Proof.
  intros Hreq Hoff.
  pose proof (readBaseImage_result w fp requested ICDOffset Hreq Hoff) as Hh.
  unfold readBaseImage in *.
  set (top := if Int.s32 requested >? kBase then kBase else Int.s32 requested) in *.
  assert (Htop : top <= kBase).
  { unfold top. destruct (Z.gtb_spec (Int.s32 requested) kBase); lia. }
  pose proof (readBaseLoop_planes (Z.to_nat (top + 1)) w fp ICDOffset Hoff top Htop) as Hp.
  destruct (readBaseLoop (Z.to_nat (top + 1)) w fp top ICDOffset) as [[[scene l] c1] c2].
  intros Hge. destruct Hh as (_ & _ & _ & Hsome).
  destruct (Hsome Hge) as (_ & Nl & Nc1 & Nc2).
  destruct l as [lm |]; [| contradiction]. destruct c1 as [c1m |]; [| contradiction].
  destruct c2 as [c2m |]; [| contradiction].
  exists lm, c1m, c2m.
  split; [reflexivity | split; [reflexivity | split; [reflexivity | exact Hp]]].
Qed.

Lemma readBaseImage_deinterleaves_witness :
  deref (snd (fst (fst (readBaseImage disc (fopen packImage) kBase16 (table [4; 23; 96])))))
        (5 + 7 * 192)
  = packByte (4 * 2048 + 3 * 576 + 192 + 5).
Proof.
  assert (Hreq : 0 <= kBase16 < 2 ^ 31) by (unfold kBase16; lia).
  assert (Hoff : forall s, kBase16 <= s <= kBase -> 0 <= table [4; 23; 96] s).
  { intros s _. unfold table. destruct (s <? 0); [lia |].
    destruct (Z.to_nat s) as [| [| [| [| n]]]]; cbn; lia. }
  pose proof (readBaseImage_deinterleaves disc (fopen packImage) kBase16
                (table [4; 23; 96]) Hreq Hoff) as H.
  assert (S : fst (fst (fst (readBaseImage disc (fopen packImage) kBase16
                               (table [4; 23; 96])))) = 0)
    by (vm_compute; reflexivity).
  destruct (readBaseImage disc (fopen packImage) kBase16 (table [4; 23; 96]))
    as [[[scene l] c1] c2].
  cbn [fst snd] in *. subst scene.
  destruct (H ltac:(unfold kBase16; lia)) as (lm & c1m & c2m & -> & _ & _ & D & _).
  cbn [deref].
  change (5 + 7 * 192) with (5 + (3 * 2 + 1) * PCDLumaWidth 0).
  rewrite D; [reflexivity | | lia |]; cbn; lia.
Defined.

(** * Resynchronisation and decoding, continued *)

Lemma atMarker_atMarkerByte b : atMarker b = true -> atMarkerByte b = true.
Proof.
  unfold atMarker, atMarkerByte. rewrite !Z.eqb_eq. intros H.
  change 0x00fff000 with (Z.land 0xffffff00 0x00fff000) at 1.
  rewrite Z.land_assoc, H. reflexivity.
Qed.

Lemma syncHuffman_at_marker b :
  wfBuffer b -> atMarker b = true -> syncHuffman b = Ok b.
Proof.
  intros Hb Hm. unfold syncHuffman.
  rewrite (skipToMarkerByte_unfold b Hb), (atMarker_atMarkerByte b Hm). cbn [bind].
  rewrite (slideToMarker_unfold b Hb), Hm. reflexivity.
Qed.

(** [syncHuffman] is idempotent: a stream that has been brought to a
    sequence marker stays where it is when it is synchronised again, and
    nothing more is read from the file. *)
Theorem syncHuffman_idempotent (b b' : ReadBuffer) :
  wfBuffer b -> syncHuffman b = Ok b' -> syncHuffman b' = Ok b'.
Proof.
  intros Hb Hs. pose proof (syncHuffman_result b Hb) as H. rewrite Hs in H.
  destruct H as [Hb' Hm]. apply syncHuffman_at_marker; assumption.
Qed.

Lemma syncHuffman_idempotent_witness :
  match syncHuffman (bufferOn strayStream) with
  | Ok b' => syncHuffman b' = Ok b'
  | _ => False
  end.
Proof.
  assert (Hwf : wfBuffer (bufferOn strayStream)) by wf_by_computation.
  destruct (syncHuffman (bufferOn strayStream)) as [b' | | |] eqn:E;
    try (vm_compute in E; discriminate E).
  exact (syncHuffman_idempotent (bufferOn strayStream) b' Hwf E).
Defined.

(** The symbols of a sequence that decodes: each goes to its own place, in
    order, and nothing else is written. *)
Lemma decodeSymbols_values huf dest length :
  forall (n : nat) i b m bn,
    decodePrefix huf n b = Some bn ->
    exists m',
      decodeSymbols n i b huf dest length m = Ok (bn, m')
      /\ (forall (k : nat) bk, (k < n)%nat -> decodePrefix huf k b = Some bk ->
            m' (dest + i + Z.of_nat k) = ht_key huf (currentCode bk))
      /\ (forall j, ~ (dest + i <= j < dest + i + Z.of_nat n) -> m' j = m j).
Proof.
  induction n as [| n IH]; intros i b m bn Hpre.
  - cbn in Hpre. injection Hpre as ->. exists m. split; [reflexivity |].
    split; [intros k bk Hk; lia | reflexivity].
  - cbn [decodePrefix] in Hpre. cbn [decodeSymbols].
    destruct (ht_len huf (currentCode b) =? kHuffmanErrorLen) eqn:El; [discriminate |].
    destruct (PCDGetBits b (ht_len huf (currentCode b))) as [b1 | | |] eqn:Eg;
      try discriminate.
    destruct (IH (i + 1) b1 (store m (dest + i) (ht_key huf (currentCode b))) bn Hpre)
      as (m' & Hrun & Hval & Hout).
    exists m'. cbn [bind]. split; [exact Hrun |]. split.
    + intros k bk Hk Hbk. destruct k as [| k].
      * cbn in Hbk. injection Hbk as <-. rewrite Hout by lia.
        replace (dest + i + Z.of_nat 0) with (dest + i) by lia. apply store_eq.
      * cbn [decodePrefix] in Hbk. rewrite El, Eg in Hbk.
        rewrite <- (Hval k bk ltac:(lia) Hbk). f_equal. lia.
    + intros j Hj. rewrite Hout by lia. apply store_neq. lia.
Qed.

(** When all [length] symbols of a sequence are codes of the table,
    [PCDDecodeHuffman] stores the key of the [k]-th code at [dest + k],
    leaves the stream behind the last code, and writes nothing outside
    the sequence. *)
Theorem PCDDecodeHuffman_decodes (huf : huffTable) (b bn : ReadBuffer)
  (dest length : Z) (m : mem) :
  decodePrefix huf (Z.to_nat length) b = Some bn ->
  exists m',
    PCDDecodeHuffman b huf dest length m = Ok (bn, m')
    /\ (forall k bk, 0 <= k < length -> decodePrefix huf (Z.to_nat k) b = Some bk ->
          m' (dest + k) = ht_key huf (currentCode bk))
    /\ (forall j, ~ (dest <= j < dest + length) -> m' j = m j).
Proof.
  intros Hpre.
  destruct (decodeSymbols_values huf dest length (Z.to_nat length) 0 b m bn Hpre)
    as (m' & Hrun & Hval & Hout).
  exists m'. split; [exact Hrun |]. split.
  - intros k bk Hk Hbk.
    rewrite <- (Hval (Z.to_nat k) bk ltac:(lia) Hbk). f_equal. lia.
  - intros j Hj. apply Hout. lia.
Qed.

Lemma PCDDecodeHuffman_decodes_witness :
  match PCDDecodeHuffman (bufferOn codeStream) oneCodeTable 10 4 (fun _ => 7) with
  | Ok (_, m') => m' 9 = 7 /\ m' 10 = 0x2A /\ m' 14 = 7
  | _ => False
  end.
Proof.
  destruct (decodePrefix oneCodeTable (Z.to_nat 4) (bufferOn codeStream)) as [bn |] eqn:E;
    [| vm_compute in E; discriminate E].
  destruct (PCDDecodeHuffman_decodes oneCodeTable (bufferOn codeStream) bn 10 4
              (fun _ => 7) E) as (m' & Hrun & Hval & Hout).
  rewrite Hrun. split; [apply Hout; lia |]. split; [| apply Hout; lia].
  change 10 with (10 + 0) at 1. rewrite (Hval 0 (bufferOn codeStream) ltac:(lia) eq_refl).
  vm_compute. reflexivity.
Defined.

Lemma decodeSymbols_frame huf dest length :
  forall (n : nat) i b m b' m',
    0 <= i -> i + Z.of_nat n <= length ->
    decodeSymbols n i b huf dest length m = Ok (b', m') ->
    forall j, ~ (dest <= j < dest + length) -> m' j = m j.
Proof.
  induction n as [| n IH]; intros i b m b' m' Hi Hn Hrun j Hj.
  - cbn in Hrun. injection Hrun as _ <-. reflexivity.
  - cbn [decodeSymbols] in Hrun.
    destruct (ht_len huf (currentCode b) =? kHuffmanErrorLen).
    + destruct (syncHuffman b) as [b1 | | |]; try discriminate.
      cbn [bind] in Hrun. injection Hrun as _ <-.
      rewrite zeroSequence_spec, Z2Nat.id by lia.
      destruct (Z.leb_spec dest j), (Z.ltb_spec j (dest + length)); cbn; try reflexivity; lia.
    + destruct (PCDGetBits b (ht_len huf (currentCode b))) as [b1 | | |];
        try discriminate.
      cbn [bind] in Hrun.
      rewrite (IH (i + 1) b1 _ b' m' ltac:(lia) ltac:(lia) Hrun j Hj).
      apply store_neq. lia.
Qed.

(** Whatever the stream holds and whether the sequence decodes or not, a
    call of [PCDDecodeHuffman] that returns has written nothing outside
    the [length] bytes from [dest] on. *)
Theorem PCDDecodeHuffman_stays_in_sequence (huf : huffTable) (b b' : ReadBuffer)
  (dest length : Z) (m m' : mem) :
  PCDDecodeHuffman b huf dest length m = Ok (b', m') ->
  forall j, ~ (dest <= j < dest + length) -> m' j = m j.
Proof.
  intros Hrun. unfold PCDDecodeHuffman in Hrun.
  destruct (Z.le_gt_cases 0 length) as [H0 | Hneg].
  - apply (decodeSymbols_frame huf dest length (Z.to_nat length) 0 b m b' m'); [lia | lia | exact Hrun].
  - replace (Z.to_nat length) with O in Hrun by lia. cbn in Hrun.
    injection Hrun as _ <-. reflexivity.
Qed.

Lemma PCDDecodeHuffman_stays_in_sequence_witness :
  match PCDDecodeHuffman (bufferOn brokenStream) oneCodeTable 10 4 (fun _ => 7) with
  | Ok (_, m') => m' 9 = 7 /\ m' 14 = 7
  | _ => False
  end.
Proof.
  destruct (PCDDecodeHuffman (bufferOn brokenStream) oneCodeTable 10 4 (fun _ => 7))
    as [[b' m'] | | |] eqn:E; try (vm_compute in E; discriminate E).
  pose proof (PCDDecodeHuffman_stays_in_sequence _ _ _ _ _ _ _ E) as F.
  split; apply F; lia.
Defined.

(** * Huffman tables *)

Lemma spreadEntry_cells (n : nat) (index codeWord key len : Z) (t : huffTable) (code : Z) :
  ((exists k, 0 <= k < Z.of_nat n /\ code = Int.u16 (Z.lor codeWord (index + k)))
   /\ ht_key (spreadEntry n index codeWord key len t) code = key
   /\ ht_len (spreadEntry n index codeWord key len t) code = len)
  \/ ((forall k, 0 <= k < Z.of_nat n -> code <> Int.u16 (Z.lor codeWord (index + k)))
      /\ ht_key (spreadEntry n index codeWord key len t) code = ht_key t code
      /\ ht_len (spreadEntry n index codeWord key len t) code = ht_len t code).
Proof.
  revert index t. induction n as [| n IH]; intros index t.
  - right. split; [intros k Hk; lia | split; reflexivity].
  - cbn [spreadEntry].
    set (t1 := {| ht_key := store (ht_key t) (Int.u16 (Z.lor codeWord index)) key;
                  ht_len := store (ht_len t) (Int.u16 (Z.lor codeWord index)) len |}).
    destruct (IH (index + 1) t1) as [((k & Hk & Ek) & Hkey & Hlen) | (Hno & Hkey & Hlen)].
    + left. split; [| split; assumption].
      exists (k + 1). split; [lia |]. rewrite Ek. do 2 f_equal. lia.
    + destruct (Z.eq_dec code (Int.u16 (Z.lor codeWord index))) as [E | N].
      * left. split.
        -- exists 0. split; [lia |]. rewrite E. do 2 f_equal. lia.
        -- rewrite Hkey, Hlen. unfold t1. cbn [ht_key ht_len]. rewrite E.
           split; apply store_eq.
      * right. split.
        -- intros k Hk. destruct (Z.eq_dec k 0) as [-> | Hk0].
           ++ rewrite Z.add_0_r. exact N.
           ++ specialize (Hno (k - 1) ltac:(lia)).
              replace (index + 1 + (k - 1)) with (index + k) in Hno by lia. exact Hno.
        -- rewrite Hkey, Hlen. unfold t1. cbn [ht_key ht_len].
           split; apply store_neq; exact N.
Qed.

Section Entries.

Variables (buffer : list Z) (source : Z).

(** The cell of [code] after the entries from [i] to [i + n - 1] have been
    spread over a table: it holds the length and the key of the last of
    them that covers [code], and is as it was when none does. *)
Lemma readEntries_cells (n : nat) (i : Z) (t : huffTable) :
  0 <= i ->
  (forall j, i <= j < i + Z.of_nat n -> 1 <= entryLength buffer source j <= 16) ->
  exists t',
    readEntries n i buffer source t = Ok t'
    /\ forall code,
         (exists j, i <= j < i + Z.of_nat n /\ covers buffer source j code
                    /\ (forall j', j < j' < i + Z.of_nat n -> ~ covers buffer source j' code)
                    /\ ht_key t' code = entryKey buffer source j
                    /\ ht_len t' code = entryLength buffer source j)
         \/ ((forall j, i <= j < i + Z.of_nat n -> ~ covers buffer source j code)
             /\ ht_key t' code = ht_key t code /\ ht_len t' code = ht_len t code).
Proof.
  revert i t. induction n as [| n IH]; intros i t Hi Hlen.
  - exists t. split; [reflexivity |]. intros code. right.
    split; [intros j Hj; lia | split; reflexivity].
  - cbn [readEntries]. fold (entryLength buffer source i).
    pose proof (Hlen i ltac:(lia)) as Hl.
    destruct (Z.gtb_spec (entryLength buffer source i) 16) as [Hbad | _]; [lia |].
    set (t1 := spreadEntry _ 0 _ _ _ t).
    destruct (IH (i + 1) t1 ltac:(lia)) as (t' & Hrun & Hcells).
    { intros j Hj. apply Hlen. lia. }
    exists t'. split; [exact Hrun |]. intros code.
    assert (Hpow : Z.of_nat (Z.to_nat (Z.shiftl 1 (16 - entryLength buffer source i)))
                   = 2 ^ (16 - entryLength buffer source i)).
    { rewrite Z.shiftl_1_l. apply Z2Nat.id. apply Z.pow_nonneg. lia. }
    destruct (Hcells code) as [(j & Hj & Hc & Hlast & Hk & Hle) | (Hno & Hk & Hle)].
    + left. exists j. split; [lia |]. split; [exact Hc |]. split; [| split; assumption].
      intros j' Hj'. apply Hlast. lia.
    + pose proof (spreadEntry_cells
                    (Z.to_nat (Z.shiftl 1 (16 - entryLength buffer source i))) 0
                    (getPCD16 buffer (source + 1 + i * 4 + 1))
                    (byteAt buffer (source + 1 + i * 4 + 3))
                    (entryLength buffer source i) t code) as S.
      fold t1 in S. rewrite Hpow in S.
      destruct S as [((k & Hk0 & Ek) & Sk & Sl) | (Sno & Sk & Sl)].
      * left. exists i. split; [lia |]. split.
        -- exists k. split; [exact Hk0 |]. exact Ek.
        -- split; [intros j' Hj'; apply Hno; lia |].
           rewrite Hk, Hle, Sk, Sl. split; reflexivity.
      * right. split.
        -- intros j Hj. destruct (Z.eq_dec j i) as [-> | Hne]; [| apply Hno; lia].
           intros (k & Hk0 & Ek). exact (Sno k Hk0 Ek).
        -- rewrite Hk, Hle, Sk, Sl. split; reflexivity.
Qed.

Lemma readEntries_rejects (n : nat) (i : Z) (t : huffTable) (bad : Z) :
  i <= bad < i + Z.of_nat n -> 16 < entryLength buffer source bad ->
  readEntries n i buffer source t = Throw "Huffman code error!!".
Proof.
  revert i t. induction n as [| n IH]; intros i t Hbad Hlen; [lia |].
  cbn [readEntries]. fold (entryLength buffer source i).
  destruct (Z.gtb_spec (entryLength buffer source i) 16) as [_ | Hok]; [reflexivity |].
  apply IH; [| exact Hlen].
  destruct (Z.eq_dec bad i) as [-> | Hne]; lia.
Qed.

End Entries.

(** For a code word that is left justified the cells written are the codes
    that start with it. *)
Lemma covers_startsWith (buffer : list Z) (source i code : Z) :
  1 <= entryLength buffer source i <= 16 -> leftJustified buffer source i ->
  covers buffer source i code <-> startsWith buffer source i code.
Proof.
  intros Hlen Hlj. unfold covers, startsWith, leftJustified in *.
  set (k := 16 - entryLength buffer source i) in *.
  set (cw := entryCode buffer source i) in *.
  assert (Hk : 0 <= k <= 15) by (unfold k; lia).
  assert (Hcw : 0 <= cw < 2 ^ 16).
  { unfold cw, entryCode, getPCD16, Int.u16.
    match goal with |- _ <= Int.wrap _ ?w ?x < _ =>
      pose proof (wrap_range 0 w x ltac:(lia)) as R end.
    change (2 ^ 16) with 65536. lia. }
  assert (Hpos : 0 < 2 ^ k) by (apply Z.pow_pos_nonneg; lia).
  assert (Hsplit : 2 ^ 16 = 2 ^ k * 2 ^ (16 - k))
    by (rewrite <- Z.pow_add_r by lia; f_equal; lia).
  assert (Hmod : cw mod 2 ^ k = 0).
  { rewrite <- Z.land_ones by lia. rewrite Z.ones_equiv. exact Hlj. }
  assert (Hlor : forall index, 0 <= index < 2 ^ k -> Z.lor cw index = cw + index).
  { intros index Hi.
    assert (Z.land cw index = 0).
    { replace index with (Z.land index (Z.ones k))
        by (rewrite Z.land_ones by lia; apply Z.mod_small; lia).
      rewrite Z.land_assoc, (Z.land_comm cw index), <- Z.land_assoc.
      rewrite (Z.land_ones cw) by lia. rewrite Hmod. apply Z.land_0_r. }
    pose proof (Z.add_lor_land cw index). lia. }
  assert (Hq : 0 <= 2 ^ (16 - k)) by (apply Z.pow_nonneg; lia).
  rewrite !Z.shiftr_div_pow2 by lia.
  split.
  - intros (index & Hi & ->). rewrite (Hlor index Hi).
    assert (Hsum : 0 <= cw + index < 2 ^ 16).
    { split; [lia |].
      assert (cw / 2 ^ k < 2 ^ (16 - k))
        by (apply Z.div_lt_upper_bound; lia).
      pose proof (Z.div_mod cw (2 ^ k) ltac:(lia)). nia. }
    rewrite u16_small by exact Hsum. split; [exact Hsum |].
    pose proof (Z.div_mod cw (2 ^ k) ltac:(lia)) as D. rewrite Hmod in D.
    replace (cw + index) with (index + cw / 2 ^ k * 2 ^ k) by lia.
    rewrite Z.div_add by lia. rewrite (Z.div_small index) by lia. lia.
  - intros [Hc E]. exists (code mod 2 ^ k).
    pose proof (Z.mod_pos_bound code (2 ^ k) Hpos) as Hm.
    split; [exact Hm |]. rewrite (Hlor _ Hm).
    pose proof (Z.div_mod cw (2 ^ k) ltac:(lia)) as D1. rewrite Hmod in D1.
    pose proof (Z.div_mod code (2 ^ k) ltac:(lia)) as D2.
    replace (cw + code mod 2 ^ k) with code by (rewrite <- E in D1; lia).
    symmetry. apply u16_small. exact Hc.
Qed.

(** [readHuffTable] turns the entries of a table into a look-up table on
    the next 16 bits of the stream.  When every entry has a code of 1 to
    16 bits, the cell of a code that the loop has written for some entry,
    that is the code word of the entry or-ed with an index below
    2^(16 - length), holds the length and the key of the last such entry,
    and every other cell holds the error length [kHuffmanErrorLen] with
    the key 0x7f.  For an entry whose code word is left justified, with no
    bit set below its length, the cells written are exactly the 16-bit
    codes that start with the code word.  When an entry gives its code
    more than 16 bits the call throws ["Huffman code error!!"]. *)
Theorem readHuffTable_lookup (buffer : list Z) (source : Z) :
  0 <= byteAt buffer source ->
  let number := byteAt buffer source + 1 in
  ((forall j, 0 <= j < number -> 1 <= entryLength buffer source j <= 16) ->
   exists t,
     readHuffTable buffer source = Ok (t, number)
     /\ forall code,
          (exists j, 0 <= j < number /\ covers buffer source j code
                     /\ (forall j', j < j' < number -> ~ covers buffer source j' code)
                     /\ ht_key t code = entryKey buffer source j
                     /\ ht_len t code = entryLength buffer source j)
          \/ ((forall j, 0 <= j < number -> ~ covers buffer source j code)
              /\ ht_key t code = 0x7f /\ ht_len t code = kHuffmanErrorLen))
  /\ (forall j code,
        1 <= entryLength buffer source j <= 16 -> leftJustified buffer source j ->
        (covers buffer source j code <-> startsWith buffer source j code))
  /\ (forall bad, 0 <= bad < number -> 16 < entryLength buffer source bad ->
      readHuffTable buffer source = Throw "Huffman code error!!").
Proof.
  intros Hn number.
  assert (En : Z.of_nat (Z.to_nat number) = number) by (apply Z2Nat.id; unfold number; lia).
  split; [| split].
  - intros Hlen.
    destruct (readEntries_cells buffer source (Z.to_nat number) 0
                {| ht_key := fun _ => 0x7f; ht_len := fun _ => kHuffmanErrorLen |}
                ltac:(lia)) as (t & Hrun & Hcells).
    { intros j Hj. apply Hlen. lia. }
    exists t. unfold readHuffTable. fold number. rewrite Hrun. cbn [bind].
    split; [reflexivity |]. intros code.
    rewrite En, Z.add_0_l in Hcells. exact (Hcells code).
  - intros j code Hlen Hlj. apply covers_startsWith; assumption.
  - intros bad Hbad Hlen. unfold readHuffTable. fold number.
    rewrite (readEntries_rejects buffer source (Z.to_nat number) 0 _ bad); [reflexivity | lia | exact Hlen].
Qed.

(** The theorem at a table of one entry, the code word 0x8000 of length 1
    with the key 0x2A: the code 0x8123, which starts with a 1, finds the
    length 1 and the key, and the code 0x7FFF, which starts with a 0, finds
    the error length.  A table whose second entry has a length of 17 bits
    is refused. *)
Lemma readHuffTable_lookup_witness :
  (exists t, readHuffTable [0; 0; 0x80; 0x00; 0x2a] 0 = Ok (t, 1)
             /\ ht_len t 0x8123 = 1 /\ ht_key t 0x8123 = 0x2a
             /\ ht_len t 0x7fff = kHuffmanErrorLen /\ ht_key t 0x7fff = 0x7f)
  /\ readHuffTable [1; 0; 0x80; 0x00; 0x2a; 16; 0; 0; 0] 0 = Throw "Huffman code error!!".
Proof.
  split.
  - assert (H0 : 0 <= byteAt [0; 0; 0x80; 0x00; 0x2a] 0) by (change (0 <= 0); lia).
    destruct (readHuffTable_lookup [0; 0; 0x80; 0x00; 0x2a] 0 H0) as (A & P & _).
    destruct A as (t & Hrun & Hcells).
    { intros j Hj. change (0 <= j < 1) in Hj. assert (j = 0) as -> by lia.
      change (1 <= 1 <= 16). lia. }
    assert (Hl0 : 1 <= entryLength [0; 0; 0x80; 0x00; 0x2a] 0 0 <= 16)
      by (change (1 <= 1 <= 16); lia).
    assert (Hj0 : leftJustified [0; 0; 0x80; 0x00; 0x2a] 0 0) by reflexivity.
    assert (Hyes : covers [0; 0; 0x80; 0x00; 0x2a] 0 0 0x8123).
    { apply (P 0 0x8123 Hl0 Hj0). split; [change (0 <= 33059 < 65536); lia | reflexivity]. }
    assert (Hnot : ~ covers [0; 0; 0x80; 0x00; 0x2a] 0 0 0x7fff).
    { intros C. apply (P 0 0x7fff Hl0 Hj0) in C. destruct C as [_ C].
      vm_compute in C. discriminate C. }
    exists t. split; [exact Hrun |].
    destruct (Hcells 0x8123) as [(j & Hj & _ & _ & Hk & Hl) | (Hno & _ & _)].
    + change (0 <= j < 1) in Hj. assert (j = 0) as -> by lia.
      split; [exact Hl | split; [exact Hk |]].
      destruct (Hcells 0x7fff) as [(j & Hj' & C & _) | (_ & Hk' & Hl')].
      * change (0 <= j < 1) in Hj'. assert (j = 0) as -> by lia. contradiction.
      * split; [exact Hl' | exact Hk'].
    + exfalso. apply (Hno 0); [change (0 <= 0 < 1); lia | exact Hyes].
  - assert (H1 : 0 <= byteAt [1; 0; 0x80; 0x00; 0x2a; 16; 0; 0; 0] 0)
      by (change (0 <= 1); lia).
    destruct (readHuffTable_lookup [1; 0; 0x80; 0x00; 0x2a; 16; 0; 0; 0] 0 H1)
      as (_ & _ & B).
    apply (B 1); [change (0 <= 1 < 2); lia | change (16 < 17); lia].
Defined.

(** In [readAllHuffmanTables] a table after the first that has fewer than
    four entries is not used: the table before it is copied over it.  So
    of three tables read, the second is the first when it is short, and the
    third is the second when it is short. *)
Theorem readTables_short_table_repeats (buffer : list Z) (tables r : huffTables) :
  readTables 3 0 0 buffer tables = Ok r ->
  let n0 := byteAt buffer 0 + 1 in
  let p1 := n0 * 4 + 1 in
  let n1 := byteAt buffer p1 + 1 in
  let p2 := p1 + (n1 * 4 + 1) in
  let n2 := byteAt buffer p2 + 1 in
  (exists t0, readHuffTable buffer 0 = Ok (t0, n0) /\ ht0 r = t0)
  /\ (n1 < 4 -> ht1 r = ht0 r)
  /\ (4 <= n1 -> exists t1, readHuffTable buffer p1 = Ok (t1, n1) /\ ht1 r = t1)
  /\ (n2 < 4 -> ht2 r = ht1 r)
  /\ (4 <= n2 -> exists t2, readHuffTable buffer p2 = Ok (t2, n2) /\ ht2 r = t2).
Proof.
  intros Hrun n0 p1 n1 p2 n2.
  assert (Num : forall src t n, readHuffTable buffer src = Ok (t, n) ->
                                n = byteAt buffer src + 1).
  { intros src t n H. unfold readHuffTable in H.
    destruct (readEntries _ _ _ _ _); cbn [bind] in H; try discriminate.
    injection H as _ <-. reflexivity. }
  cbn [readTables] in Hrun.
  destruct (readHuffTable buffer 0) as [[t0 m0] | | |] eqn:E0; cbn [bind] in Hrun;
    try discriminate.
  pose proof (Num _ _ _ E0) as ->. fold n0 in Hrun, E0.
  change (0 + (n0 * 4 + 1)) with (n0 * 4 + 1) in Hrun. fold p1 in Hrun.
  change ((n0 <? 4) && (0 >? 0)) with ((n0 <? 4) && false) in Hrun.
  rewrite andb_false_r in Hrun.
  destruct (readHuffTable buffer p1) as [[t1 m1] | | |] eqn:E1; cbn [bind] in Hrun;
    try discriminate.
  pose proof (Num _ _ _ E1) as ->. fold n1 in Hrun, E1. fold p2 in Hrun.
  change (0 + 1 >? 0) with true in Hrun. rewrite andb_true_r in Hrun.
  destruct (readHuffTable buffer p2) as [[t2 m2] | | |] eqn:E2; cbn [bind] in Hrun;
    try discriminate.
  pose proof (Num _ _ _ E2) as ->. fold n2 in Hrun, E2.
  change (0 + 1 + 1 >? 0) with true in Hrun. rewrite andb_true_r in Hrun.
  injection Hrun as <-.
  destruct (Z.ltb_spec n1 4) as [H1 | H1]; destruct (Z.ltb_spec n2 4) as [H2 | H2];
    cbn; (split; [exists t0; split; reflexivity |]);
    (split; [intros; try lia; reflexivity |]);
    (split; [intros; try lia; try (exists t1; split; reflexivity) |]);
    (split; [intros; try lia; reflexivity |]);
    intros; try lia; exists t2; split; reflexivity.
Qed.

Lemma readTables_short_table_repeats_witness :
  match readTables 3 0 0 [0; 0; 0x80; 0; 0x2a; 0; 0; 0x40; 0; 0x2b; 0; 0; 0x20; 0; 0x2c]
          oneCodeTables with
  | Ok r => ht1 r = ht0 r /\ ht2 r = ht1 r
  | _ => False
  end.
Proof.
  assert (K : match readTables 3 0 0
                       [0; 0; 0x80; 0; 0x2a; 0; 0; 0x40; 0; 0x2b; 0; 0; 0x20; 0; 0x2c]
                       oneCodeTables with
              | Ok _ => True
              | _ => False
              end) by (vm_compute; exact I).
  destruct (readTables 3 0 0
              [0; 0; 0x80; 0; 0x2a; 0; 0; 0x40; 0; 0x2b; 0; 0; 0x20; 0; 0x2c] oneCodeTables)
    as [r | | |] eqn:E; try contradiction.
  destruct (readTables_short_table_repeats _ _ _ E) as (_ & A & _ & B & _).
  split; [apply A | apply B]; vm_compute; reflexivity.
Defined.

(** * The start of a stream *)

Lemma byteAt_blit_front (sbuffer got : list Z) (i : Z) :
  0 <= i < Z.of_nat (List.length got) ->
  byteAt (blit sbuffer 0 got) i = nth (Z.to_nat i) got 0.
Proof.
  intros Hi. unfold byteAt, blit. destruct (Z.ltb_spec i 0); [lia |].
  cbn [Z.to_nat firstn app]. apply app_nth1. lia.
Qed.

Lemma shiftl_byte_bound (x k : Z) :
  0 <= x <= 255 -> 0 <= k <= 24 -> 0 <= Z.shiftl x k < 2 ^ 32.
Proof.
  intros Hx Hk. rewrite Z.shiftl_mul_pow2 by lia.
  assert (0 < 2 ^ k <= 2 ^ 24) by (split; [apply Z.pow_pos_nonneg; lia | apply Z.pow_le_mono_r; lia]).
  change (2 ^ 24) with 16777216 in *. change (2 ^ 32) with 4294967296. nia.
Qed.

Lemma initReadBuffer_run (buffer : ReadBuffer) (file : FILE) :
  1 <= remaining file ->
  let sb := blit (rb_sbuffer buffer) 0 (fst (fread KSectorSize file)) in
  initReadBuffer buffer file
  = Ok {| rb_sbuffer := sb;
          rb_fp := snd (fread KSectorSize file);
          rb_sum :=
            Z.lor (Z.lor (Z.lor (Z.lor 0 (Int.u32 (Z.shiftl (byteAt sb 0) 24)))
                               (Int.u32 (Z.shiftl (byteAt sb 1) 16)))
                         (Int.u32 (Z.shiftl (byteAt sb 2) 8)))
                  (Int.u32 (Z.shiftl (byteAt sb 3) 0));
          rb_bits := 32;
          rb_p := 4 |}.
Proof.
  intros Hrem sb. unfold initReadBuffer, PCDGetBits. cbn [rb_sbuffer rb_fp rb_sum rb_bits rb_p].
  change (Z.land (Int.u64 (Z.shiftl 0 0)) 0xffffffff) with 0.
  change (Int.u64 (0 - 0)) with 0.
  cbn [fillBits rb_sbuffer rb_fp rb_sum rb_bits rb_p].
  change (0 <=? 24) with true. change (KSectorSize >=? KSectorSize) with true. cbv iota.
  unfold readNextSector. cbn [rb_sbuffer rb_fp rb_sum rb_bits rb_p].
  change (Z.to_nat KSectorSize) with (S (Z.to_nat 2047)).
  rewrite readNextSectorLoop_first by (unfold KSectorSize; lia).
  destruct (Z.ltb_spec (remaining file) 1); [lia |].
  fold sb. cbn [bind rb_sbuffer rb_fp rb_sum rb_bits rb_p].
  change (Int.u64 (0 + 8)) with 8. change (8 <=? 24) with true.
  change (0 + 1 >=? KSectorSize) with false. cbv iota.
  cbn [bind rb_sbuffer rb_fp rb_sum rb_bits rb_p].
  change (Int.u64 (8 + 8)) with 16. change (16 <=? 24) with true.
  change (0 + 1 + 1 >=? KSectorSize) with false. cbv iota.
  cbn [bind rb_sbuffer rb_fp rb_sum rb_bits rb_p].
  change (Int.u64 (16 + 8)) with 24. change (24 <=? 24) with true.
  change (0 + 1 + 1 + 1 >=? KSectorSize) with false. cbv iota.
  cbn [bind rb_sbuffer rb_fp rb_sum rb_bits rb_p].
  reflexivity.
Qed.

Lemma initReadBuffer_at_end (buffer : ReadBuffer) (file : FILE) :
  remaining file < 1 ->
  initReadBuffer buffer file = Throw "Unexpected end of file in Huffman sequence".
Proof.
  intros Hrem. unfold initReadBuffer, PCDGetBits. cbn [rb_sbuffer rb_fp rb_sum rb_bits rb_p].
  change (Z.land (Int.u64 (Z.shiftl 0 0)) 0xffffffff) with 0.
  change (Int.u64 (0 - 0)) with 0.
  cbn [fillBits rb_sbuffer rb_fp rb_sum rb_bits rb_p].
  change (0 <=? 24) with true. change (KSectorSize >=? KSectorSize) with true. cbv iota.
  unfold readNextSector. cbn [rb_sbuffer rb_fp rb_sum rb_bits rb_p].
  change (Z.to_nat KSectorSize) with (S (Z.to_nat 2047)).
  rewrite readNextSectorLoop_first by (unfold KSectorSize; lia).
  destruct (Z.ltb_spec (remaining file) 1); [reflexivity | lia].
Qed.

Lemma shiftr_byte (x k : Z) : 0 <= x <= 255 -> 8 <= k -> Z.shiftr x k = 0.
Proof.
  intros Hx Hk. rewrite Z.shiftr_div_pow2 by lia. apply Z.div_small.
  assert (2 ^ 8 <= 2 ^ k) by (apply Z.pow_le_mono_r; lia).
  change (2 ^ 8) with 256 in *. lia.
Qed.

(** [initReadBuffer] on a file that has ended throws the end-of-file
    message.  On a file with four bytes or more to go it fills the 32-bit
    shift register with the next four bytes, the first in the top bits, as
    [getPCD32] would read them, so that the first code looked up is the
    first two bytes of the stream. *)
Theorem initReadBuffer_loads (buffer : ReadBuffer) (file : FILE) :
  (remaining file < 1 ->
   initReadBuffer buffer file = Throw "Unexpected end of file in Huffman sequence")
  /\ (4 <= remaining file ->
      let B i := fb_byte (f_data file) (f_pos file + i) in
      (forall i, 0 <= i < 4 -> 0 <= B i <= 255) ->
      exists b',
        initReadBuffer buffer file = Ok b'
        /\ rb_bits b' = 32 /\ rb_p b' = 4
        /\ rb_sum b' = getPCD32 [B 0; B 1; B 2; B 3] 0
        /\ currentCode b' = getPCD16 [B 0; B 1] 0).
Proof.
  split; [apply initReadBuffer_at_end |].
  intros Hrem B HB.
  rewrite (initReadBuffer_run buffer file ltac:(lia)). cbv zeta.
  set (sb := blit (rb_sbuffer buffer) 0 (fst (fread KSectorSize file))).
  assert (Hsb : forall i, 0 <= i < 4 -> byteAt sb i = B i).
  { intros i Hi. unfold sb.
    pose proof (fread_length KSectorSize file ltac:(unfold KSectorSize; lia)) as Hl.
    rewrite byteAt_blit_front by (rewrite Hl; unfold KSectorSize; lia).
    apply fread_nth; unfold KSectorSize; lia. }
  eexists. split; [reflexivity |]. cbn [rb_bits rb_p rb_sum].
  rewrite !Hsb by lia.
  pose proof (HB 0 ltac:(lia)) as H0. pose proof (HB 1 ltac:(lia)) as H1.
  pose proof (HB 2 ltac:(lia)) as H2. pose proof (HB 3 ltac:(lia)) as H3.
  pose proof (shiftl_byte_bound (B 0) 24 H0 ltac:(lia)) as S0.
  pose proof (shiftl_byte_bound (B 1) 16 H1 ltac:(lia)) as S1.
  pose proof (shiftl_byte_bound (B 2) 8 H2 ltac:(lia)) as S2.
  pose proof (shiftl_byte_bound (B 3) 0 H3 ltac:(lia)) as S3.
  rewrite !u32_small by assumption. rewrite Z.lor_0_l, Z.shiftl_0_r.
  split; [reflexivity |]. split; [reflexivity |]. split.
  - unfold getPCD32. cbn [byteAt Z.ltb Z.compare Z.add Pos.add Pos.succ Z.to_nat
                           Pos.to_nat Pos.iter_op Nat.add nth].
    change (byteAt [B 0; B 1; B 2; B 3] 0) with (B 0).
    change (byteAt [B 0; B 1; B 2; B 3] (0 + 1)) with (B 1).
    change (byteAt [B 0; B 1; B 2; B 3] (0 + 2)) with (B 2).
    change (byteAt [B 0; B 1; B 2; B 3] (0 + 3)) with (B 3).
    symmetry. apply u32_small.
    repeat apply lor_range; try lia.
  - unfold currentCode, getPCD16. cbn [rb_sum].
    change (byteAt [B 0; B 1] 0) with (B 0). change (byteAt [B 0; B 1] (0 + 1)) with (B 1).
    rewrite !Z.shiftr_lor.
    rewrite (Z.shiftr_shiftl_l (B 0) 24 16) by lia.
    rewrite (Z.shiftr_shiftl_l (B 1) 16 16) by lia.
    rewrite (Z.shiftr_shiftl_r (B 2) 8 16) by lia.
    change (24 - 16) with 8. change (16 - 16) with 0. change (16 - 8) with 8.
    rewrite Z.shiftl_0_r, (shiftr_byte (B 2) 8), (shiftr_byte (B 3) 16) by lia.
    rewrite !Z.lor_0_r.
    assert (R : 0 <= Z.lor (Z.shiftl (B 0) 8) (B 1) < 2 ^ 16).
    { apply lor_range; [lia | | lia].
      rewrite Z.shiftl_mul_pow2 by lia. change (2 ^ 8) with 256. lia. }
    rewrite u16_small by exact R.
    change 0xffff with (Z.ones 16). rewrite Z.land_ones by lia.
    apply Z.mod_small. exact R.
Qed.

Lemma initReadBuffer_loads_witness :
  exists b',
    initReadBuffer zeroBuffer (fopen (fileOfList strayStream)) = Ok b'
    /\ rb_sum b' = 0xffffe000 /\ currentCode b' = 0xffff.
Proof.
  destruct (initReadBuffer_loads zeroBuffer (fopen (fileOfList strayStream))) as [_ A].
  destruct A as (b' & Hrun & _ & _ & Hsum & Hcode).
  - change (4 <= 8). lia.
  - intros i Hi.
    assert (C : i = 0 \/ i = 1 \/ i = 2 \/ i = 3) by lia.
    destruct C as [-> | [-> | [-> | ->]]]; vm_compute; split; discriminate.
  - exists b'. split; [exact Hrun |]. split; [rewrite Hsum | rewrite Hcode];
      vm_compute; reflexivity.
Defined.

(** * Signatures *)

Lemma strncmpLit_zero (lit buffer : list Z) :
  (forall c, In c lit -> c <> 0) ->
  strncmpLit buffer lit = 0 <-> firstn (List.length lit) buffer = lit.
Proof.
  revert buffer. induction lit as [| c lit IH]; intros buffer Hnz.
  - destruct buffer; cbn; split; reflexivity.
  - assert (Hc : c <> 0) by (apply Hnz; left; reflexivity).
    assert (Hrest : forall x, In x lit -> x <> 0) by (intros x Hx; apply Hnz; right; exact Hx).
    destruct buffer as [| b buffer]; cbn [strncmpLit List.length firstn].
    + split; [intros H; lia | discriminate].
    + destruct (Z.eqb_spec b c) as [-> | Hne].
      * rewrite (IH buffer Hrest). split; [intros ->; reflexivity | intros H; injection H; auto].
      * split; [intros H; lia | intros H; injection H; intros; contradiction].
Qed.

(** [compareBytes] is 0 exactly when the buffer holds the characters of
    the string from the given offset on (the string holding no NUL). *)
Lemma compareBytes_zero (buffer : list Z) (off : Z) (str : string) :
  (forall c, In c (bytesOfString str) -> c <> 0) ->
  compareBytes buffer off str = 0
  <-> bytesFrom buffer off (Z.of_nat (List.length (bytesOfString str))) = bytesOfString str.
Proof.
  intros Hnz. unfold compareBytes, bytesFrom. rewrite Nat2Z.id.
  apply strncmpLit_zero. exact Hnz.
Qed.

Lemma bytesFrom_nth (buffer : list Z) (off len i : Z) :
  0 <= off -> 0 <= i < len ->
  nth (Z.to_nat i) (bytesFrom buffer off len) 0
  = if i + off <? Z.of_nat (List.length buffer) then byteAt buffer (off + i) else 0.
Proof.
  intros Hoff Hi. unfold bytesFrom, byteAt.
  destruct (Z.ltb_spec (off + i) 0); [lia |].
  destruct (Z.ltb_spec (i + off) (Z.of_nat (List.length buffer))) as [Hin | Hout].
  - rewrite nth_firstn.
    destruct (Nat.ltb_spec (Z.to_nat i) (Z.to_nat len)); [| lia].
    rewrite nth_skipn. f_equal. lia.
  - apply nth_overflow. rewrite length_firstn, length_skipn. lia.
Qed.

Lemma signature_bytes (pcdFile : list Z) (off : Z) (str : string) (i : Z) :
  0 <= off ->
  (forall c, In c (bytesOfString str) -> c <> 0) ->
  compareBytes pcdFile off str = 0 ->
  off + Z.of_nat (List.length (bytesOfString str)) <= Z.of_nat (List.length pcdFile) ->
  0 <= i < Z.of_nat (List.length (bytesOfString str)) ->
  byteAt pcdFile (off + i) = nth (Z.to_nat i) (bytesOfString str) 0.
Proof.
  intros Hoff Hnz Hcmp Hlen Hi.
  apply (compareBytes_zero pcdFile off str Hnz) in Hcmp.
  rewrite <- Hcmp. rewrite bytesFrom_nth by lia.
  destruct (Z.ltb_spec (i + off) (Z.of_nat (List.length pcdFile))); [reflexivity | lia].
Qed.

(** [parseFile] returns true only for a file that can be opened, has the
    6144 bytes of the header, carries the signature "PCD_IPI" at byte 2048
    or "PCD_OPA" at byte 0, and has the interleave ratio 1. *)
Theorem parseFile_accepts_only_image_packs (w : World) (in_file : string)
  (ipe_file : option string) (sNum : Z) (this : pcdDecode) :
  outcome (parseFile w in_file ipe_file sNum) this = Ok true ->
  exists file,
    w_fs w in_file = Some file
    /\ sizeofPCDFile <= fb_size file
    /\ ((forall i, 0 <= i < 7 ->
           fb_byte file (off_ipiSignature + i)
           = nth (Z.to_nat i) (bytesOfString "PCD_IPI") 0)
        \/ (forall i, 0 <= i < 7 ->
              fb_byte file (off_signature + i)
              = nth (Z.to_nat i) (bytesOfString "PCD_OPA") 0))
    /\ fb_byte file off_interleaveRatio = 1.
Proof.
  unfold parseFile.
  rewrite !(proj2 (after_outcome_bind_modify _ _ _)).
  destruct (w_fs w in_file) as [file |]; [| discriminate].
  destruct (w_malloc w SiteFileHeader) as [block |]; [| discriminate].
  rewrite (readBytes_long (fopen file) sizeofPCDFile ltac:(unfold sizeofPCDFile; lia)).
  pose proof (fread_length sizeofPCDFile (fopen file) ltac:(unfold sizeofPCDFile; lia)) as Hl.
  set (got := fst (fread sizeofPCDFile (fopen file))) in *.
  set (pcdFile := blit (blockBytes block sizeofPCDFile) 0 got).
  rewrite !(proj2 (after_outcome_bind_modify _ _ _)).
  destruct (Z.eqb_spec (Z.min sizeofPCDFile (remaining (fopen file))) sizeofPCDFile)
    as [Hcount | _]; [| discriminate].
  cbn [negb].
  assert (Hsize : sizeofPCDFile <= fb_size file).
  { unfold remaining in Hcount. cbn [fopen f_data f_pos] in Hcount.
    unfold sizeofPCDFile in *. lia. }
  rewrite Hcount in Hl.
  assert (Hbyte : forall i, 0 <= i < sizeofPCDFile -> byteAt pcdFile i = fb_byte file i).
  { intros i Hi. unfold pcdFile. rewrite byteAt_blit_front by lia.
    unfold got. rewrite fread_nth by lia. reflexivity. }
  assert (Hlen : Z.of_nat (List.length pcdFile) = sizeofPCDFile).
  { unfold pcdFile, blit, blockBytes. cbn [Z.to_nat firstn app].
    rewrite length_app, length_skipn, length_map, length_seq.
    unfold sizeofPCDFile in *. lia. }
  assert (Hnz : forall str, str = "PCD_IPI" \/ str = "PCD_OPA" ->
                            forall c, In c (bytesOfString str) -> c <> 0).
  { intros str [-> | ->] c Hc; cbn in Hc;
      repeat (destruct Hc as [<- | Hc]; [discriminate |]); contradiction. }
  assert (E1 : off_ipiSignature = 2048) by reflexivity.
  assert (E2 : off_signature = 0) by reflexivity.
  assert (E3 : off_interleaveRatio = 3593) by reflexivity.
  assert (E4 : sizeofPCDFile = 6144) by reflexivity.
  assert (L1 : Z.of_nat (List.length (bytesOfString "PCD_IPI")) = 7) by reflexivity.
  assert (L2 : Z.of_nat (List.length (bytesOfString "PCD_OPA")) = 7) by reflexivity.
  destruct (Z.eqb_spec (compareBytes pcdFile off_ipiSignature "PCD_IPI") 0) as [Hipi | _];
    [| destruct (Z.eqb_spec (compareBytes pcdFile off_signature "PCD_OPA") 0)
         as [Hopa | _]; [| discriminate]]; cbn [negb andb];
    (destruct (Z.eqb_spec (byteAt pcdFile off_interleaveRatio) 1) as [Hratio | _];
       [| discriminate]); cbn [negb]; intros _;
    exists file; (split; [reflexivity |]); (split; [exact Hsize |]);
    (split; [| rewrite <- Hbyte by lia; exact Hratio]).
  - left. intros i Hi. rewrite <- Hbyte by lia.
    apply signature_bytes; try (apply Hnz; auto); try assumption; lia.
  - right. intros i Hi. rewrite <- Hbyte by lia.
    apply signature_bytes; try (apply Hnz; auto); try assumption; lia.
Qed.

Lemma parseFile_accepts_only_image_packs_witness :
  exists file,
    w_fs disc "img0001.pcd" = Some file /\ sizeofPCDFile <= fb_size file
    /\ fb_byte file off_interleaveRatio = 1.
Proof.
  assert (H : outcome (parseFile disc "img0001.pcd" None kBase16) freshDecoder = Ok true)
    by (vm_compute; reflexivity).
  destruct (parseFile_accepts_only_image_packs disc "img0001.pcd" None kBase16
              freshDecoder H) as (file & Hfs & Hsize & _ & Hratio).
  exists file. split; [exact Hfs | split; [exact Hsize | exact Hratio]].
Defined.

(** * Film term data *)

Lemma findFilm_spec (rows : list (Z * Z * Z * Z)) (index ftn : Z) :
  let r := findFilm rows index ftn in
  index <= r <= index + Z.of_nat (List.length rows)
  /\ (r < index + Z.of_nat (List.length rows) ->
      fst (fst (fst (nth (Z.to_nat (r - index)) rows (0, 0, 0, 0)))) = ftn)
  /\ (forall i, index <= i < r ->
        fst (fst (fst (nth (Z.to_nat (i - index)) rows (0, 0, 0, 0)))) <> ftn).
Proof.
  revert index. induction rows as [| [[[f pc] gc] md] rows IH]; intros index; cbn [findFilm].
  - cbn. split; [lia |]. split; intros; lia.
  - destruct (Z.eqb_spec ftn f) as [-> | Hne].
    + cbn [List.length]. split; [lia |]. split.
      * intros _. rewrite Z.sub_diag. reflexivity.
      * intros i Hi. lia.
    + specialize (IH (index + 1)). cbv zeta in IH. destruct IH as (Hr & Hf & Hn).
      cbn [List.length]. split; [lia |]. split.
      * intros Hlt.
        replace (Z.to_nat (findFilm rows (index + 1) ftn - index))
          with (S (Z.to_nat (findFilm rows (index + 1) ftn - (index + 1)))) by lia.
        cbn [nth]. apply Hf. lia.
      * intros i Hi. destruct (Z.eq_dec i index) as [-> | Hi'].
        -- rewrite Z.sub_diag. cbn. congruence.
        -- replace (Z.to_nat (i - index)) with (S (Z.to_nat (i - (index + 1)))) by lia.
           cbn [nth]. apply Hn. lia.
Qed.

(** [getFilmTermData] and the film name of [getMetadata] go by the same
    look-up, the first row of [PCDFTN_PC_GC_Medium] whose film term number
    is the one in the header.  When no row has it, the three values are 0
    and the name is "Unknown film".  Otherwise the FTN returned is the one
    in the header, it is not 0, the PC and GC are those of that first row,
    and the name is the entry of [PCDMediumNames] beside it. *)
Theorem getFilmTermData_agrees_with_metadata (asctimeLocal : Z -> string)
  (this : pcdDecode) (pcdFile : list Z) (value : string) :
  pcdFileHeader this = Some pcdFile ->
  compareBytes pcdFile off_ipiSignature "PCD_IPI" = 0 ->
  compareBytes pcdFile off_sbaSignature "SBA" = 0 ->
  let name := snd (getMetadata asctimeLocal this 16 None value) in
  let rowFTN i := fst (fst (fst (nth (Z.to_nat i) PCDFTN_PC_GC_Medium (0, 0, 0, 0)))) in
  let '(ftn, pc, gc) := getFilmTermData this in
  ((forall i, 0 <= i < kMaxPCDFilms -> rowFTN i <> getPCD16 pcdFile off_sbaFTN)
   /\ name = "Unknown film" /\ (ftn, pc, gc) = (0, 0, 0))
  \/ (name <> "Unknown film" /\ ftn = getPCD16 pcdFile off_sbaFTN /\ ftn <> 0
      /\ exists index medium,
           0 <= index < kMaxPCDFilms
           /\ (forall i, 0 <= i < index -> rowFTN i <> ftn)
           /\ nth (Z.to_nat index) PCDFTN_PC_GC_Medium (0, 0, 0, 0) = (ftn, pc, gc, medium)
           /\ name = stringTable PCDMediumNames index).
Proof.
  intros Hh Hipi Hsba name rowFTN. subst name rowFTN.
  unfold getMetadata, getFilmTermData, hasHeader, headerBytes. rewrite Hh.
  change (16 >=? kMaxPCDMetadata) with false. cbn [orb negb snd].
  rewrite Hipi. change (0 =? 0) with true. cbv iota.
  unfold metadataValue. rewrite Hsba. change (0 =? 0) with true. cbn [negb]. cbv iota.
  set (ftn := getPCD16 pcdFile off_sbaFTN).
  pose proof (findFilm_spec PCDFTN_PC_GC_Medium 0 ftn) as S. cbv zeta in S.
  set (index := findFilm PCDFTN_PC_GC_Medium 0 ftn) in *.
  change (Z.of_nat (List.length PCDFTN_PC_GC_Medium)) with kMaxPCDFilms in S.
  destruct S as (Hr & Hf & Hfirst).
  assert (Hfirst' : forall i, 0 <= i < index ->
            fst (fst (fst (nth (Z.to_nat i) PCDFTN_PC_GC_Medium (0, 0, 0, 0)))) <> ftn).
  { intros i Hi. specialize (Hfirst i Hi). rewrite Z.sub_0_r in Hfirst. exact Hfirst. }
  destruct (Z.geb_spec index kMaxPCDFilms) as [Hge | Hlt].
  - apply or_introl. split; [| split; reflexivity].
    intros i Hi. apply Hfirst'. lia.
  - specialize (Hf ltac:(lia)). rewrite Z.sub_0_r in Hf. unfold filmRow.
    assert (Hnames : forallb (fun n => negb (String.eqb n "Unknown film")) PCDMediumNames
                     = true) by (vm_compute; reflexivity).
    assert (Hftns : forallb (fun row => negb (fst (fst (fst row)) =? 0)) PCDFTN_PC_GC_Medium
                    = true) by (vm_compute; reflexivity).
    assert (Hlen : List.length PCDMediumNames = Z.to_nat kMaxPCDFilms) by reflexivity.
    assert (Hin : In (nth (Z.to_nat index) PCDFTN_PC_GC_Medium (0, 0, 0, 0))
                     PCDFTN_PC_GC_Medium).
    { apply nth_In. change (List.length PCDFTN_PC_GC_Medium) with (Z.to_nat kMaxPCDFilms).
      lia. }
    rewrite forallb_forall in Hftns. specialize (Hftns _ Hin).
    destruct (nth (Z.to_nat index) PCDFTN_PC_GC_Medium (0, 0, 0, 0)) as [[[f pc] gc] md]
      eqn:Erow.
    cbn [fst] in Hf, Hftns. subst f. apply or_intror.
    split; [| split; [reflexivity | split]].
    + unfold stringTable. destruct (Z.ltb_spec index 0); [lia |].
      rewrite forallb_forall in Hnames.
      specialize (Hnames (nth (Z.to_nat index) PCDMediumNames "")
                    ltac:(apply nth_In; rewrite Hlen; lia)).
      intros E. rewrite E in Hnames. discriminate Hnames.
    + intros E. rewrite E in Hftns. discriminate Hftns.
    + exists index, md. split; [lia |]. split; [exact Hfirst' |].
      split; [exact Erow | reflexivity].
Qed.

(** The theorem at [filmDecoder], whose header carries the film term
    number 7: the fourth row of the table. *)
Lemma getFilmTermData_agrees_with_metadata_witness :
  getFilmTermData filmDecoder = (7, 18, 3)
  /\ snd (getMetadata (fun _ => "") filmDecoder 16 None "") = "3M Scotch HR 200 Gen 2".
Proof.
  assert (Hipi : compareBytes filmHeader off_ipiSignature "PCD_IPI" = 0)
    by (vm_compute; reflexivity).
  assert (Hsba : compareBytes filmHeader off_sbaSignature "SBA" = 0)
    by (vm_compute; reflexivity).
  pose proof (getFilmTermData_agrees_with_metadata (fun _ => "") filmDecoder filmHeader ""
                eq_refl Hipi Hsba) as H.
  cbv zeta in H.
  change (getPCD16 filmHeader off_sbaFTN) with 7 in H.
  destruct (getFilmTermData filmDecoder) as [[ftn pc] gc].
  destruct H as [(Hnone & _) | (_ & Hftn & _ & index & medium & Hi & Hfirst & Hrow & Hname)].
  - exfalso. apply (Hnone 3); [change (0 <= 3 < 219); lia | reflexivity].
  - subst ftn.
    assert (Hle : index <= 3).
    { destruct (Z.le_gt_cases index 3) as [L | G]; [exact L |].
      exfalso. apply (Hfirst 3); [lia | reflexivity]. }
    assert (C : index = 0 \/ index = 1 \/ index = 2 \/ index = 3) by lia.
    destruct C as [-> | [-> | [-> | ->]]];
      try (exfalso; vm_compute in Hrow; congruence).
    rewrite Hname. vm_compute in Hrow. injection Hrow as <- <- _.
    split; reflexivity.
Defined.

(** * Applying the deltas *)

Lemma upResBuffer_null base dest width height method hasDeltas :
  isNull (upResBuffer base dest width height method hasDeltas) = isNull dest.
Proof.
  unfold upResBuffer. destruct dest; [| reflexivity].
  destruct (method >=? kUpResIterpolate); reflexivity.
Qed.

Lemma postParseChroma_slot fresh chroma delta width height method :
  snd (postParseChroma fresh chroma delta width height method) = None.
Proof.
  unfold postParseChroma.
  match goal with |- context [upResBuffer ?a ?b ?c ?d ?e ?f] =>
    destruct (upResBuffer a b c d e f) as [m |] end; reflexivity.
Qed.

(** One turn of the loop leaves no luma delta at its scene, changes no
    other scene, and keeps the header. *)
Lemma postParseScene_deltas heap s this :
  data0 (deltas (postParseScene heap s this) (s - k4Base)) = None
  /\ (forall i, i <> s - k4Base ->
        deltas (postParseScene heap s this) i = deltas this i)
  /\ pcdFileHeader (postParseScene heap s this) = pcdFileHeader this.
Proof.
  unfold postParseScene.
  destruct (data0 (deltas this (s - k4Base))) as [d0 |] eqn:E0; cbn [isNull negb].
  - rewrite <- E0 at 1.
    pose proof (upResBuffer_null (luma this) (data0 (deltas this (s - k4Base)))
                  (PCDLumaWidth s) (PCDLumaHeight s)
                  (pcdMin kUpResIterpolate (upResMethod this)) true) as N.
    rewrite E0 in N. rewrite E0.
    destruct (upResBuffer (luma this) (Some d0) _ _ _ true) as [l |]; [| discriminate N].
    cbn [isNull negb].
    destruct (postParseChroma _ (chroma1 this) _ _ _ _) as [c1' d1'].
    destruct (postParseChroma _ (chroma2 this) _ _ _ _) as [c2' d2'].
    cbn [deltas set_deltas set_planes pcdFileHeader]. rewrite Z.eqb_refl. cbn [data0].
    split; [reflexivity |]. split; [| reflexivity].
    intros i Hi. destruct (Z.eqb_spec i (s - k4Base)); [contradiction | reflexivity].
  - split; [exact E0 |]. split; reflexivity.
Qed.

Lemma postParse_luma_deltas heap this :
  forall i, 0 <= i <= 2 -> pcdFileHeader this <> None ->
            data0 (deltas (postParse heap this) i) = None.
Proof.
  intros i Hi Hh. unfold postParse, hasHeader.
  destruct (pcdFileHeader this) as [h |] eqn:Eh; [| contradiction]. cbn [negb].
  change (Z.to_nat (k64Base - k4Base + 1)) with 3%nat. cbn [postParseLoop].
  set (t1 := postParseScene heap k4Base this).
  set (t2 := postParseScene heap (k4Base + 1) t1).
  set (t3 := postParseScene heap (k4Base + 1 + 1) t2).
  destruct (postParseScene_deltas heap k4Base this) as (A1 & B1 & _). fold t1 in A1, B1.
  destruct (postParseScene_deltas heap (k4Base + 1) t1) as (A2 & B2 & _). fold t2 in A2, B2.
  destruct (postParseScene_deltas heap (k4Base + 1 + 1) t2) as (A3 & B3 & _).
  fold t3 in A3, B3.
  change (k4Base - k4Base) with 0 in *. change (k4Base + 1 - k4Base) with 1 in *.
  change (k4Base + 1 + 1 - k4Base) with 2 in *.
  assert (C : i = 0 \/ i = 1 \/ i = 2) by lia.
  destruct C as [-> | [-> | ->]].
  - rewrite B3, B2 by lia. exact A1.
  - rewrite B3 by lia. exact A2.
  - exact A3.
Qed.

Lemma postParse_header heap this : pcdFileHeader (postParse heap this) = pcdFileHeader this.
Proof.
  unfold postParse, hasHeader.
  destruct (pcdFileHeader this) as [h |] eqn:Eh; [| cbn [negb]; exact Eh]. cbn [negb].
  change (Z.to_nat (k64Base - k4Base + 1)) with 3%nat. cbn [postParseLoop].
  destruct (postParseScene_deltas heap (k4Base + 1 + 1)
              (postParseScene heap (k4Base + 1) (postParseScene heap k4Base this)))
    as (_ & _ & ->).
  destruct (postParseScene_deltas heap (k4Base + 1) (postParseScene heap k4Base this))
    as (_ & _ & ->).
  destruct (postParseScene_deltas heap k4Base this) as (_ & _ & ->). exact Eh.
Qed.

(** [postParse] uses up every luma delta: after it the three pointers
    [deltas[i][0]] are null.  So a second call finds nothing to apply and
    leaves the decoder as it is, whatever [malloc] would return: the deltas
    are applied once, not once per call.  On a decoder without a file
    [postParse] does nothing. *)
Theorem postParse_idempotent (heap heap' : PostParseHeap) (this : pcdDecode) :
  postParse heap' (postParse heap this) = postParse heap this
  /\ (pcdFileHeader this <> None ->
      forall i, 0 <= i <= 2 -> data0 (deltas (postParse heap this) i) = None)
  /\ (pcdFileHeader this = None -> postParse heap this = this).
Proof.
  split; [| split].
  - destruct (pcdFileHeader this) as [h |] eqn:Eh.
    + pose proof (postParse_luma_deltas heap this) as D.
      assert (Hh : pcdFileHeader this <> None) by (rewrite Eh; discriminate).
      set (t := postParse heap this) in *.
      unfold postParse at 1. unfold hasHeader. fold t.
      replace (pcdFileHeader t) with (Some h)
        by (unfold t; rewrite postParse_header; symmetry; exact Eh).
      cbn [negb]. change (Z.to_nat (k64Base - k4Base + 1)) with 3%nat.
      cbn [postParseLoop].
      assert (Skip : forall s u, 0 <= s - k4Base <= 2 ->
                                 data0 (deltas u (s - k4Base)) = None ->
                                 postParseScene heap' s u = u).
      { intros s u _ E. unfold postParseScene. rewrite E. reflexivity. }
      rewrite (Skip k4Base t) by (try apply D; try assumption; unfold k4Base; lia).
      rewrite (Skip (k4Base + 1) t) by (try apply D; try assumption; unfold k4Base; lia).
      rewrite (Skip (k4Base + 1 + 1) t) by (try apply D; try assumption; unfold k4Base; lia).
      reflexivity.
    + unfold postParse, hasHeader. rewrite Eh. cbn [negb]. rewrite Eh. reflexivity.
  - intros Hh i Hi. apply postParse_luma_deltas; assumption.
  - intros Hh. unfold postParse, hasHeader. rewrite Hh. reflexivity.
Qed.

(** * The bilinear interpolator *)

Section UpRes.

Variables (bm : mem) (W H : Z) (hd : bool).
Hypothesis W_pos : 0 < W.
Hypothesis H_nonneg : 0 <= H.
Hypothesis fits : W * H < 2 ^ 32.

Variable rd : upResInterpolateData.
Hypothesis rd_base : ur_base rd = Some bm.
Hypothesis rd_width : ur_width rd = W.
Hypothesis rd_height : ur_height rd = H.
Hypothesis rd_hasDeltas : ur_hasDeltas rd = hd.

Lemma halves : 0 <= Z.shiftr W 1 /\ 2 * Z.shiftr W 1 <= W
               /\ 0 <= Z.shiftr H 1 /\ 2 * Z.shiftr H 1 <= H.
Proof.
  rewrite !Z.shiftr_div_pow2 by lia. change (2 ^ 1) with 2.
  Z.to_euclidean_division_equations. lia.
Qed.

Lemma upResIndex_range r c dy dx :
  0 <= r < Z.shiftr H 1 -> 0 <= c < Z.shiftr W 1 -> 0 <= dy <= 1 -> 0 <= dx <= 1 ->
  0 <= upResIndex W r c dy dx < W * H.
Proof.
  intros Hr Hc Hdy Hdx. pose proof halves as (A & B & C & D). unfold upResIndex. nia.
Qed.

Lemma upResIndex_inj r c dy dx r' c' dy' dx' :
  0 <= c < Z.shiftr W 1 -> 0 <= c' < Z.shiftr W 1 ->
  0 <= dy <= 1 -> 0 <= dx <= 1 -> 0 <= dy' <= 1 -> 0 <= dx' <= 1 ->
  upResIndex W r c dy dx = upResIndex W r' c' dy' dx' ->
  r = r' /\ c = c' /\ dy = dy' /\ dx = dx'.
Proof.
  intros Hc Hc' Hdy Hdx Hdy' Hdx' E. pose proof halves as (A & B & _ & _).
  unfold upResIndex in E.
  apply raster_index_inj in E; [| lia | lia]. lia.
Qed.

Lemma putPixel_cells index sum dest j :
  putPixel rd index sum dest j
  = if j =? index then deltaPixel hd sum (dest index) else dest j.
Proof. unfold putPixel, store, deltaPixel. rewrite rd_hasDeltas. reflexivity. Qed.

(** The four pixels written for one base pixel. *)
Lemma upResPixel_cells r c dest :
  0 <= r < Z.shiftr H 1 -> 0 <= c < Z.shiftr W 1 ->
  (forall dy dx, 0 <= dy <= 1 -> 0 <= dx <= 1 ->
     upResPixel rd r c dest (upResIndex W r c dy dx)
     = deltaPixel hd (bilinear bm (Z.shiftr W 1) (Z.shiftr H 1) r c dy dx)
         (dest (upResIndex W r c dy dx)))
  /\ (forall j, (forall dy dx, 0 <= dy <= 1 -> 0 <= dx <= 1 -> j <> upResIndex W r c dy dx) ->
        upResPixel rd r c dest j = dest j).
Proof.
  intros Hr Hc. pose proof halves as (A & B & C & D).
  assert (P32 : 2 ^ 32 = 4294967296) by reflexivity.
  assert (I00 := upResIndex_range r c 0 0 Hr Hc ltac:(lia) ltac:(lia)).
  assert (I01 := upResIndex_range r c 0 1 Hr Hc ltac:(lia) ltac:(lia)).
  assert (I10 := upResIndex_range r c 1 0 Hr Hc ltac:(lia) ltac:(lia)).
  assert (I11 := upResIndex_range r c 1 1 Hr Hc ltac:(lia) ltac:(lia)).
  unfold upResIndex in I00, I01, I10, I11.
  unfold upResPixel. rewrite rd_base, rd_width, rd_height. cbn [deref].
  set (w2 := Z.shiftr W 1) in *. set (h2 := Z.shiftr H 1) in *.
  rewrite !Z.shiftl_mul_pow2 by lia. change (2 ^ 1) with 2.
  rewrite (u32_small (c + 1)), (u32_small (w2 - 1)), (u32_small (r + 1)),
    (u32_small (h2 - 1)) by nia.
  replace (pcdMin (c + 1) (w2 - 1)) with (Z.min (c + 1) (w2 - 1))
    by (unfold pcdMin; destruct (Z.ltb_spec (c + 1) (w2 - 1)); lia).
  replace (pcdMin (r + 1) (h2 - 1)) with (Z.min (r + 1) (h2 - 1))
    by (unfold pcdMin; destruct (Z.ltb_spec (r + 1) (h2 - 1)); lia).
  set (cp := Z.min (c + 1) (w2 - 1)). set (rp := Z.min (r + 1) (h2 - 1)).
  assert (Hcp : 0 <= cp < w2) by (unfold cp; lia).
  assert (Hrp : 0 <= rp < h2) by (unfold rp; lia).
  rewrite (u32_small (c + r * w2)), (u32_small (cp + r * w2)),
    (u32_small (c + rp * w2)), (u32_small (cp + rp * w2)) by nia.
  rewrite (u32_small (c * 2 + r * 2 * W)), (u32_small (c * 2 + 1 + r * 2 * W)),
    (u32_small (c * 2 + (r * 2 + 1) * W)), (u32_small (c * 2 + 1 + (r * 2 + 1) * W)) by lia.
  replace (c * 2 + r * 2 * W) with (upResIndex W r c 0 0) by (unfold upResIndex; lia).
  replace (c * 2 + 1 + r * 2 * W) with (upResIndex W r c 0 1) by (unfold upResIndex; lia).
  replace (c * 2 + (r * 2 + 1) * W) with (upResIndex W r c 1 0) by (unfold upResIndex; lia).
  replace (c * 2 + 1 + (r * 2 + 1) * W) with (upResIndex W r c 1 1)
    by (unfold upResIndex; lia).
  assert (N : forall dy dx dy' dx', 0 <= dy <= 1 -> 0 <= dx <= 1 -> 0 <= dy' <= 1 ->
                0 <= dx' <= 1 -> (dy, dx) <> (dy', dx') ->
                (upResIndex W r c dy dx =? upResIndex W r c dy' dx') = false).
  { intros dy dx dy' dx' H1 H2 H3 H4 Hne. apply Z.eqb_neq. intros E.
    apply upResIndex_inj in E; try assumption. destruct E as (_ & _ & -> & ->).
    apply Hne. reflexivity. }
  split.
  - intros dy dx Hdy Hdx. rewrite !putPixel_cells. unfold bilinear.
    fold cp rp.
    assert (Cy : dy = 0 \/ dy = 1) by lia. assert (Cx : dx = 0 \/ dx = 1) by lia.
    destruct Cy as [-> | ->], Cx as [-> | ->];
      rewrite ?Z.eqb_refl, ?N by (try lia; intros X; discriminate X);
      cbn [Z.eqb andb]; reflexivity.
  - intros j Hj. rewrite !putPixel_cells.
    rewrite (proj2 (Z.eqb_neq j _) (Hj 0 0 ltac:(lia) ltac:(lia))),
      (proj2 (Z.eqb_neq j _) (Hj 0 1 ltac:(lia) ltac:(lia))),
      (proj2 (Z.eqb_neq j _) (Hj 1 0 ltac:(lia) ltac:(lia))),
      (proj2 (Z.eqb_neq j _) (Hj 1 1 ltac:(lia) ltac:(lia))).
    reflexivity.
Qed.

Lemma interpolated_none (R : Z -> Z -> Prop) dest :
  (forall r c, ~ R r c) -> interpolated bm W H hd R dest dest.
Proof.
  intros Hn. split.
  - intros r c dy dx HR. destruct (Hn r c HR).
  - reflexivity.
Qed.

Lemma interpolated_same (R R' : Z -> Z -> Prop) dest out :
  (forall r c, R r c <-> R' r c) ->
  interpolated bm W H hd R dest out -> interpolated bm W H hd R' dest out.
Proof.
  intros Hiff [V F]. split.
  - intros r c dy dx HR. apply V, Hiff, HR.
  - intros j Hj. apply F. intros r c dy dx HR. apply Hj, Hiff, HR.
Qed.

Lemma interpolated_join (R1 R2 : Z -> Z -> Prop) dest mid out :
  (forall r c, R1 r c -> 0 <= c < Z.shiftr W 1) ->
  (forall r c, R2 r c -> 0 <= c < Z.shiftr W 1) ->
  (forall r c, R1 r c -> R2 r c -> False) ->
  interpolated bm W H hd R1 dest mid -> interpolated bm W H hd R2 mid out ->
  interpolated bm W H hd (fun r c => R1 r c \/ R2 r c) dest out.
Proof.
  intros C1 C2 Hdis [V1 F1] [V2 F2]. split.
  - intros r c dy dx [HR | HR] Hdy Hdx.
    + rewrite F2.
      * apply V1; assumption.
      * intros r' c' dy' dx' HR' Hdy' Hdx' E.
        apply upResIndex_inj in E; eauto.
        destruct E as (-> & -> & _). eapply Hdis; eassumption.
    + rewrite V2 by assumption. f_equal. apply F1.
      intros r' c' dy' dx' HR' Hdy' Hdx' E.
      apply upResIndex_inj in E; eauto.
      destruct E as (-> & -> & _). eapply Hdis; eassumption.
  - intros j Hj. rewrite F2.
    + apply F1. intros r c dy dx HR. apply Hj. left. exact HR.
    + intros r c dy dx HR. apply Hj. right. exact HR.
Qed.

Lemma upResPixel_interpolated r c dest :
  0 <= r < Z.shiftr H 1 -> 0 <= c < Z.shiftr W 1 ->
  interpolated bm W H hd (fun r' c' => r' = r /\ c' = c) dest (upResPixel rd r c dest).
Proof.
  intros Hr Hc. destruct (upResPixel_cells r c dest Hr Hc) as [V F]. split.
  - intros r' c' dy dx [-> ->]. apply V.
  - intros j Hj. apply F. intros dy dx Hdy Hdx. apply Hj; auto.
Qed.

(** One row of the base plane. *)
Lemma upResColumns_interpolated r n : forall c0 dest,
  0 <= r < Z.shiftr H 1 -> 0 <= c0 -> c0 + Z.of_nat n <= Z.shiftr W 1 ->
  interpolated bm W H hd (fun r' c' => r' = r /\ c0 <= c' < c0 + Z.of_nat n)
    dest (upResColumns rd r n c0 dest).
Proof.
  induction n as [| n IH]; intros c0 dest Hr Hc0 Hn.
  - apply interpolated_none. intros r' c'. cbn. lia.
  - cbn [upResColumns].
    eapply interpolated_same;
      [| eapply interpolated_join;
         [ | | | apply (upResPixel_interpolated r c0 dest); lia
           | apply (IH (c0 + 1)); lia ] ].
    + intros r' c'. cbn beta. lia.
    + cbn beta. lia.
    + cbn beta. lia.
    + cbn beta. lia.
Qed.

(** A band of rows of the base plane. *)
Lemma upResRows_interpolated n : forall r0 dest,
  0 <= r0 -> r0 + Z.of_nat n <= Z.shiftr H 1 ->
  interpolated bm W H hd
    (fun r c => r0 <= r < r0 + Z.of_nat n /\ 0 <= c < Z.shiftr W 1)
    dest (upResRows rd n r0 dest).
Proof.
  pose proof halves as (A & _).
  induction n as [| n IH]; intros r0 dest Hr0 Hn.
  - apply interpolated_none. intros r c. cbn. lia.
  - cbn [upResRows]. rewrite rd_width.
    eapply interpolated_same;
      [| eapply interpolated_join;
         [ | | | apply (upResColumns_interpolated r0 (Z.to_nat (Z.shiftr W 1)) 0 dest); lia
           | apply (IH (r0 + 1)); lia ] ].
    + intros r c. cbn beta. lia.
    + cbn beta. lia.
    + cbn beta. lia.
    + cbn beta. lia.
Qed.

Lemma upResInterpolate_interpolated dest :
  0 <= Z.shiftr (ur_startRow rd) 1 <= Z.shiftr (ur_endRow rd) 1 ->
  Z.shiftr (ur_endRow rd) 1 <= Z.shiftr H 1 ->
  interpolated bm W H hd
    (fun r c => Z.shiftr (ur_startRow rd) 1 <= r < Z.shiftr (ur_endRow rd) 1
                /\ 0 <= c < Z.shiftr W 1)
    dest (upResInterpolate rd dest).
Proof.
  intros Hs He. unfold upResInterpolate.
  eapply interpolated_same; [| apply upResRows_interpolated; lia].
  intros r c. cbn beta. lia.
Qed.

End UpRes.

(** The bands of the threads, run one after the other. *)
Lemma upResThreads_interpolated bm W H hd :
  0 < W -> 0 <= H -> W * H < 2 ^ 32 ->
  forall n t dest, 0 <= t -> t + Z.of_nat n <= 8 ->
  interpolated bm W H hd
    (fun r c => Z.shiftr (H / 8 * t) 1 <= r < Z.shiftr (H / 8 * (t + Z.of_nat n)) 1
                /\ 0 <= c < Z.shiftr W 1)
    dest (upResThreads n t (H / 8 * t) (Some bm) W H hd dest).
Proof.
  intros HW HH Hfit.
  assert (P32 : 2 ^ 32 = 4294967296) by reflexivity.
  assert (Hq : 0 <= H / 8 /\ 8 * (H / 8) <= H)
    by (Z.to_euclidean_division_equations; lia).
  assert (Hlt : H < 2 ^ 32) by nia.
  assert (Mono : forall a b, 0 <= a <= b -> 0 <= Z.shiftr a 1 <= Z.shiftr b 1).
  { intros a b Hab. rewrite !Z.shiftr_div_pow2 by lia. change (2 ^ 1) with 2.
    Z.to_euclidean_division_equations. lia. }
  induction n as [| n IH]; intros t dest Ht Hn.
  - apply interpolated_none; try assumption. intros r c.
    replace (t + Z.of_nat 0) with t by lia. lia.
  - cbn [upResThreads]. unfold kNumThreads.
    rewrite Z.quot_div_nonneg by lia.
    rewrite (u32_small (H / 8)) by lia.
    rewrite (u32_small (H / 8 * (t + 1))) by nia.
    pose proof (Mono (H / 8 * t) (H / 8 * (t + 1)) ltac:(nia)) as M1.
    pose proof (Mono (H / 8 * (t + 1)) (H / 8 * (t + Z.of_nat (S n))) ltac:(nia)) as M2.
    pose proof (Mono (H / 8 * (t + 1)) H ltac:(nia)) as M3.
    replace (t + Z.of_nat (S n)) with (t + 1 + Z.of_nat n) in * by lia.
    set (rd := {| ur_base := Some bm; ur_width := W; ur_height := H;
                  ur_hasDeltas := hd; ur_startRow := H / 8 * t;
                  ur_endRow := H / 8 * (t + 1) |}).
    pose proof (upResInterpolate_interpolated bm W H hd HW HH Hfit rd
                  eq_refl eq_refl eq_refl eq_refl dest
                  ltac:(cbn [rd ur_startRow ur_endRow]; lia)
                  ltac:(cbn [rd ur_startRow ur_endRow]; lia)) as B1.
    cbn [rd ur_startRow ur_endRow] in B1.
    pose proof (IH (t + 1) (upResInterpolate rd dest) ltac:(lia) ltac:(lia)) as B2.
    eapply interpolated_same; try assumption;
      [| eapply interpolated_join; try assumption; [ | | | exact B1 | exact B2 ] ].
    + intros r c. cbn beta. lia.
    + cbn beta. lia.
    + cbn beta. lia.
    + cbn beta. lia.
Qed.

(** With the interpolating method, [upResBuffer] on a base plane and
    a destination of [W] columns and [H] rows ([W * H] below [2^32]) gives
    the destination back with, for every base pixel in a row below
    [4 * (H / 8)] and a column below [W / 2], the four cells at the doubled
    position holding the bilinear interpolation of the base plane, with the
    delta the cell held added when there are deltas, cut to a byte; every
    other cell is as it was.  For [H] a multiple of eight this is the whole
    plane; otherwise the rows from [8 * (H / 8)] on are not written. *)
Theorem upResBuffer_interpolates bm dm W H method hd :
  0 < W -> 0 <= H -> W * H < 2 ^ 32 -> kUpResIterpolate <= method ->
  exists out,
    upResBuffer (Some bm) (Some dm) W H method hd = Some out
    /\ (forall r c dy dx,
          0 <= r < 4 * (H / 8) -> 0 <= c < Z.shiftr W 1 ->
          0 <= dy <= 1 -> 0 <= dx <= 1 ->
          out (upResIndex W r c dy dx)
          = deltaPixel hd (bilinear bm (Z.shiftr W 1) (Z.shiftr H 1) r c dy dx)
              (dm (upResIndex W r c dy dx)))
    /\ (forall j,
          (forall r c dy dx,
             0 <= r < 4 * (H / 8) -> 0 <= c < Z.shiftr W 1 ->
             0 <= dy <= 1 -> 0 <= dx <= 1 -> j <> upResIndex W r c dy dx) ->
          out j = dm j).
Proof.
  intros HW HH Hfit Hm. unfold upResBuffer.
  replace (method >=? kUpResIterpolate) with true
    by (symmetry; rewrite Z.geb_leb; apply Z.leb_le; exact Hm).
  eexists. split; [reflexivity |].
  pose proof (upResThreads_interpolated bm W H hd HW HH Hfit
                (Z.to_nat kNumThreads) 0 dm ltac:(lia) ltac:(cbn; lia)) as [V F].
  replace (H / 8 * 0) with 0 in * by lia.
  change (Z.shiftr 0 1) with 0 in *.
  replace (Z.shiftr (H / 8 * (0 + Z.of_nat (Z.to_nat kNumThreads))) 1)
    with (4 * (H / 8)) in *.
  2:{ change (Z.of_nat (Z.to_nat kNumThreads)) with 8.
      rewrite Z.shiftr_div_pow2 by lia. change (2 ^ 1) with 2.
      Z.to_euclidean_division_equations. lia. }
  split.
  - intros r c dy dx Hr Hc. apply V. split; lia.
  - intros j Hj. apply F. intros r c dy dx [Hr Hc]. apply Hj; lia.
Qed.

Lemma upResBuffer_interpolates_witness :
  exists out,
    upResBuffer (Some rampPlane) (Some clearPlane) 4 8 kUpResIterpolate false = Some out
    /\ (forall r c dy dx,
          0 <= r < 4 * (8 / 8) -> 0 <= c < Z.shiftr 4 1 ->
          0 <= dy <= 1 -> 0 <= dx <= 1 ->
          out (upResIndex 4 r c dy dx)
          = deltaPixel false
              (bilinear rampPlane (Z.shiftr 4 1) (Z.shiftr 8 1) r c dy dx)
              (clearPlane (upResIndex 4 r c dy dx)))
    /\ (forall j,
          (forall r c dy dx,
             0 <= r < 4 * (8 / 8) -> 0 <= c < Z.shiftr 4 1 ->
             0 <= dy <= 1 -> 0 <= dx <= 1 -> j <> upResIndex 4 r c dy dx) ->
          out j = clearPlane j).
Proof.
  apply (upResBuffer_interpolates rampPlane clearPlane 4 8 kUpResIterpolate false).
  - lia.
  - lia.
  - reflexivity.
  - unfold kUpResIterpolate. lia.
Defined.

(** * The nearest neighbour loops *)

Section Nearest.

Variables (bm : mem) (W H : Z) (hd : bool).
Hypothesis W_pos : 0 < W.
Hypothesis H_nonneg : 0 <= H.
Hypothesis fits : W * H < 2 ^ 32.

Lemma nearestPixel_cells row column dest j :
  0 <= row < H -> 0 <= column < W ->
  nearestPixel (Some bm) W hd row column dest j
  = if j =? column + row * W
    then nearestValue bm W hd row column (dest (column + row * W))
    else dest j.
Proof.
  intros Hr Hc.
  assert (P32 : 2 ^ 32 = 4294967296) by reflexivity.
  assert (Hh : 0 <= Z.shiftr column 1 <= column /\ 0 <= Z.shiftr row 1 <= row
               /\ 0 <= Z.shiftr W 1 <= W).
  { rewrite !Z.shiftr_div_pow2 by lia. change (2 ^ 1) with 2.
    Z.to_euclidean_division_equations. lia. }
  unfold nearestPixel, nearestValue, store. cbn [deref].
  rewrite (u32_small (column + row * W)) by nia.
  rewrite (u32_small (Z.shiftr column 1 + Z.shiftr row 1 * Z.shiftr W 1)) by nia.
  reflexivity.
Qed.

Lemma nearestColumns_cells row n : forall c0 dest,
  0 <= row < H -> 0 <= c0 -> c0 + Z.of_nat n <= W ->
  (forall column, c0 <= column < c0 + Z.of_nat n ->
     nearestColumns (Some bm) W hd row n c0 dest (column + row * W)
     = nearestValue bm W hd row column (dest (column + row * W)))
  /\ (forall j, (forall column, c0 <= column < c0 + Z.of_nat n -> j <> column + row * W) ->
        nearestColumns (Some bm) W hd row n c0 dest j = dest j).
Proof.
  induction n as [| n IH]; intros c0 dest Hr Hc0 Hn.
  - split; [intros column Hc; lia | reflexivity].
  - cbn [nearestColumns].
    destruct (IH (c0 + 1) (nearestPixel (Some bm) W hd row c0 dest) Hr ltac:(lia) ltac:(lia))
      as [V F].
    split.
    + intros column Hc. destruct (Z.eq_dec column c0) as [-> | Hne].
      * rewrite F by (intros c' Hc' E; lia).
        rewrite nearestPixel_cells by lia. rewrite Z.eqb_refl. reflexivity.
      * rewrite V by lia. rewrite nearestPixel_cells by lia.
        replace (column + row * W =? c0 + row * W) with false
          by (symmetry; apply Z.eqb_neq; lia).
        reflexivity.
    + intros j Hj. rewrite F by (intros c' Hc'; apply Hj; lia).
      rewrite nearestPixel_cells by lia.
      rewrite (proj2 (Z.eqb_neq j (c0 + row * W))) by (apply Hj; lia).
      reflexivity.
Qed.

Lemma nearestRows_cells n : forall r0 dest,
  0 <= r0 -> r0 + Z.of_nat n <= H ->
  (forall row column, r0 <= row < r0 + Z.of_nat n -> 0 <= column < W ->
     nearestRows (Some bm) W hd n r0 dest (column + row * W)
     = nearestValue bm W hd row column (dest (column + row * W)))
  /\ (forall j, (forall row column, r0 <= row < r0 + Z.of_nat n -> 0 <= column < W ->
                   j <> column + row * W) ->
        nearestRows (Some bm) W hd n r0 dest j = dest j).
Proof.
  induction n as [| n IH]; intros r0 dest Hr0 Hn.
  - split; [intros row column Hr; lia | reflexivity].
  - cbn [nearestRows].
    destruct (nearestColumns_cells r0 (Z.to_nat W) 0 dest ltac:(lia) ltac:(lia) ltac:(lia))
      as [V1 F1].
    destruct (IH (r0 + 1) (nearestColumns (Some bm) W hd r0 (Z.to_nat W) 0 dest)
                ltac:(lia) ltac:(lia)) as [V F].
    split.
    + intros row column Hr Hc. destruct (Z.eq_dec row r0) as [-> | Hne].
      * rewrite F.
        -- apply V1. lia.
        -- intros row' column' Hr' Hc' E.
           apply raster_index_inj in E; lia.
      * rewrite V by lia. f_equal. apply F1.
        intros column' Hc' E. apply raster_index_inj in E; lia.
    + intros j Hj. rewrite F by (intros row' column' Hr' Hc'; apply Hj; lia).
      apply F1. intros column' Hc'. apply Hj; lia.
Qed.

End Nearest.

(** With the nearest neighbour method, [upResBuffer] on a base plane and a
    destination of [W] columns and [H] rows ([W * H] below [2^32]) gives
    the destination back with every cell of the [W] by [H] raster holding
    the base pixel at the halved row and column, to which the delta the
    cell held is added, the sum clamped to a byte, when there are deltas;
    the cells outside the raster are as they were. *)
Theorem upResBuffer_nearest bm dm W H method hd :
  0 < W -> 0 <= H -> W * H < 2 ^ 32 -> method < kUpResIterpolate ->
  exists out,
    upResBuffer (Some bm) (Some dm) W H method hd = Some out
    /\ (forall row column, 0 <= row < H -> 0 <= column < W ->
          out (column + row * W)
          = nearestValue bm W hd row column (dm (column + row * W)))
    /\ (forall j, ~ 0 <= j < W * H -> out j = dm j).
Proof.
  intros HW HH Hfit Hm. unfold upResBuffer.
  replace (method >=? kUpResIterpolate) with false
    by (symmetry; rewrite Z.geb_leb; apply Z.leb_gt; exact Hm).
  eexists. split; [reflexivity |].
  destruct (nearestRows_cells bm W H hd HW HH Hfit (Z.to_nat H) 0 dm
              ltac:(lia) ltac:(lia)) as [V F].
  split.
  - intros row column Hr Hc. apply V; lia.
  - intros j Hj. apply F. intros row column Hr Hc E. apply Hj. nia.
Qed.

Lemma upResBuffer_nearest_witness :
  exists out,
    upResBuffer (Some rampPlane) (Some clearPlane) 4 6 0 true = Some out
    /\ (forall row column, 0 <= row < 6 -> 0 <= column < 4 ->
          out (column + row * 4)
          = nearestValue rampPlane 4 true row column (clearPlane (column + row * 4)))
    /\ (forall j, ~ 0 <= j < 4 * 6 -> out j = clearPlane j).
Proof.
  apply (upResBuffer_nearest rampPlane clearPlane 4 6 0 true).
  - lia.
  - lia.
  - reflexivity.
  - unfold kUpResIterpolate. lia.
Defined.
